(** * DynaDbg Linux debug engine: a shallow embedding and its verified properties

    The model follows [src/server/src/cpp/src/linux/debugger*] function by
    function.  Machine integers are [Z] with the wrap-around written out,
    [std::vector] is [list], [std::map] is [gmap], [std::set] is [gset].
    Every call that leaves the process (ptrace, waitpid, kill, fork, the
    [/proc] scans and the client's [send_exception_info] upcall) goes through
    one environment function [sys] and is recorded in a trace, so that a
    theorem can speak about what the engine asked of the kernel and of the
    client.  Logging ([debug_log]), mutexes and condition variables carry no
    state of their own on the single debugger thread and are left out. *)

From Stdlib Require Import ZArith Lia List Bool String.
From stdpp Require Import base option list gmap strings sorting.

Open Scope Z_scope.

(** ** Machine integers *)

Definition to_u64 (z : Z) : Z := z mod 2 ^ 64.
Definition to_u32 (z : Z) : Z := z mod 2 ^ 32.
Definition to_u8 (z : Z) : Z := z mod 2 ^ 8.
(** [~m] on an [unsigned long]. *)
Definition not64 (m : Z) : Z := Z.lxor (to_u64 m) (2 ^ 64 - 1).

(** ** Target architecture: the [#if defined(__aarch64__) / __x86_64__] switch *)

Inductive Arch := ARM64 | X86_64.

Module Arm64.
(** [struct user_pt_regs] of <asm/ptrace.h>. *)
Record user_pt_regs := { regs : list Z; sp : Z; pc : Z; pstate : Z }.
Definition zero : user_pt_regs :=
  {| regs := replicate 31 0; sp := 0; pc := 0; pstate := 0 |}.
End Arm64.

Module X86.
(** [struct user_regs_struct] of <sys/user.h>. *)
Record user_regs_struct := {
  r15 : Z; r14 : Z; r13 : Z; r12 : Z; rbp : Z; rbx : Z; r11 : Z; r10 : Z;
  r9 : Z; r8 : Z; rax : Z; rcx : Z; rdx : Z; rsi : Z; rdi : Z; orig_rax : Z;
  rip : Z; cs : Z; eflags : Z; rsp : Z; ss : Z; fs_base : Z; gs_base : Z;
  ds : Z; es : Z; fs : Z; gs : Z }.
Definition zero : user_regs_struct :=
  Build_user_regs_struct 0 0 0 0 0 0 0 0 0 0 0 0 0 0 0 0 0 0 0 0 0 0 0 0 0 0 0.
End X86.

Definition regs_t (a : Arch) : Type :=
  match a with ARM64 => Arm64.user_pt_regs | X86_64 => X86.user_regs_struct end.

Definition regs_zero (a : Arch) : regs_t a :=
  match a with ARM64 => Arm64.zero | X86_64 => X86.zero end.

(** The program counter read by [handle_exception]: [regs.pc] / [regs.rip]. *)
Definition regs_pc (a : Arch) : regs_t a -> Z :=
  match a with ARM64 => Arm64.pc | X86_64 => X86.rip end.

(** [struct user_hwdebug_state] (ARM64): [dbg_regs[i].addr], [dbg_regs[i].ctrl]. *)
Record hw_debug_reg := { addr : Z; ctrl : Z }.
Record user_hwdebug_state := { dbg_info : Z; dbg_regs : list hw_debug_reg }.

Definition hw_zero : hw_debug_reg := {| addr := 0; ctrl := 0 |}.
Global Instance hw_debug_reg_inhabited : Inhabited hw_debug_reg := populate hw_zero.

(** ** arch_defs.h *)

Definition ARM_BREAKPOINT_EXECUTE : Z := 0.
Definition ARM_BREAKPOINT_LOAD : Z := 1.
Definition ARM_BREAKPOINT_STORE : Z := 2.
Definition ARM_BREAKPOINT_RW : Z := Z.lor ARM_BREAKPOINT_LOAD ARM_BREAKPOINT_STORE.

Definition ARM_BREAKPOINT_LEN_1 : Z := 0x1.
Definition ARM_BREAKPOINT_LEN_2 : Z := 0x3.
Definition ARM_BREAKPOINT_LEN_4 : Z := 0xf.
Definition ARM_BREAKPOINT_LEN_8 : Z := 0xff.

Definition NT_PRSTATUS : Z := 1.
Definition NT_ARM_HW_BREAK : Z := 0x402.
Definition NT_ARM_HW_WATCH : Z := 0x403.

Definition PTRACE_EVENT_CLONE : Z := 3.
Definition PTRACE_EVENT_STOP : Z := 128.
Definition PTRACE_O_TRACECLONE : Z := 8.

(** [encode_ctrl_reg(mismatch, len, type, privilege, enabled)], returned as [uint32_t]. *)
Definition encode_ctrl_reg (mismatch len type privilege enabled : Z) : Z :=
  to_u32 (Z.lor (Z.lor (Z.lor (Z.lor (Z.shiftl mismatch 22) (Z.shiftl len 5))
                               (Z.shiftl type 3)) (Z.shiftl privilege 1)) enabled).

Definition X86_DR7_BREAK_ON_EXEC : Z := 0.
Definition X86_DR7_BREAK_ON_WRITE : Z := 1.
Definition X86_DR7_BREAK_ON_IO : Z := 2.
Definition X86_DR7_BREAK_ON_RW : Z := 3.

Definition X86_DR7_LEN_1 : Z := 0.
Definition X86_DR7_LEN_2 : Z := 1.
Definition X86_DR7_LEN_8 : Z := 2.
Definition X86_DR7_LEN_4 : Z := 3.

(** [offsetof(struct user, u_debugreg[i])] on x86_64 Linux: the debug
    registers start at byte 848 of [struct user]. *)
Definition u_debugreg_offset (i : Z) : Z := 848 + 8 * i.
Definition X86_DR0_OFFSET : Z := u_debugreg_offset 0.
Definition X86_DR1_OFFSET : Z := u_debugreg_offset 1.
Definition X86_DR2_OFFSET : Z := u_debugreg_offset 2.
Definition X86_DR3_OFFSET : Z := u_debugreg_offset 3.
Definition X86_DR6_OFFSET : Z := u_debugreg_offset 6.
Definition X86_DR7_OFFSET : Z := u_debugreg_offset 7.

Definition x86_dr_offset (index : Z) : Z :=
  let offsets := [X86_DR0_OFFSET; X86_DR1_OFFSET; X86_DR2_OFFSET; X86_DR3_OFFSET;
                  0; 0; X86_DR6_OFFSET; X86_DR7_OFFSET] in
  if (0 <=? index) && (index <=? 7) then offsets !!! Z.to_nat index else 0.

(** ** Signal numbers and errno values (Linux, both architectures) *)

Definition SIGILL : Z := 4.
Definition SIGTRAP : Z := 5.
Definition SIGABRT : Z := 6.
Definition SIGBUS : Z := 7.
Definition SIGFPE : Z := 8.
Definition SIGSEGV : Z := 11.
Definition SIGCONT : Z := 18.
Definition SIGSTOP : Z := 19.
Definition SIGTSTP : Z := 20.
Definition SIGXCPU : Z := 24.
Definition SIGPWR : Z := 30.

Definition ESRCH : Z := 3.
Definition EIO : Z := 5.
Definition EFAULT : Z := 14.

Definition WNOHANG : Z := 1.
Definition WUNTRACED : Z := 2.
Definition O_NONBLOCK : Z := 2048.

(** <sys/wait.h> status macros. *)
Definition WIFSTOPPED (status : Z) : bool := Z.land status 0xff =? 0x7f.
Definition WSTOPSIG (status : Z) : Z := Z.shiftr (Z.land status 0xff00) 8.
Definition WIFEXITED (status : Z) : bool := Z.land status 0x7f =? 0.
Definition WEXITSTATUS (status : Z) : Z := Z.shiftr (Z.land status 0xff00) 8.
Definition WIFSIGNALED (status : Z) : bool :=
  (0 <? Z.land status 0x7f) && (Z.land status 0x7f <? 0x7f).

(** ** debugger_types.h *)

(** [SignalConfig]; the default constructor is [catch=false, pass=false]. *)
Record SignalConfig := { catch_signal : bool; pass_signal : bool }.
Definition SignalConfig_default : SignalConfig :=
  {| catch_signal := false; pass_signal := false |}.

Module WatchpointType.
Inductive t := READ | WRITE | READWRITE.
End WatchpointType.
Global Instance WatchpointType_inhabited : Inhabited WatchpointType.t :=
  populate WatchpointType.READWRITE.

Module BreakpointType.
Inductive t := HARDWARE | SOFTWARE.
Definition eqb (a b : t) : bool :=
  match a, b with HARDWARE, HARDWARE | SOFTWARE, SOFTWARE => true | _, _ => false end.
End BreakpointType.

Module DebugState.
Inductive t := Running | BreakpointHit | WatchpointHit | SingleStepping | Paused.
Definition eqb (a b : t) : bool :=
  match a, b with
  | Running, Running | BreakpointHit, BreakpointHit | WatchpointHit, WatchpointHit
  | SingleStepping, SingleStepping | Paused, Paused => true
  | _, _ => false
  end.
End DebugState.

Module DebugCommand.
Inductive t :=
| AttachToThreads | SetWatchpoint | RemoveWatchpoint | SetBreakpoint
| RemoveBreakpoint | ContinueExecution | SingleStep | ReapplyWatchpoints
| ReadRegister | WriteRegister | ReadMemory | SpawnProcess
| SpawnProcessWithPty | ResumeUserStoppedThreads.
End DebugCommand.

(** [Debugger::SingleStepMode] (debugger.h). *)
Module SingleStepMode.
Inductive t :=
| None | Watchpoint | Breakpoint | HardwareBreakpointContinue
| SoftwareBreakpoint | SoftwareBreakpointContinue.
Definition is_None (m : t) : bool := match m with None => true | _ => false end.
(** [static_cast<uint64_t>(mode)]. *)
Definition to_Z (m : t) : Z :=
  match m with
  | None => 0 | Watchpoint => 1 | Breakpoint => 2 | HardwareBreakpointContinue => 3
  | SoftwareBreakpoint => 4 | SoftwareBreakpointContinue => 5
  end.
End SingleStepMode.

(** [enum ExceptionType] (native_api.h). *)
Definition EXCEPTION_UNKNOWN : Z := 0.
Definition EXCEPTION_BREAKPOINT : Z := 1.
Definition EXCEPTION_WATCHPOINT : Z := 2.
Definition EXCEPTION_SINGLESTEP : Z := 3.
Definition EXCEPTION_SIGNAL : Z := 4.
Definition EXCEPTION_SIGSEGV : Z := 5.
Definition EXCEPTION_SIGBUS : Z := 6.
Definition EXCEPTION_SIGFPE : Z := 7.
Definition EXCEPTION_SIGILL : Z := 8.
Definition EXCEPTION_SIGABRT : Z := 9.
Definition EXCEPTION_SIGTRAP : Z := 10.

Definition ARCH_ARM64 : Z := 1.
Definition ARCH_X86_64 : Z := 2.

(** [NativeExceptionInfo] (exception_info.h): the register union is a sum. *)
Record arm64_info_regs := {
  i_x : list Z; i_lr : Z; i_sp : Z; i_pc : Z; i_cpsr : Z; i_fp : Z }.
Record x86_64_info_regs := {
  i_rax : Z; i_rbx : Z; i_rcx : Z; i_rdx : Z; i_rsi : Z; i_rdi : Z; i_rbp : Z;
  i_rsp : Z; i_r8 : Z; i_r9 : Z; i_r10 : Z; i_r11 : Z; i_r12 : Z; i_r13 : Z;
  i_r14 : Z; i_r15 : Z; i_rip : Z; i_rflags : Z; i_cs : Z; i_ss : Z; i_ds : Z;
  i_es : Z; i_fs : Z; i_gs : Z; i_fs_base : Z; i_gs_base : Z }.
Inductive info_regs_union :=
| info_arm64 (r : arm64_info_regs)
| info_x86_64 (r : x86_64_info_regs).

Record NativeExceptionInfo := {
  architecture : Z;
  info_regs : info_regs_union;
  exception_type : Z;
  info_thread_id : Z;
  memory_address : Z;
  singlestep_mode : Z;
  is_trace : Z }.

Definition set_is_trace (v : Z) (i : NativeExceptionInfo) : NativeExceptionInfo :=
  {| architecture := architecture i; info_regs := info_regs i;
     exception_type := exception_type i; info_thread_id := info_thread_id i;
     memory_address := memory_address i; singlestep_mode := singlestep_mode i;
     is_trace := v |}.

(** [populate_exception_info] (debugger_core.cpp), both architectures. *)
Definition populate_regs (a : Arch) : regs_t a -> info_regs_union :=
  match a with
  | ARM64 => fun r =>
      info_arm64 {| i_x := take 30 (Arm64.regs r);
                    i_lr := Arm64.regs r !!! 30%nat;
                    i_sp := Arm64.sp r; i_pc := Arm64.pc r; i_cpsr := Arm64.pstate r;
                    i_fp := Arm64.regs r !!! 29%nat |}
  | X86_64 => fun r =>
      info_x86_64 {| i_rax := X86.rax r; i_rbx := X86.rbx r; i_rcx := X86.rcx r;
                     i_rdx := X86.rdx r; i_rsi := X86.rsi r; i_rdi := X86.rdi r;
                     i_rbp := X86.rbp r; i_rsp := X86.rsp r; i_r8 := X86.r8 r;
                     i_r9 := X86.r9 r; i_r10 := X86.r10 r; i_r11 := X86.r11 r;
                     i_r12 := X86.r12 r; i_r13 := X86.r13 r; i_r14 := X86.r14 r;
                     i_r15 := X86.r15 r; i_rip := X86.rip r; i_rflags := X86.eflags r;
                     i_cs := X86.cs r; i_ss := X86.ss r; i_ds := X86.ds r;
                     i_es := X86.es r; i_fs := X86.fs r; i_gs := X86.gs r;
                     i_fs_base := X86.fs_base r; i_gs_base := X86.gs_base r |}
  end.

Definition arch_tag (a : Arch) : Z :=
  match a with ARM64 => ARCH_ARM64 | X86_64 => ARCH_X86_64 end.

Definition populate_exception_info (a : Arch) (r : regs_t a) (exception_type thread_id
    memory_address singlestep_mode : Z) (is_trace : bool) : NativeExceptionInfo :=
  {| architecture := arch_tag a;
     info_regs := populate_regs a r;
     exception_type := exception_type;
     info_thread_id := to_u64 thread_id;
     memory_address := memory_address;
     singlestep_mode := singlestep_mode;
     is_trace := if is_trace then 1 else 0 |}.

(** ** Hardware watchpoint and breakpoint encodings

    The length and access-type selections are the [if]/[switch] chains
    written inline in [apply_watchpoint_to_threads] and
    [apply_watchpoint_to_thread] (debugger_watchpoint.cpp); the model names
    them after the local variables they compute. *)

Definition arm_length (size : Z) : Z :=
  if size <=? 1 then ARM_BREAKPOINT_LEN_1
  else if size <=? 2 then ARM_BREAKPOINT_LEN_2
  else if size <=? 4 then ARM_BREAKPOINT_LEN_4
  else ARM_BREAKPOINT_LEN_8.

Definition btype (type : WatchpointType.t) : Z :=
  match type with
  | WatchpointType.READ => ARM_BREAKPOINT_LOAD
  | WatchpointType.WRITE => ARM_BREAKPOINT_STORE
  | WatchpointType.READWRITE => Z.lor ARM_BREAKPOINT_STORE ARM_BREAKPOINT_LOAD
  end.

Definition x86_len (size : Z) : Z :=
  if size <=? 1 then X86_DR7_LEN_1
  else if size <=? 2 then X86_DR7_LEN_2
  else if size <=? 4 then X86_DR7_LEN_4
  else X86_DR7_LEN_8.

Definition x86_cond (type : WatchpointType.t) : Z :=
  match type with
  | WatchpointType.WRITE => X86_DR7_BREAK_ON_WRITE
  | WatchpointType.READ | WatchpointType.READWRITE => X86_DR7_BREAK_ON_RW
  end.

(** The control word written to [dbg_regs[index].ctrl]:
    [encode_ctrl_reg(0, arm_length, btype, 2, 1)]. *)
Definition arm_watch_ctrl (size : Z) (type : WatchpointType.t) : Z :=
  encode_ctrl_reg 0 (arm_length size) (btype type) 2 1.

(** The execute-breakpoint control word:
    [encode_ctrl_reg(0, ARM_BREAKPOINT_LEN_4, ARM_BREAKPOINT_EXECUTE, 0, 1)]. *)
Definition arm_break_ctrl : Z :=
  encode_ctrl_reg 0 ARM_BREAKPOINT_LEN_4 ARM_BREAKPOINT_EXECUTE 0 1.

(** An [int] converted to [unsigned long]: wrap to 32 bits, then sign-extend. *)
Definition int_to_ulong (z : Z) : Z :=
  let u := to_u32 z in if u <? 2 ^ 31 then u else u + (2 ^ 64 - 2 ^ 32).

(** DR7 as rewritten by [apply_watchpoint_to_threads]:
    [dr7 |= 1UL << (index*2); dr7 &= ~(0xFUL << shift);
     dr7 |= (x86_cond | (x86_len << 2)) << shift], the last operand an [int]. *)
Definition x86_watch_dr7 (dr7 index size : Z) (type : WatchpointType.t) : Z :=
  let dr7 := Z.lor dr7 (to_u64 (Z.shiftl 1 (index * 2))) in
  let shift := 16 + index * 4 in
  let dr7 := Z.land dr7 (not64 (Z.shiftl 0xF shift)) in
  Z.lor dr7 (int_to_ulong (Z.shiftl (Z.lor (x86_cond type) (Z.shiftl (x86_len size) 2)) shift)).

(** The same in [apply_watchpoint_to_thread], where [x86_type] and [x86_len]
    are [uint32_t] and the last operand is zero-extended. *)
Definition x86_watch_dr7_thread (dr7 index size : Z) (type : WatchpointType.t) : Z :=
  let dr7 := Z.lor dr7 (to_u64 (Z.shiftl 1 (index * 2))) in
  let shift := 16 + index * 4 in
  let dr7 := Z.land dr7 (not64 (Z.shiftl 0xF shift)) in
  Z.lor dr7 (to_u32 (Z.shiftl (Z.lor (x86_cond type) (Z.shiftl (x86_len size) 2)) shift)).

(** DR7 for an execute breakpoint ([apply_breakpoint_to_threads]). *)
Definition x86_break_dr7 (dr7 index : Z) : Z :=
  let dr7 := Z.lor dr7 (to_u64 (Z.shiftl 1 (index * 2))) in
  let shift := 16 + index * 4 in
  let dr7 := Z.land dr7 (not64 (Z.shiftl 0xF shift)) in
  Z.lor dr7 (int_to_ulong
    (Z.shiftl (Z.lor X86_DR7_BREAK_ON_EXEC (Z.shiftl X86_DR7_LEN_1 2)) shift)).

(** [dr7 &= ~(1UL << (index * 2))]: clear the local-enable bit. *)
Definition x86_dr7_disable (dr7 index : Z) : Z :=
  Z.land dr7 (not64 (Z.shiftl 1 (index * 2))).

(** [clear_watchpoint_from_threads] / [clear_breakpoint_from_threads]:
    clear the enable bit, then the condition and length bits. *)
Definition x86_dr7_clear (dr7 index : Z) : Z :=
  let dr7 := x86_dr7_disable dr7 index in
  Z.land dr7 (not64 (Z.shiftl 0xF (16 + index * 4))).

(** The local [user_hwdebug_state] after [memset] and a GETREGSET that
    copied [iov_len] bytes: an 8-byte header and 16 bytes per register. *)
Definition hw_buffer (iov_len : Z) (st : user_hwdebug_state) : user_hwdebug_state :=
  {| dbg_info := dbg_info st;
     dbg_regs := resize 16 hw_zero (take (Z.to_nat ((iov_len - 8) / 16)) (dbg_regs st)) |}.

Definition set_hw_reg (i : Z) (r : hw_debug_reg) (st : user_hwdebug_state) : user_hwdebug_state :=
  {| dbg_info := dbg_info st; dbg_regs := <[Z.to_nat i := r]> (dbg_regs st) |}.

Definition set_hw_ctrl (i : Z) (c : Z) (st : user_hwdebug_state) : user_hwdebug_state :=
  {| dbg_info := dbg_info st;
     dbg_regs := alter (fun r => {| addr := addr r; ctrl := c |}) (Z.to_nat i) (dbg_regs st) |}.

(** [for (i = 0; i < n; i++) if (dbg_regs[i].addr != 0) dbg_regs[i].ctrl = f(ctrl)],
    optionally skipping one index. *)
Definition reenable_hw (n : Z) (skip : option Z) (f : Z -> Z) (st : user_hwdebug_state)
  : user_hwdebug_state :=
  {| dbg_info := dbg_info st;
     dbg_regs := imap (fun i r =>
       if (Z.of_nat i <? n) && negb (bool_decide (skip = Some (Z.of_nat i)))
          && negb (addr r =? 0)
       then {| addr := addr r; ctrl := f (ctrl r) |} else r) (dbg_regs st) |}.

(** ** Software breakpoint patching

    [memcpy(original_bytes, &word, bp_size)] and the word with the trap
    merged in, on a little-endian target. *)

Definition bp_size (a : Arch) : Z := match a with ARM64 => 4 | X86_64 => 1 end.

Definition brk_instruction (a : Arch) : Z :=
  match a with ARM64 => 0xD4200000 | X86_64 => 0xCC end.

(** [~0xFFFFFFFFUL] on ARM64, [~0xFFUL] on x86_64. *)
Definition bp_keep_mask (a : Arch) : Z :=
  match a with ARM64 => not64 0xFFFFFFFF | X86_64 => not64 0xFF end.

Definition byte_of_word (word : Z) (k : Z) : Z := Z.land (Z.shiftr word (8 * k)) 0xff.

(** The first [n] bytes of [word], padded with zeros to the 4-byte slot. *)
Definition word_prefix_bytes (n : Z) (word : Z) : list Z :=
  map (fun k => if k <? n then byte_of_word word k else 0) [0; 1; 2; 3].

(** A [uint32_t] read back from four stored bytes. *)
Definition bytes_to_u32 (b : list Z) : Z :=
  Z.lor (Z.lor (Z.lor (b !!! 0%nat) (Z.shiftl (b !!! 1%nat) 8)) (Z.shiftl (b !!! 2%nat) 16))
        (Z.shiftl (b !!! 3%nat) 24).

(** [(word & ~mask) | brk_instruction]. *)
Definition patch_word (a : Arch) (word : Z) : Z :=
  Z.lor (Z.land (to_u64 word) (bp_keep_mask a)) (brk_instruction a).

(** [(word & ~mask) | original]: all four saved bytes on ARM64, the first
    one on x86_64. *)
Definition restore_word (a : Arch) (word : Z) (original_bytes : list Z) : Z :=
  Z.lor (Z.land (to_u64 word) (bp_keep_mask a))
        (match a with
         | ARM64 => bytes_to_u32 original_bytes
         | X86_64 => original_bytes !!! 0%nat
         end).

(** [v[i]] on a vector whose index is in range. *)
Definition at_ {A : Type} `{Inhabited A} (l : list A) (i : Z) : A := l !!! Z.to_nat i.

(** A zero-initialised vector too long to write out (the software
    breakpoint tables have a million entries): the entries that were
    assigned, every other index holding the initial value. *)
Definition vget {A : Type} (dflt : A) (v : gmap Z A) (i : Z) : A := default dflt (v !! i).

(** ** Table scans

    [for (int i = 0; i < MAX; i++) if (P(i)) return i; return -1]. *)

Fixpoint scan_from (P : Z -> bool) (fuel : nat) (i bound : Z) : Z :=
  match fuel with
  | O => -1
  | S fuel' =>
      if i <? bound then (if P i then i else scan_from P fuel' (i + 1) bound) else -1
  end.

Definition scan (P : Z -> bool) (bound : Z) : Z := scan_from P (Z.to_nat bound) 0 bound.

(** ** The environment: kernel, /proc and the client callback

    [Syscall] lists every request the engine sends out of the process, with
    its arguments; [Reply] is what comes back.  [r_ret] is the C return value,
    [r_errno] the value of [errno] after the call (0 when it succeeded),
    [r_out] the word written through an out-pointer (wait status, event
    message, [si_addr], PTY master descriptor; [sys_execvp] answers only
    when the exec failed), [r_regs] / [r_hw] a register
    block copied out by GETREGS / GETREGSET, [r_tids] a thread list read
    from [/proc]. *)

Existing Class Arch.

Section Model.
Context `{arch : Arch}.

Inductive Syscall :=
| ptrace_TRACEME
| ptrace_PEEKDATA (pid addr : Z)
| ptrace_POKEDATA (pid addr data : Z)
| ptrace_PEEKUSER (pid off : Z)
| ptrace_POKEUSER (pid off data : Z)
| ptrace_CONT (pid sig : Z)
| ptrace_SINGLESTEP (pid sig : Z)
| ptrace_GETREGS (pid : Z)
| ptrace_SETREGS (pid : Z) (r : regs_t arch)
| ptrace_GETREGSET_HW (nt pid iov_len : Z)
| ptrace_SETREGSET_HW (nt pid iov_len : Z) (st : user_hwdebug_state)
| ptrace_GETSIGINFO (pid : Z)
| ptrace_GETEVENTMSG (pid : Z)
| ptrace_SEIZE (pid opts : Z)
| ptrace_INTERRUPT (pid : Z)
| ptrace_DETACH (pid : Z)
| sys_waitpid (pid options : Z)
| sys_kill (pid sig : Z)
| sys_fork
| sys_forkpty
| sys_execvp (path : string) (argv : list string)
| sys_fcntl_GETFL (fd : Z)
| sys_fcntl_SETFL (fd flags : Z)
| sys_close (fd : Z)
| proc_task_list (pid : Z)
| proc_thread_stopped (pid tid : Z)
| send_exception_info (info : NativeExceptionInfo) (pid : Z).

Record Reply := {
  r_ret : Z;
  r_errno : Z;
  r_out : Z;
  r_regs : regs_t arch;
  r_hw : user_hwdebug_state;
  r_tids : list Z }.

Definition Event : Type := Syscall * Reply.

(** The environment is any state machine answering the requests. *)
Class Env (K : Type) := { sys : Syscall -> K -> Reply * K }.

(** ** debugger.h: per-thread state, requests and the debugger object *)

Record WatchpointSync := { removing : bool; active_handlers : Z }.
Record BreakpointSync := { bp_removing : bool; bp_active_handlers : Z }.

Global Instance WatchpointSync_inhabited : Inhabited WatchpointSync :=
  populate {| removing := false; active_handlers := 0 |}.

Definition MAX_WATCHPOINTS : Z := 1.
Definition MAX_BREAKPOINTS : Z := 4.
Definition MAX_SOFTWARE_BREAKPOINTS : Z := 1000000.

Record ThreadState := {
  single_step_mode : SingleStepMode.t;
  single_step_count : Z;
  current_breakpoint_index : Z;
  regs : regs_t arch;
  is_attached : bool;
  is_stopped : bool;
  stopped_by_user : bool;
  original_wcr : Z;
  disabled_watchpoint_index : Z;
  pending_signal : Z }.

(** The default member initialisers; [regs] is zero-initialised when the
    entry is value-initialised by [thread_states_[tid]]. *)
Definition ThreadState_default : ThreadState :=
  {| single_step_mode := SingleStepMode.None; single_step_count := 0;
     current_breakpoint_index := -1; regs := regs_zero arch; is_attached := false;
     is_stopped := false; stopped_by_user := false; original_wcr := 0;
     disabled_watchpoint_index := -1; pending_signal := 0 |}.

(** [reg_value_ptr] and [memory_buffer] are pointers in the source; the
    model keeps the pointee ([None] is [nullptr]). *)
Record DebugRequest := {
  command : DebugCommand.t;
  completed : bool;
  result : Z;
  address : Z;
  size : Z;
  watchpoint_type : WatchpointType.t;
  breakpoint_type : BreakpointType.t;
  hit_count : Z;
  thread_id : Z;
  reg_name : string;
  reg_value : Z;
  reg_value_ptr : option Z;
  memory_buffer : list Z;
  memory_size : Z;
  memory_bytes_read : Z;
  executable_path : string;
  spawn_args : list string;
  spawned_pid : Z;
  pty_fd : Z }.

(** [DebugRequest(cmd)]: the default member initialisers. *)
Definition DebugRequest_new (cmd : DebugCommand.t) : DebugRequest :=
  {| command := cmd; completed := false; result := -1; address := 0; size := 0;
     watchpoint_type := WatchpointType.READWRITE;
     breakpoint_type := BreakpointType.HARDWARE; hit_count := 0; thread_id := 0;
     reg_name := EmptyString; reg_value := 0; reg_value_ptr := None;
     memory_buffer := []; memory_size := 0; memory_bytes_read := 0;
     executable_path := EmptyString; spawn_args := []; spawned_pid := 0; pty_fd := -1 |}.

Record Debugger := {
  watchpoint_sync_ : list WatchpointSync;
  breakpoint_sync_ : list BreakpointSync;
  removing_mask_ : Z;
  pid_ : Z;
  attached_threads_ : gset Z;
  debug_loop_running_ : bool;
  user_suspend_pending_ : bool;
  debug_command_queue_ : list DebugRequest;
  threads_attached_ : bool;
  watchpoint_used : list bool;
  watchpoint_addresses : list Z;
  watchpoint_sizes : list Z;
  watchpoint_types : list WatchpointType.t;
  breakpoint_used : list bool;
  breakpoint_addresses : list Z;
  breakpoint_hit_counts : list Z;
  breakpoint_target_counts : list Z;
  breakpoint_types : list BreakpointType.t;
  software_breakpoint_used : gmap Z bool;
  software_breakpoint_addresses : gmap Z Z;
  software_breakpoint_original_bytes : gmap Z Z;
  thread_states_ : gmap Z ThreadState;
  debug_state_ : DebugState.t;
  current_thread : Z;
  signal_config_ : gmap Z SignalConfig }.

(** [Debugger::Debugger(pid_t pid)]; [Debugger::Debugger()] is [Debugger_new 0].
    The three software-breakpoint vectors start all-zero. *)
Definition Debugger_new (pid : Z) : Debugger :=
  {| watchpoint_sync_ := replicate 1 {| removing := false; active_handlers := 0 |};
     breakpoint_sync_ := replicate 4 {| bp_removing := false; bp_active_handlers := 0 |};
     removing_mask_ := 0;
     pid_ := pid;
     attached_threads_ := ∅;
     debug_loop_running_ := false;
     user_suspend_pending_ := false;
     debug_command_queue_ := [];
     threads_attached_ := false;
     watchpoint_used := replicate (Z.to_nat MAX_WATCHPOINTS) false;
     watchpoint_addresses := replicate (Z.to_nat MAX_WATCHPOINTS) 0;
     watchpoint_sizes := replicate (Z.to_nat MAX_WATCHPOINTS) 0;
     watchpoint_types := replicate (Z.to_nat MAX_WATCHPOINTS) WatchpointType.READWRITE;
     breakpoint_used := replicate (Z.to_nat MAX_BREAKPOINTS) false;
     breakpoint_addresses := replicate (Z.to_nat MAX_BREAKPOINTS) 0;
     breakpoint_hit_counts := replicate (Z.to_nat MAX_BREAKPOINTS) 0;
     breakpoint_target_counts := replicate (Z.to_nat MAX_BREAKPOINTS) 0;
     breakpoint_types := replicate (Z.to_nat MAX_BREAKPOINTS) BreakpointType.HARDWARE;
     software_breakpoint_used := ∅;
     software_breakpoint_addresses := ∅;
     software_breakpoint_original_bytes := ∅;
     thread_states_ := ∅;
     debug_state_ := DebugState.Running;
     current_thread := 0;
     signal_config_ := ∅ |}.

(** *** Field updates *)

Definition set_single_step_mode (v : SingleStepMode.t) (x : ThreadState) : ThreadState :=
  {| single_step_mode := v; single_step_count := single_step_count x; current_breakpoint_index
     := current_breakpoint_index x; regs := regs x; is_attached := is_attached x; is_stopped :=
     is_stopped x; stopped_by_user := stopped_by_user x; original_wcr := original_wcr x;
     disabled_watchpoint_index := disabled_watchpoint_index x; pending_signal := pending_signal
     x |}.

Definition set_single_step_count (v : Z) (x : ThreadState) : ThreadState :=
  {| single_step_mode := single_step_mode x; single_step_count := v; current_breakpoint_index :=
     current_breakpoint_index x; regs := regs x; is_attached := is_attached x; is_stopped :=
     is_stopped x; stopped_by_user := stopped_by_user x; original_wcr := original_wcr x;
     disabled_watchpoint_index := disabled_watchpoint_index x; pending_signal := pending_signal
     x |}.

Definition set_current_breakpoint_index (v : Z) (x : ThreadState) : ThreadState :=
  {| single_step_mode := single_step_mode x; single_step_count := single_step_count x;
     current_breakpoint_index := v; regs := regs x; is_attached := is_attached x; is_stopped :=
     is_stopped x; stopped_by_user := stopped_by_user x; original_wcr := original_wcr x;
     disabled_watchpoint_index := disabled_watchpoint_index x; pending_signal := pending_signal
     x |}.

Definition set_regs (v : regs_t arch) (x : ThreadState) : ThreadState :=
  {| single_step_mode := single_step_mode x; single_step_count := single_step_count x;
     current_breakpoint_index := current_breakpoint_index x; regs := v; is_attached :=
     is_attached x; is_stopped := is_stopped x; stopped_by_user := stopped_by_user x;
     original_wcr := original_wcr x; disabled_watchpoint_index := disabled_watchpoint_index x;
     pending_signal := pending_signal x |}.

Definition set_is_attached (v : bool) (x : ThreadState) : ThreadState :=
  {| single_step_mode := single_step_mode x; single_step_count := single_step_count x;
     current_breakpoint_index := current_breakpoint_index x; regs := regs x; is_attached := v;
     is_stopped := is_stopped x; stopped_by_user := stopped_by_user x; original_wcr :=
     original_wcr x; disabled_watchpoint_index := disabled_watchpoint_index x; pending_signal :=
     pending_signal x |}.

Definition set_is_stopped (v : bool) (x : ThreadState) : ThreadState :=
  {| single_step_mode := single_step_mode x; single_step_count := single_step_count x;
     current_breakpoint_index := current_breakpoint_index x; regs := regs x; is_attached :=
     is_attached x; is_stopped := v; stopped_by_user := stopped_by_user x; original_wcr :=
     original_wcr x; disabled_watchpoint_index := disabled_watchpoint_index x; pending_signal :=
     pending_signal x |}.

Definition set_stopped_by_user (v : bool) (x : ThreadState) : ThreadState :=
  {| single_step_mode := single_step_mode x; single_step_count := single_step_count x;
     current_breakpoint_index := current_breakpoint_index x; regs := regs x; is_attached :=
     is_attached x; is_stopped := is_stopped x; stopped_by_user := v; original_wcr :=
     original_wcr x; disabled_watchpoint_index := disabled_watchpoint_index x; pending_signal :=
     pending_signal x |}.

Definition set_original_wcr (v : Z) (x : ThreadState) : ThreadState :=
  {| single_step_mode := single_step_mode x; single_step_count := single_step_count x;
     current_breakpoint_index := current_breakpoint_index x; regs := regs x; is_attached :=
     is_attached x; is_stopped := is_stopped x; stopped_by_user := stopped_by_user x;
     original_wcr := v; disabled_watchpoint_index := disabled_watchpoint_index x; pending_signal
     := pending_signal x |}.

Definition set_disabled_watchpoint_index (v : Z) (x : ThreadState) : ThreadState :=
  {| single_step_mode := single_step_mode x; single_step_count := single_step_count x;
     current_breakpoint_index := current_breakpoint_index x; regs := regs x; is_attached :=
     is_attached x; is_stopped := is_stopped x; stopped_by_user := stopped_by_user x;
     original_wcr := original_wcr x; disabled_watchpoint_index := v; pending_signal :=
     pending_signal x |}.

Definition set_pending_signal (v : Z) (x : ThreadState) : ThreadState :=
  {| single_step_mode := single_step_mode x; single_step_count := single_step_count x;
     current_breakpoint_index := current_breakpoint_index x; regs := regs x; is_attached :=
     is_attached x; is_stopped := is_stopped x; stopped_by_user := stopped_by_user x;
     original_wcr := original_wcr x; disabled_watchpoint_index := disabled_watchpoint_index x;
     pending_signal := v |}.

Definition set_req_completed (v : bool) (x : DebugRequest) : DebugRequest :=
  {| command := command x; completed := v; result := result x; address := address x; size :=
     size x; watchpoint_type := watchpoint_type x; breakpoint_type := breakpoint_type x;
     hit_count := hit_count x; thread_id := thread_id x; reg_name := reg_name x; reg_value :=
     reg_value x; reg_value_ptr := reg_value_ptr x; memory_buffer := memory_buffer x;
     memory_size := memory_size x; memory_bytes_read := memory_bytes_read x; executable_path :=
     executable_path x; spawn_args := spawn_args x; spawned_pid := spawned_pid x; pty_fd :=
     pty_fd x |}.

Definition set_req_result (v : Z) (x : DebugRequest) : DebugRequest :=
  {| command := command x; completed := completed x; result := v; address := address x; size :=
     size x; watchpoint_type := watchpoint_type x; breakpoint_type := breakpoint_type x;
     hit_count := hit_count x; thread_id := thread_id x; reg_name := reg_name x; reg_value :=
     reg_value x; reg_value_ptr := reg_value_ptr x; memory_buffer := memory_buffer x;
     memory_size := memory_size x; memory_bytes_read := memory_bytes_read x; executable_path :=
     executable_path x; spawn_args := spawn_args x; spawned_pid := spawned_pid x; pty_fd :=
     pty_fd x |}.

Definition set_req_reg_value_ptr (v : option Z) (x : DebugRequest) : DebugRequest :=
  {| command := command x; completed := completed x; result := result x; address := address x;
     size := size x; watchpoint_type := watchpoint_type x; breakpoint_type := breakpoint_type x;
     hit_count := hit_count x; thread_id := thread_id x; reg_name := reg_name x; reg_value :=
     reg_value x; reg_value_ptr := v; memory_buffer := memory_buffer x; memory_size :=
     memory_size x; memory_bytes_read := memory_bytes_read x; executable_path := executable_path
     x; spawn_args := spawn_args x; spawned_pid := spawned_pid x; pty_fd := pty_fd x |}.

Definition set_req_memory_buffer (v : list Z) (x : DebugRequest) : DebugRequest :=
  {| command := command x; completed := completed x; result := result x; address := address x;
     size := size x; watchpoint_type := watchpoint_type x; breakpoint_type := breakpoint_type x;
     hit_count := hit_count x; thread_id := thread_id x; reg_name := reg_name x; reg_value :=
     reg_value x; reg_value_ptr := reg_value_ptr x; memory_buffer := v; memory_size :=
     memory_size x; memory_bytes_read := memory_bytes_read x; executable_path := executable_path
     x; spawn_args := spawn_args x; spawned_pid := spawned_pid x; pty_fd := pty_fd x |}.

Definition set_req_memory_bytes_read (v : Z) (x : DebugRequest) : DebugRequest :=
  {| command := command x; completed := completed x; result := result x; address := address x;
     size := size x; watchpoint_type := watchpoint_type x; breakpoint_type := breakpoint_type x;
     hit_count := hit_count x; thread_id := thread_id x; reg_name := reg_name x; reg_value :=
     reg_value x; reg_value_ptr := reg_value_ptr x; memory_buffer := memory_buffer x;
     memory_size := memory_size x; memory_bytes_read := v; executable_path := executable_path x;
     spawn_args := spawn_args x; spawned_pid := spawned_pid x; pty_fd := pty_fd x |}.

Definition set_req_spawned_pid (v : Z) (x : DebugRequest) : DebugRequest :=
  {| command := command x; completed := completed x; result := result x; address := address x;
     size := size x; watchpoint_type := watchpoint_type x; breakpoint_type := breakpoint_type x;
     hit_count := hit_count x; thread_id := thread_id x; reg_name := reg_name x; reg_value :=
     reg_value x; reg_value_ptr := reg_value_ptr x; memory_buffer := memory_buffer x;
     memory_size := memory_size x; memory_bytes_read := memory_bytes_read x; executable_path :=
     executable_path x; spawn_args := spawn_args x; spawned_pid := v; pty_fd := pty_fd x |}.

Definition set_req_pty_fd (v : Z) (x : DebugRequest) : DebugRequest :=
  {| command := command x; completed := completed x; result := result x; address := address x;
     size := size x; watchpoint_type := watchpoint_type x; breakpoint_type := breakpoint_type x;
     hit_count := hit_count x; thread_id := thread_id x; reg_name := reg_name x; reg_value :=
     reg_value x; reg_value_ptr := reg_value_ptr x; memory_buffer := memory_buffer x;
     memory_size := memory_size x; memory_bytes_read := memory_bytes_read x; executable_path :=
     executable_path x; spawn_args := spawn_args x; spawned_pid := spawned_pid x; pty_fd := v
     |}.


Definition set_watchpoint_sync_ (v : list WatchpointSync) (x : Debugger) : Debugger :=
  {| watchpoint_sync_ := v; breakpoint_sync_ := breakpoint_sync_ x; removing_mask_ :=
     removing_mask_ x; pid_ := pid_ x; attached_threads_ := attached_threads_ x;
     debug_loop_running_ := debug_loop_running_ x; user_suspend_pending_ :=
     user_suspend_pending_ x; debug_command_queue_ := debug_command_queue_ x; threads_attached_
     := threads_attached_ x; watchpoint_used := watchpoint_used x; watchpoint_addresses :=
     watchpoint_addresses x; watchpoint_sizes := watchpoint_sizes x; watchpoint_types :=
     watchpoint_types x; breakpoint_used := breakpoint_used x; breakpoint_addresses :=
     breakpoint_addresses x; breakpoint_hit_counts := breakpoint_hit_counts x;
     breakpoint_target_counts := breakpoint_target_counts x; breakpoint_types :=
     breakpoint_types x; software_breakpoint_used := software_breakpoint_used x;
     software_breakpoint_addresses := software_breakpoint_addresses x;
     software_breakpoint_original_bytes := software_breakpoint_original_bytes x; thread_states_
     := thread_states_ x; debug_state_ := debug_state_ x; current_thread := current_thread x;
     signal_config_ := signal_config_ x |}.

Definition set_breakpoint_sync_ (v : list BreakpointSync) (x : Debugger) : Debugger :=
  {| watchpoint_sync_ := watchpoint_sync_ x; breakpoint_sync_ := v; removing_mask_ :=
     removing_mask_ x; pid_ := pid_ x; attached_threads_ := attached_threads_ x;
     debug_loop_running_ := debug_loop_running_ x; user_suspend_pending_ :=
     user_suspend_pending_ x; debug_command_queue_ := debug_command_queue_ x; threads_attached_
     := threads_attached_ x; watchpoint_used := watchpoint_used x; watchpoint_addresses :=
     watchpoint_addresses x; watchpoint_sizes := watchpoint_sizes x; watchpoint_types :=
     watchpoint_types x; breakpoint_used := breakpoint_used x; breakpoint_addresses :=
     breakpoint_addresses x; breakpoint_hit_counts := breakpoint_hit_counts x;
     breakpoint_target_counts := breakpoint_target_counts x; breakpoint_types :=
     breakpoint_types x; software_breakpoint_used := software_breakpoint_used x;
     software_breakpoint_addresses := software_breakpoint_addresses x;
     software_breakpoint_original_bytes := software_breakpoint_original_bytes x; thread_states_
     := thread_states_ x; debug_state_ := debug_state_ x; current_thread := current_thread x;
     signal_config_ := signal_config_ x |}.

Definition set_removing_mask_ (v : Z) (x : Debugger) : Debugger :=
  {| watchpoint_sync_ := watchpoint_sync_ x; breakpoint_sync_ := breakpoint_sync_ x;
     removing_mask_ := v; pid_ := pid_ x; attached_threads_ := attached_threads_ x;
     debug_loop_running_ := debug_loop_running_ x; user_suspend_pending_ :=
     user_suspend_pending_ x; debug_command_queue_ := debug_command_queue_ x; threads_attached_
     := threads_attached_ x; watchpoint_used := watchpoint_used x; watchpoint_addresses :=
     watchpoint_addresses x; watchpoint_sizes := watchpoint_sizes x; watchpoint_types :=
     watchpoint_types x; breakpoint_used := breakpoint_used x; breakpoint_addresses :=
     breakpoint_addresses x; breakpoint_hit_counts := breakpoint_hit_counts x;
     breakpoint_target_counts := breakpoint_target_counts x; breakpoint_types :=
     breakpoint_types x; software_breakpoint_used := software_breakpoint_used x;
     software_breakpoint_addresses := software_breakpoint_addresses x;
     software_breakpoint_original_bytes := software_breakpoint_original_bytes x; thread_states_
     := thread_states_ x; debug_state_ := debug_state_ x; current_thread := current_thread x;
     signal_config_ := signal_config_ x |}.

Definition set_pid_ (v : Z) (x : Debugger) : Debugger :=
  {| watchpoint_sync_ := watchpoint_sync_ x; breakpoint_sync_ := breakpoint_sync_ x;
     removing_mask_ := removing_mask_ x; pid_ := v; attached_threads_ := attached_threads_ x;
     debug_loop_running_ := debug_loop_running_ x; user_suspend_pending_ :=
     user_suspend_pending_ x; debug_command_queue_ := debug_command_queue_ x; threads_attached_
     := threads_attached_ x; watchpoint_used := watchpoint_used x; watchpoint_addresses :=
     watchpoint_addresses x; watchpoint_sizes := watchpoint_sizes x; watchpoint_types :=
     watchpoint_types x; breakpoint_used := breakpoint_used x; breakpoint_addresses :=
     breakpoint_addresses x; breakpoint_hit_counts := breakpoint_hit_counts x;
     breakpoint_target_counts := breakpoint_target_counts x; breakpoint_types :=
     breakpoint_types x; software_breakpoint_used := software_breakpoint_used x;
     software_breakpoint_addresses := software_breakpoint_addresses x;
     software_breakpoint_original_bytes := software_breakpoint_original_bytes x; thread_states_
     := thread_states_ x; debug_state_ := debug_state_ x; current_thread := current_thread x;
     signal_config_ := signal_config_ x |}.

Definition set_attached_threads_ (v : gset Z) (x : Debugger) : Debugger :=
  {| watchpoint_sync_ := watchpoint_sync_ x; breakpoint_sync_ := breakpoint_sync_ x;
     removing_mask_ := removing_mask_ x; pid_ := pid_ x; attached_threads_ := v;
     debug_loop_running_ := debug_loop_running_ x; user_suspend_pending_ :=
     user_suspend_pending_ x; debug_command_queue_ := debug_command_queue_ x; threads_attached_
     := threads_attached_ x; watchpoint_used := watchpoint_used x; watchpoint_addresses :=
     watchpoint_addresses x; watchpoint_sizes := watchpoint_sizes x; watchpoint_types :=
     watchpoint_types x; breakpoint_used := breakpoint_used x; breakpoint_addresses :=
     breakpoint_addresses x; breakpoint_hit_counts := breakpoint_hit_counts x;
     breakpoint_target_counts := breakpoint_target_counts x; breakpoint_types :=
     breakpoint_types x; software_breakpoint_used := software_breakpoint_used x;
     software_breakpoint_addresses := software_breakpoint_addresses x;
     software_breakpoint_original_bytes := software_breakpoint_original_bytes x; thread_states_
     := thread_states_ x; debug_state_ := debug_state_ x; current_thread := current_thread x;
     signal_config_ := signal_config_ x |}.

Definition set_debug_loop_running_ (v : bool) (x : Debugger) : Debugger :=
  {| watchpoint_sync_ := watchpoint_sync_ x; breakpoint_sync_ := breakpoint_sync_ x;
     removing_mask_ := removing_mask_ x; pid_ := pid_ x; attached_threads_ := attached_threads_
     x; debug_loop_running_ := v; user_suspend_pending_ := user_suspend_pending_ x;
     debug_command_queue_ := debug_command_queue_ x; threads_attached_ := threads_attached_ x;
     watchpoint_used := watchpoint_used x; watchpoint_addresses := watchpoint_addresses x;
     watchpoint_sizes := watchpoint_sizes x; watchpoint_types := watchpoint_types x;
     breakpoint_used := breakpoint_used x; breakpoint_addresses := breakpoint_addresses x;
     breakpoint_hit_counts := breakpoint_hit_counts x; breakpoint_target_counts :=
     breakpoint_target_counts x; breakpoint_types := breakpoint_types x;
     software_breakpoint_used := software_breakpoint_used x; software_breakpoint_addresses :=
     software_breakpoint_addresses x; software_breakpoint_original_bytes :=
     software_breakpoint_original_bytes x; thread_states_ := thread_states_ x; debug_state_ :=
     debug_state_ x; current_thread := current_thread x; signal_config_ := signal_config_ x |}.

Definition set_user_suspend_pending_ (v : bool) (x : Debugger) : Debugger :=
  {| watchpoint_sync_ := watchpoint_sync_ x; breakpoint_sync_ := breakpoint_sync_ x;
     removing_mask_ := removing_mask_ x; pid_ := pid_ x; attached_threads_ := attached_threads_
     x; debug_loop_running_ := debug_loop_running_ x; user_suspend_pending_ := v;
     debug_command_queue_ := debug_command_queue_ x; threads_attached_ := threads_attached_ x;
     watchpoint_used := watchpoint_used x; watchpoint_addresses := watchpoint_addresses x;
     watchpoint_sizes := watchpoint_sizes x; watchpoint_types := watchpoint_types x;
     breakpoint_used := breakpoint_used x; breakpoint_addresses := breakpoint_addresses x;
     breakpoint_hit_counts := breakpoint_hit_counts x; breakpoint_target_counts :=
     breakpoint_target_counts x; breakpoint_types := breakpoint_types x;
     software_breakpoint_used := software_breakpoint_used x; software_breakpoint_addresses :=
     software_breakpoint_addresses x; software_breakpoint_original_bytes :=
     software_breakpoint_original_bytes x; thread_states_ := thread_states_ x; debug_state_ :=
     debug_state_ x; current_thread := current_thread x; signal_config_ := signal_config_ x |}.

Definition set_debug_command_queue_ (v : list DebugRequest) (x : Debugger) : Debugger :=
  {| watchpoint_sync_ := watchpoint_sync_ x; breakpoint_sync_ := breakpoint_sync_ x;
     removing_mask_ := removing_mask_ x; pid_ := pid_ x; attached_threads_ := attached_threads_
     x; debug_loop_running_ := debug_loop_running_ x; user_suspend_pending_ :=
     user_suspend_pending_ x; debug_command_queue_ := v; threads_attached_ := threads_attached_
     x; watchpoint_used := watchpoint_used x; watchpoint_addresses := watchpoint_addresses x;
     watchpoint_sizes := watchpoint_sizes x; watchpoint_types := watchpoint_types x;
     breakpoint_used := breakpoint_used x; breakpoint_addresses := breakpoint_addresses x;
     breakpoint_hit_counts := breakpoint_hit_counts x; breakpoint_target_counts :=
     breakpoint_target_counts x; breakpoint_types := breakpoint_types x;
     software_breakpoint_used := software_breakpoint_used x; software_breakpoint_addresses :=
     software_breakpoint_addresses x; software_breakpoint_original_bytes :=
     software_breakpoint_original_bytes x; thread_states_ := thread_states_ x; debug_state_ :=
     debug_state_ x; current_thread := current_thread x; signal_config_ := signal_config_ x |}.

Definition set_threads_attached_ (v : bool) (x : Debugger) : Debugger :=
  {| watchpoint_sync_ := watchpoint_sync_ x; breakpoint_sync_ := breakpoint_sync_ x;
     removing_mask_ := removing_mask_ x; pid_ := pid_ x; attached_threads_ := attached_threads_
     x; debug_loop_running_ := debug_loop_running_ x; user_suspend_pending_ :=
     user_suspend_pending_ x; debug_command_queue_ := debug_command_queue_ x; threads_attached_
     := v; watchpoint_used := watchpoint_used x; watchpoint_addresses := watchpoint_addresses x;
     watchpoint_sizes := watchpoint_sizes x; watchpoint_types := watchpoint_types x;
     breakpoint_used := breakpoint_used x; breakpoint_addresses := breakpoint_addresses x;
     breakpoint_hit_counts := breakpoint_hit_counts x; breakpoint_target_counts :=
     breakpoint_target_counts x; breakpoint_types := breakpoint_types x;
     software_breakpoint_used := software_breakpoint_used x; software_breakpoint_addresses :=
     software_breakpoint_addresses x; software_breakpoint_original_bytes :=
     software_breakpoint_original_bytes x; thread_states_ := thread_states_ x; debug_state_ :=
     debug_state_ x; current_thread := current_thread x; signal_config_ := signal_config_ x |}.

Definition set_watchpoint_used (v : list bool) (x : Debugger) : Debugger :=
  {| watchpoint_sync_ := watchpoint_sync_ x; breakpoint_sync_ := breakpoint_sync_ x;
     removing_mask_ := removing_mask_ x; pid_ := pid_ x; attached_threads_ := attached_threads_
     x; debug_loop_running_ := debug_loop_running_ x; user_suspend_pending_ :=
     user_suspend_pending_ x; debug_command_queue_ := debug_command_queue_ x; threads_attached_
     := threads_attached_ x; watchpoint_used := v; watchpoint_addresses := watchpoint_addresses
     x; watchpoint_sizes := watchpoint_sizes x; watchpoint_types := watchpoint_types x;
     breakpoint_used := breakpoint_used x; breakpoint_addresses := breakpoint_addresses x;
     breakpoint_hit_counts := breakpoint_hit_counts x; breakpoint_target_counts :=
     breakpoint_target_counts x; breakpoint_types := breakpoint_types x;
     software_breakpoint_used := software_breakpoint_used x; software_breakpoint_addresses :=
     software_breakpoint_addresses x; software_breakpoint_original_bytes :=
     software_breakpoint_original_bytes x; thread_states_ := thread_states_ x; debug_state_ :=
     debug_state_ x; current_thread := current_thread x; signal_config_ := signal_config_ x |}.

Definition set_watchpoint_addresses (v : list Z) (x : Debugger) : Debugger :=
  {| watchpoint_sync_ := watchpoint_sync_ x; breakpoint_sync_ := breakpoint_sync_ x;
     removing_mask_ := removing_mask_ x; pid_ := pid_ x; attached_threads_ := attached_threads_
     x; debug_loop_running_ := debug_loop_running_ x; user_suspend_pending_ :=
     user_suspend_pending_ x; debug_command_queue_ := debug_command_queue_ x; threads_attached_
     := threads_attached_ x; watchpoint_used := watchpoint_used x; watchpoint_addresses := v;
     watchpoint_sizes := watchpoint_sizes x; watchpoint_types := watchpoint_types x;
     breakpoint_used := breakpoint_used x; breakpoint_addresses := breakpoint_addresses x;
     breakpoint_hit_counts := breakpoint_hit_counts x; breakpoint_target_counts :=
     breakpoint_target_counts x; breakpoint_types := breakpoint_types x;
     software_breakpoint_used := software_breakpoint_used x; software_breakpoint_addresses :=
     software_breakpoint_addresses x; software_breakpoint_original_bytes :=
     software_breakpoint_original_bytes x; thread_states_ := thread_states_ x; debug_state_ :=
     debug_state_ x; current_thread := current_thread x; signal_config_ := signal_config_ x |}.

Definition set_watchpoint_sizes (v : list Z) (x : Debugger) : Debugger :=
  {| watchpoint_sync_ := watchpoint_sync_ x; breakpoint_sync_ := breakpoint_sync_ x;
     removing_mask_ := removing_mask_ x; pid_ := pid_ x; attached_threads_ := attached_threads_
     x; debug_loop_running_ := debug_loop_running_ x; user_suspend_pending_ :=
     user_suspend_pending_ x; debug_command_queue_ := debug_command_queue_ x; threads_attached_
     := threads_attached_ x; watchpoint_used := watchpoint_used x; watchpoint_addresses :=
     watchpoint_addresses x; watchpoint_sizes := v; watchpoint_types := watchpoint_types x;
     breakpoint_used := breakpoint_used x; breakpoint_addresses := breakpoint_addresses x;
     breakpoint_hit_counts := breakpoint_hit_counts x; breakpoint_target_counts :=
     breakpoint_target_counts x; breakpoint_types := breakpoint_types x;
     software_breakpoint_used := software_breakpoint_used x; software_breakpoint_addresses :=
     software_breakpoint_addresses x; software_breakpoint_original_bytes :=
     software_breakpoint_original_bytes x; thread_states_ := thread_states_ x; debug_state_ :=
     debug_state_ x; current_thread := current_thread x; signal_config_ := signal_config_ x |}.

Definition set_watchpoint_types (v : list WatchpointType.t) (x : Debugger) : Debugger :=
  {| watchpoint_sync_ := watchpoint_sync_ x; breakpoint_sync_ := breakpoint_sync_ x;
     removing_mask_ := removing_mask_ x; pid_ := pid_ x; attached_threads_ := attached_threads_
     x; debug_loop_running_ := debug_loop_running_ x; user_suspend_pending_ :=
     user_suspend_pending_ x; debug_command_queue_ := debug_command_queue_ x; threads_attached_
     := threads_attached_ x; watchpoint_used := watchpoint_used x; watchpoint_addresses :=
     watchpoint_addresses x; watchpoint_sizes := watchpoint_sizes x; watchpoint_types := v;
     breakpoint_used := breakpoint_used x; breakpoint_addresses := breakpoint_addresses x;
     breakpoint_hit_counts := breakpoint_hit_counts x; breakpoint_target_counts :=
     breakpoint_target_counts x; breakpoint_types := breakpoint_types x;
     software_breakpoint_used := software_breakpoint_used x; software_breakpoint_addresses :=
     software_breakpoint_addresses x; software_breakpoint_original_bytes :=
     software_breakpoint_original_bytes x; thread_states_ := thread_states_ x; debug_state_ :=
     debug_state_ x; current_thread := current_thread x; signal_config_ := signal_config_ x |}.

Definition set_breakpoint_used (v : list bool) (x : Debugger) : Debugger :=
  {| watchpoint_sync_ := watchpoint_sync_ x; breakpoint_sync_ := breakpoint_sync_ x;
     removing_mask_ := removing_mask_ x; pid_ := pid_ x; attached_threads_ := attached_threads_
     x; debug_loop_running_ := debug_loop_running_ x; user_suspend_pending_ :=
     user_suspend_pending_ x; debug_command_queue_ := debug_command_queue_ x; threads_attached_
     := threads_attached_ x; watchpoint_used := watchpoint_used x; watchpoint_addresses :=
     watchpoint_addresses x; watchpoint_sizes := watchpoint_sizes x; watchpoint_types :=
     watchpoint_types x; breakpoint_used := v; breakpoint_addresses := breakpoint_addresses x;
     breakpoint_hit_counts := breakpoint_hit_counts x; breakpoint_target_counts :=
     breakpoint_target_counts x; breakpoint_types := breakpoint_types x;
     software_breakpoint_used := software_breakpoint_used x; software_breakpoint_addresses :=
     software_breakpoint_addresses x; software_breakpoint_original_bytes :=
     software_breakpoint_original_bytes x; thread_states_ := thread_states_ x; debug_state_ :=
     debug_state_ x; current_thread := current_thread x; signal_config_ := signal_config_ x |}.

Definition set_breakpoint_addresses (v : list Z) (x : Debugger) : Debugger :=
  {| watchpoint_sync_ := watchpoint_sync_ x; breakpoint_sync_ := breakpoint_sync_ x;
     removing_mask_ := removing_mask_ x; pid_ := pid_ x; attached_threads_ := attached_threads_
     x; debug_loop_running_ := debug_loop_running_ x; user_suspend_pending_ :=
     user_suspend_pending_ x; debug_command_queue_ := debug_command_queue_ x; threads_attached_
     := threads_attached_ x; watchpoint_used := watchpoint_used x; watchpoint_addresses :=
     watchpoint_addresses x; watchpoint_sizes := watchpoint_sizes x; watchpoint_types :=
     watchpoint_types x; breakpoint_used := breakpoint_used x; breakpoint_addresses := v;
     breakpoint_hit_counts := breakpoint_hit_counts x; breakpoint_target_counts :=
     breakpoint_target_counts x; breakpoint_types := breakpoint_types x;
     software_breakpoint_used := software_breakpoint_used x; software_breakpoint_addresses :=
     software_breakpoint_addresses x; software_breakpoint_original_bytes :=
     software_breakpoint_original_bytes x; thread_states_ := thread_states_ x; debug_state_ :=
     debug_state_ x; current_thread := current_thread x; signal_config_ := signal_config_ x |}.

Definition set_breakpoint_hit_counts (v : list Z) (x : Debugger) : Debugger :=
  {| watchpoint_sync_ := watchpoint_sync_ x; breakpoint_sync_ := breakpoint_sync_ x;
     removing_mask_ := removing_mask_ x; pid_ := pid_ x; attached_threads_ := attached_threads_
     x; debug_loop_running_ := debug_loop_running_ x; user_suspend_pending_ :=
     user_suspend_pending_ x; debug_command_queue_ := debug_command_queue_ x; threads_attached_
     := threads_attached_ x; watchpoint_used := watchpoint_used x; watchpoint_addresses :=
     watchpoint_addresses x; watchpoint_sizes := watchpoint_sizes x; watchpoint_types :=
     watchpoint_types x; breakpoint_used := breakpoint_used x; breakpoint_addresses :=
     breakpoint_addresses x; breakpoint_hit_counts := v; breakpoint_target_counts :=
     breakpoint_target_counts x; breakpoint_types := breakpoint_types x;
     software_breakpoint_used := software_breakpoint_used x; software_breakpoint_addresses :=
     software_breakpoint_addresses x; software_breakpoint_original_bytes :=
     software_breakpoint_original_bytes x; thread_states_ := thread_states_ x; debug_state_ :=
     debug_state_ x; current_thread := current_thread x; signal_config_ := signal_config_ x |}.

Definition set_breakpoint_target_counts (v : list Z) (x : Debugger) : Debugger :=
  {| watchpoint_sync_ := watchpoint_sync_ x; breakpoint_sync_ := breakpoint_sync_ x;
     removing_mask_ := removing_mask_ x; pid_ := pid_ x; attached_threads_ := attached_threads_
     x; debug_loop_running_ := debug_loop_running_ x; user_suspend_pending_ :=
     user_suspend_pending_ x; debug_command_queue_ := debug_command_queue_ x; threads_attached_
     := threads_attached_ x; watchpoint_used := watchpoint_used x; watchpoint_addresses :=
     watchpoint_addresses x; watchpoint_sizes := watchpoint_sizes x; watchpoint_types :=
     watchpoint_types x; breakpoint_used := breakpoint_used x; breakpoint_addresses :=
     breakpoint_addresses x; breakpoint_hit_counts := breakpoint_hit_counts x;
     breakpoint_target_counts := v; breakpoint_types := breakpoint_types x;
     software_breakpoint_used := software_breakpoint_used x; software_breakpoint_addresses :=
     software_breakpoint_addresses x; software_breakpoint_original_bytes :=
     software_breakpoint_original_bytes x; thread_states_ := thread_states_ x; debug_state_ :=
     debug_state_ x; current_thread := current_thread x; signal_config_ := signal_config_ x |}.

Definition set_breakpoint_types (v : list BreakpointType.t) (x : Debugger) : Debugger :=
  {| watchpoint_sync_ := watchpoint_sync_ x; breakpoint_sync_ := breakpoint_sync_ x;
     removing_mask_ := removing_mask_ x; pid_ := pid_ x; attached_threads_ := attached_threads_
     x; debug_loop_running_ := debug_loop_running_ x; user_suspend_pending_ :=
     user_suspend_pending_ x; debug_command_queue_ := debug_command_queue_ x; threads_attached_
     := threads_attached_ x; watchpoint_used := watchpoint_used x; watchpoint_addresses :=
     watchpoint_addresses x; watchpoint_sizes := watchpoint_sizes x; watchpoint_types :=
     watchpoint_types x; breakpoint_used := breakpoint_used x; breakpoint_addresses :=
     breakpoint_addresses x; breakpoint_hit_counts := breakpoint_hit_counts x;
     breakpoint_target_counts := breakpoint_target_counts x; breakpoint_types := v;
     software_breakpoint_used := software_breakpoint_used x; software_breakpoint_addresses :=
     software_breakpoint_addresses x; software_breakpoint_original_bytes :=
     software_breakpoint_original_bytes x; thread_states_ := thread_states_ x; debug_state_ :=
     debug_state_ x; current_thread := current_thread x; signal_config_ := signal_config_ x |}.

Definition set_software_breakpoint_used (v : gmap Z bool) (x : Debugger) : Debugger :=
  {| watchpoint_sync_ := watchpoint_sync_ x; breakpoint_sync_ := breakpoint_sync_ x;
     removing_mask_ := removing_mask_ x; pid_ := pid_ x; attached_threads_ := attached_threads_
     x; debug_loop_running_ := debug_loop_running_ x; user_suspend_pending_ :=
     user_suspend_pending_ x; debug_command_queue_ := debug_command_queue_ x; threads_attached_
     := threads_attached_ x; watchpoint_used := watchpoint_used x; watchpoint_addresses :=
     watchpoint_addresses x; watchpoint_sizes := watchpoint_sizes x; watchpoint_types :=
     watchpoint_types x; breakpoint_used := breakpoint_used x; breakpoint_addresses :=
     breakpoint_addresses x; breakpoint_hit_counts := breakpoint_hit_counts x;
     breakpoint_target_counts := breakpoint_target_counts x; breakpoint_types :=
     breakpoint_types x; software_breakpoint_used := v; software_breakpoint_addresses :=
     software_breakpoint_addresses x; software_breakpoint_original_bytes :=
     software_breakpoint_original_bytes x; thread_states_ := thread_states_ x; debug_state_ :=
     debug_state_ x; current_thread := current_thread x; signal_config_ := signal_config_ x |}.

Definition set_software_breakpoint_addresses (v : gmap Z Z) (x : Debugger) : Debugger :=
  {| watchpoint_sync_ := watchpoint_sync_ x; breakpoint_sync_ := breakpoint_sync_ x;
     removing_mask_ := removing_mask_ x; pid_ := pid_ x; attached_threads_ := attached_threads_
     x; debug_loop_running_ := debug_loop_running_ x; user_suspend_pending_ :=
     user_suspend_pending_ x; debug_command_queue_ := debug_command_queue_ x; threads_attached_
     := threads_attached_ x; watchpoint_used := watchpoint_used x; watchpoint_addresses :=
     watchpoint_addresses x; watchpoint_sizes := watchpoint_sizes x; watchpoint_types :=
     watchpoint_types x; breakpoint_used := breakpoint_used x; breakpoint_addresses :=
     breakpoint_addresses x; breakpoint_hit_counts := breakpoint_hit_counts x;
     breakpoint_target_counts := breakpoint_target_counts x; breakpoint_types :=
     breakpoint_types x; software_breakpoint_used := software_breakpoint_used x;
     software_breakpoint_addresses := v; software_breakpoint_original_bytes :=
     software_breakpoint_original_bytes x; thread_states_ := thread_states_ x; debug_state_ :=
     debug_state_ x; current_thread := current_thread x; signal_config_ := signal_config_ x |}.

Definition set_software_breakpoint_original_bytes (v : gmap Z Z) (x : Debugger) : Debugger :=
  {| watchpoint_sync_ := watchpoint_sync_ x; breakpoint_sync_ := breakpoint_sync_ x;
     removing_mask_ := removing_mask_ x; pid_ := pid_ x; attached_threads_ := attached_threads_
     x; debug_loop_running_ := debug_loop_running_ x; user_suspend_pending_ :=
     user_suspend_pending_ x; debug_command_queue_ := debug_command_queue_ x; threads_attached_
     := threads_attached_ x; watchpoint_used := watchpoint_used x; watchpoint_addresses :=
     watchpoint_addresses x; watchpoint_sizes := watchpoint_sizes x; watchpoint_types :=
     watchpoint_types x; breakpoint_used := breakpoint_used x; breakpoint_addresses :=
     breakpoint_addresses x; breakpoint_hit_counts := breakpoint_hit_counts x;
     breakpoint_target_counts := breakpoint_target_counts x; breakpoint_types :=
     breakpoint_types x; software_breakpoint_used := software_breakpoint_used x;
     software_breakpoint_addresses := software_breakpoint_addresses x;
     software_breakpoint_original_bytes := v; thread_states_ := thread_states_ x; debug_state_
     := debug_state_ x; current_thread := current_thread x; signal_config_ := signal_config_ x
     |}.

Definition set_thread_states_ (v : gmap Z ThreadState) (x : Debugger) : Debugger :=
  {| watchpoint_sync_ := watchpoint_sync_ x; breakpoint_sync_ := breakpoint_sync_ x;
     removing_mask_ := removing_mask_ x; pid_ := pid_ x; attached_threads_ := attached_threads_
     x; debug_loop_running_ := debug_loop_running_ x; user_suspend_pending_ :=
     user_suspend_pending_ x; debug_command_queue_ := debug_command_queue_ x; threads_attached_
     := threads_attached_ x; watchpoint_used := watchpoint_used x; watchpoint_addresses :=
     watchpoint_addresses x; watchpoint_sizes := watchpoint_sizes x; watchpoint_types :=
     watchpoint_types x; breakpoint_used := breakpoint_used x; breakpoint_addresses :=
     breakpoint_addresses x; breakpoint_hit_counts := breakpoint_hit_counts x;
     breakpoint_target_counts := breakpoint_target_counts x; breakpoint_types :=
     breakpoint_types x; software_breakpoint_used := software_breakpoint_used x;
     software_breakpoint_addresses := software_breakpoint_addresses x;
     software_breakpoint_original_bytes := software_breakpoint_original_bytes x; thread_states_
     := v; debug_state_ := debug_state_ x; current_thread := current_thread x; signal_config_ :=
     signal_config_ x |}.

Definition set_debug_state_ (v : DebugState.t) (x : Debugger) : Debugger :=
  {| watchpoint_sync_ := watchpoint_sync_ x; breakpoint_sync_ := breakpoint_sync_ x;
     removing_mask_ := removing_mask_ x; pid_ := pid_ x; attached_threads_ := attached_threads_
     x; debug_loop_running_ := debug_loop_running_ x; user_suspend_pending_ :=
     user_suspend_pending_ x; debug_command_queue_ := debug_command_queue_ x; threads_attached_
     := threads_attached_ x; watchpoint_used := watchpoint_used x; watchpoint_addresses :=
     watchpoint_addresses x; watchpoint_sizes := watchpoint_sizes x; watchpoint_types :=
     watchpoint_types x; breakpoint_used := breakpoint_used x; breakpoint_addresses :=
     breakpoint_addresses x; breakpoint_hit_counts := breakpoint_hit_counts x;
     breakpoint_target_counts := breakpoint_target_counts x; breakpoint_types :=
     breakpoint_types x; software_breakpoint_used := software_breakpoint_used x;
     software_breakpoint_addresses := software_breakpoint_addresses x;
     software_breakpoint_original_bytes := software_breakpoint_original_bytes x; thread_states_
     := thread_states_ x; debug_state_ := v; current_thread := current_thread x; signal_config_
     := signal_config_ x |}.

Definition set_current_thread (v : Z) (x : Debugger) : Debugger :=
  {| watchpoint_sync_ := watchpoint_sync_ x; breakpoint_sync_ := breakpoint_sync_ x;
     removing_mask_ := removing_mask_ x; pid_ := pid_ x; attached_threads_ := attached_threads_
     x; debug_loop_running_ := debug_loop_running_ x; user_suspend_pending_ :=
     user_suspend_pending_ x; debug_command_queue_ := debug_command_queue_ x; threads_attached_
     := threads_attached_ x; watchpoint_used := watchpoint_used x; watchpoint_addresses :=
     watchpoint_addresses x; watchpoint_sizes := watchpoint_sizes x; watchpoint_types :=
     watchpoint_types x; breakpoint_used := breakpoint_used x; breakpoint_addresses :=
     breakpoint_addresses x; breakpoint_hit_counts := breakpoint_hit_counts x;
     breakpoint_target_counts := breakpoint_target_counts x; breakpoint_types :=
     breakpoint_types x; software_breakpoint_used := software_breakpoint_used x;
     software_breakpoint_addresses := software_breakpoint_addresses x;
     software_breakpoint_original_bytes := software_breakpoint_original_bytes x; thread_states_
     := thread_states_ x; debug_state_ := debug_state_ x; current_thread := v; signal_config_ :=
     signal_config_ x |}.

Definition set_signal_config_ (v : gmap Z SignalConfig) (x : Debugger) : Debugger :=
  {| watchpoint_sync_ := watchpoint_sync_ x; breakpoint_sync_ := breakpoint_sync_ x;
     removing_mask_ := removing_mask_ x; pid_ := pid_ x; attached_threads_ := attached_threads_
     x; debug_loop_running_ := debug_loop_running_ x; user_suspend_pending_ :=
     user_suspend_pending_ x; debug_command_queue_ := debug_command_queue_ x; threads_attached_
     := threads_attached_ x; watchpoint_used := watchpoint_used x; watchpoint_addresses :=
     watchpoint_addresses x; watchpoint_sizes := watchpoint_sizes x; watchpoint_types :=
     watchpoint_types x; breakpoint_used := breakpoint_used x; breakpoint_addresses :=
     breakpoint_addresses x; breakpoint_hit_counts := breakpoint_hit_counts x;
     breakpoint_target_counts := breakpoint_target_counts x; breakpoint_types :=
     breakpoint_types x; software_breakpoint_used := software_breakpoint_used x;
     software_breakpoint_addresses := software_breakpoint_addresses x;
     software_breakpoint_original_bytes := software_breakpoint_original_bytes x; thread_states_
     := thread_states_ x; debug_state_ := debug_state_ x; current_thread := current_thread x;
     signal_config_ := v |}.

(** [thread_states_[tid].field = v]: [operator[]] inserts a default entry
    when the key is missing. *)
Definition thread_state_of (d : Debugger) (tid : Z) : ThreadState :=
  default ThreadState_default (thread_states_ d !! tid).

Definition upd_thread (tid : Z) (f : ThreadState -> ThreadState) (d : Debugger) : Debugger :=
  set_thread_states_ (<[tid := f (thread_state_of d tid)]> (thread_states_ d)) d.

(** [it->second.field = v] through an iterator obtained from [find]. *)
Definition upd_thread_it (tid : Z) (f : ThreadState -> ThreadState) (d : Debugger) : Debugger :=
  set_thread_states_ (alter f tid (thread_states_ d)) d.

(** ** The world and its state monad *)

Context {K : Type} `{E : Env K}.

Record World := { dbg : Debugger; kern : K; trace : list Event }.

Definition M (A : Type) : Type := World -> A * World.

Definition ret {A : Type} (a : A) : M A := fun w => (a, w).
Definition bind {A B : Type} (m : M A) (f : A -> M B) : M B :=
  fun w => let r := m w in f (fst r) (snd r).

Notation "x <- m ;; k" := (bind m (fun x => k))
  (at level 62, m at next level, right associativity).

Definition get_dbg : M Debugger := fun w => (dbg w, w).
Definition modify_dbg (f : Debugger -> Debugger) : M unit :=
  fun w => (tt, {| dbg := f (dbg w); kern := kern w; trace := trace w |}).

(** One request to the environment, recorded in the trace. *)
Definition call (c : Syscall) : M Reply :=
  fun w => let r := sys c (kern w) in
           (fst r, {| dbg := dbg w; kern := snd r; trace := trace w ++ [(c, fst r)] |}).

Definition failed (r : Reply) : bool := r_ret r =? -1.


(** ** debugger_thread.cpp: thread enumeration, stop-the-world, resume *)

Fixpoint for_each {A : Type} (l : list A) (body : A -> M unit) : M unit :=
  match l with
  | [] => ret tt
  | x :: l' => _ <- body x ;; for_each l' body
  end.

(** Iteration over a [std::set<pid_t>] / the keys of a [std::map]: ascending. *)
Definition sorted_elements (s : gset Z) : list Z := merge_sort Z.le (elements s).

(** [get_thread_list]: the thread ids under [/proc/<pid>/task] whose state
    is not zombie or dead.  The directory scan is one request to the
    environment. *)
Definition get_thread_list : M (list Z) :=
  d <- get_dbg ;;
  r <- call (proc_task_list (pid_ d)) ;;
  ret (r_tids r).

Definition erase_thread (tid : Z) (d : Debugger) : Debugger :=
  set_attached_threads_ (attached_threads_ d ∖ {[tid]})
    (set_thread_states_ (delete tid (thread_states_ d)) d).

Definition attach_to_threads : M Z :=
  threads <- get_thread_list ;;
  _ <- for_each threads (fun tid =>
        r <- call (ptrace_SEIZE tid PTRACE_O_TRACECLONE) ;;
        if failed r then ret tt
        else modify_dbg (fun d =>
               upd_thread tid (set_is_attached true)
                 (set_attached_threads_ ({[tid]} ∪ attached_threads_ d) d))) ;;
  d <- get_dbg ;;
  ret (if bool_decide (attached_threads_ d = ∅) then -1 else 0).

(** [wait_for_debug_event]: returns the result code, the thread and the status. *)
Definition wait_for_debug_event : M (Z * Z * Z) :=
  r <- call (sys_waitpid (-1) WNOHANG) ;;
  d <- get_dbg ;;
  if (0 <? r_ret r) && bool_decide (r_ret r ∈ attached_threads_ d)
  then ret (0, r_ret r, r_out r)
  else ret (-1, 0, 0).

(** The wait phase of [stop_all_threads] for one interrupted thread: poll
    [waitpid(tid, WNOHANG)] until it reports, sleeping 10 ms between polls,
    for at most 5 s counted from the start of the phase.  The source polls
    the threads round-robin against [steady_clock]; the model polls them one
    after the other and lets time advance by the sleeps.  Returns whether
    the thread stays in [stopped_threads] and the elapsed time. *)
Fixpoint wait_for_stop (ticks : nat) (tid : Z) (elapsed : Z) : M (bool * Z) :=
  r <- call (sys_waitpid tid WNOHANG) ;;
  if r_ret r =? tid then
    if WIFSTOPPED (r_out r) then
      _ <- modify_dbg (upd_thread tid (set_is_stopped true)) ;;
      ret (true, elapsed)
    else ret (false, elapsed)
  else if r_ret r =? 0 then
    if 5000 <? elapsed then ret (false, elapsed)
    else match ticks with
         | O => ret (false, elapsed)
         | S n => wait_for_stop n tid (elapsed + 10)
         end
  else ret (false, elapsed).

Fixpoint wait_for_stops (l : list Z) (confirmed : gset Z) (elapsed : Z) : M (list Z) :=
  match l with
  | [] => ret []
  | tid :: l' =>
      if bool_decide (tid ∈ confirmed) then
        rest <- wait_for_stops l' confirmed elapsed ;; ret (tid :: rest)
      else
        p <- wait_for_stop (Z.to_nat (502 - elapsed / 10)) tid elapsed ;;
        rest <- wait_for_stops l' confirmed (snd p) ;;
        ret (if fst p then tid :: rest else rest)
  end.

(** [cancel_interrupt_for_non_stopped_threads]. *)
Definition cancel_interrupt_for_non_stopped_threads (stopped_threads : list Z) : M unit :=
  d <- get_dbg ;;
  for_each (sorted_elements (attached_threads_ d)) (fun tid =>
    if bool_decide (tid ∈ stopped_threads) then ret tt
    else
      r <- call (sys_waitpid tid WNOHANG) ;;
      if (r_ret r =? tid) && WIFSTOPPED (r_out r) then
        _ <- call (ptrace_CONT tid 0) ;; ret tt
      else ret tt).

(** The interrupt phase of [stop_all_threads]; the accumulator holds
    [stopped_threads] and [already_stopped_out] in push order.  The source
    erases dead threads from [attached_threads_] while iterating over it;
    the model iterates over the set as it was when the loop started. *)
Fixpoint interrupt_threads (l : list Z) (exclude_thread_id : Z)
    (stopped already : list Z) : M (list Z * list Z) :=
  match l with
  | [] => ret (stopped, already)
  | tid :: l' =>
      if tid =? exclude_thread_id then
        interrupt_threads l' exclude_thread_id stopped already
      else
        d <- get_dbg ;;
        match thread_states_ d !! tid with
        | Some st =>
            if is_stopped st then
              interrupt_threads l' exclude_thread_id (stopped ++ [tid]) (already ++ [tid])
            else
              r <- call (ptrace_INTERRUPT tid) ;;
              if r_ret r =? 0 then
                interrupt_threads l' exclude_thread_id (stopped ++ [tid]) already
              else
                _ <- (if r_errno r =? ESRCH then modify_dbg (erase_thread tid) else ret tt) ;;
                interrupt_threads l' exclude_thread_id stopped already
        | None =>
            r <- call (ptrace_INTERRUPT tid) ;;
            if r_ret r =? 0 then
              interrupt_threads l' exclude_thread_id (stopped ++ [tid]) already
            else
              _ <- (if r_errno r =? ESRCH then modify_dbg (erase_thread tid) else ret tt) ;;
              interrupt_threads l' exclude_thread_id stopped already
        end
  end.

(** [stop_all_threads(exclude_thread_id, already_stopped_out)]: returns
    [stopped_threads] and what was pushed to [already_stopped_out]. *)
Definition stop_all_threads (exclude_thread_id : Z) : M (list Z * list Z) :=
  current_threads <- get_thread_list ;;
  _ <- modify_dbg (fun d =>
        let dead := filter (fun tid => tid ∉ current_threads)
                      (sorted_elements (attached_threads_ d)) in
        foldr erase_thread d dead) ;;
  d <- get_dbg ;;
  p <- interrupt_threads (sorted_elements (attached_threads_ d)) exclude_thread_id [] [] ;;
  stopped_threads <- wait_for_stops (fst p) (list_to_set (snd p)) 0 ;;
  _ <- cancel_interrupt_for_non_stopped_threads stopped_threads ;;
  ret (stopped_threads, snd p).

(** [resume_threads]. *)
Definition resume_threads (stopped_threads : list Z) : M unit :=
  for_each stopped_threads (fun tid =>
    d <- get_dbg ;;
    let signal_to_pass :=
      match thread_states_ d !! tid with
      | Some st => pending_signal st
      | None => 0
      end in
    _ <- modify_dbg (upd_thread_it tid (set_pending_signal 0)) ;;
    r <- call (ptrace_CONT tid signal_to_pass) ;;
    if failed r then
      if r_errno r =? ESRCH then modify_dbg (erase_thread tid) else ret tt
    else modify_dbg (upd_thread_it tid (set_is_stopped false))).

(** The step shared by every set/remove operation: resume exactly the
    threads of [stopped_threads] that are not in [already_stopped]. *)
Definition threads_to_resume (stopped_threads already_stopped : list Z) : list Z :=
  filter (fun tid => tid ∉ already_stopped) stopped_threads.

(** [verify_threads_stopped]: drops the threads whose debug registers
    cannot be read and reports whether every attached thread is left. *)
Fixpoint verify_threads_stopped (threads_to_verify : list Z) : M (list Z) :=
  match threads_to_verify with
  | [] => ret []
  | tid :: l' =>
      r <- match arch with
          | ARM64 => call (ptrace_GETREGSET_HW NT_ARM_HW_BREAK tid 264)
          | X86_64 => call (ptrace_PEEKUSER tid X86_DR7_OFFSET)
          end ;;
      rest <- verify_threads_stopped l' ;;
      let bad := match arch with ARM64 => failed r | X86_64 => negb (r_errno r =? 0) end in
      ret (if bad then rest else tid :: rest)
  end.

(** debugger_spawn.cpp: [is_thread_stopped] reads [/proc/<pid>/task/<tid>/status];
    [find_stopped_thread] returns the first attached thread it reports stopped. *)
Fixpoint find_stopped_thread_in (pid : Z) (l : list Z) : M Z :=
  match l with
  | [] => ret 0
  | tid :: l' =>
      r <- call (proc_thread_stopped pid tid) ;;
      if negb (r_ret r =? 0) then ret tid else find_stopped_thread_in pid l'
  end.

Definition find_stopped_thread : M Z :=
  d <- get_dbg ;;
  find_stopped_thread_in (pid_ d) (sorted_elements (attached_threads_ d)).

(** ** debugger_watchpoint.cpp *)

Definition find_free_watchpoint (d : Debugger) : Z :=
  scan (fun i => negb (at_ (watchpoint_used d) i)) MAX_WATCHPOINTS.

Definition find_watchpoint_index (d : Debugger) (address : Z) : Z :=
  scan (fun i => at_ (watchpoint_used d) i && (at_ (watchpoint_addresses d) i =? address))
       MAX_WATCHPOINTS.

Definition get_available_watchpoints (thread : Z) : Z := MAX_WATCHPOINTS.
Definition set_watchpoint_on_thread (thread address size : Z) (type : WatchpointType.t)
  (index : Z) : Z := 0.
Definition clear_watchpoint_on_thread (thread index : Z) : Z := 0.
Definition remove_watchpoint_by_index (index : Z) : Z := 0.

(** [8 + 16 * MAX_WATCHPOINTS] and [8 + 16 * MAX_BREAKPOINTS]. *)
Definition wp_iov_len : Z := 8 + 16 * MAX_WATCHPOINTS.
Definition bp_iov_len : Z := 8 + 16 * MAX_BREAKPOINTS.

(** The ARM64 register block written by [apply_watchpoint_to_threads]:
    re-enable the slots that hold an address, then program [index]. *)
Definition arm_program_watch (st : user_hwdebug_state) (index address size : Z)
    (type : WatchpointType.t) : user_hwdebug_state :=
  set_hw_reg index {| addr := address; ctrl := arm_watch_ctrl size type |}
    (reenable_hw MAX_WATCHPOINTS None (fun c => Z.lor c 1) st).

(** [apply_watchpoint_to_threads]: [true] unless a register write failed
    for a reason other than [ESRCH]. *)
Fixpoint apply_watchpoint_to_threads (threads : list Z) (index address size : Z)
    (type : WatchpointType.t) : M bool :=
  match threads with
  | [] => ret true
  | tid :: rest =>
      match arch with
      | ARM64 =>
          r <- call (ptrace_GETREGSET_HW NT_ARM_HW_WATCH tid wp_iov_len) ;;
          if failed r then apply_watchpoint_to_threads rest index address size type
          else
            let wp_state :=
              arm_program_watch (hw_buffer wp_iov_len (r_hw r)) index address size type in
            s <- call (ptrace_SETREGSET_HW NT_ARM_HW_WATCH tid wp_iov_len wp_state) ;;
            if failed s then
              if r_errno s =? ESRCH
              then apply_watchpoint_to_threads rest index address size type
              else ret false
            else apply_watchpoint_to_threads rest index address size type
      | X86_64 =>
          r <- call (ptrace_POKEUSER tid (x86_dr_offset index) address) ;;
          if failed r then
            if r_errno r =? ESRCH
            then apply_watchpoint_to_threads rest index address size type
            else ret false
          else
            p <- call (ptrace_PEEKUSER tid X86_DR7_OFFSET) ;;
            let dr7 := x86_watch_dr7 (to_u64 (r_ret p)) index size type in
            s <- call (ptrace_POKEUSER tid X86_DR7_OFFSET dr7) ;;
            if failed s then
              if r_errno s =? ESRCH
              then apply_watchpoint_to_threads rest index address size type
              else ret false
            else apply_watchpoint_to_threads rest index address size type
      end
  end.

(** [apply_watchpoint_to_thread]: one thread, no re-enabling, every failure
    is an error. *)
Definition apply_watchpoint_to_thread (tid index address size : Z)
    (type : WatchpointType.t) : M bool :=
  match arch with
  | ARM64 =>
      r <- call (ptrace_GETREGSET_HW NT_ARM_HW_WATCH tid wp_iov_len) ;;
      if failed r then ret false
      else
        let wp_state :=
          set_hw_reg index {| addr := address; ctrl := arm_watch_ctrl size type |}
            (hw_buffer wp_iov_len (r_hw r)) in
        s <- call (ptrace_SETREGSET_HW NT_ARM_HW_WATCH tid wp_iov_len wp_state) ;;
        ret (negb (failed s))
  | X86_64 =>
      r <- call (ptrace_POKEUSER tid (x86_dr_offset index) address) ;;
      if failed r then ret false
      else
        p <- call (ptrace_PEEKUSER tid X86_DR7_OFFSET) ;;
        let dr7 := x86_watch_dr7_thread (to_u64 (r_ret p)) index size type in
        s <- call (ptrace_POKEUSER tid X86_DR7_OFFSET dr7) ;;
        ret (negb (failed s))
  end.

Fixpoint clear_watchpoint_from_threads (threads : list Z) (index : Z) : M bool :=
  match threads with
  | [] => ret true
  | tid :: rest =>
      match arch with
      | ARM64 =>
          r <- call (ptrace_GETREGSET_HW NT_ARM_HW_WATCH tid wp_iov_len) ;;
          if failed r then
            if r_errno r =? ESRCH then clear_watchpoint_from_threads rest index
            else ret false
          else
            let wp_state := set_hw_reg index hw_zero (hw_buffer wp_iov_len (r_hw r)) in
            s <- call (ptrace_SETREGSET_HW NT_ARM_HW_WATCH tid wp_iov_len wp_state) ;;
            if failed s then
              if r_errno s =? ESRCH then clear_watchpoint_from_threads rest index
              else ret false
            else clear_watchpoint_from_threads rest index
      | X86_64 =>
          r <- call (ptrace_POKEUSER tid (x86_dr_offset index) 0) ;;
          if failed r then
            if r_errno r =? ESRCH then clear_watchpoint_from_threads rest index
            else ret false
          else
            p <- call (ptrace_PEEKUSER tid X86_DR7_OFFSET) ;;
            let dr7 := x86_dr7_clear (to_u64 (r_ret p)) index in
            s <- call (ptrace_POKEUSER tid X86_DR7_OFFSET dr7) ;;
            if failed s then
              if r_errno s =? ESRCH then clear_watchpoint_from_threads rest index
              else ret false
            else clear_watchpoint_from_threads rest index
      end
  end.

Definition set_watchpoint_internal (address size : Z) (type : WatchpointType.t) : M Z :=
  d <- get_dbg ;;
  let index := find_free_watchpoint d in
  if index =? -1 then ret (-1)
  else
    st <- stop_all_threads 0 ;;
    let stopped_threads := fst st in
    let already_stopped := snd st in
    if bool_decide (stopped_threads = []) then ret (-1)
    else
      success <- apply_watchpoint_to_threads stopped_threads index address size type ;;
      _ <- resume_threads (threads_to_resume stopped_threads already_stopped) ;;
      if success then
        _ <- modify_dbg (fun d =>
               set_watchpoint_types (<[Z.to_nat index := type]> (watchpoint_types d))
               (set_watchpoint_sizes (<[Z.to_nat index := size]> (watchpoint_sizes d))
               (set_watchpoint_addresses
                  (<[Z.to_nat index := address]> (watchpoint_addresses d))
               (set_watchpoint_used (<[Z.to_nat index := true]> (watchpoint_used d)) d)))) ;;
        ret 0
      else ret (-1).

(** [removing.store(v)] together with the matching update of [removing_mask_]. *)
Definition set_removing (index : Z) (v : bool) (d : Debugger) : Debugger :=
  set_removing_mask_
    (if v then Z.lor (removing_mask_ d) (to_u32 (Z.shiftl 1 index))
     else Z.land (removing_mask_ d) (to_u32 (Z.lnot (to_u32 (Z.shiftl 1 index)))))
    (set_watchpoint_sync_
       (alter (fun s => {| removing := v; active_handlers := active_handlers s |})
              (Z.to_nat index) (watchpoint_sync_ d)) d).

Definition add_active_handlers (index delta : Z) (d : Debugger) : Debugger :=
  set_watchpoint_sync_
    (alter (fun s => {| removing := removing s;
                        active_handlers := active_handlers s + delta |})
           (Z.to_nat index) (watchpoint_sync_ d)) d.

(** The drain poll of [remove_watchpoint_internal]: sleep 10 ms while
    [active_handlers > 0], for at most 1000 ms; returns [waited_ms].  Nothing
    else runs on the debugger thread meanwhile, so the counter is constant. *)
Fixpoint drain_poll (fuel : nat) (handlers waited_ms : Z) : Z :=
  match fuel with
  | O => waited_ms
  | S f => if (0 <? handlers) && (waited_ms <? 1000)
           then drain_poll f handlers (waited_ms + 10) else waited_ms
  end.

Definition remove_watchpoint_internal (address : Z) : M Z :=
  d <- get_dbg ;;
  let index := find_watchpoint_index d address in
  if index =? -1 then ret (-1)
  else
    _ <- modify_dbg (set_removing index true) ;;
    st <- stop_all_threads 0 ;;
    let stopped_threads := fst st in
    let already_stopped := snd st in
    if bool_decide (stopped_threads = []) then
      _ <- modify_dbg (set_removing index false) ;;
      ret (-1)
    else
      success <- clear_watchpoint_from_threads stopped_threads index ;;
      _ <- resume_threads (threads_to_resume stopped_threads already_stopped) ;;
      _ <- modify_dbg (set_removing index false) ;;
      if success then
        _ <- modify_dbg (fun d =>
               set_watchpoint_sizes (<[Z.to_nat index := 0]> (watchpoint_sizes d))
               (set_watchpoint_addresses (<[Z.to_nat index := 0]> (watchpoint_addresses d))
               (set_watchpoint_used (<[Z.to_nat index := false]> (watchpoint_used d)) d))) ;;
        ret 0
      else ret (-1).

(** [removing_mask_.load() & (1U << watchpoint_index)]. *)
Definition removing_bit (d : Debugger) (watchpoint_index : Z) : bool :=
  negb (Z.land (removing_mask_ d) (to_u32 (Z.shiftl 1 watchpoint_index)) =? 0).

Definition handle_watchpoint_hit (thread watchpoint_index : Z) : M Z :=
  d <- get_dbg ;;
  if removing_bit d watchpoint_index then
    _ <- call (ptrace_CONT thread 0) ;;
    ret 0
  else
    _ <- modify_dbg (add_active_handlers watchpoint_index 1) ;;
    ok <- match arch with
          | ARM64 =>
              r <- call (ptrace_GETREGSET_HW NT_ARM_HW_WATCH thread wp_iov_len) ;;
              if failed r then
                _ <- modify_dbg (add_active_handlers watchpoint_index (-1)) ;;
                ret false
              else
                let wp_state := hw_buffer wp_iov_len (r_hw r) in
                _ <- modify_dbg (upd_thread thread (fun t =>
                       set_disabled_watchpoint_index watchpoint_index
                         (set_original_wcr
                            (ctrl (at_ (dbg_regs wp_state) watchpoint_index)) t))) ;;
                _ <- call (ptrace_SETREGSET_HW NT_ARM_HW_WATCH thread wp_iov_len
                             (set_hw_ctrl watchpoint_index 0 wp_state)) ;;
                ret true
          | X86_64 =>
              r <- call (ptrace_PEEKUSER thread X86_DR7_OFFSET) ;;
              let dr7 := to_u64 (r_ret r) in
              _ <- modify_dbg (upd_thread thread (fun t =>
                     set_disabled_watchpoint_index watchpoint_index
                       (set_original_wcr (to_u32 (Z.land dr7 0xFFFFFFFF)) t))) ;;
              _ <- call (ptrace_POKEUSER thread X86_DR7_OFFSET
                           (x86_dr7_disable dr7 watchpoint_index)) ;;
              ret true
          end ;;
    if negb ok then ret (-1)
    else
      _ <- modify_dbg (upd_thread thread (fun t =>
             set_is_stopped false
               (set_current_breakpoint_index (-1)
                  (set_single_step_count 0
                     (set_single_step_mode SingleStepMode.Watchpoint t))))) ;;
      r <- call (ptrace_SINGLESTEP thread 0) ;;
      if failed r then
        _ <- modify_dbg (add_active_handlers watchpoint_index (-1)) ;;
        ret (-1)
      else ret 0.

(** The reapply loop of [reapply_all_watchpoints_internal] over the slots. *)
Fixpoint reapply_slots (slots : list Z) (stopped_threads : list Z) (success : bool) : M bool :=
  match slots with
  | [] => ret success
  | i :: rest =>
      d <- get_dbg ;;
      if removing (at_ (watchpoint_sync_ d) i)
      then reapply_slots rest stopped_threads success
      else if at_ (watchpoint_used d) i then
        ok <- apply_watchpoint_to_threads stopped_threads i
                (at_ (watchpoint_addresses d) i) (at_ (watchpoint_sizes d) i)
                (at_ (watchpoint_types d) i) ;;
        reapply_slots rest stopped_threads (if ok then success else false)
      else reapply_slots rest stopped_threads success
  end.

Definition reapply_all_watchpoints_internal (already_stopped_thread : Z) : M Z :=
  st <- stop_all_threads already_stopped_thread ;;
  let already_stopped := snd st in
  let stopped_threads :=
    if negb (already_stopped_thread =? 0)
       && negb (bool_decide (already_stopped_thread ∈ fst st))
    then fst st ++ [already_stopped_thread] else fst st in
  if bool_decide (stopped_threads = []) then ret (-1)
  else
    success <- reapply_slots (seqZ 0 MAX_WATCHPOINTS) stopped_threads true ;;
    let resume := threads_to_resume stopped_threads already_stopped in
    _ <- for_each resume (fun tid => modify_dbg (upd_thread_it tid (set_is_stopped false))) ;;
    _ <- resume_threads resume ;;
    ret (if success then 0 else -1).

(** ** debugger_breakpoint.cpp *)

(** The 4-byte slot [software_breakpoint_original_bytes[index * 4 ..]]. *)
Definition read4 (v : gmap Z Z) (index : Z) : list Z :=
  map (fun k => vget 0 v (index * 4 + k)) [0; 1; 2; 3].

Definition write4 (index : Z) (b : list Z) (v : gmap Z Z) : gmap Z Z :=
  foldl (fun acc k => <[index * 4 + k := at_ b k]> acc) v [0; 1; 2; 3].

Definition find_free_breakpoint (d : Debugger) : Z :=
  scan (fun i => negb (at_ (breakpoint_used d) i)) MAX_BREAKPOINTS.

(** The lowest unused software slot (the scan that opens
    [set_software_breakpoint_internal]). *)
Definition find_free_software_breakpoint (d : Debugger) : Z :=
  scan (fun i => negb (vget false (software_breakpoint_used d) i)) MAX_SOFTWARE_BREAKPOINTS.

(** The lowest used software slot whose address is exactly [address]. *)
Definition find_software_breakpoint (d : Debugger) (address : Z) : Z :=
  scan (fun i => vget false (software_breakpoint_used d) i
                  && (vget 0 (software_breakpoint_addresses d) i =? address))
       MAX_SOFTWARE_BREAKPOINTS.

(** [find_breakpoint_index]: hardware slots first, then software slots
    (offset by 1000), with the one-byte INT3 tolerance on x86_64. *)
Definition find_breakpoint_index (d : Debugger) (address : Z) : Z :=
  let hw := scan (fun i => at_ (breakpoint_used d) i
                            && (at_ (breakpoint_addresses d) i =? address))
                 MAX_BREAKPOINTS in
  if negb (hw =? -1) then hw
  else
    let sw := scan (fun i =>
                      let bp_addr := vget 0 (software_breakpoint_addresses d) i in
                      vget false (software_breakpoint_used d) i
                      && ((bp_addr =? address)
                          || match arch with
                             | ARM64 => false
                             | X86_64 => (0 <? address) && (bp_addr =? address - 1)
                             end))
                   MAX_SOFTWARE_BREAKPOINTS in
    if sw =? -1 then -1 else sw + 1000.

Fixpoint apply_breakpoint_to_threads (threads : list Z) (index address : Z) : M bool :=
  match threads with
  | [] => ret true
  | tid :: rest =>
      match arch with
      | ARM64 =>
          r <- call (ptrace_GETREGSET_HW NT_ARM_HW_BREAK tid bp_iov_len) ;;
          if failed r then
            if r_errno r =? ESRCH then apply_breakpoint_to_threads rest index address
            else ret false
          else
            let bp_state :=
              set_hw_reg index {| addr := address; ctrl := arm_break_ctrl |}
                (reenable_hw MAX_BREAKPOINTS None (fun _ => arm_break_ctrl)
                   (hw_buffer bp_iov_len (r_hw r))) in
            s <- call (ptrace_SETREGSET_HW NT_ARM_HW_BREAK tid bp_iov_len bp_state) ;;
            if failed s then
              if r_errno s =? ESRCH then apply_breakpoint_to_threads rest index address
              else ret false
            else apply_breakpoint_to_threads rest index address
      | X86_64 =>
          r <- call (ptrace_POKEUSER tid (x86_dr_offset index) address) ;;
          if failed r then
            if r_errno r =? ESRCH then apply_breakpoint_to_threads rest index address
            else ret false
          else
            p <- call (ptrace_PEEKUSER tid X86_DR7_OFFSET) ;;
            s <- call (ptrace_POKEUSER tid X86_DR7_OFFSET
                         (x86_break_dr7 (to_u64 (r_ret p)) index)) ;;
            if failed s then
              if r_errno s =? ESRCH then apply_breakpoint_to_threads rest index address
              else ret false
            else apply_breakpoint_to_threads rest index address
      end
  end.

(** [apply_breakpoint_to_thread] (used when a new thread is created). *)
Definition apply_breakpoint_to_thread (tid index address : Z) : M bool :=
  match arch with
  | ARM64 =>
      r <- call (ptrace_GETREGSET_HW NT_ARM_HW_BREAK tid bp_iov_len) ;;
      if failed r then ret false
      else
        s <- call (ptrace_SETREGSET_HW NT_ARM_HW_BREAK tid bp_iov_len
                     (set_hw_reg index {| addr := address; ctrl := arm_break_ctrl |}
                        (hw_buffer bp_iov_len (r_hw r)))) ;;
        ret (negb (failed s))
  | X86_64 =>
      r <- call (ptrace_POKEUSER tid (x86_dr_offset index) address) ;;
      if failed r then ret false
      else
        p <- call (ptrace_PEEKUSER tid X86_DR7_OFFSET) ;;
        s <- call (ptrace_POKEUSER tid X86_DR7_OFFSET
                     (x86_break_dr7 (to_u64 (r_ret p)) index)) ;;
        ret (negb (failed s))
  end.

Fixpoint clear_breakpoint_from_threads (threads : list Z) (index : Z) : M bool :=
  match threads with
  | [] => ret true
  | tid :: rest =>
      match arch with
      | ARM64 =>
          r <- call (ptrace_GETREGSET_HW NT_ARM_HW_BREAK tid bp_iov_len) ;;
          if failed r then
            if r_errno r =? ESRCH then clear_breakpoint_from_threads rest index
            else ret false
          else
            let bp_state :=
              set_hw_reg index hw_zero
                (reenable_hw MAX_BREAKPOINTS (Some index) (fun _ => arm_break_ctrl)
                   (hw_buffer bp_iov_len (r_hw r))) in
            s <- call (ptrace_SETREGSET_HW NT_ARM_HW_BREAK tid bp_iov_len bp_state) ;;
            if failed s then
              if r_errno s =? ESRCH then clear_breakpoint_from_threads rest index
              else ret false
            else clear_breakpoint_from_threads rest index
      | X86_64 =>
          r <- call (ptrace_POKEUSER tid (x86_dr_offset index) 0) ;;
          if failed r then
            if r_errno r =? ESRCH then clear_breakpoint_from_threads rest index
            else ret false
          else
            p <- call (ptrace_PEEKUSER tid X86_DR7_OFFSET) ;;
            s <- call (ptrace_POKEUSER tid X86_DR7_OFFSET
                         (x86_dr7_clear (to_u64 (r_ret p)) index)) ;;
            if failed s then
              if r_errno s =? ESRCH then clear_breakpoint_from_threads rest index
              else ret false
            else clear_breakpoint_from_threads rest index
      end
  end.

Definition set_hardware_breakpoint_internal (address hit_count : Z) : M Z :=
  d <- get_dbg ;;
  let index := find_free_breakpoint d in
  if index =? -1 then ret (-1)
  else
    st <- stop_all_threads 0 ;;
    let stopped_threads := fst st in
    let already_stopped := snd st in
    if bool_decide (stopped_threads = []) then ret (-1)
    else
      success <- apply_breakpoint_to_threads stopped_threads index address ;;
      _ <- resume_threads (threads_to_resume stopped_threads already_stopped) ;;
      if success then
        _ <- modify_dbg (fun d =>
               set_breakpoint_types
                 (<[Z.to_nat index := BreakpointType.HARDWARE]> (breakpoint_types d))
               (set_breakpoint_hit_counts (<[Z.to_nat index := 0]> (breakpoint_hit_counts d))
               (set_breakpoint_target_counts
                  (<[Z.to_nat index := hit_count]> (breakpoint_target_counts d))
               (set_breakpoint_addresses
                  (<[Z.to_nat index := address]> (breakpoint_addresses d))
               (set_breakpoint_used (<[Z.to_nat index := true]> (breakpoint_used d)) d))))) ;;
        ret 0
      else ret (-1).

Definition set_software_breakpoint_internal (address hit_count : Z) : M Z :=
  d <- get_dbg ;;
  let index := find_free_software_breakpoint d in
  if index =? -1 then ret (-1)
  else
    st <- stop_all_threads 0 ;;
    let stopped_threads := fst st in
    let already_stopped := snd st in
    if bool_decide (stopped_threads = []) then ret (-1)
    else
      d <- get_dbg ;;
      r <- call (ptrace_PEEKDATA (pid_ d) address) ;;
      if negb (r_errno r =? 0) then
        _ <- resume_threads (threads_to_resume stopped_threads already_stopped) ;;
        ret (-1)
      else
        let word := to_u64 (r_ret r) in
        let original_bytes := word_prefix_bytes (bp_size arch) word in
        s <- call (ptrace_POKEDATA (pid_ d) address (patch_word arch word)) ;;
        if failed s then
          _ <- resume_threads (threads_to_resume stopped_threads already_stopped) ;;
          ret (-1)
        else
          _ <- resume_threads (threads_to_resume stopped_threads already_stopped) ;;
          _ <- modify_dbg (fun d =>
                 set_software_breakpoint_original_bytes
                   (write4 index original_bytes (software_breakpoint_original_bytes d))
                 (set_software_breakpoint_addresses
                    (<[index := address]> (software_breakpoint_addresses d))
                 (set_software_breakpoint_used
                    (<[index := true]> (software_breakpoint_used d)) d))) ;;
          ret 0.

Definition set_breakpoint_internal (address hit_count : Z) (bp_type : BreakpointType.t) : M Z :=
  match bp_type with
  | BreakpointType.SOFTWARE => set_software_breakpoint_internal address hit_count
  | BreakpointType.HARDWARE => set_hardware_breakpoint_internal address hit_count
  end.

Definition remove_software_breakpoint_internal (address : Z) : M Z :=
  d <- get_dbg ;;
  let index := find_software_breakpoint d address in
  if index =? -1 then ret (-1)
  else
    let original_bytes := read4 (software_breakpoint_original_bytes d) index in
    st <- stop_all_threads 0 ;;
    let stopped_threads := fst st in
    let already_stopped := snd st in
    if bool_decide (stopped_threads = []) then ret (-1)
    else
      d <- get_dbg ;;
      r <- call (ptrace_PEEKDATA (pid_ d) address) ;;
      if negb (r_errno r =? 0) then
        _ <- resume_threads (threads_to_resume stopped_threads already_stopped) ;;
        ret (-1)
      else
        s <- call (ptrace_POKEDATA (pid_ d) address
                     (restore_word arch (r_ret r) original_bytes)) ;;
        if failed s then
          _ <- resume_threads (threads_to_resume stopped_threads already_stopped) ;;
          ret (-1)
        else
          _ <- resume_threads (threads_to_resume stopped_threads already_stopped) ;;
          _ <- modify_dbg (fun d =>
                 set_thread_states_
                   ((fun t => if disabled_watchpoint_index t =? index + 1000
                              then set_disabled_watchpoint_index (-1) t else t)
                      <$> thread_states_ d) d) ;;
          _ <- modify_dbg (fun d =>
                 set_software_breakpoint_original_bytes
                   (write4 index [0; 0; 0; 0] (software_breakpoint_original_bytes d))
                 (set_software_breakpoint_addresses
                    (<[index := 0]> (software_breakpoint_addresses d))
                 (set_software_breakpoint_used
                    (<[index := false]> (software_breakpoint_used d)) d))) ;;
          ret 0.

(** [get_software_breakpoint_original_bytes]: the four stored bytes and
    [*out_size], or [None] for [false]. *)
Definition get_software_breakpoint_original_bytes (d : Debugger) (address : Z)
  : option (list Z * Z) :=
  let index := find_software_breakpoint d address in
  if index =? -1 then None
  else Some (read4 (software_breakpoint_original_bytes d) index, bp_size arch).

Definition set_bp_removing (index : Z) (v : bool) (d : Debugger) : Debugger :=
  set_breakpoint_sync_
    (alter (fun s => {| bp_removing := v; bp_active_handlers := bp_active_handlers s |})
           (Z.to_nat index) (breakpoint_sync_ d)) d.

Definition remove_breakpoint_internal (address : Z) : M Z :=
  d <- get_dbg ;;
  let index := find_breakpoint_index d address in
  if index =? -1 then ret (-1)
  else if 1000 <=? index then remove_software_breakpoint_internal address
  else
    _ <- modify_dbg (set_bp_removing index true) ;;
    st <- stop_all_threads 0 ;;
    let stopped_threads := fst st in
    let already_stopped := snd st in
    if bool_decide (stopped_threads = []) then
      _ <- modify_dbg (set_bp_removing index false) ;;
      ret (-1)
    else
      success <- clear_breakpoint_from_threads stopped_threads index ;;
      _ <- resume_threads (threads_to_resume stopped_threads already_stopped) ;;
      if success then
        _ <- modify_dbg (fun d =>
               set_breakpoint_hit_counts (<[Z.to_nat index := 0]> (breakpoint_hit_counts d))
               (set_breakpoint_target_counts
                  (<[Z.to_nat index := 0]> (breakpoint_target_counts d))
               (set_breakpoint_addresses (<[Z.to_nat index := 0]> (breakpoint_addresses d))
               (set_breakpoint_used (<[Z.to_nat index := false]> (breakpoint_used d)) d)))) ;;
        _ <- modify_dbg (set_bp_removing index false) ;;
        ret 0
      else
        _ <- modify_dbg (set_bp_removing index false) ;;
        ret (-1).

(** Disable hardware breakpoint [index] on one thread (the block repeated
    in [handle_breakpoint_hit] and [single_step_internal]). *)
Definition disable_breakpoint_on_thread (thread index : Z) : M unit :=
  match arch with
  | ARM64 =>
      r <- call (ptrace_GETREGSET_HW NT_ARM_HW_BREAK thread bp_iov_len) ;;
      if r_ret r =? 0 then
        _ <- call (ptrace_SETREGSET_HW NT_ARM_HW_BREAK thread bp_iov_len
                     (set_hw_ctrl index 0 (hw_buffer bp_iov_len (r_hw r)))) ;;
        ret tt
      else ret tt
  | X86_64 =>
      p <- call (ptrace_PEEKUSER thread X86_DR7_OFFSET) ;;
      _ <- call (ptrace_POKEUSER thread X86_DR7_OFFSET
                   (x86_dr7_disable (to_u64 (r_ret p)) index)) ;;
      ret tt
  end.

Definition handle_breakpoint_hit (thread breakpoint_index : Z) : M Z :=
  let is_software_bp := 1000 <=? breakpoint_index in
  let actual_index := if is_software_bp then breakpoint_index - 1000 else breakpoint_index in
  r <- call (ptrace_GETREGS thread) ;;
  if failed r then ret (-1)
  else
    d <- get_dbg ;;
    let in_table := negb is_software_bp && (0 <=? actual_index)
                    && (actual_index <? MAX_BREAKPOINTS) in
    let target_count := if in_table then at_ (breakpoint_target_counts d) actual_index else 0 in
    let current_hit_count := if in_table then at_ (breakpoint_hit_counts d) actual_index else 0 in
    _ <- modify_dbg (fun d =>
           set_thread_states_
             (<[thread :=
                {| single_step_mode := SingleStepMode.Breakpoint;
                   single_step_count := 0;
                   current_breakpoint_index := if is_software_bp then -1 else actual_index;
                   regs := r_regs r;
                   is_attached := true;
                   is_stopped := true;
                   stopped_by_user := false;
                   original_wcr := 0;
                   disabled_watchpoint_index := if is_software_bp then breakpoint_index else -1;
                   pending_signal := 0 |}]> (thread_states_ d)) d) ;;
    if is_software_bp then ret 0
    else if (0 <? target_count) && (current_hit_count <? target_count) then
      _ <- disable_breakpoint_on_thread thread actual_index ;;
      _ <- modify_dbg (set_debug_state_ DebugState.SingleStepping) ;;
      _ <- modify_dbg (upd_thread thread (set_is_stopped false)) ;;
      s <- call (ptrace_SINGLESTEP thread 0) ;;
      if failed s then ret (-1) else ret 0
    else
      _ <- modify_dbg (upd_thread thread (set_is_stopped true)) ;;
      ret 0.

Definition handle_software_breakpoint_continue (thread breakpoint_index : Z) : M Z :=
  let actual_index := breakpoint_index - 1000 in
  if (actual_index <? 0) || (MAX_SOFTWARE_BREAKPOINTS <=? actual_index) then ret (-1)
  else
    d <- get_dbg ;;
    if negb (vget false (software_breakpoint_used d) actual_index) then ret (-1)
    else
      let bp_addr := vget 0 (software_breakpoint_addresses d) actual_index in
      let original_bytes := read4 (software_breakpoint_original_bytes d) actual_index in
      r <- call (ptrace_PEEKDATA thread bp_addr) ;;
      if negb (r_errno r =? 0) then ret (-1)
      else
        s <- call (ptrace_POKEDATA thread bp_addr
                     (restore_word arch (r_ret r) original_bytes)) ;;
        if failed s then ret (-1)
        else
          _ <- modify_dbg (upd_thread thread (fun t =>
                 set_is_stopped false
                   (set_disabled_watchpoint_index breakpoint_index
                      (set_single_step_mode SingleStepMode.SoftwareBreakpointContinue t)))) ;;
          q <- call (ptrace_SINGLESTEP thread 0) ;;
          if failed q then ret (-1) else ret 0.

(** ** debugger_core.cpp: signal configuration and the command queue's input side *)

Definition set_signal_config (signal : Z) (config : SignalConfig) (d : Debugger) : Debugger :=
  set_signal_config_ (<[signal := config]> (signal_config_ d)) d.

Definition get_signal_config (d : Debugger) (signal : Z) : SignalConfig :=
  match signal_config_ d !! signal with
  | Some c => c
  | None => {| catch_signal := false; pass_signal := false |}
  end.

Definition get_all_signal_configs (d : Debugger) : gmap Z SignalConfig := signal_config_ d.

Definition set_all_signal_configs (configs : gmap Z SignalConfig) (d : Debugger) : Debugger :=
  set_signal_config_ configs d.

Definition remove_signal_config (signal : Z) (d : Debugger) : Debugger :=
  set_signal_config_ (delete signal (signal_config_ d)) d.

Definition get_debug_state (d : Debugger) : DebugState.t := debug_state_ d.

Definition is_in_break_state (d : Debugger) : bool :=
  DebugState.eqb (debug_state_ d) DebugState.BreakpointHit
  || DebugState.eqb (debug_state_ d) DebugState.WatchpointHit.

Definition initialize_for_spawn (d : Debugger) : Debugger :=
  set_debug_state_ DebugState.Paused
    (set_current_thread (pid_ d)
       (set_threads_attached_ true
          (upd_thread (pid_ d) (fun t =>
             set_single_step_mode SingleStepMode.None
               (set_current_breakpoint_index (-1)
                  (set_is_stopped true (set_is_attached true t))))
             (set_attached_threads_ ({[pid_ d]} ∪ attached_threads_ d) d)))).

Definition enqueue_command (request : DebugRequest) : M unit :=
  modify_dbg (fun d => set_debug_command_queue_ (debug_command_queue_ d ++ [request]) d).

(** The client's answer to [send_exception_info]: a C++ [bool]. *)
Definition SEND_EXCEPTION_INFO (info : NativeExceptionInfo) (pid : Z) : M bool :=
  r <- call (send_exception_info info pid) ;;
  ret (negb (r_ret r =? 0)).

(** ** debugger_exception.cpp *)

Definition to_i32 (z : Z) : Z :=
  let u := to_u32 z in if u <? 2 ^ 31 then u else u - 2 ^ 32.

(** Write the trap back at a software breakpoint after a step
    (the block repeated twice in [continue_breakpoint_single_step]). *)
Definition reinsert_software_breakpoint (thread_disabled_index : Z) : M unit :=
  let sw_bp_index := thread_disabled_index - 1000 in
  d <- get_dbg ;;
  if (0 <=? sw_bp_index) && (sw_bp_index <? MAX_SOFTWARE_BREAKPOINTS)
     && vget false (software_breakpoint_used d) sw_bp_index then
    let bp_addr := vget 0 (software_breakpoint_addresses d) sw_bp_index in
    r <- call (ptrace_PEEKDATA (pid_ d) bp_addr) ;;
    if r_errno r =? 0 then
      _ <- call (ptrace_POKEDATA (pid_ d) bp_addr (patch_word arch (r_ret r))) ;;
      ret tt
    else ret tt
  else ret tt.

Definition complete_watchpoint_single_step (thread : Z) : M Z :=
  d <- get_dbg ;;
  match thread_states_ d !! thread with
  | None => ret (-1)
  | Some st =>
      let wp_index := disabled_watchpoint_index st in
      _ <- (if (0 <=? wp_index) && (wp_index <? MAX_WATCHPOINTS)
            then modify_dbg (add_active_handlers wp_index (-1)) else ret tt) ;;
      _ <- modify_dbg (upd_thread_it thread (fun t =>
             set_is_stopped false
               (set_disabled_watchpoint_index (-1)
                  (set_original_wcr 0
                     (set_single_step_mode SingleStepMode.None t))))) ;;
      let request := DebugRequest_new DebugCommand.ReapplyWatchpoints in
      _ <- enqueue_command
             {| command := command request; completed := completed request;
                result := result request; address := address request; size := size request;
                watchpoint_type := watchpoint_type request;
                breakpoint_type := breakpoint_type request; hit_count := hit_count request;
                thread_id := thread; reg_name := reg_name request;
                reg_value := reg_value request; reg_value_ptr := reg_value_ptr request;
                memory_buffer := memory_buffer request; memory_size := memory_size request;
                memory_bytes_read := memory_bytes_read request;
                executable_path := executable_path request;
                spawn_args := spawn_args request; spawned_pid := spawned_pid request;
                pty_fd := pty_fd request |} ;;
      ret 0
  end.

Definition continue_breakpoint_single_step (thread : Z) : M Z :=
  d <- get_dbg ;;
  match thread_states_ d !! thread with
  | None => ret (-1)
  | Some st =>
      let bp_index := current_breakpoint_index st in
      let step_mode := single_step_mode st in
      if (bp_index <? 0) || (MAX_BREAKPOINTS <=? bp_index) then
        _ <- (if 1000 <=? disabled_watchpoint_index st then
                _ <- reinsert_software_breakpoint (disabled_watchpoint_index st) ;;
                modify_dbg (upd_thread_it thread (set_disabled_watchpoint_index (-1)))
              else ret tt) ;;
        _ <- modify_dbg (upd_thread_it thread (fun t =>
               set_current_breakpoint_index (-1)
                 (set_single_step_mode SingleStepMode.None t))) ;;
        match step_mode with
        | SingleStepMode.SoftwareBreakpointContinue =>
            _ <- modify_dbg (upd_thread_it thread (set_is_stopped false)) ;;
            _ <- modify_dbg (set_debug_state_ DebugState.Running) ;;
            r <- call (ptrace_CONT thread 0) ;;
            if failed r then ret (-1) else ret 0
        | _ =>
            _ <- modify_dbg (upd_thread_it thread (set_is_stopped true)) ;;
            _ <- modify_dbg (set_debug_state_ DebugState.BreakpointHit) ;;
            ret 0
        end
      else
        let target_count := at_ (breakpoint_target_counts d) bp_index in
        _ <- modify_dbg (fun d =>
               set_breakpoint_hit_counts
                 (<[Z.to_nat bp_index := at_ (breakpoint_hit_counts d) bp_index + 1]>
                    (breakpoint_hit_counts d)) d) ;;
        let current_hit_count := at_ (breakpoint_hit_counts d) bp_index + 1 in
        if (0 <? target_count) && (target_count <=? current_hit_count) then
          _ <- match arch with
               | ARM64 =>
                   r <- call (ptrace_GETREGSET_HW NT_ARM_HW_BREAK thread bp_iov_len) ;;
                   if r_ret r =? 0 then
                     _ <- call (ptrace_SETREGSET_HW NT_ARM_HW_BREAK thread bp_iov_len
                                  (set_hw_reg bp_index hw_zero
                                     (hw_buffer bp_iov_len (r_hw r)))) ;;
                     ret tt
                   else ret tt
               | X86_64 =>
                   p <- call (ptrace_PEEKUSER thread X86_DR7_OFFSET) ;;
                   _ <- call (ptrace_POKEUSER thread X86_DR7_OFFSET
                                (x86_dr7_disable (to_u64 (r_ret p)) bp_index)) ;;
                   _ <- call (ptrace_POKEUSER thread (x86_dr_offset bp_index) 0) ;;
                   ret tt
               end ;;
          _ <- modify_dbg (upd_thread_it thread (fun t =>
                 set_is_stopped false
                   (set_single_step_count 0
                      (set_single_step_mode SingleStepMode.None t)))) ;;
          _ <- modify_dbg (fun d =>
                 set_breakpoint_target_counts
                   (<[Z.to_nat bp_index := 0]> (breakpoint_target_counts d))
                 (set_breakpoint_hit_counts
                    (<[Z.to_nat bp_index := 0]> (breakpoint_hit_counts d))
                 (set_breakpoint_addresses
                    (<[Z.to_nat bp_index := 0]> (breakpoint_addresses d))
                 (set_breakpoint_used
                    (<[Z.to_nat bp_index := false]> (breakpoint_used d)) d)))) ;;
          _ <- modify_dbg (fun d => set_current_thread 0
                                      (set_debug_state_ DebugState.Running d)) ;;
          r <- call (ptrace_CONT thread 0) ;;
          if failed r then ret (-1) else ret 0
        else if (0 <? target_count) && (current_hit_count <? target_count) then
          _ <- modify_dbg (set_debug_state_ DebugState.SingleStepping) ;;
          r <- call (ptrace_SINGLESTEP thread 0) ;;
          if failed r then ret (-1) else ret 0
        else
          _ <- match arch with
               | ARM64 =>
                   r <- call (ptrace_GETREGSET_HW NT_ARM_HW_BREAK thread bp_iov_len) ;;
                   if r_ret r =? 0 then
                     d <- get_dbg ;;
                     _ <- call (ptrace_SETREGSET_HW NT_ARM_HW_BREAK thread bp_iov_len
                                  (set_hw_reg bp_index
                                     {| addr := at_ (breakpoint_addresses d) bp_index;
                                        ctrl := arm_break_ctrl |}
                                     (hw_buffer bp_iov_len (r_hw r)))) ;;
                     ret tt
                   else ret tt
               | X86_64 =>
                   p <- call (ptrace_PEEKUSER thread X86_DR7_OFFSET) ;;
                   _ <- call (ptrace_POKEUSER thread X86_DR7_OFFSET
                                (x86_break_dr7 (to_u64 (r_ret p)) bp_index)) ;;
                   ret tt
               end ;;
          _ <- (if 1000 <=? disabled_watchpoint_index st then
                  _ <- reinsert_software_breakpoint (disabled_watchpoint_index st) ;;
                  modify_dbg (upd_thread_it thread (set_disabled_watchpoint_index (-1)))
                else ret tt) ;;
          _ <- modify_dbg (upd_thread_it thread (fun t =>
                 set_is_stopped true
                   (set_single_step_count 0
                      (set_single_step_mode SingleStepMode.None t)))) ;;
          _ <- modify_dbg (set_debug_state_ DebugState.BreakpointHit) ;;
          ret 0
  end.

Definition handle_single_step (thread : Z) : M Z :=
  d <- get_dbg ;;
  match thread_states_ d !! thread with
  | None => ret (-1)
  | Some st =>
      match single_step_mode st with
      | SingleStepMode.Watchpoint => complete_watchpoint_single_step thread
      | SingleStepMode.Breakpoint
      | SingleStepMode.SoftwareBreakpointContinue => continue_breakpoint_single_step thread
      | _ => ret (-1)
      end
  end.

(** Watchpoint attribution in the SIGTRAP branch.  x86_64: the lowest used
    slot whose DR6 bit is set.  ARM64: the lowest used slot whose range holds
    the fault address, else the lowest used slot in the same 8-byte block. *)
Definition x86_watch_hit (d : Debugger) (dr6 : Z) : Z :=
  scan (fun i => negb (Z.land dr6 (Z.shiftl 1 i) =? 0) && at_ (watchpoint_used d) i)
       MAX_WATCHPOINTS.

Definition arm_watch_hit (d : Debugger) (fault_address : Z) : Z :=
  let exact :=
    scan (fun i =>
            let wp_start := at_ (watchpoint_addresses d) i in
            let wp_end := to_u64 (wp_start + at_ (watchpoint_sizes d) i) in
            at_ (watchpoint_used d) i && (wp_start <=? fault_address)
            && (fault_address <? wp_end))
         MAX_WATCHPOINTS in
  if negb (exact =? -1) then exact
  else
    scan (fun i =>
            at_ (watchpoint_used d) i
            && (Z.land fault_address (not64 7)
                =? Z.land (at_ (watchpoint_addresses d) i) (not64 7)))
         MAX_WATCHPOINTS.

(** [regs.rip = bp_addr] *)
Definition regs_set_pc (a : Arch) : regs_t a -> Z -> regs_t a :=
  match a with
  | ARM64 => fun r v =>
      {| Arm64.regs := Arm64.regs r; Arm64.sp := Arm64.sp r; Arm64.pc := v;
         Arm64.pstate := Arm64.pstate r |}
  | X86_64 => fun r v =>
      X86.Build_user_regs_struct (X86.r15 r) (X86.r14 r) (X86.r13 r) (X86.r12 r)
        (X86.rbp r) (X86.rbx r) (X86.r11 r) (X86.r10 r) (X86.r9 r) (X86.r8 r) (X86.rax r)
        (X86.rcx r) (X86.rdx r) (X86.rsi r) (X86.rdi r) (X86.orig_rax r) v (X86.cs r)
        (X86.eflags r) (X86.rsp r) (X86.ss r) (X86.fs_base r) (X86.gs_base r) (X86.ds r)
        (X86.es r) (X86.fs r) (X86.gs r)
  end.

Definition exception_type_of_signal (signal : Z) : Z :=
  if signal =? SIGSEGV then EXCEPTION_SIGSEGV
  else if signal =? SIGBUS then EXCEPTION_SIGBUS
  else if signal =? SIGFPE then EXCEPTION_SIGFPE
  else if signal =? SIGILL then EXCEPTION_SIGILL
  else if signal =? SIGABRT then EXCEPTION_SIGABRT
  else EXCEPTION_SIGNAL.

(** [if (watchpoint_hit && wp_index != -1)] of [case SIGTRAP]: record the
    hit, notify the client, then hand over to [handle_watchpoint_hit]. *)
Definition watchpoint_hit_branch (pid : Z) (regs0 : regs_t arch) (wp_index : Z) : M Z :=
  _ <- modify_dbg (fun d =>
         upd_thread pid (fun t =>
           set_is_stopped true (set_current_breakpoint_index (-1) (set_regs regs0 t)))
           (set_current_thread pid (set_debug_state_ DebugState.WatchpointHit d))) ;;
  d <- get_dbg ;;
  _ <- SEND_EXCEPTION_INFO
         (populate_exception_info arch regs0 EXCEPTION_WATCHPOINT pid
            (at_ (watchpoint_addresses d) wp_index) 0 false) (pid_ d) ;;
  handle_watchpoint_hit pid wp_index.

(** [if (bp_index != -1)] of [case SIGTRAP], in three steps.  First the hit
    is recorded: on x86_64 the program counter of a software breakpoint is
    moved back onto the trap, the hit count of a hardware breakpoint is
    incremented, and the state becomes BreakpointHit.  Returns the registers
    and [target_count]. *)
Definition record_breakpoint_hit (pid : Z) (regs0 : regs_t arch) (bp_index : Z)
  : M (regs_t arch * Z) :=
  d <- get_dbg ;;
  let is_software_bp := 1000 <=? bp_index in
  let actual_index := if is_software_bp then bp_index - 1000 else bp_index in
  regs1 <- match arch with
           | X86_64 =>
               if is_software_bp && (0 <=? actual_index)
                  && (actual_index <? MAX_SOFTWARE_BREAKPOINTS)
                  && vget false (software_breakpoint_used d) actual_index
                  && negb (regs_pc arch regs0
                           =? vget 0 (software_breakpoint_addresses d) actual_index)
               then
                 let regs1 := regs_set_pc arch regs0
                                (vget 0 (software_breakpoint_addresses d) actual_index) in
                 _ <- call (ptrace_SETREGS pid regs1) ;;
                 ret regs1
               else ret regs0
           | ARM64 => ret regs0
           end ;;
  let in_table := negb is_software_bp && (0 <=? actual_index)
                  && (actual_index <? MAX_BREAKPOINTS) in
  let target_count :=
    if in_table then at_ (breakpoint_target_counts d) actual_index else 0 in
  _ <- (if in_table then
          modify_dbg (fun d =>
            set_breakpoint_hit_counts
              (<[Z.to_nat actual_index := at_ (breakpoint_hit_counts d) actual_index + 1]>
                 (breakpoint_hit_counts d)) d)
        else ret tt) ;;
  _ <- modify_dbg (fun d =>
         upd_thread pid (fun t =>
           let t := set_is_stopped true
                      (set_current_breakpoint_index
                         (if is_software_bp then -1 else actual_index)
                         (set_regs regs1 t)) in
           if is_software_bp then set_disabled_watchpoint_index bp_index t else t)
           (set_current_thread pid (set_debug_state_ DebugState.BreakpointHit d))) ;;
  ret (regs1, target_count).

(** Last, the client's answer is acted upon: [false] continues silently,
    [true] enters the break state through [handle_breakpoint_hit]. *)
Definition answer_breakpoint_hit (pid bp_index : Z) (should_break : bool) : M Z :=
  if negb should_break then
    _ <- modify_dbg (upd_thread pid (set_is_stopped false)) ;;
    if 1000 <=? bp_index then handle_software_breakpoint_continue pid bp_index
    else
      c <- call (ptrace_CONT pid 0) ;;
      if failed c then ret (-1) else ret 0
  else handle_breakpoint_hit pid bp_index.

(** In between, the client is asked whether to break. *)
Definition breakpoint_hit_branch (pid : Z) (regs0 : regs_t arch) (bp_index : Z) : M Z :=
  d <- get_dbg ;;
  p <- record_breakpoint_hit pid regs0 bp_index ;;
  should_break <- SEND_EXCEPTION_INFO
                    (set_is_trace (if 0 <? snd p then 1 else 0)
                       (populate_exception_info arch (fst p) EXCEPTION_BREAKPOINT pid
                          0 0 false)) (pid_ d) ;;
  answer_breakpoint_hit pid bp_index should_break.

(** The [case SIGTRAP] branch of [handle_exception] once the thread is known
    not to be completing a single step: watchpoint hit, then breakpoint hit,
    else leave the thread stopped. *)
Definition handle_trap_hit (pid : Z) (regs0 : regs_t arch) : M Z :=
  si <- call (ptrace_GETSIGINFO pid) ;;
  let has_fault_address := r_ret si =? 0 in
  let fault_address := if has_fault_address then to_u64 (r_out si) else 0 in
  wp_index <- match arch with
              | X86_64 =>
                  q <- call (ptrace_PEEKUSER pid X86_DR6_OFFSET) ;;
                  if r_errno q =? 0 then
                    d <- get_dbg ;;
                    let i := x86_watch_hit d (to_u64 (r_ret q)) in
                    if negb (i =? -1) then
                      _ <- call (ptrace_POKEUSER pid X86_DR6_OFFSET 0) ;;
                      ret i
                    else ret (-1)
                  else ret (-1)
              | ARM64 =>
                  d <- get_dbg ;;
                  if has_fault_address && negb (fault_address =? 0)
                  then ret (arm_watch_hit d fault_address) else ret (-1)
              end ;;
  if negb (wp_index =? -1) then watchpoint_hit_branch pid regs0 wp_index
  else
    d <- get_dbg ;;
    let bp_index := find_breakpoint_index d (regs_pc arch regs0) in
    if negb (bp_index =? -1) then breakpoint_hit_branch pid regs0 bp_index
    else ret 0.

(** [case SIGTRAP]. *)
Definition handle_sigtrap (pid : Z) : M Z :=
  g <- call (ptrace_GETREGS pid) ;;
  if failed g then
    _ <- match arch with
         | ARM64 => _ <- call (ptrace_GETREGSET_HW NT_ARM_HW_BREAK pid 264) ;; ret tt
         | X86_64 => ret tt
         end ;;
    ret 0
  else
    let regs0 := r_regs g in
    d <- get_dbg ;;
    match thread_states_ d !! pid with
    | Some st =>
        if negb (SingleStepMode.is_None (single_step_mode st)) then
          let bp_index := current_breakpoint_index st in
          let trace_flag :=
            if (0 <=? bp_index) && (bp_index <? MAX_BREAKPOINTS)
            then 0 <? at_ (breakpoint_target_counts d) bp_index else false in
          _ <- SEND_EXCEPTION_INFO
                 (set_is_trace (if trace_flag then 1 else 0)
                    (populate_exception_info arch regs0 EXCEPTION_SINGLESTEP pid 0
                       (SingleStepMode.to_Z (single_step_mode st)) false)) (pid_ d) ;;
          handle_single_step pid
        else handle_trap_hit pid regs0
    | None => handle_trap_hit pid regs0
    end.

(** [case SIGSTOP: case SIGTSTP:]. *)
Definition handle_sigstop (pid : Z) : M Z :=
  d <- get_dbg ;;
  if user_suspend_pending_ d then
    _ <- modify_dbg (upd_thread pid (fun t =>
           set_stopped_by_user true (set_is_stopped true t))) ;;
    _ <- call (sys_kill pid SIGSTOP) ;;
    ret 0
  else
    _ <- modify_dbg (upd_thread pid (set_is_stopped true)) ;;
    ret 0.

(** [case SIGCONT:]. *)
Definition handle_sigcont (pid : Z) : M Z :=
  d <- get_dbg ;;
  _ <- (match thread_states_ d !! pid with
        | Some st =>
            if stopped_by_user st then
              modify_dbg (upd_thread_it pid (fun t =>
                set_is_stopped false (set_stopped_by_user false t)))
            else ret tt
        | None => ret tt
        end) ;;
  k <- call (sys_kill pid SIGCONT) ;;
  if failed k then ret (-1) else ret 0.

(** [default:] of the signal switch. *)
Definition handle_signal (pid signal : Z) : M Z :=
  d <- get_dbg ;;
  let config := get_signal_config d signal in
  caught <-
    (if catch_signal config then
       g <- call (ptrace_GETREGS pid) ;;
       if r_ret g =? 0 then
         si <- call (ptrace_GETSIGINFO pid) ;;
         let fault_addr := if r_ret si =? 0 then to_u64 (r_out si) else 0 in
         _ <- modify_dbg (fun d =>
                upd_thread pid (fun t =>
                  set_pending_signal (if pass_signal config then signal else 0)
                    (set_is_stopped true
                       (set_current_breakpoint_index (-1) (set_regs (r_regs g) t))))
                  (set_current_thread pid (set_debug_state_ DebugState.Paused d))) ;;
         _ <- SEND_EXCEPTION_INFO
                (populate_exception_info arch (r_regs g) (exception_type_of_signal signal)
                   pid fault_addr 0 false) (pid_ d) ;;
         ret true
       else ret false
     else ret false) ;;
  if caught : bool then ret 0
  else
    let signal_to_pass :=
      if pass_signal config || (signal =? 30) || (signal =? 24) then signal else 0 in
    d <- get_dbg ;;
    let thread_it := thread_states_ d !! pid in
    _ <- modify_dbg (upd_thread_it pid (set_is_stopped false)) ;;
    let use_single_step :=
      match thread_it with
      | Some st => negb (SingleStepMode.is_None (single_step_mode st))
      | None => false
      end in
    c <- call (if use_single_step then ptrace_SINGLESTEP pid signal_to_pass
               else ptrace_CONT pid signal_to_pass) ;;
    if failed c then
      _ <- modify_dbg (upd_thread_it pid (set_is_stopped true)) ;;
      ret (-1)
    else ret 0.

Definition handle_exception (pid status : Z) : M Z :=
  if WIFSTOPPED status then
    if Z.shiftr status 16 =? PTRACE_EVENT_CLONE then
      m <- call (ptrace_GETEVENTMSG pid) ;;
      _ <- (if (r_ret m =? 0) && (0 <? to_u64 (r_out m)) then
              let new_thread := to_i32 (to_u64 (r_out m)) in
              modify_dbg (fun d =>
                upd_thread new_thread (set_is_attached true)
                  (set_attached_threads_ ({[new_thread]} ∪ attached_threads_ d) d))
            else ret tt) ;;
      _ <- call (ptrace_CONT pid 0) ;;
      ret 0
    else if Z.shiftr status 16 =? PTRACE_EVENT_STOP then
      _ <- call (ptrace_CONT pid 0) ;;
      ret 0
    else
      let signal := WSTOPSIG status in
      if signal =? SIGTRAP then handle_sigtrap pid
      else if (signal =? SIGSTOP) || (signal =? SIGTSTP) then handle_sigstop pid
      else if signal =? SIGCONT then handle_sigcont pid
      else handle_signal pid signal
  else if WIFEXITED status then
    _ <- modify_dbg (erase_thread pid) ;;
    ret 0
  else ret 0.

(** Restore the original bytes at [current_pc] for slot [index]
    (the block of [continue_execution_internal] and [single_step_internal]);
    returns whether the word was read and written. *)
Definition restore_original_at (index current_pc : Z) : M bool :=
  d <- get_dbg ;;
  r <- call (ptrace_PEEKDATA (pid_ d) current_pc) ;;
  if r_errno r =? 0 then
    s <- call (ptrace_POKEDATA (pid_ d) current_pc
                 (restore_word arch (r_ret r)
                    (read4 (software_breakpoint_original_bytes d) index))) ;;
    ret (negb (failed s))
  else ret false.

Definition continue_execution_internal (thread_id : Z) : M Z :=
  d <- get_dbg ;;
  match thread_states_ d !! thread_id with
  | None => ret (if DebugState.eqb (debug_state_ d) DebugState.Running then 0 else -1)
  | Some st =>
      if negb (is_stopped st) then ret (-1)
      else if negb (bool_decide (thread_id ∈ attached_threads_ d)) then ret (-1)
      else
        let sw_bp_index := disabled_watchpoint_index st in
        if 1000 <=? sw_bp_index then
          let actual_sw_index := sw_bp_index - 1000 in
          let current_pc := regs_pc arch (regs st) in
          _ <- (if (0 <=? actual_sw_index) && (actual_sw_index <? MAX_SOFTWARE_BREAKPOINTS)
                   && vget false (software_breakpoint_used d) actual_sw_index
                   && (vget 0 (software_breakpoint_addresses d) actual_sw_index =? current_pc)
                then _ <- restore_original_at actual_sw_index current_pc ;; ret tt
                else ret tt) ;;
          _ <- modify_dbg (upd_thread_it thread_id (fun t =>
                 set_pending_signal 0
                   (set_stopped_by_user false
                      (set_is_stopped false
                         (set_single_step_count 0
                            (set_single_step_mode
                               SingleStepMode.SoftwareBreakpointContinue t)))))) ;;
          _ <- modify_dbg (set_debug_state_ DebugState.SingleStepping) ;;
          s <- call (ptrace_SINGLESTEP thread_id (pending_signal st)) ;;
          if failed s then ret (-1) else ret 0
        else
          _ <- modify_dbg (upd_thread_it thread_id (set_pending_signal 0)) ;;
          c <- call (ptrace_CONT thread_id (pending_signal st)) ;;
          if failed c then ret (-1)
          else
            _ <- modify_dbg (upd_thread_it thread_id (fun t =>
                   set_stopped_by_user false (set_is_stopped false t))) ;;
            _ <- modify_dbg (fun d =>
                   if current_thread d =? thread_id then
                     if existsb (fun p : Z * ThreadState => is_stopped (snd p))
                                (map_to_list (thread_states_ d))
                     then d
                     else set_current_thread 0 (set_debug_state_ DebugState.Running d)
                   else d) ;;
            ret 0
  end.

Definition single_step_internal (thread_id : Z) : M Z :=
  d <- get_dbg ;;
  match thread_states_ d !! thread_id with
  | None => ret (-1)
  | Some st =>
      if negb (bool_decide (thread_id ∈ attached_threads_ d)) then ret (-1)
      else if negb (is_stopped st) then ret (-1)
      else
        g <- call (ptrace_GETREGS thread_id) ;;
        let current_pc := if r_ret g =? 0 then regs_pc arch (r_regs g) else 0 in
        _ <- (if negb (current_pc =? 0) then
                let i := find_software_breakpoint d current_pc in
                if negb (i =? -1) then
                  ok <- restore_original_at i current_pc ;;
                  if ok : bool then
                    modify_dbg (upd_thread_it thread_id
                                  (set_disabled_watchpoint_index (i + 1000)))
                  else ret tt
                else ret tt
              else ret tt) ;;
        let bp_index := current_breakpoint_index st in
        _ <- (if (0 <=? bp_index) && (bp_index <? MAX_BREAKPOINTS)
              then disable_breakpoint_on_thread thread_id bp_index else ret tt) ;;
        _ <- modify_dbg (fun d =>
               if current_thread d =? thread_id
               then set_debug_state_ DebugState.SingleStepping d else d) ;;
        _ <- modify_dbg (upd_thread_it thread_id (fun t =>
               set_pending_signal 0
                 (set_is_stopped false
                    (set_single_step_count 0
                       (if SingleStepMode.is_None (single_step_mode t)
                        then set_single_step_mode SingleStepMode.Breakpoint t else t))))) ;;
        s <- call (ptrace_SINGLESTEP thread_id (pending_signal st)) ;;
        if failed s then ret (-1) else ret 0
  end.

(** ** debugger_register.cpp *)

(** [regs.regs[i] = value]. *)
Definition arm64_set_x (i : nat) (value : Z) (r : Arm64.user_pt_regs) : Arm64.user_pt_regs :=
  {| Arm64.regs := <[i := value]> (Arm64.regs r); Arm64.sp := Arm64.sp r;
     Arm64.pc := Arm64.pc r; Arm64.pstate := Arm64.pstate r |}.

(** The ARM64 register-name chain of [read_register_internal]; [None] is
    the [Unknown register] branch. *)
Definition arm64_read_reg (reg_name : string) (r : Arm64.user_pt_regs) : option Z :=
  if (reg_name =? "x0")%string then Some (Arm64.regs r !!! 0%nat)
  else if (reg_name =? "x1")%string then Some (Arm64.regs r !!! 1%nat)
  else if (reg_name =? "x2")%string then Some (Arm64.regs r !!! 2%nat)
  else if (reg_name =? "x3")%string then Some (Arm64.regs r !!! 3%nat)
  else if (reg_name =? "x4")%string then Some (Arm64.regs r !!! 4%nat)
  else if (reg_name =? "x5")%string then Some (Arm64.regs r !!! 5%nat)
  else if (reg_name =? "x6")%string then Some (Arm64.regs r !!! 6%nat)
  else if (reg_name =? "x7")%string then Some (Arm64.regs r !!! 7%nat)
  else if (reg_name =? "x8")%string then Some (Arm64.regs r !!! 8%nat)
  else if (reg_name =? "x9")%string then Some (Arm64.regs r !!! 9%nat)
  else if (reg_name =? "x10")%string then Some (Arm64.regs r !!! 10%nat)
  else if (reg_name =? "x11")%string then Some (Arm64.regs r !!! 11%nat)
  else if (reg_name =? "x12")%string then Some (Arm64.regs r !!! 12%nat)
  else if (reg_name =? "x13")%string then Some (Arm64.regs r !!! 13%nat)
  else if (reg_name =? "x14")%string then Some (Arm64.regs r !!! 14%nat)
  else if (reg_name =? "x15")%string then Some (Arm64.regs r !!! 15%nat)
  else if (reg_name =? "x16")%string then Some (Arm64.regs r !!! 16%nat)
  else if (reg_name =? "x17")%string then Some (Arm64.regs r !!! 17%nat)
  else if (reg_name =? "x18")%string then Some (Arm64.regs r !!! 18%nat)
  else if (reg_name =? "x19")%string then Some (Arm64.regs r !!! 19%nat)
  else if (reg_name =? "x20")%string then Some (Arm64.regs r !!! 20%nat)
  else if (reg_name =? "x21")%string then Some (Arm64.regs r !!! 21%nat)
  else if (reg_name =? "x22")%string then Some (Arm64.regs r !!! 22%nat)
  else if (reg_name =? "x23")%string then Some (Arm64.regs r !!! 23%nat)
  else if (reg_name =? "x24")%string then Some (Arm64.regs r !!! 24%nat)
  else if (reg_name =? "x25")%string then Some (Arm64.regs r !!! 25%nat)
  else if (reg_name =? "x26")%string then Some (Arm64.regs r !!! 26%nat)
  else if (reg_name =? "x27")%string then Some (Arm64.regs r !!! 27%nat)
  else if (reg_name =? "x28")%string then Some (Arm64.regs r !!! 28%nat)
  else if (reg_name =? "x29")%string then Some (Arm64.regs r !!! 29%nat)
  else if (reg_name =? "x30")%string then Some (Arm64.regs r !!! 30%nat)
  else if (reg_name =? "sp")%string then Some (Arm64.sp r)
  else if (reg_name =? "pc")%string then Some (Arm64.pc r)
  else if (reg_name =? "pstate")%string then Some (Arm64.pstate r)
  else None.

(** The ARM64 register-name chain of [write_register_internal]. *)
Definition arm64_write_reg (reg_name : string) (value : Z) (r : Arm64.user_pt_regs)
  : option Arm64.user_pt_regs :=
  if (reg_name =? "x0")%string then Some (arm64_set_x 0 value r)
  else if (reg_name =? "x1")%string then Some (arm64_set_x 1 value r)
  else if (reg_name =? "x2")%string then Some (arm64_set_x 2 value r)
  else if (reg_name =? "x3")%string then Some (arm64_set_x 3 value r)
  else if (reg_name =? "x4")%string then Some (arm64_set_x 4 value r)
  else if (reg_name =? "x5")%string then Some (arm64_set_x 5 value r)
  else if (reg_name =? "x6")%string then Some (arm64_set_x 6 value r)
  else if (reg_name =? "x7")%string then Some (arm64_set_x 7 value r)
  else if (reg_name =? "x8")%string then Some (arm64_set_x 8 value r)
  else if (reg_name =? "x9")%string then Some (arm64_set_x 9 value r)
  else if (reg_name =? "x10")%string then Some (arm64_set_x 10 value r)
  else if (reg_name =? "x11")%string then Some (arm64_set_x 11 value r)
  else if (reg_name =? "x12")%string then Some (arm64_set_x 12 value r)
  else if (reg_name =? "x13")%string then Some (arm64_set_x 13 value r)
  else if (reg_name =? "x14")%string then Some (arm64_set_x 14 value r)
  else if (reg_name =? "x15")%string then Some (arm64_set_x 15 value r)
  else if (reg_name =? "x16")%string then Some (arm64_set_x 16 value r)
  else if (reg_name =? "x17")%string then Some (arm64_set_x 17 value r)
  else if (reg_name =? "x18")%string then Some (arm64_set_x 18 value r)
  else if (reg_name =? "x19")%string then Some (arm64_set_x 19 value r)
  else if (reg_name =? "x20")%string then Some (arm64_set_x 20 value r)
  else if (reg_name =? "x21")%string then Some (arm64_set_x 21 value r)
  else if (reg_name =? "x22")%string then Some (arm64_set_x 22 value r)
  else if (reg_name =? "x23")%string then Some (arm64_set_x 23 value r)
  else if (reg_name =? "x24")%string then Some (arm64_set_x 24 value r)
  else if (reg_name =? "x25")%string then Some (arm64_set_x 25 value r)
  else if (reg_name =? "x26")%string then Some (arm64_set_x 26 value r)
  else if (reg_name =? "x27")%string then Some (arm64_set_x 27 value r)
  else if (reg_name =? "x28")%string then Some (arm64_set_x 28 value r)
  else if (reg_name =? "x29")%string then Some (arm64_set_x 29 value r)
  else if (reg_name =? "x30")%string then Some (arm64_set_x 30 value r)
  else if (reg_name =? "sp")%string then
    Some {| Arm64.regs := Arm64.regs r; Arm64.sp := value; Arm64.pc := Arm64.pc r;
            Arm64.pstate := Arm64.pstate r |}
  else if (reg_name =? "pc")%string then
    Some {| Arm64.regs := Arm64.regs r; Arm64.sp := Arm64.sp r; Arm64.pc := value;
            Arm64.pstate := Arm64.pstate r |}
  else if (reg_name =? "pstate")%string then
    Some {| Arm64.regs := Arm64.regs r; Arm64.sp := Arm64.sp r; Arm64.pc := Arm64.pc r;
            Arm64.pstate := value |}
  else None.

Definition x86_set_rax (value : Z) (r : X86.user_regs_struct) : X86.user_regs_struct :=
  X86.Build_user_regs_struct (X86.r15 r) (X86.r14 r) (X86.r13 r) (X86.r12 r) (X86.rbp r)
    (X86.rbx r) (X86.r11 r) (X86.r10 r) (X86.r9 r) (X86.r8 r) value (X86.rcx r) (X86.rdx r)
    (X86.rsi r) (X86.rdi r) (X86.orig_rax r) (X86.rip r) (X86.cs r) (X86.eflags r) (X86.rsp
    r) (X86.ss r) (X86.fs_base r) (X86.gs_base r) (X86.ds r) (X86.es r) (X86.fs r) (X86.gs
    r).

Definition x86_set_rbx (value : Z) (r : X86.user_regs_struct) : X86.user_regs_struct :=
  X86.Build_user_regs_struct (X86.r15 r) (X86.r14 r) (X86.r13 r) (X86.r12 r) (X86.rbp r)
    value (X86.r11 r) (X86.r10 r) (X86.r9 r) (X86.r8 r) (X86.rax r) (X86.rcx r) (X86.rdx r)
    (X86.rsi r) (X86.rdi r) (X86.orig_rax r) (X86.rip r) (X86.cs r) (X86.eflags r) (X86.rsp
    r) (X86.ss r) (X86.fs_base r) (X86.gs_base r) (X86.ds r) (X86.es r) (X86.fs r) (X86.gs
    r).

Definition x86_set_rcx (value : Z) (r : X86.user_regs_struct) : X86.user_regs_struct :=
  X86.Build_user_regs_struct (X86.r15 r) (X86.r14 r) (X86.r13 r) (X86.r12 r) (X86.rbp r)
    (X86.rbx r) (X86.r11 r) (X86.r10 r) (X86.r9 r) (X86.r8 r) (X86.rax r) value (X86.rdx r)
    (X86.rsi r) (X86.rdi r) (X86.orig_rax r) (X86.rip r) (X86.cs r) (X86.eflags r) (X86.rsp
    r) (X86.ss r) (X86.fs_base r) (X86.gs_base r) (X86.ds r) (X86.es r) (X86.fs r) (X86.gs
    r).

Definition x86_set_rdx (value : Z) (r : X86.user_regs_struct) : X86.user_regs_struct :=
  X86.Build_user_regs_struct (X86.r15 r) (X86.r14 r) (X86.r13 r) (X86.r12 r) (X86.rbp r)
    (X86.rbx r) (X86.r11 r) (X86.r10 r) (X86.r9 r) (X86.r8 r) (X86.rax r) (X86.rcx r) value
    (X86.rsi r) (X86.rdi r) (X86.orig_rax r) (X86.rip r) (X86.cs r) (X86.eflags r) (X86.rsp
    r) (X86.ss r) (X86.fs_base r) (X86.gs_base r) (X86.ds r) (X86.es r) (X86.fs r) (X86.gs
    r).

Definition x86_set_rsi (value : Z) (r : X86.user_regs_struct) : X86.user_regs_struct :=
  X86.Build_user_regs_struct (X86.r15 r) (X86.r14 r) (X86.r13 r) (X86.r12 r) (X86.rbp r)
    (X86.rbx r) (X86.r11 r) (X86.r10 r) (X86.r9 r) (X86.r8 r) (X86.rax r) (X86.rcx r)
    (X86.rdx r) value (X86.rdi r) (X86.orig_rax r) (X86.rip r) (X86.cs r) (X86.eflags r)
    (X86.rsp r) (X86.ss r) (X86.fs_base r) (X86.gs_base r) (X86.ds r) (X86.es r) (X86.fs r)
    (X86.gs r).

Definition x86_set_rdi (value : Z) (r : X86.user_regs_struct) : X86.user_regs_struct :=
  X86.Build_user_regs_struct (X86.r15 r) (X86.r14 r) (X86.r13 r) (X86.r12 r) (X86.rbp r)
    (X86.rbx r) (X86.r11 r) (X86.r10 r) (X86.r9 r) (X86.r8 r) (X86.rax r) (X86.rcx r)
    (X86.rdx r) (X86.rsi r) value (X86.orig_rax r) (X86.rip r) (X86.cs r) (X86.eflags r)
    (X86.rsp r) (X86.ss r) (X86.fs_base r) (X86.gs_base r) (X86.ds r) (X86.es r) (X86.fs r)
    (X86.gs r).

Definition x86_set_rbp (value : Z) (r : X86.user_regs_struct) : X86.user_regs_struct :=
  X86.Build_user_regs_struct (X86.r15 r) (X86.r14 r) (X86.r13 r) (X86.r12 r) value (X86.rbx
    r) (X86.r11 r) (X86.r10 r) (X86.r9 r) (X86.r8 r) (X86.rax r) (X86.rcx r) (X86.rdx r)
    (X86.rsi r) (X86.rdi r) (X86.orig_rax r) (X86.rip r) (X86.cs r) (X86.eflags r) (X86.rsp
    r) (X86.ss r) (X86.fs_base r) (X86.gs_base r) (X86.ds r) (X86.es r) (X86.fs r) (X86.gs
    r).

Definition x86_set_rsp (value : Z) (r : X86.user_regs_struct) : X86.user_regs_struct :=
  X86.Build_user_regs_struct (X86.r15 r) (X86.r14 r) (X86.r13 r) (X86.r12 r) (X86.rbp r)
    (X86.rbx r) (X86.r11 r) (X86.r10 r) (X86.r9 r) (X86.r8 r) (X86.rax r) (X86.rcx r)
    (X86.rdx r) (X86.rsi r) (X86.rdi r) (X86.orig_rax r) (X86.rip r) (X86.cs r) (X86.eflags
    r) value (X86.ss r) (X86.fs_base r) (X86.gs_base r) (X86.ds r) (X86.es r) (X86.fs r)
    (X86.gs r).

Definition x86_set_r8 (value : Z) (r : X86.user_regs_struct) : X86.user_regs_struct :=
  X86.Build_user_regs_struct (X86.r15 r) (X86.r14 r) (X86.r13 r) (X86.r12 r) (X86.rbp r)
    (X86.rbx r) (X86.r11 r) (X86.r10 r) (X86.r9 r) value (X86.rax r) (X86.rcx r) (X86.rdx r)
    (X86.rsi r) (X86.rdi r) (X86.orig_rax r) (X86.rip r) (X86.cs r) (X86.eflags r) (X86.rsp
    r) (X86.ss r) (X86.fs_base r) (X86.gs_base r) (X86.ds r) (X86.es r) (X86.fs r) (X86.gs
    r).

Definition x86_set_r9 (value : Z) (r : X86.user_regs_struct) : X86.user_regs_struct :=
  X86.Build_user_regs_struct (X86.r15 r) (X86.r14 r) (X86.r13 r) (X86.r12 r) (X86.rbp r)
    (X86.rbx r) (X86.r11 r) (X86.r10 r) value (X86.r8 r) (X86.rax r) (X86.rcx r) (X86.rdx r)
    (X86.rsi r) (X86.rdi r) (X86.orig_rax r) (X86.rip r) (X86.cs r) (X86.eflags r) (X86.rsp
    r) (X86.ss r) (X86.fs_base r) (X86.gs_base r) (X86.ds r) (X86.es r) (X86.fs r) (X86.gs
    r).

Definition x86_set_r10 (value : Z) (r : X86.user_regs_struct) : X86.user_regs_struct :=
  X86.Build_user_regs_struct (X86.r15 r) (X86.r14 r) (X86.r13 r) (X86.r12 r) (X86.rbp r)
    (X86.rbx r) (X86.r11 r) value (X86.r9 r) (X86.r8 r) (X86.rax r) (X86.rcx r) (X86.rdx r)
    (X86.rsi r) (X86.rdi r) (X86.orig_rax r) (X86.rip r) (X86.cs r) (X86.eflags r) (X86.rsp
    r) (X86.ss r) (X86.fs_base r) (X86.gs_base r) (X86.ds r) (X86.es r) (X86.fs r) (X86.gs
    r).

Definition x86_set_r11 (value : Z) (r : X86.user_regs_struct) : X86.user_regs_struct :=
  X86.Build_user_regs_struct (X86.r15 r) (X86.r14 r) (X86.r13 r) (X86.r12 r) (X86.rbp r)
    (X86.rbx r) value (X86.r10 r) (X86.r9 r) (X86.r8 r) (X86.rax r) (X86.rcx r) (X86.rdx r)
    (X86.rsi r) (X86.rdi r) (X86.orig_rax r) (X86.rip r) (X86.cs r) (X86.eflags r) (X86.rsp
    r) (X86.ss r) (X86.fs_base r) (X86.gs_base r) (X86.ds r) (X86.es r) (X86.fs r) (X86.gs
    r).

Definition x86_set_r12 (value : Z) (r : X86.user_regs_struct) : X86.user_regs_struct :=
  X86.Build_user_regs_struct (X86.r15 r) (X86.r14 r) (X86.r13 r) value (X86.rbp r) (X86.rbx
    r) (X86.r11 r) (X86.r10 r) (X86.r9 r) (X86.r8 r) (X86.rax r) (X86.rcx r) (X86.rdx r)
    (X86.rsi r) (X86.rdi r) (X86.orig_rax r) (X86.rip r) (X86.cs r) (X86.eflags r) (X86.rsp
    r) (X86.ss r) (X86.fs_base r) (X86.gs_base r) (X86.ds r) (X86.es r) (X86.fs r) (X86.gs
    r).

Definition x86_set_r13 (value : Z) (r : X86.user_regs_struct) : X86.user_regs_struct :=
  X86.Build_user_regs_struct (X86.r15 r) (X86.r14 r) value (X86.r12 r) (X86.rbp r) (X86.rbx
    r) (X86.r11 r) (X86.r10 r) (X86.r9 r) (X86.r8 r) (X86.rax r) (X86.rcx r) (X86.rdx r)
    (X86.rsi r) (X86.rdi r) (X86.orig_rax r) (X86.rip r) (X86.cs r) (X86.eflags r) (X86.rsp
    r) (X86.ss r) (X86.fs_base r) (X86.gs_base r) (X86.ds r) (X86.es r) (X86.fs r) (X86.gs
    r).

Definition x86_set_r14 (value : Z) (r : X86.user_regs_struct) : X86.user_regs_struct :=
  X86.Build_user_regs_struct (X86.r15 r) value (X86.r13 r) (X86.r12 r) (X86.rbp r) (X86.rbx
    r) (X86.r11 r) (X86.r10 r) (X86.r9 r) (X86.r8 r) (X86.rax r) (X86.rcx r) (X86.rdx r)
    (X86.rsi r) (X86.rdi r) (X86.orig_rax r) (X86.rip r) (X86.cs r) (X86.eflags r) (X86.rsp
    r) (X86.ss r) (X86.fs_base r) (X86.gs_base r) (X86.ds r) (X86.es r) (X86.fs r) (X86.gs
    r).

Definition x86_set_r15 (value : Z) (r : X86.user_regs_struct) : X86.user_regs_struct :=
  X86.Build_user_regs_struct value (X86.r14 r) (X86.r13 r) (X86.r12 r) (X86.rbp r) (X86.rbx
    r) (X86.r11 r) (X86.r10 r) (X86.r9 r) (X86.r8 r) (X86.rax r) (X86.rcx r) (X86.rdx r)
    (X86.rsi r) (X86.rdi r) (X86.orig_rax r) (X86.rip r) (X86.cs r) (X86.eflags r) (X86.rsp
    r) (X86.ss r) (X86.fs_base r) (X86.gs_base r) (X86.ds r) (X86.es r) (X86.fs r) (X86.gs
    r).

Definition x86_set_rip (value : Z) (r : X86.user_regs_struct) : X86.user_regs_struct :=
  X86.Build_user_regs_struct (X86.r15 r) (X86.r14 r) (X86.r13 r) (X86.r12 r) (X86.rbp r)
    (X86.rbx r) (X86.r11 r) (X86.r10 r) (X86.r9 r) (X86.r8 r) (X86.rax r) (X86.rcx r)
    (X86.rdx r) (X86.rsi r) (X86.rdi r) (X86.orig_rax r) value (X86.cs r) (X86.eflags r)
    (X86.rsp r) (X86.ss r) (X86.fs_base r) (X86.gs_base r) (X86.ds r) (X86.es r) (X86.fs r)
    (X86.gs r).

Definition x86_set_eflags (value : Z) (r : X86.user_regs_struct) : X86.user_regs_struct :=
  X86.Build_user_regs_struct (X86.r15 r) (X86.r14 r) (X86.r13 r) (X86.r12 r) (X86.rbp r)
    (X86.rbx r) (X86.r11 r) (X86.r10 r) (X86.r9 r) (X86.r8 r) (X86.rax r) (X86.rcx r)
    (X86.rdx r) (X86.rsi r) (X86.rdi r) (X86.orig_rax r) (X86.rip r) (X86.cs r) value
    (X86.rsp r) (X86.ss r) (X86.fs_base r) (X86.gs_base r) (X86.ds r) (X86.es r) (X86.fs r)
    (X86.gs r).

Definition x86_set_cs (value : Z) (r : X86.user_regs_struct) : X86.user_regs_struct :=
  X86.Build_user_regs_struct (X86.r15 r) (X86.r14 r) (X86.r13 r) (X86.r12 r) (X86.rbp r)
    (X86.rbx r) (X86.r11 r) (X86.r10 r) (X86.r9 r) (X86.r8 r) (X86.rax r) (X86.rcx r)
    (X86.rdx r) (X86.rsi r) (X86.rdi r) (X86.orig_rax r) (X86.rip r) value (X86.eflags r)
    (X86.rsp r) (X86.ss r) (X86.fs_base r) (X86.gs_base r) (X86.ds r) (X86.es r) (X86.fs r)
    (X86.gs r).

Definition x86_set_ss (value : Z) (r : X86.user_regs_struct) : X86.user_regs_struct :=
  X86.Build_user_regs_struct (X86.r15 r) (X86.r14 r) (X86.r13 r) (X86.r12 r) (X86.rbp r)
    (X86.rbx r) (X86.r11 r) (X86.r10 r) (X86.r9 r) (X86.r8 r) (X86.rax r) (X86.rcx r)
    (X86.rdx r) (X86.rsi r) (X86.rdi r) (X86.orig_rax r) (X86.rip r) (X86.cs r) (X86.eflags
    r) (X86.rsp r) value (X86.fs_base r) (X86.gs_base r) (X86.ds r) (X86.es r) (X86.fs r)
    (X86.gs r).

Definition x86_set_ds (value : Z) (r : X86.user_regs_struct) : X86.user_regs_struct :=
  X86.Build_user_regs_struct (X86.r15 r) (X86.r14 r) (X86.r13 r) (X86.r12 r) (X86.rbp r)
    (X86.rbx r) (X86.r11 r) (X86.r10 r) (X86.r9 r) (X86.r8 r) (X86.rax r) (X86.rcx r)
    (X86.rdx r) (X86.rsi r) (X86.rdi r) (X86.orig_rax r) (X86.rip r) (X86.cs r) (X86.eflags
    r) (X86.rsp r) (X86.ss r) (X86.fs_base r) (X86.gs_base r) value (X86.es r) (X86.fs r)
    (X86.gs r).

Definition x86_set_es (value : Z) (r : X86.user_regs_struct) : X86.user_regs_struct :=
  X86.Build_user_regs_struct (X86.r15 r) (X86.r14 r) (X86.r13 r) (X86.r12 r) (X86.rbp r)
    (X86.rbx r) (X86.r11 r) (X86.r10 r) (X86.r9 r) (X86.r8 r) (X86.rax r) (X86.rcx r)
    (X86.rdx r) (X86.rsi r) (X86.rdi r) (X86.orig_rax r) (X86.rip r) (X86.cs r) (X86.eflags
    r) (X86.rsp r) (X86.ss r) (X86.fs_base r) (X86.gs_base r) (X86.ds r) value (X86.fs r)
    (X86.gs r).

Definition x86_set_fs (value : Z) (r : X86.user_regs_struct) : X86.user_regs_struct :=
  X86.Build_user_regs_struct (X86.r15 r) (X86.r14 r) (X86.r13 r) (X86.r12 r) (X86.rbp r)
    (X86.rbx r) (X86.r11 r) (X86.r10 r) (X86.r9 r) (X86.r8 r) (X86.rax r) (X86.rcx r)
    (X86.rdx r) (X86.rsi r) (X86.rdi r) (X86.orig_rax r) (X86.rip r) (X86.cs r) (X86.eflags
    r) (X86.rsp r) (X86.ss r) (X86.fs_base r) (X86.gs_base r) (X86.ds r) (X86.es r) value
    (X86.gs r).

Definition x86_set_gs (value : Z) (r : X86.user_regs_struct) : X86.user_regs_struct :=
  X86.Build_user_regs_struct (X86.r15 r) (X86.r14 r) (X86.r13 r) (X86.r12 r) (X86.rbp r)
    (X86.rbx r) (X86.r11 r) (X86.r10 r) (X86.r9 r) (X86.r8 r) (X86.rax r) (X86.rcx r)
    (X86.rdx r) (X86.rsi r) (X86.rdi r) (X86.orig_rax r) (X86.rip r) (X86.cs r) (X86.eflags
    r) (X86.rsp r) (X86.ss r) (X86.fs_base r) (X86.gs_base r) (X86.ds r) (X86.es r) (X86.fs
    r) value.

Definition x86_set_fs_base (value : Z) (r : X86.user_regs_struct) : X86.user_regs_struct :=
  X86.Build_user_regs_struct (X86.r15 r) (X86.r14 r) (X86.r13 r) (X86.r12 r) (X86.rbp r)
    (X86.rbx r) (X86.r11 r) (X86.r10 r) (X86.r9 r) (X86.r8 r) (X86.rax r) (X86.rcx r)
    (X86.rdx r) (X86.rsi r) (X86.rdi r) (X86.orig_rax r) (X86.rip r) (X86.cs r) (X86.eflags
    r) (X86.rsp r) (X86.ss r) value (X86.gs_base r) (X86.ds r) (X86.es r) (X86.fs r) (X86.gs
    r).

Definition x86_set_gs_base (value : Z) (r : X86.user_regs_struct) : X86.user_regs_struct :=
  X86.Build_user_regs_struct (X86.r15 r) (X86.r14 r) (X86.r13 r) (X86.r12 r) (X86.rbp r)
    (X86.rbx r) (X86.r11 r) (X86.r10 r) (X86.r9 r) (X86.r8 r) (X86.rax r) (X86.rcx r)
    (X86.rdx r) (X86.rsi r) (X86.rdi r) (X86.orig_rax r) (X86.rip r) (X86.cs r) (X86.eflags
    r) (X86.rsp r) (X86.ss r) (X86.fs_base r) value (X86.ds r) (X86.es r) (X86.fs r) (X86.gs
    r).

(** The x86_64 register-name chains. *)
Definition x86_read_reg (reg_name : string) (r : X86.user_regs_struct) : option Z :=
  if (reg_name =? "rax")%string then Some (X86.rax r)
  else if (reg_name =? "rbx")%string then Some (X86.rbx r)
  else if (reg_name =? "rcx")%string then Some (X86.rcx r)
  else if (reg_name =? "rdx")%string then Some (X86.rdx r)
  else if (reg_name =? "rsi")%string then Some (X86.rsi r)
  else if (reg_name =? "rdi")%string then Some (X86.rdi r)
  else if (reg_name =? "rbp")%string then Some (X86.rbp r)
  else if (reg_name =? "rsp")%string then Some (X86.rsp r)
  else if (reg_name =? "r8")%string then Some (X86.r8 r)
  else if (reg_name =? "r9")%string then Some (X86.r9 r)
  else if (reg_name =? "r10")%string then Some (X86.r10 r)
  else if (reg_name =? "r11")%string then Some (X86.r11 r)
  else if (reg_name =? "r12")%string then Some (X86.r12 r)
  else if (reg_name =? "r13")%string then Some (X86.r13 r)
  else if (reg_name =? "r14")%string then Some (X86.r14 r)
  else if (reg_name =? "r15")%string then Some (X86.r15 r)
  else if (reg_name =? "rip")%string then Some (X86.rip r)
  else if (reg_name =? "rflags")%string || (reg_name =? "eflags")%string then Some (X86.eflags r)
  else if (reg_name =? "cs")%string then Some (X86.cs r)
  else if (reg_name =? "ss")%string then Some (X86.ss r)
  else if (reg_name =? "ds")%string then Some (X86.ds r)
  else if (reg_name =? "es")%string then Some (X86.es r)
  else if (reg_name =? "fs")%string then Some (X86.fs r)
  else if (reg_name =? "gs")%string then Some (X86.gs r)
  else if (reg_name =? "fs_base")%string then Some (X86.fs_base r)
  else if (reg_name =? "gs_base")%string then Some (X86.gs_base r)
  else None.

Definition x86_write_reg (reg_name : string) (value : Z) (r : X86.user_regs_struct)
  : option X86.user_regs_struct :=
  if (reg_name =? "rax")%string then Some (x86_set_rax value r)
  else if (reg_name =? "rbx")%string then Some (x86_set_rbx value r)
  else if (reg_name =? "rcx")%string then Some (x86_set_rcx value r)
  else if (reg_name =? "rdx")%string then Some (x86_set_rdx value r)
  else if (reg_name =? "rsi")%string then Some (x86_set_rsi value r)
  else if (reg_name =? "rdi")%string then Some (x86_set_rdi value r)
  else if (reg_name =? "rbp")%string then Some (x86_set_rbp value r)
  else if (reg_name =? "rsp")%string then Some (x86_set_rsp value r)
  else if (reg_name =? "r8")%string then Some (x86_set_r8 value r)
  else if (reg_name =? "r9")%string then Some (x86_set_r9 value r)
  else if (reg_name =? "r10")%string then Some (x86_set_r10 value r)
  else if (reg_name =? "r11")%string then Some (x86_set_r11 value r)
  else if (reg_name =? "r12")%string then Some (x86_set_r12 value r)
  else if (reg_name =? "r13")%string then Some (x86_set_r13 value r)
  else if (reg_name =? "r14")%string then Some (x86_set_r14 value r)
  else if (reg_name =? "r15")%string then Some (x86_set_r15 value r)
  else if (reg_name =? "rip")%string then Some (x86_set_rip value r)
  else if (reg_name =? "rflags")%string || (reg_name =? "eflags")%string then Some (x86_set_eflags value r)
  else if (reg_name =? "cs")%string then Some (x86_set_cs value r)
  else if (reg_name =? "ss")%string then Some (x86_set_ss value r)
  else if (reg_name =? "ds")%string then Some (x86_set_ds value r)
  else if (reg_name =? "es")%string then Some (x86_set_es value r)
  else if (reg_name =? "fs")%string then Some (x86_set_fs value r)
  else if (reg_name =? "gs")%string then Some (x86_set_gs value r)
  else if (reg_name =? "fs_base")%string then Some (x86_set_fs_base value r)
  else if (reg_name =? "gs_base")%string then Some (x86_set_gs_base value r)
  else None.

Definition read_reg (a : Arch) : string -> regs_t a -> option Z :=
  match a with ARM64 => arm64_read_reg | X86_64 => x86_read_reg end.

Definition write_reg (a : Arch) : string -> Z -> regs_t a -> option (regs_t a) :=
  match a with ARM64 => arm64_write_reg | X86_64 => x86_write_reg end.

(** [read_register_internal(thread_id, reg_name, value)]: [value] is the
    pointee of the out-pointer ([None] for [nullptr]); the result carries
    the pointee after the call. *)
Definition read_register_internal (thread_id : Z) (reg_name : string) (value : option Z)
  : M (Z * option Z) :=
  d <- get_dbg ;;
  if negb (bool_decide (is_Some value)) || negb (bool_decide (thread_id ∈ attached_threads_ d))
  then ret (-1, value)
  else
    g <- call (ptrace_GETREGS thread_id) ;;
    if failed g then ret (-1, value)
    else match read_reg arch reg_name (r_regs g) with
         | Some v => ret (0, Some v)
         | None => ret (-1, value)
         end.

Definition write_register_internal (thread_id : Z) (reg_name : string) (value : Z) : M Z :=
  d <- get_dbg ;;
  if negb (bool_decide (thread_id ∈ attached_threads_ d)) then ret (-1)
  else
    g <- call (ptrace_GETREGS thread_id) ;;
    if failed g then ret (-1)
    else match write_reg arch reg_name value (r_regs g) with
         | None => ret (-1)
         | Some regs' =>
             s <- call (ptrace_SETREGS thread_id regs') ;;
             if failed s then ret (-1) else ret 0
         end.

(** The loop of [resume_all_user_stopped_threads_internal] over
    [thread_states_] in key order. *)
Fixpoint resume_user_stopped (tids : list Z) (resumed_count : Z) : M Z :=
  match tids with
  | [] => ret resumed_count
  | tid :: rest =>
      d <- get_dbg ;;
      if stopped_by_user (thread_state_of d tid) then
        c <- call (ptrace_CONT tid 0) ;;
        if failed c then resume_user_stopped rest resumed_count
        else
          _ <- modify_dbg (upd_thread_it tid (fun t =>
                 set_is_stopped false (set_stopped_by_user false t))) ;;
          resume_user_stopped rest (resumed_count + 1)
      else resume_user_stopped rest resumed_count
  end.

Definition resume_all_user_stopped_threads_internal : M Z :=
  d <- get_dbg ;;
  resume_user_stopped (sorted_elements (dom (thread_states_ d))) 0.

(** ** debugger_memory.cpp *)

Definition word_size : Z := 8.
Definition max_consecutive_failures : Z := 3.

(** [memcpy(buffer + bytes_read, word_bytes + offset, bytes_to_copy)]. *)
Definition word_bytes (word offset n : Z) : list Z :=
  map (fun k => byte_of_word word (offset + k)) (seqZ 0 n).

(** [(address + bytes_read) & ~(word_size - 1)] on [uintptr_t], and the
    offset of the byte inside that word. *)
Definition aligned_addr_of (a : Z) : Z := Z.land (to_u64 a) (not64 (word_size - 1)).
Definition offset_of (a : Z) : Z := to_u64 a - aligned_addr_of a.

Record ReadLoop := {
  bytes_read : Z;
  consecutive_failures : Z;
  buffer : list Z }.

(** The [while] loop of [read_memory_internal].  Every pass either leaves
    the loop or advances [bytes_read], so [size] passes are enough. *)
Fixpoint read_loop (fuel : nat) (read_thread address size : Z) (s : ReadLoop) : M ReadLoop :=
  if (bytes_read s <? size) && (consecutive_failures s <? max_consecutive_failures) then
    match fuel with
    | O => ret s
    | S fuel' =>
        let aligned_addr := aligned_addr_of (address + bytes_read s) in
        let offset := offset_of (address + bytes_read s) in
        r <- call (ptrace_PEEKDATA read_thread aligned_addr) ;;
        if negb (r_errno r =? 0) then
          let failures := consecutive_failures s + 1 in
          if (r_errno r =? EIO) || (r_errno r =? EFAULT) then
            let skip_bytes := word_size - offset in
            if size <=? bytes_read s + skip_bytes then
              ret {| bytes_read := bytes_read s; consecutive_failures := failures;
                     buffer := buffer s |}
            else
              read_loop fuel' read_thread address size
                {| bytes_read := bytes_read s + skip_bytes;
                   consecutive_failures := failures; buffer := buffer s |}
          else if r_errno r =? ESRCH then
            ret {| bytes_read := bytes_read s; consecutive_failures := failures;
                   buffer := buffer s |}
          else
            read_loop fuel' read_thread address size
              {| bytes_read := bytes_read s + 1; consecutive_failures := failures;
                 buffer := buffer s |}
        else
          let bytes_to_copy := Z.min (size - bytes_read s) (word_size - offset) in
          read_loop fuel' read_thread address size
            {| bytes_read := bytes_read s + bytes_to_copy;
               consecutive_failures := 0;
               buffer := list_inserts (Z.to_nat (bytes_read s))
                           (word_bytes (to_u64 (r_ret r)) offset bytes_to_copy)
                           (buffer s) |}
    end
  else ret s.

(** [read_memory_internal(address, size, buffer)]: the return value and
    the buffer after the call. *)
Definition read_memory_internal (address size : Z) (buf : list Z) : M (Z * list Z) :=
  t <- find_stopped_thread ;;
  sel <- (if t =? 0 then
            st <- stop_all_threads 0 ;;
            match fst st with
            | [] => ret (0, false, [])
            | t0 :: _ => ret (t0, true, fst st)
            end
          else ret (t, false, [])) ;;
  let read_thread := fst (fst sel) in
  let need_resume := snd (fst sel) in
  let stopped_threads := snd sel in
  if read_thread =? 0 then ret (-1, buf)
  else
    s <- read_loop (Z.to_nat size) read_thread address size
           {| bytes_read := 0; consecutive_failures := 0; buffer := buf |} ;;
    _ <- (if need_resume : bool then resume_threads stopped_threads else ret tt) ;;
    ret (if 0 <? bytes_read s then bytes_read s else -1, buffer s).

(** ** debugger_spawn.cpp

    [fork] returns twice.  The debugger thread's side returns an [int]; the
    child's side never returns to the caller: it ends in [_exit] or in the
    new program image. *)

Inductive ChildOutcome :=
| ChildExit (code : Z)
| ChildExec (path : string) (argv : list string).

(** The [pid == 0] branch of [spawn_process_internal] and of
    [spawn_process_with_pty_internal] (the two are the same text). *)
Definition spawn_child (request : DebugRequest) : M ChildOutcome :=
  t <- call ptrace_TRACEME ;;
  if r_ret t <? 0 then ret (ChildExit 1)
  else
    let argv := executable_path request :: spawn_args request in
    e <- call (sys_execvp (executable_path request) argv) ;;
    if failed e then ret (ChildExit 1)
    else ret (ChildExec (executable_path request) argv).

(** The child branch of [spawn_process_internal] and
    [spawn_process_with_pty_native] in core/process_api.cpp, which do not
    trace themselves; [raise(SIGSTOP)] is the signal sent to the caller
    itself. *)
Definition process_api_spawn_child (executable_path : string) (argv : list string)
    (suspended : bool) : M ChildOutcome :=
  _ <- (if suspended then _ <- call (sys_kill 0 SIGSTOP) ;; ret tt else ret tt) ;;
  e <- call (sys_execvp executable_path argv) ;;
  if failed e then ret (ChildExit 127)
  else ret (ChildExec executable_path argv).

(** The initial notification of a spawned process: on x86_64 only the
    general registers, [rip] and [rflags] are copied; the rest stays zeroed
    by [memset]. *)
Definition spawn_info_regs (a : Arch) : regs_t a -> info_regs_union :=
  match a with
  | ARM64 => populate_regs ARM64
  | X86_64 => fun r =>
      info_x86_64 {| i_rax := X86.rax r; i_rbx := X86.rbx r; i_rcx := X86.rcx r;
                     i_rdx := X86.rdx r; i_rsi := X86.rsi r; i_rdi := X86.rdi r;
                     i_rbp := X86.rbp r; i_rsp := X86.rsp r; i_r8 := X86.r8 r;
                     i_r9 := X86.r9 r; i_r10 := X86.r10 r; i_r11 := X86.r11 r;
                     i_r12 := X86.r12 r; i_r13 := X86.r13 r; i_r14 := X86.r14 r;
                     i_r15 := X86.r15 r; i_rip := X86.rip r; i_rflags := X86.eflags r;
                     i_cs := 0; i_ss := 0; i_ds := 0; i_es := 0; i_fs := 0; i_gs := 0;
                     i_fs_base := 0; i_gs_base := 0 |}
  end.

Definition spawn_exception_info (r : regs_t arch) (pid : Z) : NativeExceptionInfo :=
  {| architecture := arch_tag arch; info_regs := spawn_info_regs arch r;
     exception_type := EXCEPTION_BREAKPOINT; info_thread_id := to_u64 pid;
     memory_address := 0; singlestep_mode := 0; is_trace := 0 |}.

(** [close(master_fd)] on the failure paths of the PTY variant. *)
Definition close_master (master_fd : option Z) : M unit :=
  match master_fd with
  | Some fd => _ <- call (sys_close fd) ;; ret tt
  | None => ret tt
  end.

(** The parent branch shared by the two spawn functions, from the first
    [waitpid] on; [master_fd] is [Some fd] in the PTY variant. *)
Definition spawn_parent (pid : Z) (master_fd : option Z) : M Z :=
  w <- call (sys_waitpid pid 0) ;;
  if r_ret w <? 0 then _ <- close_master master_fd ;; ret (-1)
  else if WIFSTOPPED (r_out w) then
    k <- call (sys_kill pid SIGSTOP) ;;
    if r_ret k <? 0 then _ <- close_master master_fd ;; ret (-1)
    else
      dt <- call (ptrace_DETACH pid) ;;
      if r_ret dt <? 0 then _ <- close_master master_fd ;; ret (-1)
      else
        w2 <- call (sys_waitpid pid WUNTRACED) ;;
        if negb (r_ret w2 =? pid) || negb (WIFSTOPPED (r_out w2)) then
          _ <- close_master master_fd ;; ret (-1)
        else
          sz <- call (ptrace_SEIZE pid PTRACE_O_TRACECLONE) ;;
          if r_ret sz <? 0 then _ <- close_master master_fd ;; ret (-1)
          else
            it <- call (ptrace_INTERRUPT pid) ;;
            if r_ret it <? 0 then _ <- close_master master_fd ;; ret (-1)
            else
              w3 <- call (sys_waitpid pid 0) ;;
              if negb (r_ret w3 =? pid) then _ <- close_master master_fd ;; ret (-1)
              else
                _ <- modify_dbg (fun d =>
                       set_debug_state_ DebugState.Paused
                         (set_current_thread pid
                            (set_threads_attached_ true
                               (upd_thread pid (fun t =>
                                  set_single_step_mode SingleStepMode.None
                                    (set_current_breakpoint_index (-1)
                                       (set_is_stopped true (set_is_attached true t))))
                                  (set_attached_threads_ ({[pid]} ∪ attached_threads_ d)
                                     (set_pid_ pid d)))))) ;;
                g <- call (ptrace_GETREGS pid) ;;
                _ <- (if r_ret g =? 0
                      then _ <- SEND_EXCEPTION_INFO (spawn_exception_info (r_regs g) pid) pid ;;
                           ret tt
                      else ret tt) ;;
                ret 0
  else if WIFEXITED (r_out w) || WIFSIGNALED (r_out w) then
    _ <- close_master master_fd ;; ret (-1)
  else ret (-1).

(** [spawn_process_internal]: [inl] is the parent's return value with the
    request as updated, [inr] the child's fate. *)
Definition spawn_process_internal (request : DebugRequest)
  : M (Z * DebugRequest + ChildOutcome) :=
  f <- call sys_fork ;;
  let pid := r_ret f in
  if pid <? 0 then ret (inl (-1, request))
  else if pid =? 0 then
    c <- spawn_child request ;; ret (inr c)
  else
    r <- spawn_parent pid None ;;
    ret (inl (r, if r =? 0 then set_req_spawned_pid pid request else request)).

(** [spawn_process_with_pty_internal] (the non-Android build). *)
Definition spawn_process_with_pty_internal (request : DebugRequest)
  : M (Z * DebugRequest + ChildOutcome) :=
  f <- call sys_forkpty ;;
  let pid := r_ret f in
  let master_fd := r_out f in
  if pid <? 0 then ret (inl (-1, request))
  else if pid =? 0 then
    c <- spawn_child request ;; ret (inr c)
  else
    fl <- call (sys_fcntl_GETFL master_fd) ;;
    _ <- (if negb (r_ret fl =? -1)
          then _ <- call (sys_fcntl_SETFL master_fd (Z.lor (r_ret fl) O_NONBLOCK)) ;; ret tt
          else ret tt) ;;
    r <- spawn_parent pid (Some master_fd) ;;
    ret (inl (r, if r =? 0
                 then set_req_pty_fd master_fd (set_req_spawned_pid pid request)
                 else request)).

(** ** debugger_core.cpp: the command queue and the debugger thread's loop *)

Definition complete (request : DebugRequest) (res : Z) : DebugRequest :=
  set_req_completed true (set_req_result res request).

(** The [switch] of [process_command_queue] with the [process_*_command]
    wrappers inlined: the request as completed, or the child's fate when the
    command forked and this is the child. *)
Definition process_request (request : DebugRequest) : M (DebugRequest + ChildOutcome) :=
  match command request with
  | DebugCommand.SetWatchpoint =>
      r <- set_watchpoint_internal (address request) (size request)
             (watchpoint_type request) ;;
      ret (inl (complete request r))
  | DebugCommand.RemoveWatchpoint =>
      r <- remove_watchpoint_internal (address request) ;;
      ret (inl (complete request r))
  | DebugCommand.SetBreakpoint =>
      r <- set_breakpoint_internal (address request) (hit_count request)
             (breakpoint_type request) ;;
      ret (inl (complete request r))
  | DebugCommand.RemoveBreakpoint =>
      r <- remove_breakpoint_internal (address request) ;;
      ret (inl (complete request r))
  | DebugCommand.ContinueExecution =>
      r <- continue_execution_internal (thread_id request) ;;
      ret (inl (complete request r))
  | DebugCommand.SingleStep =>
      r <- single_step_internal (thread_id request) ;;
      ret (inl (complete request r))
  | DebugCommand.ReapplyWatchpoints =>
      r <- reapply_all_watchpoints_internal (thread_id request) ;;
      ret (inl (complete request r))
  | DebugCommand.ReadRegister =>
      r <- read_register_internal (thread_id request) (reg_name request)
             (reg_value_ptr request) ;;
      ret (inl (complete (set_req_reg_value_ptr (snd r) request) (fst r)))
  | DebugCommand.WriteRegister =>
      r <- write_register_internal (thread_id request) (reg_name request)
             (reg_value request) ;;
      ret (inl (complete request r))
  | DebugCommand.ReadMemory =>
      r <- read_memory_internal (address request) (memory_size request)
             (memory_buffer request) ;;
      ret (inl (complete
                  (set_req_memory_bytes_read (fst r)
                     (set_req_memory_buffer (snd r) request))
                  (if 0 <? fst r then 0 else -1)))
  | DebugCommand.SpawnProcess =>
      r <- spawn_process_internal request ;;
      ret (match r with
           | inl (res, request') => inl (complete request' res)
           | inr c => inr c
           end)
  | DebugCommand.SpawnProcessWithPty =>
      r <- spawn_process_with_pty_internal request ;;
      ret (match r with
           | inl (res, request') => inl (complete request' res)
           | inr c => inr c
           end)
  | DebugCommand.ResumeUserStoppedThreads =>
      r <- resume_all_user_stopped_threads_internal ;;
      ret (inl (complete request r))
  | DebugCommand.AttachToThreads => ret (inl (complete request (-1)))
  end.

(** [process_command_queue]: pop and run requests until the queue is
    empty; returns the completed requests in order.  [fuel] bounds the
    number of requests taken. *)
Fixpoint process_queue (fuel : nat) (done : list DebugRequest)
  : M (list DebugRequest * option ChildOutcome) :=
  d <- get_dbg ;;
  match debug_command_queue_ d with
  | [] => ret (done, None)
  | request :: rest =>
      match fuel with
      | O => ret (done, None)
      | S fuel' =>
          _ <- modify_dbg (set_debug_command_queue_ rest) ;;
          r <- process_request request ;;
          match r with
          | inl completed_request => process_queue fuel' (done ++ [completed_request])
          | inr c => ret (done, Some c)
          end
      end
  end.

Definition process_command_queue : M (list DebugRequest * option ChildOutcome) :=
  d <- get_dbg ;;
  process_queue (length (debug_command_queue_ d)) [].

(** One pass of the [while (debug_loop_running_)] loop of
    [debug_message_loop]. *)
Definition debug_loop_pass : M (list DebugRequest * option ChildOutcome) :=
  q <- process_command_queue ;;
  match snd q with
  | Some c => ret q
  | None =>
      ev <- wait_for_debug_event ;;
      _ <- (if fst (fst ev) =? 0
            then _ <- handle_exception (snd (fst ev)) (snd ev) ;; ret tt
            else ret tt) ;;
      ret q
  end.

(** The prologue of [debug_message_loop]: attach unless already attached
    or in spawn mode; [false] when the loop is not entered. *)
Definition debug_loop_enter : M bool :=
  d <- get_dbg ;;
  if negb (threads_attached_ d) && negb (pid_ d =? 0) then
    r <- attach_to_threads ;;
    if r =? 0 then _ <- modify_dbg (set_threads_attached_ true) ;; ret true
    else ret false
  else ret true.

End Model.

Arguments World {arch} K.
Arguments M {arch} K A.

Notation "x <- m ;; k" := (bind m (fun x => k))
  (at level 62, m at next level, right associativity).

(** Running a computation: the value and the final world. *)
Definition run {arch : Arch} {K A : Type} (m : M K A) (w : World K) : A * World K := m w.

(** ** Two environments to run the model on

    [ScriptEnv] answers the requests with a prepared list of replies, one
    per request, and with [reply_ok] once the list is used up: any finite
    behaviour of a kernel is some script.  [SimEnv] is a small simulated
    kernel: a register file per stopped thread and a byte-addressed memory
    in which unmapped bytes fault with [EIO]. *)

Definition reply_ok {arch : Arch} : Reply :=
  {| r_ret := 0; r_errno := 0; r_out := 0; r_regs := regs_zero arch;
     r_hw := {| dbg_info := 0; dbg_regs := [] |}; r_tids := [] |}.

Definition reply_ret {arch : Arch} (v : Z) : Reply :=
  {| r_ret := v; r_errno := 0; r_out := 0; r_regs := regs_zero arch;
     r_hw := {| dbg_info := 0; dbg_regs := [] |}; r_tids := [] |}.

Definition reply_out {arch : Arch} (v out : Z) : Reply :=
  {| r_ret := v; r_errno := 0; r_out := out; r_regs := regs_zero arch;
     r_hw := {| dbg_info := 0; dbg_regs := [] |}; r_tids := [] |}.

Definition reply_err {arch : Arch} (e : Z) : Reply :=
  {| r_ret := -1; r_errno := e; r_out := 0; r_regs := regs_zero arch;
     r_hw := {| dbg_info := 0; dbg_regs := [] |}; r_tids := [] |}.

Definition reply_regs {arch : Arch} (r : regs_t arch) : Reply :=
  {| r_ret := 0; r_errno := 0; r_out := 0; r_regs := r;
     r_hw := {| dbg_info := 0; dbg_regs := [] |}; r_tids := [] |}.

Definition reply_tids {arch : Arch} (l : list Z) : Reply :=
  {| r_ret := 0; r_errno := 0; r_out := 0; r_regs := regs_zero arch;
     r_hw := {| dbg_info := 0; dbg_regs := [] |}; r_tids := l |}.

Definition ScriptEnv {arch : Arch} : Env (list Reply) :=
  {| sys := fun _ k => match k with
                       | [] => (reply_ok, [])
                       | r :: k' => (r, k')
                       end |}.

Record SimKernel {arch : Arch} := {
  sim_regs : gmap Z (regs_t arch);
  sim_mem : gmap Z Z }.

(** The 8 bytes at [a], little-endian, if all are mapped. *)
Definition sim_peek (mem : gmap Z Z) (a : Z) : option Z :=
  foldr (fun k acc =>
           match mem !! (a + k), acc with
           | Some b, Some w => Some (Z.lor (Z.shiftl w 8) b)
           | _, _ => None
           end) (Some 0) [0; 1; 2; 3; 4; 5; 6; 7].

Definition sim_poke (mem : gmap Z Z) (a word : Z) : gmap Z Z :=
  foldr (fun k m => <[a + k := byte_of_word word k]> m) mem [0; 1; 2; 3; 4; 5; 6; 7].

Definition sim_sys {arch : Arch} (c : Syscall) (k : SimKernel) : Reply * SimKernel :=
  match c with
  | ptrace_GETREGS tid =>
      match sim_regs k !! tid with
      | Some r => (reply_regs r, k)
      | None => (reply_err ESRCH, k)
      end
  | ptrace_SETREGS tid r =>
      match sim_regs k !! tid with
      | Some _ => (reply_ok, {| sim_regs := <[tid := r]> (sim_regs k); sim_mem := sim_mem k |})
      | None => (reply_err ESRCH, k)
      end
  | ptrace_PEEKDATA tid a =>
      match sim_peek (sim_mem k) a with
      | Some w => (reply_ret w, k)
      | None => (reply_err EIO, k)
      end
  | ptrace_POKEDATA tid a w =>
      match sim_peek (sim_mem k) a with
      | Some _ => (reply_ok, {| sim_regs := sim_regs k; sim_mem := sim_poke (sim_mem k) a w |})
      | None => (reply_err EIO, k)
      end
  | proc_task_list _ => (reply_tids (sorted_elements (dom (sim_regs k))), k)
  | proc_thread_stopped _ tid =>
      (reply_ret (if bool_decide (tid ∈ dom (sim_regs k)) then 1 else 0), k)
  | sys_waitpid pid _ => (reply_out pid 0x137f, k)
  | send_exception_info _ _ => (reply_ret 1, k)
  | _ => (reply_ok, k)
  end.

Definition SimEnv {arch : Arch} : Env SimKernel := {| sys := sim_sys |}.

Definition world0 {arch : Arch} {K : Type} (d : Debugger) (k : K) : World K :=
  {| dbg := d; kern := k; trace := [] |}.

(** ** Vocabulary of the statements *)

(** The number of hardware watchpoint slots in use. *)
Definition watchpoints_in_use {arch : Arch} (d : Debugger) : Z :=
  Z.of_nat (length (filter (fun b : bool => b = true) (watchpoint_used d))).

(** The length field of an ARM64 watchpoint control word (BAS, bits 5-12)
    and of DR7 for slot [index] (bits [18 + 4*index], [19 + 4*index]). *)
Definition arm_ctrl_len (ctrl : Z) : Z := Z.land (Z.shiftr ctrl 5) 0xff.
Definition x86_dr7_len (dr7 index : Z) : Z := Z.land (Z.shiftr dr7 (18 + 4 * index)) 3.
Definition x86_dr7_cond (dr7 index : Z) : Z := Z.land (Z.shiftr dr7 (16 + 4 * index)) 3.
Definition x86_dr7_enabled (dr7 index : Z) : bool := Z.testbit dr7 (2 * index).

(** What a computation returns, whatever the world it starts in. *)
Definition returns {arch : Arch} {K A : Type} (P : A -> Prop) (m : M K A) : Prop :=
  forall w, P (fst (m w)).

(** A computation moves the world along a preorder [T]. *)
Definition moves {arch : Arch} {K A : Type} (T : World K -> World K -> Prop)
    (m : M K A) : Prop :=
  forall w, T w (snd (m w)).

(** The requests a computation adds to the trace. *)
Definition emitted {arch : Arch} {K A : Type} (m : M K A) (w : World K) : list Event :=
  drop (length (trace w)) (trace (snd (m w))).

(** The world only gains trace entries, all of them satisfying [Q]. *)
Definition trace_grows {arch : Arch} {K : Type} (Q : Event -> Prop) (w w' : World K) : Prop :=
  exists evs, trace w' = trace w ++ evs /\ Forall Q evs.

Definition is_upcall {arch : Arch} (e : Event) : Prop :=
  match fst e with send_exception_info _ _ => True | _ => False end.

(** A request that lets thread [tid] run again. *)
Definition is_resume_of {arch : Arch} (tid : Z) (e : Event) : Prop :=
  match fst e with
  | ptrace_CONT t _ | ptrace_SINGLESTEP t _ => t = tid
  | _ => False
  end.

(** What [process_command_queue] may store in a request's [result]: 0 or
    -1, except for [ResumeUserStoppedThreads], which stores a thread count. *)
Definition result_in_range {arch : Arch} (request : DebugRequest)
    (r : DebugRequest + ChildOutcome) : Prop :=
  match r with
  | inl c =>
      completed c = true /\ command c = command request /\
      match command request with
      | DebugCommand.ResumeUserStoppedThreads => 0 <= result c
      | _ => result c = 0 \/ result c = -1
      end
  | inr _ =>
      command request = DebugCommand.SpawnProcess \/
      command request = DebugCommand.SpawnProcessWithPty
  end.

(** The canonical register names of each architecture. *)
Definition canonical_regs (a : Arch) : list string :=
  match a with
  | ARM64 =>
      ["x0"; "x1"; "x2"; "x3"; "x4"; "x5"; "x6"; "x7"; "x8"; "x9"; "x10"; "x11"; "x12";
       "x13"; "x14"; "x15"; "x16"; "x17"; "x18"; "x19"; "x20"; "x21"; "x22"; "x23";
       "x24"; "x25"; "x26"; "x27"; "x28"; "x29"; "x30"; "sp"; "pc"; "pstate"]%string
  | X86_64 =>
      ["rax"; "rbx"; "rcx"; "rdx"; "rsi"; "rdi"; "rbp"; "rsp"; "r8"; "r9"; "r10"; "r11";
       "r12"; "r13"; "r14"; "r15"; "rip"; "rflags"; "cs"; "ss"; "ds"; "es"; "fs"; "gs";
       "fs_base"; "gs_base"]%string
  end.

(** [regs.regs] is an array of 31 registers. *)
Definition regs_wf (a : Arch) : regs_t a -> Prop :=
  match a with
  | ARM64 => fun r => length (Arm64.regs r) = 31%nat
  | X86_64 => fun _ => True
  end.

(** A kernel whose GETREGS/SETREGS act on one register block per stopped
    thread: [regs_of k t] is the block of thread [t], or [None] while [t]
    cannot be inspected.  A read returns the block and changes none; a
    write that is not refused replaces the block of that thread only. *)
Class RegisterFile {arch : Arch} {K : Type} (E : Env K) := {
  regs_of : K -> Z -> option (regs_t arch);
  getregs_law : forall k tid r,
    regs_of k tid = Some r ->
    failed (fst (sys (ptrace_GETREGS tid) k)) = false /\
    r_regs (fst (sys (ptrace_GETREGS tid) k)) = r /\
    regs_of (snd (sys (ptrace_GETREGS tid) k)) = regs_of k;
  setregs_law : forall k tid r,
    failed (fst (sys (ptrace_SETREGS tid r) k)) = false ->
    regs_of (snd (sys (ptrace_SETREGS tid r) k)) tid = Some r /\
    forall t, t <> tid -> regs_of (snd (sys (ptrace_SETREGS tid r) k)) t = regs_of k t }.

(** The target's memory as the debugger reads it: [mem a] is the word at
    the aligned address [a], or [None] where the read faults.  The memory is
    stable under an invariant [I] of the kernel when every request other
    than a write to the target keeps [I], and under [I] a PEEKDATA of any
    thread answers with the word of [mem] or fails with [EIO] or [EFAULT]. *)
Definition writes_target {arch : Arch} (c : Syscall) : bool :=
  match c with
  | ptrace_POKEDATA _ _ _ | ptrace_POKEUSER _ _ _ | ptrace_SETREGS _ _
  | ptrace_SETREGSET_HW _ _ _ _ => true
  | _ => false
  end.

Definition stable_memory {arch : Arch} {K : Type} {E : Env K}
    (mem : Z -> option Z) (I : K -> Prop) : Prop :=
  forall c k, I k ->
    (writes_target c = false -> I (snd (sys c k))) /\
    match c with
    | ptrace_PEEKDATA _ a =>
        match mem a with
        | Some word => r_errno (fst (sys c k)) = 0 /\ to_u64 (r_ret (fst (sys c k))) = word
        | None => r_errno (fst (sys c k)) = EIO \/ r_errno (fst (sys c k)) = EFAULT
        end
    | _ => True
    end.

(** Byte [p] of a read of [address]: the byte of the target's memory, or
    the byte the caller's buffer held where the word is unreadable. *)
Definition byte_read (mem : Z -> option Z) (address : Z) (buf0 : list Z) (p : Z) : option Z :=
  match mem (aligned_addr_of (address + p)) with
  | Some word => Some (byte_of_word word (offset_of (address + p)))
  | None => buf0 !! Z.to_nat p
  end.

(** The preorder of worlds that keep a property once they have it, and the
    preorder of worlds that agree on a view of the debugger's state. *)
Definition keeps {arch : Arch} {K : Type} (J : World K -> Prop) (w w' : World K) : Prop :=
  J w -> J w'.

Definition same_view {arch : Arch} {K V : Type} (view : Debugger -> V)
    (w w' : World K) : Prop :=
  view (dbg w') = view (dbg w).

(** The debugger's state without its per-thread bookkeeping. *)
Definition threads_erased {arch : Arch} (d : Debugger) : Debugger :=
  set_thread_states_ ∅ (set_attached_threads_ ∅ d).

(** The state of the read loop.  What the buffer holds after [bytes_read] bytes. *)
Definition read_content (mem : Z -> option Z) (address size : Z) (buf0 : list Z)
    (s : ReadLoop) : Prop :=
  0 <= bytes_read s <= size /\
  0 <= consecutive_failures s <= 3 /\
  length (buffer s) = length buf0 /\
  (forall p, 0 <= p < bytes_read s -> buffer s !! Z.to_nat p = byte_read mem address buf0 p) /\
  (forall p, bytes_read s <= p -> buffer s !! Z.to_nat p = buf0 !! Z.to_nat p).

(** The last [consecutive_failures] words before the read position faulted. *)
Definition read_fails (mem : Z -> option Z) (address : Z) (s : ReadLoop) : Prop :=
  (forall j, 1 <= j <= consecutive_failures s ->
             mem (aligned_addr_of (address + bytes_read s - 8 * j)) = None) /\
  (0 < consecutive_failures s -> offset_of (address + bytes_read s) = 0).

(** Why the loop was left. *)
Definition read_stopped (mem : Z -> option Z) (address size : Z) (s : ReadLoop) : Prop :=
  bytes_read s = size
  \/ (consecutive_failures s = 3 /\ read_fails mem address s)
  \/ (mem (aligned_addr_of (address + bytes_read s)) = None /\
      size - bytes_read s <= 8 - offset_of (address + bytes_read s)).


(** Whether thread [pid] is in the middle of a single step. *)
Definition in_single_step {arch : Arch} (d : Debugger) (pid : Z) : bool :=
  match thread_states_ d !! pid with
  | Some st => negb (SingleStepMode.is_None (single_step_mode st))
  | None => false
  end.

(** The exception type of a notification to the client, if the request is one. *)
Definition upcall_type {arch : Arch} (c : Syscall) : option Z :=
  match c with
  | send_exception_info info _ => Some (exception_type info)
  | _ => None
  end.

(** The client's answer to the first notification among the events, and
    the requests issued after that notification. *)
Definition is_upcall_b {arch : Arch} (c : Syscall) : bool :=
  match c with send_exception_info _ _ => true | _ => false end.

Fixpoint upcall_answer {arch : Arch} (evs : list Event) : option bool :=
  match evs with
  | [] => None
  | e :: evs' =>
      if is_upcall_b (fst e) then Some (negb (r_ret (snd e) =? 0)) else upcall_answer evs'
  end.

Fixpoint requests_after_upcall {arch : Arch} (evs : list Event) : list Syscall :=
  match evs with
  | [] => []
  | e :: evs' => if is_upcall_b (fst e) then map fst evs' else requests_after_upcall evs'
  end.

(** A hardware breakpoint in trace mode: a target count is set and, counting
    the present hit, not reached yet. *)
Definition trace_mode {arch : Arch} (d : Debugger) (bp_index : Z) : bool :=
  (bp_index <? 1000) && (0 <=? bp_index) && (bp_index <? MAX_BREAKPOINTS)
  && (0 <? at_ (breakpoint_target_counts d) bp_index)
  && (at_ (breakpoint_hit_counts d) bp_index + 1 <? at_ (breakpoint_target_counts d) bp_index).

(** The software-breakpoint table, and the invariant that no two of its
    entries in use hold the same address. *)
Definition sw_tables {arch : Arch} (d : Debugger) : gmap Z bool * gmap Z Z * gmap Z Z :=
  (software_breakpoint_used d, software_breakpoint_addresses d,
   software_breakpoint_original_bytes d).

Definition sw_active {arch : Arch} (d : Debugger) (i address : Z) : Prop :=
  vget false (software_breakpoint_used d) i = true /\
  vget 0 (software_breakpoint_addresses d) i = address.

Definition sw_unique {arch : Arch} (d : Debugger) : Prop :=
  forall i j address, sw_active d i address -> sw_active d j address -> i = j.

(** The requests of the stop-the-world phase: the listing of [/proc], the
    interrupts, the polls of the wait status, and resumptions that deliver
    no signal. *)
Definition is_stop_request {arch : Arch} (c : Syscall) : bool :=
  match c with
  | proc_task_list _ | ptrace_INTERRUPT _ | sys_waitpid _ _ => true
  | ptrace_CONT _ sig => sig =? 0
  | _ => false
  end.

(** The signal that waits to be delivered to a thread when it is resumed. *)
Definition pending_of {arch : Arch} (d : Debugger) (tid : Z) : Z :=
  match thread_states_ d !! tid with
  | Some st => pending_signal st
  | None => 0
  end.

(** The hardware watchpoint table, and the synchronisation state of its slots. *)
Definition wp_view {arch : Arch} (d : Debugger)
  : list bool * list Z * list Z * list WatchpointType.t :=
  (watchpoint_used d, watchpoint_addresses d, watchpoint_sizes d, watchpoint_types d).

Definition wp_sync_view {arch : Arch} (d : Debugger) : list WatchpointSync * Z :=
  (watchpoint_sync_ d, removing_mask_ d).

(** The register names that [read_register] and [write_register] accept:
    the canonical ones, and [eflags] as a second name of [rflags]. *)
Definition accepted_regs (a : Arch) : list string :=
  canonical_regs a ++ match a with ARM64 => [] | X86_64 => ["eflags"%string] end.

(** A completed request answers the request it was made from. *)
Definition answers (request c : DebugRequest) : Prop :=
  completed c = true /\ command c = command request /\
  address c = address request /\ thread_id c = thread_id request.

Definition is_spawn (c : DebugCommand.t) : Prop :=
  c = DebugCommand.SpawnProcess \/ c = DebugCommand.SpawnProcessWithPty.

(** The threads whose PTRACE_SEIZE did not fail, in the order of the requests. *)
Definition seized {arch : Arch} (evs : list Event) : list Z :=
  omap (fun e : Event =>
          match fst e with
          | ptrace_SEIZE tid _ => if failed (snd e) then None else Some tid
          | _ => None
          end) evs.

(** ** Example worlds *)

(** A debugger attached to thread 100 of process 100 on x86_64; the kernel
    script answers one successful [set_watchpoint(0x1000, 4, WRITE)]: the
    thread list, the interrupt, the wait, the three debug-register accesses
    and the resume. *)
Definition c1_start : World (arch := X86_64) (list (Reply (arch := X86_64))) :=
  world0 (set_attached_threads_ {[100]} (Debugger_new 100))
    [reply_tids [100]; reply_ok; reply_out 100 0x057f; reply_ok; reply_ok; reply_ok; reply_ok].

Definition c1_after_first : World (arch := X86_64) (list (Reply (arch := X86_64))) :=
  snd (run (set_watchpoint_internal (E := ScriptEnv) 0x1000 4 WatchpointType.WRITE) c1_start).

(** A user suspend is pending and thread 100 reports its SIGSTOP stop
    (wait status 0x137f); the script answers the [kill] of the handler and a
    later [PTRACE_CONT]. *)
Definition c5_start : World (arch := X86_64) (list (Reply (arch := X86_64))) :=
  snd (run (handle_exception (E := ScriptEnv) 100 0x137f)
         (world0 (set_user_suspend_pending_ true
                    (set_attached_threads_ {[100]} (Debugger_new 100)))
                 [reply_ok; reply_ok])).

(** Thread 7 of process 7 is attached and stopped with all registers zero
    in the simulated kernel. *)
Definition c9_world : World (arch := X86_64) (SimKernel (arch := X86_64)) :=
  world0 (set_attached_threads_ {[7]} (Debugger_new 7))
         {| sim_regs := {[7 := X86.zero]}; sim_mem := ∅ |}.

(** A target whose words at 0x1000 and 0x1010 are mapped and whose word at
    0x1008 is not; thread 7 is attached and stopped. *)
Definition c6_mem : gmap Z Z :=
  list_to_map (map (fun k => (0x1000 + k, 0x10 + k)) (seqZ 0 8) ++
               map (fun k => (0x1010 + k, 0x20 + k)) (seqZ 0 8)).

Definition c6_world : World (arch := X86_64) (SimKernel (arch := X86_64)) :=
  world0 (set_attached_threads_ {[7]} (Debugger_new 7))
         {| sim_regs := {[7 := X86.zero]}; sim_mem := c6_mem |}.

(** Thread 100 is attached, no signal is configured, and the kernel script
    is empty (every request is answered with success). *)
Definition c10_world : World (arch := X86_64) (list (Reply (arch := X86_64))) :=
  world0 (set_attached_threads_ {[100]} (Debugger_new 100)) [].

(** The watchpoint of [c1_after_first] sits in slot 0 and is being removed
    (its bit of [removing_mask_] is set) when thread 100 stops on it: the
    script answers GETREGS, GETSIGINFO, the read of DR6 (bit 0 set), the
    write that clears DR6, the notification and the resumption. *)
Definition c2_world : World (arch := X86_64) (list (Reply (arch := X86_64))) :=
  {| dbg := set_removing 0 true (dbg c1_after_first);
     kern := [reply_ok; reply_ok; reply_ret 1; reply_ok; reply_ret 1; reply_ok];
     trace := [] |}.

(** A hardware breakpoint sits in slot 0 at 0x4000 and thread 100 stops on
    it: the script answers GETREGS (program counter 0x4000), GETSIGINFO, the
    read of DR6 (no watchpoint bit), the notification (the client answers
    [false]) and the resumption. *)
Definition c4_regs : regs_t X86_64 := regs_set_pc X86_64 X86.zero 0x4000.

Definition c4_world : World (arch := X86_64) (list (Reply (arch := X86_64))) :=
  world0 (set_breakpoint_addresses [0x4000; 0; 0; 0]
            (set_breakpoint_used [true; false; false; false]
               (set_attached_threads_ {[100]} (Debugger_new 100))))
         [reply_regs c4_regs; reply_ok; reply_ret 0; reply_ret 0; reply_ok].

(** A target with one mapped word at 0x2000 (bytes 0x55, 0x48, 0x89, ...);
    thread 7 of process 7 is attached. *)
Definition c3_mem : gmap Z Z :=
  list_to_map (zip (map (fun k => 0x2000 + k) (seqZ 0 8))
                   [0x55; 0x48; 0x89; 0xe5; 0x90; 0x90; 0x90; 0xc3]).

Definition c3_world : World (arch := X86_64) (SimKernel (arch := X86_64)) :=
  world0 (set_attached_threads_ {[7]} (Debugger_new 7))
         {| sim_regs := {[7 := X86.zero]}; sim_mem := c3_mem |}.

(** [set_breakpoint(0x2000, 0, software)] twice, then
    [remove_breakpoint(0x2000)] twice. *)
Definition c3_set_twice : World (arch := X86_64) (SimKernel (arch := X86_64)) :=
  snd (run (set_software_breakpoint_internal (E := SimEnv) 0x2000 0)
         (snd (run (set_software_breakpoint_internal (E := SimEnv) 0x2000 0) c3_world))).

Definition c3_removed_twice : World (arch := X86_64) (SimKernel (arch := X86_64)) :=
  snd (run (remove_breakpoint_internal (E := SimEnv) 0x2000)
         (snd (run (remove_breakpoint_internal (E := SimEnv) 0x2000) c3_set_twice))).

(** A software breakpoint was set at 0x2000 (slot 0) and thread 7 is
    completing the single step of a silent continue over it. *)
Definition c3_set_once : World (arch := X86_64) (SimKernel (arch := X86_64)) :=
  snd (run (set_software_breakpoint_internal (E := SimEnv) 0x2000 0) c3_world).

Definition stepping_world : World (arch := X86_64) (SimKernel (arch := X86_64)) :=
  {| dbg := upd_thread 7 (fun t =>
              set_single_step_mode SingleStepMode.SoftwareBreakpointContinue
                (set_disabled_watchpoint_index 1000 (set_current_breakpoint_index (-1) t)))
              (dbg c3_set_once);
     kern := kern c3_set_once;
     trace := [] |}.

(** Thread 100 is attached and SIGUSR1 (10) is configured to be caught and
    passed to the target. *)
Definition caught_world : World (arch := X86_64) (list (Reply (arch := X86_64))) :=
  world0 (set_signal_config 10 {| catch_signal := true; pass_signal := true |}
            (set_attached_threads_ {[100]} (Debugger_new 100))) [].

(** The simulated kernel keeps one register block per thread. *)
#[global, refine] Instance SimEnv_RegisterFile {arch : Arch} : RegisterFile (SimEnv (arch := arch)) := {
  regs_of := fun k tid => sim_regs k !! tid }.
Proof.
  - intros k tid r H. simpl. unfold sim_sys. rewrite H. done.
  - intros k tid r. simpl. unfold sim_sys.
    destruct (sim_regs k !! tid) eqn:Hk; simpl; [intros _|discriminate].
    split; [apply lookup_insert_eq|]. intros t Ht. by apply lookup_insert_ne.
Defined.

(** * Properties *)

(** ** Reasoning rules for the state monad *)

Section Rules.
Context {arch : Arch} {K : Type} {E : Env K}.

Lemma bind_run {A B : Type} (m : M K A) (f : A -> M K B) (w : World K) :
  bind m f w = f (fst (m w)) (snd (m w)).
Proof. reflexivity. Qed.

Lemma ret_run {A : Type} (a : A) (w : World K) : ret a w = (a, w).
Proof. reflexivity. Qed.

Lemma get_dbg_run (w : World K) : get_dbg w = (dbg w, w).
Proof. reflexivity. Qed.

Lemma modify_dbg_run (f : Debugger -> Debugger) (w : World K) :
  modify_dbg f w = (tt, {| dbg := f (dbg w); kern := kern w; trace := trace w |}).
Proof. reflexivity. Qed.

Lemma call_run (c : Syscall) (w : World K) :
  call c w = (fst (sys c (kern w)),
              {| dbg := dbg w; kern := snd (sys c (kern w));
                 trace := trace w ++ [(c, fst (sys c (kern w)))] |}).
Proof. reflexivity. Qed.

Lemma returns_ret {A : Type} (P : A -> Prop) (a : A) : P a -> returns P (ret a : M K A).
Proof. intros H w. exact H. Qed.

Lemma returns_bind {A B : Type} (P : B -> Prop) (m : M K A) (f : A -> M K B) :
  (forall a, returns P (f a)) -> returns P (bind m f).
Proof. intros H w. rewrite bind_run. apply H. Qed.

Lemma returns_bind_with {A B : Type} (Q : A -> Prop) (P : B -> Prop)
    (m : M K A) (f : A -> M K B) :
  returns Q m -> (forall a, Q a -> returns P (f a)) -> returns P (bind m f).
Proof. intros Hm H w. rewrite bind_run. apply H, Hm. Qed.

Lemma returns_weaken {A : Type} (P Q : A -> Prop) (m : M K A) :
  (forall a, P a -> Q a) -> returns P m -> returns Q m.
Proof. intros H Hm w. apply H, Hm. Qed.

Lemma moves_ret {A : Type} (T : World K -> World K -> Prop) `{!Reflexive T} (a : A) :
  moves T (ret a : M K A).
Proof. intros w. simpl. reflexivity. Qed.

Lemma moves_bind {A B : Type} (T : World K -> World K -> Prop) `{!Transitive T}
    (m : M K A) (f : A -> M K B) :
  moves T m -> (forall a, moves T (f a)) -> moves T (bind m f).
Proof.
  intros Hm Hf w. rewrite bind_run. etransitivity; [apply Hm | apply Hf].
Qed.

Lemma moves_get_dbg (T : World K -> World K -> Prop) `{!Reflexive T} : moves T get_dbg.
Proof. intros w. simpl. reflexivity. Qed.

Lemma moves_for_each {A : Type} (T : World K -> World K -> Prop)
    `{!Reflexive T} `{!Transitive T} (l : list A) (body : A -> M K unit) :
  (forall x, moves T (body x)) -> moves T (for_each l body).
Proof.
  intros H. induction l as [|x l IH]; simpl.
  - apply moves_ret; assumption.
  - apply moves_bind; [assumption | apply H | intros _; exact IH].
Qed.

End Rules.

(** Run the next primitive steps of a computation applied to a world. *)
Ltac mrun :=
  repeat (rewrite ?bind_run, ?get_dbg_run, ?modify_dbg_run, ?ret_run, ?call_run;
          cbn [fst snd dbg kern trace]).

(** Syntax-directed proof search over the monad's combinators. *)
Ltac returns_step :=
  lazymatch goal with
  | |- returns _ (bind _ _) => apply returns_bind; intros
  | |- returns _ (ret _) => apply returns_ret
  | |- returns _ (if ?c then _ else _) => destruct c
  | |- returns _ (match ?x with _ => _ end) => destruct x
  | |- returns _ (let x := _ in _) => cbv zeta
  end.

Ltac moves_step :=
  lazymatch goal with
  | |- moves _ (bind _ _) => apply moves_bind; [typeclasses eauto | | intros]
  | |- moves _ (ret _) => apply moves_ret; typeclasses eauto
  | |- moves _ get_dbg => apply moves_get_dbg; typeclasses eauto
  | |- moves _ (for_each _ _) =>
      apply moves_for_each; [typeclasses eauto | typeclasses eauto | intros]
  | |- moves _ (if ?c then _ else _) => destruct c
  | |- moves _ (match ?x with _ => _ end) => destruct x
  | |- moves _ (let x := _ in _) => cbv zeta
  end.

(** ** Table scans return the lowest matching index *)

Lemma scan_from_spec (P : Z -> bool) (fuel : nat) (i bound : Z) :
  bound - i <= Z.of_nat fuel ->
  (scan_from P fuel i bound = -1 /\ forall j, i <= j < bound -> P j = false)
  \/ (i <= scan_from P fuel i bound < bound /\ P (scan_from P fuel i bound) = true /\
      forall j, i <= j < scan_from P fuel i bound -> P j = false).
Proof.
  revert i. induction fuel as [|fuel IH]; intros i Hf; simpl.
  - left. split; [done|]. intros j Hj. lia.
  - destruct (i <? bound) eqn:Hb.
    + apply Z.ltb_lt in Hb. destruct (P i) eqn:HP.
      * right. split; [lia|]. split; [done|]. intros j Hj. lia.
      * destruct (IH (i + 1) ltac:(lia)) as [[-> Hn]|(Hr & HPr & Hlow)].
        -- left. split; [done|]. intros j Hj.
           destruct (Z.eq_dec j i) as [->|]; [done | apply Hn; lia].
        -- right. split; [lia|]. split; [done|]. intros j Hj.
           destruct (Z.eq_dec j i) as [->|]; [done | apply Hlow; lia].
    + left. split; [done|]. intros j Hj. apply Z.ltb_ge in Hb. lia.
Qed.

(** [scan] answers [-1] when no index below the bound satisfies the test,
    and otherwise the lowest index that does. *)
Lemma scan_spec (P : Z -> bool) (bound : Z) :
  (scan P bound = -1 /\ forall j, 0 <= j < bound -> P j = false)
  \/ (0 <= scan P bound < bound /\ P (scan P bound) = true /\
      forall j, 0 <= j < scan P bound -> P j = false).
Proof. unfold scan. apply scan_from_spec. lia. Qed.

(** ** Frame rules: what a computation leaves alone *)

Section Frames.
Context {arch : Arch} {K : Type} {E : Env K}.

#[global] Instance keeps_refl (J : World K -> Prop) : Reflexive (keeps J).
Proof. intros w H. exact H. Qed.

#[global] Instance keeps_trans (J : World K -> Prop) : Transitive (keeps J).
Proof. intros a b c H1 H2 H. apply H2, H1, H. Qed.

#[global] Instance same_view_refl {V : Type} (view : Debugger -> V) :
  Reflexive (same_view (K := K) view).
Proof. intros w. reflexivity. Qed.

#[global] Instance same_view_trans {V : Type} (view : Debugger -> V) :
  Transitive (same_view (K := K) view).
Proof. intros a b c H1 H2. unfold same_view in *. congruence. Qed.

Lemma moves_call_kern (I : K -> Prop) (c : Syscall) :
  (forall k, I k -> I (snd (sys c k))) -> moves (keeps (fun w => I (kern w))) (call c).
Proof. intros H w Hw. rewrite call_run. simpl. apply H, Hw. Qed.

Lemma moves_modify_kern (I : K -> Prop) (f : Debugger -> Debugger) :
  moves (keeps (fun w : World K => I (kern w))) (modify_dbg f).
Proof. intros w Hw. exact Hw. Qed.

Lemma moves_call_view {V : Type} (view : Debugger -> V) (c : Syscall) :
  moves (same_view (K := K) view) (call c).
Proof. intros w. reflexivity. Qed.

Lemma moves_modify_view {V : Type} (view : Debugger -> V) (f : Debugger -> Debugger) :
  (forall d, view (f d) = view d) -> moves (same_view (K := K) view) (modify_dbg f).
Proof. intros H w. apply H. Qed.

#[global] Instance trace_grows_refl (Q : Event -> Prop) : Reflexive (trace_grows (K := K) Q).
Proof. intros w. exists []. rewrite app_nil_r. split; [reflexivity | constructor]. Qed.

#[global] Instance trace_grows_trans (Q : Event -> Prop) : Transitive (trace_grows (K := K) Q).
Proof.
  intros a b c (e1 & H1 & Q1) (e2 & H2 & Q2). exists (e1 ++ e2).
  rewrite H2, H1, app_assoc. split; [reflexivity | apply Forall_app; done].
Qed.

Lemma moves_call_grows (Q : Event -> Prop) (c : Syscall) :
  (forall r, Q (c, r)) -> moves (trace_grows (K := K) Q) (call c).
Proof.
  intros H w. rewrite call_run. simpl. eexists. split; [reflexivity|].
  constructor; [apply H | constructor].
Qed.

Lemma moves_modify_grows (Q : Event -> Prop) (f : Debugger -> Debugger) :
  moves (trace_grows (K := K) Q) (modify_dbg f).
Proof. intros w. simpl. exists []. rewrite app_nil_r. split; [reflexivity | constructor]. Qed.

(** What a computation added to the trace, once the trace is known to grow. *)
Lemma emitted_app {A : Type} (m : M K A) (w : World K) (evs : list Event) :
  trace (snd (m w)) = trace w ++ evs -> emitted m w = evs.
Proof. intros H. unfold emitted. rewrite H. apply drop_app_length. Qed.

Lemma emitted_grows {A : Type} (Q : Event -> Prop) (m : M K A) (w : World K) :
  moves (trace_grows Q) m ->
  trace (snd (m w)) = trace w ++ emitted m w /\ Forall Q (emitted m w).
Proof.
  intros H. destruct (H w) as (evs & Ht & HQ).
  rewrite (emitted_app m w evs Ht). done.
Qed.

End Frames.

Ltac moves_auto :=
  repeat first
    [ moves_step
    | assumption
    | match goal with
      | H : forall c, writes_target c = false -> moves ?T (call c) |- moves ?T (call _) =>
          apply H; reflexivity
      | |- moves (trace_grows _) (call _) => apply moves_call_grows; intros; simpl; done
      | |- moves (trace_grows _) (modify_dbg _) => apply moves_modify_grows
      | |- moves (same_view _) (call _) => apply moves_call_view
      | H : forall f, _ -> moves ?T (modify_dbg f) |- moves ?T (modify_dbg _) =>
          apply H; intros; try reflexivity
      | IH : context [moves ?T _] |- moves ?T _ => apply IH
      end ].

Section Thread_frames.
Context {arch : Arch} {K : Type} {E : Env K}.
Variable T : World K -> World K -> Prop.
Context {T_refl : Reflexive T} {T_trans : Transitive T}.
Hypothesis T_call : forall c, writes_target c = false -> moves T (call c).
Hypothesis T_modify : forall f : Debugger -> Debugger,
  (forall d, threads_erased (f d) = threads_erased d) -> moves T (modify_dbg f).

Lemma threads_erased_foldr_erase (l : list Z) (d : Debugger) :
  threads_erased (foldr erase_thread d l) = threads_erased d.
Proof. induction l as [|x l IH]; simpl; [done|]. rewrite <- IH. reflexivity. Qed.

Lemma moves_get_thread_list : moves T get_thread_list.
Proof. unfold get_thread_list. moves_auto. Qed.

Lemma moves_find_stopped_thread_in pid l : moves T (find_stopped_thread_in pid l).
Proof. induction l as [|x l IH]; simpl; moves_auto. Qed.

Lemma moves_find_stopped_thread : moves T find_stopped_thread.
Proof. unfold find_stopped_thread. moves_auto. apply moves_find_stopped_thread_in. Qed.

Lemma moves_interrupt_threads l ex st al : moves T (interrupt_threads l ex st al).
Proof. revert st al. induction l as [|x l IH]; intros; simpl; moves_auto. Qed.

Lemma moves_wait_for_stop ticks tid el : moves T (wait_for_stop ticks tid el).
Proof. revert el. induction ticks as [|n IH]; intros; simpl; moves_auto. Qed.

Lemma moves_wait_for_stops l conf el : moves T (wait_for_stops l conf el).
Proof.
  revert el. induction l as [|x l IH]; intros; simpl; moves_auto;
    apply moves_wait_for_stop.
Qed.

Lemma moves_cancel_interrupt l : moves T (cancel_interrupt_for_non_stopped_threads l).
Proof. unfold cancel_interrupt_for_non_stopped_threads. moves_auto. Qed.

Lemma moves_stop_all_threads ex : moves T (stop_all_threads ex).
Proof.
  unfold stop_all_threads. moves_auto.
  - apply moves_get_thread_list.
  - apply threads_erased_foldr_erase.
  - apply moves_interrupt_threads.
  - apply moves_wait_for_stops.
  - apply moves_cancel_interrupt.
Qed.

Lemma moves_resume_threads l : moves T (resume_threads l).
Proof. unfold resume_threads. moves_auto. Qed.

Lemma moves_verify_threads_stopped l : moves T (verify_threads_stopped l).
Proof. induction l as [|x l IH]; simpl; moves_auto. Qed.

End Thread_frames.

(** ** Watchpoint length encoding (claim C7) *)

Lemma land_shiftr_lor_land (x c2 c3 n m : Z) :
  Z.land (Z.shiftr c2 n) m = 0 ->
  Z.land (Z.shiftr (Z.lor (Z.land x c2) c3) n) m = Z.land (Z.shiftr c3 n) m.
Proof.
  intros H. rewrite Z.shiftr_lor, Z.shiftr_land, Z.land_lor_distr_l.
  rewrite <- Z.land_assoc, H, Z.land_0_r. apply Z.lor_0_l.
Qed.

Lemma arm_watch_ctrl_len (size : Z) (type : WatchpointType.t) :
  arm_ctrl_len (arm_watch_ctrl size type) = arm_length size.
Proof.
  unfold arm_watch_ctrl, arm_length.
  destruct (size <=? 1); [|destruct (size <=? 2); [|destruct (size <=? 4)]];
    destruct type; reflexivity.
Qed.

Lemma x86_watch_dr7_len (dr7 size : Z) (type : WatchpointType.t) :
  x86_dr7_len (x86_watch_dr7 dr7 0 size type) 0 = x86_len size.
Proof.
  unfold x86_dr7_len, x86_watch_dr7, x86_len. cbv zeta.
  destruct (size <=? 1); [|destruct (size <=? 2); [|destruct (size <=? 4)]];
    destruct type; (rewrite land_shiftr_lor_land; [reflexivity | reflexivity]).
Qed.

(** C7, as stated, fails: size 5 is not programmed with the 4-byte length
    encoding on either architecture, it gets the 8-byte one. *)
Lemma C7_counterexample :
  ~ (forall size type dr7,
       size <> 1 -> size <> 2 -> size <> 4 -> size <> 8 ->
       arm_ctrl_len (arm_watch_ctrl size type) = ARM_BREAKPOINT_LEN_4 /\
       x86_dr7_len (x86_watch_dr7 dr7 0 size type) 0 = X86_DR7_LEN_4).
Proof.
  intros H.
  destruct (H 5 WatchpointType.WRITE 0 ltac:(lia) ltac:(lia) ltac:(lia) ltac:(lia))
    as [Harm _].
  vm_compute in Harm. discriminate.
Qed.

(** C7, amended: the length field written to the debug registers rounds the
    size up to the next supported length.  Sizes of at most 1 (0 and negative
    sizes included) get the 1-byte encoding, size 2 the 2-byte one, sizes 3
    and 4 the 4-byte one, and every size of 5 or more the 8-byte one; this
    holds for the ARM64 control word and for the DR7 length bits of the
    single watchpoint slot, whatever DR7 held before. *)
Theorem C7_length_rounds_up (size dr7 : Z) (type : WatchpointType.t) :
  arm_ctrl_len (arm_watch_ctrl size type)
    = (if size <=? 1 then ARM_BREAKPOINT_LEN_1
       else if size <=? 2 then ARM_BREAKPOINT_LEN_2
       else if size <=? 4 then ARM_BREAKPOINT_LEN_4
       else ARM_BREAKPOINT_LEN_8)
  /\ x86_dr7_len (x86_watch_dr7 dr7 0 size type) 0
    = (if size <=? 1 then X86_DR7_LEN_1
       else if size <=? 2 then X86_DR7_LEN_2
       else if size <=? 4 then X86_DR7_LEN_4
       else X86_DR7_LEN_8).
Proof. split; [apply arm_watch_ctrl_len | apply x86_watch_dr7_len]. Qed.

(** ** Watchpoint slot allocation (claim C1) *)

Section Watchpoint_slots.
Context {arch : Arch} {K : Type} {E : Env K}.

Lemma one_slot_cases (d : Debugger) :
  length (watchpoint_used d) = Z.to_nat MAX_WATCHPOINTS ->
  exists b, watchpoint_used d = [b].
Proof.
  destruct (watchpoint_used d) as [|b [|? ?]]; simpl; try discriminate.
  intros _. by exists b.
Qed.

(** C1, amended: the watchpoint table has one slot ([MAX_WATCHPOINTS] is 1,
    "limited to 1 for stability").  In a state with no watchpoint in use the
    scan finds slot 0; it finds nothing exactly when the one slot is taken,
    and in that case [set_watchpoint_internal] returns -1 without sending any
    request to the kernel or changing the debugger. *)
Theorem C1_single_watchpoint_slot (w : World K) (address size : Z) (type : WatchpointType.t) :
  length (watchpoint_used (dbg w)) = Z.to_nat MAX_WATCHPOINTS ->
  MAX_WATCHPOINTS = 1 /\
  (watchpoints_in_use (dbg w) < MAX_WATCHPOINTS -> find_free_watchpoint (dbg w) = 0) /\
  (find_free_watchpoint (dbg w) = -1 <-> watchpoints_in_use (dbg w) = MAX_WATCHPOINTS) /\
  (watchpoints_in_use (dbg w) = MAX_WATCHPOINTS ->
   set_watchpoint_internal address size type w = (-1, w)).
Proof.
  intros Hlen. destruct (one_slot_cases _ Hlen) as [b Hb].
  assert (Hfree : find_free_watchpoint (dbg w) = if b then -1 else 0).
  { unfold find_free_watchpoint. rewrite Hb. by destruct b. }
  assert (Huse : watchpoints_in_use (dbg w) = if b then 1 else 0).
  { unfold watchpoints_in_use. rewrite Hb. by destruct b. }
  rewrite Hfree, Huse. change MAX_WATCHPOINTS with 1.
  split; [done|]. split; [by destruct b|]. split; [by destruct b|].
  intros Hb1. destruct b; [|done].
  unfold set_watchpoint_internal. mrun. rewrite Hfree. reflexivity.
Qed.

End Watchpoint_slots.

(** C1, as stated, fails: after one successful [set_watchpoint] a single
    watchpoint is in use, fewer than 4, and yet the next [set_watchpoint]
    finds no free slot and fails. *)
Lemma C1_counterexample :
  fst (run (arch := X86_64) (set_watchpoint_internal (E := ScriptEnv) 0x1000 4 WatchpointType.WRITE) c1_start)
    = 0 /\
  watchpoints_in_use (dbg c1_after_first) = 1 /\
  1 < 4 /\
  find_free_watchpoint (dbg c1_after_first) = -1 /\
  fst (run (arch := X86_64) (set_watchpoint_internal (E := ScriptEnv) 0x2000 4 WatchpointType.WRITE)
         c1_after_first) = -1.
Proof. vm_compute. repeat split; congruence. Qed.

Lemma C1_single_watchpoint_slot_witness :
  length (watchpoint_used (dbg c1_after_first)) = Z.to_nat MAX_WATCHPOINTS /\
  set_watchpoint_internal (arch := X86_64) (E := ScriptEnv) 0x2000 4 WatchpointType.WRITE c1_after_first
    = (-1, c1_after_first).
Proof.
  assert (H : length (watchpoint_used (dbg c1_after_first)) = Z.to_nat MAX_WATCHPOINTS)
    by (vm_compute; reflexivity).
  split; [exact H|].
  apply (C1_single_watchpoint_slot (arch := X86_64) (E := ScriptEnv) c1_after_first 0x2000 4
           WatchpointType.WRITE H).
  vm_compute. reflexivity.
Defined.

(** ** Exit code of the spawned child (claim C8) *)

Section Spawn_child.
Context {arch : Arch} {K : Type} {E : Env K}.

(** C8 (the code departs from the claim): when the forked child of
    [spawn_process_internal] or [spawn_process_with_pty_internal] ends in
    [_exit], a failed exec included, the exit code is 1 and never 127; only
    the untraced spawn helpers of core/process_api.cpp exit with 127. *)
Theorem C8_spawn_child_exit_code (request : DebugRequest) (path : string)
    (argv : list string) (suspended : bool) :
  returns (fun o => forall c, o = ChildExit c -> c = 1 /\ c <> 127) (spawn_child request)
  /\ returns (fun o => forall c, o = ChildExit c -> c = 127)
       (process_api_spawn_child path argv suspended).
Proof.
  split.
  - unfold spawn_child. repeat returns_step; intros c Hc; inversion Hc; lia.
  - unfold process_api_spawn_child.
    repeat returns_step; intros c Hc; inversion Hc; lia.
Qed.

End Spawn_child.

(** C8 at the failing input: tracing succeeds, [execvp] of a missing
    executable fails with ENOENT, and the child exits with 1. *)
Lemma C8_failing_input :
  fst (run (arch := X86_64)
         (spawn_child (E := ScriptEnv)
            (DebugRequest_new DebugCommand.SpawnProcess))
         (world0 (Debugger_new 0) [reply_ok; reply_err 2]))
  = ChildExit 1.
Proof. vm_compute. reflexivity. Qed.

(** ** Request results (claim C5) *)

Section Results.
Context {arch : Arch} {K : Type} {E : Env K}.

Let zero_or_minus_one : Z -> Prop := fun r => r = 0 \/ r = -1.

Local Ltac returns_auto :=
  unfold zero_or_minus_one; repeat returns_step;
  repeat match goal with |- context [if ?c then _ else _] => destruct c end;
  try (left; reflexivity); try (right; reflexivity).

Lemma set_watchpoint_internal_result (address size : Z) (type : WatchpointType.t) :
  returns zero_or_minus_one (set_watchpoint_internal address size type).
Proof. unfold set_watchpoint_internal. returns_auto. Qed.

Lemma remove_watchpoint_internal_result (address : Z) :
  returns zero_or_minus_one (remove_watchpoint_internal address).
Proof. unfold remove_watchpoint_internal. returns_auto. Qed.

Lemma set_hardware_breakpoint_internal_result (address hit_count : Z) :
  returns zero_or_minus_one (set_hardware_breakpoint_internal address hit_count).
Proof. unfold set_hardware_breakpoint_internal. returns_auto. Qed.

Lemma set_software_breakpoint_internal_result (address hit_count : Z) :
  returns zero_or_minus_one (set_software_breakpoint_internal address hit_count).
Proof. unfold set_software_breakpoint_internal. returns_auto. Qed.

Lemma set_breakpoint_internal_result (address hit_count : Z) (t : BreakpointType.t) :
  returns zero_or_minus_one (set_breakpoint_internal address hit_count t).
Proof.
  destruct t; [apply set_hardware_breakpoint_internal_result
              | apply set_software_breakpoint_internal_result].
Qed.

Lemma remove_software_breakpoint_internal_result (address : Z) :
  returns zero_or_minus_one (remove_software_breakpoint_internal address).
Proof. unfold remove_software_breakpoint_internal. returns_auto. Qed.

Lemma remove_breakpoint_internal_result (address : Z) :
  returns zero_or_minus_one (remove_breakpoint_internal address).
Proof.
  unfold remove_breakpoint_internal. returns_step. returns_step; [returns_auto|].
  returns_step; [apply remove_software_breakpoint_internal_result|]. returns_auto.
Qed.

Lemma continue_execution_internal_result (thread_id : Z) :
  returns zero_or_minus_one (continue_execution_internal thread_id).
Proof. unfold continue_execution_internal. returns_auto. Qed.

Lemma single_step_internal_result (thread_id : Z) :
  returns zero_or_minus_one (single_step_internal thread_id).
Proof. unfold single_step_internal. returns_auto. Qed.

Lemma reapply_all_watchpoints_internal_result (t : Z) :
  returns zero_or_minus_one (reapply_all_watchpoints_internal t).
Proof. unfold reapply_all_watchpoints_internal. returns_auto. Qed.

Lemma read_register_internal_result (thread_id : Z) (name : string) (value : option Z) :
  returns (fun r => fst r = 0 \/ fst r = -1) (read_register_internal thread_id name value).
Proof. unfold read_register_internal. repeat returns_step; simpl; auto. Qed.

Lemma write_register_internal_result (thread_id : Z) (name : string) (value : Z) :
  returns zero_or_minus_one (write_register_internal thread_id name value).
Proof. unfold write_register_internal. returns_auto. Qed.

Lemma spawn_parent_result (pid : Z) (fd : option Z) :
  returns zero_or_minus_one (spawn_parent pid fd).
Proof. unfold spawn_parent. returns_auto. Qed.

Lemma resume_user_stopped_result (tids : list Z) (n : Z) :
  0 <= n -> returns (fun r => 0 <= r) (resume_user_stopped tids n).
Proof.
  revert n. induction tids as [|tid tids IH]; intros n Hn; simpl.
  - by apply returns_ret.
  - repeat returns_step; apply IH; lia.
Qed.

Lemma resume_all_user_stopped_threads_internal_result :
  returns (fun r => 0 <= r) resume_all_user_stopped_threads_internal.
Proof.
  unfold resume_all_user_stopped_threads_internal. returns_step.
  by apply resume_user_stopped_result.
Qed.

(** C5, amended: every request that [process_command_queue] completes gets
    [completed = true] and a result that is 0 or -1, except a
    [ResumeUserStoppedThreads] request, whose result is the number of threads
    resumed (0 or more).  The only requests that may fail to complete are the
    two spawn commands, in the forked child. *)
Theorem C5_request_results (request : DebugRequest) :
  returns (result_in_range request) (process_request request).
Proof.
  assert (Hfin : forall res : Z,
            match command request with
            | DebugCommand.ResumeUserStoppedThreads => 0 <= res
            | _ => res = 0 \/ res = -1
            end -> result_in_range request (inl (complete request res))).
  { intros res H. simpl. auto. }
  unfold process_request.
  destruct (command request) eqn:Hcmd.
  - apply returns_ret, Hfin. auto.
  - eapply returns_bind_with; [apply set_watchpoint_internal_result|].
    intros a Ha. apply returns_ret, Hfin, Ha.
  - eapply returns_bind_with; [apply remove_watchpoint_internal_result|].
    intros a Ha. apply returns_ret, Hfin, Ha.
  - eapply returns_bind_with; [apply set_breakpoint_internal_result|].
    intros a Ha. apply returns_ret, Hfin, Ha.
  - eapply returns_bind_with; [apply remove_breakpoint_internal_result|].
    intros a Ha. apply returns_ret, Hfin, Ha.
  - eapply returns_bind_with; [apply continue_execution_internal_result|].
    intros a Ha. apply returns_ret, Hfin, Ha.
  - eapply returns_bind_with; [apply single_step_internal_result|].
    intros a Ha. apply returns_ret, Hfin, Ha.
  - eapply returns_bind_with; [apply reapply_all_watchpoints_internal_result|].
    intros a Ha. apply returns_ret, Hfin, Ha.
  - eapply returns_bind_with; [apply read_register_internal_result|].
    intros a Ha. apply returns_ret. simpl. rewrite Hcmd. auto.
  - eapply returns_bind_with; [apply write_register_internal_result|].
    intros a Ha. apply returns_ret, Hfin, Ha.
  - apply returns_bind. intros a. apply returns_ret. simpl. rewrite Hcmd.
    destruct (0 <? fst a); auto.
  - eapply returns_bind_with with
      (Q := fun r => match r with
                     | inl (res, q) => (res = 0 \/ res = -1) /\ command q = command request
                     | inr _ => True
                     end).
    + unfold spawn_process_internal. apply returns_bind; intros f. cbv zeta.
      destruct (r_ret f <? 0); [apply returns_ret; auto|].
      destruct (r_ret f =? 0); [apply returns_bind; intros c; by apply returns_ret|].
      eapply returns_bind_with; [apply spawn_parent_result|].
      intros r Hr. apply returns_ret. split; [exact Hr|]. by destruct (r =? 0).
    + intros [[res q]|c] Ha; apply returns_ret; simpl; rewrite Hcmd; [|auto].
      destruct Ha as [Ha ->]. rewrite Hcmd. auto.
  - eapply returns_bind_with with
      (Q := fun r => match r with
                     | inl (res, q) => (res = 0 \/ res = -1) /\ command q = command request
                     | inr _ => True
                     end).
    + unfold spawn_process_with_pty_internal. apply returns_bind; intros f. cbv zeta.
      destruct (r_ret f <? 0); [apply returns_ret; auto|].
      destruct (r_ret f =? 0); [apply returns_bind; intros c; by apply returns_ret|].
      apply returns_bind; intros fl. apply returns_bind; intros _.
      eapply returns_bind_with; [apply spawn_parent_result|].
      intros r Hr. apply returns_ret. split; [exact Hr|]. by destruct (r =? 0).
    + intros [[res q]|c] Ha; apply returns_ret; simpl; rewrite Hcmd; [|auto].
      destruct Ha as [Ha ->]. rewrite Hcmd. auto.
  - eapply returns_bind_with; [apply resume_all_user_stopped_threads_internal_result|].
    intros a Ha. apply returns_ret, Hfin, Ha.
Qed.

End Results.

(** C5, as stated, fails: after a user suspend stopped thread 100, the
    [ResumeUserStoppedThreads] request completes with result 1, a positive
    number (the count of resumed threads). *)
Lemma C5_counterexample :
  exists c,
    fst (run (arch := X86_64)
           (process_request (E := ScriptEnv)
              (DebugRequest_new DebugCommand.ResumeUserStoppedThreads)) c5_start) = inl c
    /\ completed c = true /\ result c = 1 /\ 0 < result c.
Proof. eexists. vm_compute. repeat split; reflexivity. Qed.

(** ** Register round trip (claim C9) *)

Ltac split_elem H :=
  repeat (apply elem_of_cons in H; destruct H as [->|H]);
  [..| exfalso; apply elem_of_nil in H; exact H].

Lemma arm64_write_read_same (r : string) (v : Z) (r0 : Arm64.user_pt_regs) :
  r ∈ canonical_regs ARM64 -> length (Arm64.regs r0) = 31%nat ->
  exists r1, arm64_write_reg r v r0 = Some r1 /\ arm64_read_reg r r1 = Some v.
Proof.
  intros Hr Hlen. unfold canonical_regs in Hr.
  split_elem Hr; (eexists; split; [reflexivity|]); cbn;
    try reflexivity; f_equal; apply list_lookup_total_insert_eq; lia.
Qed.

Lemma x86_write_read_same (r : string) (v : Z) (r0 : X86.user_regs_struct) :
  r ∈ canonical_regs X86_64 ->
  exists r1, x86_write_reg r v r0 = Some r1 /\ x86_read_reg r r1 = Some v.
Proof.
  intros Hr. unfold canonical_regs in Hr.
  split_elem Hr; (eexists; split; reflexivity).
Qed.

Lemma arm64_write_read_other (r r' : string) (v : Z) (r0 r1 : Arm64.user_pt_regs) :
  r ∈ canonical_regs ARM64 -> r' ∈ canonical_regs ARM64 -> r' <> r ->
  arm64_write_reg r v r0 = Some r1 -> arm64_read_reg r' r1 = arm64_read_reg r' r0.
Proof.
  intros Hr Hr' Hne. unfold canonical_regs in Hr, Hr'.
  split_elem Hr; split_elem Hr'; try (exfalso; apply Hne; reflexivity);
    intros H; injection H as <-; cbn; try reflexivity;
    f_equal; apply list_lookup_total_insert_ne; lia.
Qed.

Lemma x86_write_read_other (r r' : string) (v : Z) (r0 r1 : X86.user_regs_struct) :
  r ∈ canonical_regs X86_64 -> r' ∈ canonical_regs X86_64 -> r' <> r ->
  x86_write_reg r v r0 = Some r1 -> x86_read_reg r' r1 = x86_read_reg r' r0.
Proof.
  intros Hr Hr' Hne. unfold canonical_regs in Hr, Hr'.
  split_elem Hr; split_elem Hr'; try (exfalso; apply Hne; reflexivity);
    intros H; injection H as <-; reflexivity.
Qed.

Lemma write_read_same {arch : Arch} (r : string) (v : Z) (r0 : regs_t arch) :
  r ∈ canonical_regs arch -> regs_wf arch r0 ->
  exists r1, write_reg arch r v r0 = Some r1 /\ read_reg arch r r1 = Some v.
Proof.
  destruct arch; simpl; intros Hr Hwf;
    [by apply arm64_write_read_same | by apply x86_write_read_same].
Qed.

Lemma write_read_other {arch : Arch} (r r' : string) (v : Z) (r0 r1 : regs_t arch) :
  r ∈ canonical_regs arch -> r' ∈ canonical_regs arch -> r' <> r ->
  write_reg arch r v r0 = Some r1 -> read_reg arch r' r1 = read_reg arch r' r0.
Proof.
  destruct arch; simpl; [apply arm64_write_read_other | apply x86_write_read_other].
Qed.

Section Registers.
Context {arch : Arch} {K : Type} {E : Env K} {RF : RegisterFile E}.

(** What [read_register_internal] does on a thread whose registers the
    kernel shows. *)
Lemma read_register_internal_run (w : World K) (t : Z) (r : string) (old : Z)
    (r0 : regs_t arch) :
  t ∈ attached_threads_ (dbg w) -> regs_of (kern w) t = Some r0 ->
  fst (read_register_internal t r (Some old) w)
    = match read_reg arch r r0 with Some v => (0, Some v) | None => (-1, Some old) end
  /\ dbg (snd (read_register_internal t r (Some old) w)) = dbg w
  /\ regs_of (kern (snd (read_register_internal t r (Some old) w))) = regs_of (kern w).
Proof.
  intros Hatt Hregs. destruct (getregs_law _ _ _ Hregs) as (Hok & Hr & Hsame).
  unfold read_register_internal. mrun.
  rewrite (bool_decide_eq_true_2 _ Hatt). rewrite bool_decide_eq_true_2 by eauto.
  cbn [negb orb]. mrun. rewrite Hok, Hr.
  destruct (read_reg arch r r0); mrun; auto.
Qed.


End Registers.


(** ** Reading the target's memory (claim C6) *)

Lemma aligned_addr_of_eq a : aligned_addr_of a = 8 * (to_u64 a / 8).
Proof.
  unfold aligned_addr_of, not64, word_size, to_u64.
  assert (H : 0 <= a mod 2 ^ 64 < 2 ^ 64) by (apply Z.mod_pos_bound; lia).
  set (x := a mod 2 ^ 64) in *.
  replace (8 * (x / 8)) with (Z.shiftl (Z.shiftr x 3) 3)
    by (rewrite Z.shiftl_mul_pow2, Z.shiftr_div_pow2 by lia; change (2^3) with 8; lia).
  rewrite <- Z.ldiff_ones_r by lia.
  apply Z.bits_inj'. intros n Hn.
  rewrite Z.land_spec, Z.ldiff_spec.
  change (Z.lxor ((8 - 1) mod 2 ^ 64) (2 ^ 64 - 1)) with (Z.ldiff (Z.ones 64) (Z.ones 3)).
  rewrite Z.ldiff_spec.
  destruct (Z.lt_ge_cases n 64) as [Hlt|Hge].
  - rewrite (Z.ones_spec_low 64) by lia. simpl. done.
  - rewrite (Z.ones_spec_high 64) by lia. simpl.
    rewrite andb_false_r.
    assert (Z.testbit x n = false) as ->; [|done].
    destruct (Z.eq_dec x 0) as [->|]; [apply Z.bits_0|].
    apply Z.bits_above_log2; [lia|].
    assert (Z.log2 x < 64) by (apply Z.log2_lt_pow2; lia). lia.
Qed.

Lemma offset_of_eq a : offset_of a = to_u64 a mod 8.
Proof.
  unfold offset_of. rewrite aligned_addr_of_eq.
  pose proof (Z.div_mod (to_u64 a) 8 ltac:(lia)). lia.
Qed.

Lemma offset_of_range a : 0 <= offset_of a < 8.
Proof. rewrite offset_of_eq. apply Z.mod_pos_bound. lia. Qed.

(** Inside one word the aligned address stays and the offset counts up. *)
Lemma same_word a d :
  0 <= d < 8 - offset_of a ->
  aligned_addr_of (a + d) = aligned_addr_of a /\ offset_of (a + d) = offset_of a + d.
Proof.
  rewrite !offset_of_eq, !aligned_addr_of_eq. intros Hd.
  assert (Hx : 0 <= to_u64 a < 2 ^ 64) by (apply Z.mod_pos_bound; lia).
  assert (Hs : to_u64 (a + d) = to_u64 a + d).
  { unfold to_u64 in *. rewrite <- Zplus_mod_idemp_l.
    apply Z.mod_small.
    pose proof (Z.div_mod (a mod 2 ^ 64) 8 ltac:(lia)).
    pose proof (Z.mod_pos_bound (a mod 2 ^ 64) 8 ltac:(lia)).
    assert ((a mod 2 ^ 64) / 8 < 2 ^ 61) by (apply Z.div_lt_upper_bound; lia).
    lia. }
  rewrite Hs.
  pose proof (Z.div_mod (to_u64 a) 8 ltac:(lia)) as Hdm.
  pose proof (Z.mod_pos_bound (to_u64 a) 8 ltac:(lia)).
  assert (Hq : (to_u64 a + d) / 8 = to_u64 a / 8).
  { symmetry. apply (Z.div_unique _ _ _ (to_u64 a mod 8 + d)); lia. }
  split; [lia|].
  symmetry. apply (Z.mod_unique _ _ (to_u64 a / 8)); lia.
Qed.

(** The word before the next word boundary is the current word, and the
    boundary itself is aligned. *)
Lemma next_word a :
  aligned_addr_of (a + (8 - offset_of a) - 8) = aligned_addr_of a /\
  offset_of (a + (8 - offset_of a)) = 0.
Proof.
  rewrite !offset_of_eq, !aligned_addr_of_eq.
  assert (Hx : 0 <= to_u64 a < 2 ^ 64) by (apply Z.mod_pos_bound; lia).
  pose proof (Z.div_mod (to_u64 a) 8 ltac:(lia)) as Hdm.
  pose proof (Z.mod_pos_bound (to_u64 a) 8 ltac:(lia)).
  assert (Hq : to_u64 a / 8 < 2 ^ 61) by (apply Z.div_lt_upper_bound; lia).
  assert (Hq0 : 0 <= to_u64 a / 8) by (apply Z.div_pos; lia).
  split.
  - assert (to_u64 (a + (8 - to_u64 a mod 8) - 8) = 8 * (to_u64 a / 8)) as ->.
    { unfold to_u64 in *.
      replace (a + (8 - (a mod 2 ^ 64) mod 8) - 8) with (a + (- ((a mod 2 ^ 64) mod 8))) by lia.
      rewrite <- Zplus_mod_idemp_l. rewrite Z.mod_small by lia. lia. }
    rewrite (Z.mul_comm 8 (to_u64 a / 8)), Z.div_mul by lia. lia.
  - assert (to_u64 (a + (8 - to_u64 a mod 8)) = (8 * (to_u64 a / 8 + 1)) mod 2 ^ 64) as ->.
    { unfold to_u64 in *. rewrite <- Zplus_mod_idemp_l. f_equal. lia. }
    change (2 ^ 64) with (8 * 2 ^ 61).
    rewrite Zmult_mod_distr_l.
    rewrite Z.mul_comm. apply Z.mod_mul. lia.
Qed.

Lemma word_bytes_lookup word off n i :
  0 <= i < n -> word_bytes word off n !! Z.to_nat i = Some (byte_of_word word (off + i)).
Proof.
  intros Hi. unfold word_bytes. rewrite list_lookup_fmap.
  rewrite (lookup_seqZ_lt 0 n (Z.to_nat i)) by lia. simpl. f_equal. f_equal. lia.
Qed.

Lemma word_bytes_length word off n : 0 <= n -> Z.of_nat (length (word_bytes word off n)) = n.
Proof. intros Hn. unfold word_bytes. rewrite length_fmap, length_seqZ. lia. Qed.

Section Read_memory.
Context {arch : Arch} {K : Type} {E : Env K}.
Variable mem : Z -> option Z.
Variable I : K -> Prop.
Hypothesis Hstable : stable_memory mem I.
Variables (read_thread address size : Z) (buf0 : list Z).
Hypothesis Hsize : 0 <= size <= Z.of_nat (length buf0).

Local Abbreviation content := (read_content mem address size buf0).
Local Abbreviation fails := (read_fails mem address).
Local Abbreviation stopped := (read_stopped mem address size).

Lemma read_loop_spec (fuel : nat) (s : ReadLoop) (w : World K) :
  I (kern w) -> size - bytes_read s <= Z.of_nat fuel -> content s -> fails s ->
  let r := read_loop fuel read_thread address size s w in
  I (kern (snd r)) /\ dbg (snd r) = dbg w /\ content (fst r) /\ stopped (fst r).
Proof.
  revert s w. induction fuel as [|fuel IH]; intros s w HI Hfuel Hc Hf.
  - destruct Hc as (Hbr & Hcf & Hlen & Hlow & Hhigh).
    assert (bytes_read s = size) by lia.
    simpl. replace (bytes_read s <? size) with false by (symmetry; apply Z.ltb_ge; lia).
    simpl. split; [done|]. split; [done|]. split; [done|]. left. done.
  - cbn [read_loop].
    destruct ((bytes_read s <? size) && (consecutive_failures s <? max_consecutive_failures))
      eqn:Hcond.
    2:{ destruct (Hc) as (Hbr & Hcf & _).
        rewrite ret_run. cbn [fst snd]. split; [done|]. split; [done|]. split; [done|].
        apply andb_false_iff in Hcond. unfold max_consecutive_failures in Hcond.
        destruct Hcond as [H|H]; apply Z.ltb_ge in H.
        - left. lia.
        - right. left. split; [lia|done]. }
    apply andb_true_iff in Hcond. destruct Hcond as [Hlt Hcflt].
    apply Z.ltb_lt in Hlt, Hcflt. unfold max_consecutive_failures in Hcflt.
    destruct Hc as (Hbr & Hcf & Hlen & Hlow & Hhigh).
    destruct Hf as (Hfj & Hf0).
    cbv zeta. rewrite bind_run, call_run. cbn [fst snd].
    destruct (Hstable (ptrace_PEEKDATA read_thread (aligned_addr_of (address + bytes_read s)))
                (kern w) HI) as [HI' Hpeek].
    specialize (HI' eq_refl).
    set (rep := sys (ptrace_PEEKDATA read_thread (aligned_addr_of (address + bytes_read s)))
                    (kern w)) in *.
    pose proof (offset_of_range (address + bytes_read s)) as Hoff.
    set (off := offset_of (address + bytes_read s)) in *.
    destruct (mem (aligned_addr_of (address + bytes_read s))) as [word|] eqn:Hmem.
    + destruct Hpeek as [He Hw]. rewrite He, Hw. cbn [Z.eqb negb].
      set (n := Z.min (size - bytes_read s) (word_size - off)).
      assert (Hn : 0 < n <= 8 - off /\ n <= size - bytes_read s)
        by (unfold n, word_size; lia).
      match goal with
      | |- context [read_loop fuel _ _ _ ?s' ?w'] =>
          destruct (IH s' w') as (H1 & H2 & H3 & H4)
      end; unfold read_content, read_fails; cbn [kern dbg bytes_read consecutive_failures buffer].
      * done.
      * lia.
      * split; [lia|]. split; [lia|].
        split; [rewrite length_inserts; done|].
        split.
        -- intros p Hp. destruct (Z.lt_ge_cases p (bytes_read s)) as [Hpl|Hpg].
           ++ rewrite list_lookup_inserts_lt by lia. apply Hlow. lia.
           ++ rewrite list_lookup_inserts.
              2:{ rewrite Nat2Z.inj_le, Nat2Z.inj_lt, Nat2Z.inj_add.
                  rewrite word_bytes_length by lia. lia. }
              2:{ lia. }
              replace (Z.to_nat p - Z.to_nat (bytes_read s))%nat
                with (Z.to_nat (p - bytes_read s)) by lia.
              rewrite word_bytes_lookup by lia.
              unfold byte_read.
              destruct (same_word (address + bytes_read s) (p - bytes_read s)) as [Ha Ho];
                [fold off; lia|].
              replace (address + bytes_read s + (p - bytes_read s)) with (address + p)
                in Ha, Ho by lia.
              rewrite Ha, Hmem, Ho. done.
        -- intros p Hp. rewrite list_lookup_inserts_ge.
           ++ apply Hhigh. lia.
           ++ rewrite Nat2Z.inj_le, Nat2Z.inj_add. rewrite word_bytes_length by lia. lia.
      * split; cbn [consecutive_failures]; intros; lia.
      * cbn [dbg] in H2. done.
    + assert (Hne : negb (r_errno (fst rep) =? 0) = true).
      { destruct Hpeek as [->| ->]; reflexivity. }
      assert (Hio : (r_errno (fst rep) =? EIO) || (r_errno (fst rep) =? EFAULT) = true).
      { destruct Hpeek as [->| ->]; reflexivity. }
      rewrite Hne, Hio.
      destruct (size <=? bytes_read s + (word_size - off)) eqn:Hend.
      * apply Z.leb_le in Hend. unfold word_size in Hend.
        rewrite ret_run. cbn [fst snd kern dbg].
        split; [done|]. split; [done|].
        split.
        -- split; [done|]. split; [cbn; lia|]. done.
        -- right. right. cbn [bytes_read]. fold off. split; [done|lia].
      * apply Z.leb_gt in Hend. unfold word_size in Hend |- *.
        match goal with
        | |- context [read_loop fuel _ _ _ ?s' ?w'] =>
            destruct (IH s' w') as (H1 & H2 & H3 & H4)
        end; unfold read_content, read_fails; cbn [kern dbg bytes_read consecutive_failures buffer].
        -- done.
        -- lia.
        -- split; [lia|]. split; [lia|]. split; [done|].
           split.
           ++ intros p Hp. destruct (Z.lt_ge_cases p (bytes_read s)) as [Hpl|Hpg].
              ** apply Hlow. lia.
              ** rewrite Hhigh by lia. unfold byte_read.
                 destruct (same_word (address + bytes_read s) (p - bytes_read s)) as [Ha Ho];
                   [fold off; lia|].
                 replace (address + bytes_read s + (p - bytes_read s)) with (address + p)
                   in Ha by lia.
                 rewrite Ha, Hmem. done.
           ++ intros p Hp. apply Hhigh. lia.
        -- destruct (next_word (address + bytes_read s)) as [Hn1 Hn2]. fold off in Hn1, Hn2.
           split.
           ++ intros j Hj. destruct (Z.eq_dec j 1) as [->|Hj1].
              ** replace (address + (bytes_read s + (8 - off)) - 8 * 1)
                   with (address + bytes_read s + (8 - off) - 8) by lia.
                 rewrite Hn1. done.
              ** assert (off = 0) as Hz by (apply Hf0; lia).
                 replace (address + (bytes_read s + (8 - off)) - 8 * j)
                   with (address + bytes_read s - 8 * (j - 1)) by lia.
                 apply Hfj. lia.
           ++ intros _. replace (address + (bytes_read s + (8 - off)))
                with (address + bytes_read s + (8 - off)) by lia. done.
        -- cbn [dbg] in H2. done.
Qed.

End Read_memory.

Section Read_memory_call.
Context {arch : Arch} {K : Type} {E : Env K}.

Lemma keeps_kernel_call (mem : Z -> option Z) (I : K -> Prop) :
  stable_memory mem I ->
  forall c, writes_target c = false -> moves (keeps (fun w : World K => I (kern w))) (call c).
Proof.
  intros Hs c Hc. apply moves_call_kern. intros k Hk.
  destruct (Hs c k Hk) as [H _]. apply H, Hc.
Qed.

Lemma buffer_untouched (buf buf0 : list Z) :
  length buf = length buf0 ->
  (forall p, 0 <= p -> buf !! Z.to_nat p = buf0 !! Z.to_nat p) -> buf = buf0.
Proof.
  intros _ H. apply list_eq. intros i. specialize (H (Z.of_nat i) ltac:(lia)).
  rewrite Nat2Z.id in H. exact H.
Qed.


End Read_memory_call.

(** The simulated kernel's memory is stable while nothing writes to it. *)
Lemma sim_memory_stable {arch : Arch} (m0 : gmap Z Z) :
  stable_memory (E := SimEnv) (fun a => to_u64 <$> sim_peek m0 a)
                (fun k => sim_mem k = m0).
Proof.
  intros c k Hk. split.
  - intros Hc. destruct c; try discriminate Hc; simpl; unfold sim_sys; try exact Hk.
    + match goal with |- context [sim_peek ?m ?a] => destruct (sim_peek m a) end; exact Hk.
    + match goal with |- context [sim_regs k !! ?t] => destruct (sim_regs k !! t) end; exact Hk.
  - destruct c; try exact Logic.I. simpl. unfold sim_sys. rewrite Hk.
    match goal with |- context [sim_peek ?m ?a] => destruct (sim_peek m a) end;
      simpl; [done | left; done].
Qed.



(** ** Signals without a configured disposition (claim C10) *)

Section Signals.
Context {arch : Arch} {K : Type} {E : Env K}.

(** C10, amended: a stop on a signal other than SIGTRAP, SIGSTOP, SIGTSTP
    and SIGCONT that has no entry in the disposition map is answered with
    exactly one request, the resumption of the thread (by PTRACE_SINGLESTEP
    when the thread is in the middle of a single step, by PTRACE_CONT
    otherwise), with the signal suppressed unless it is 30 or 24; no
    notification is sent; the result is 0, or -1 when the resumption is
    refused. *)
Theorem C10_unconfigured_signal_resumes (w : World K) (pid status : Z) :
  WIFSTOPPED status = true ->
  Z.shiftr status 16 <> PTRACE_EVENT_CLONE ->
  Z.shiftr status 16 <> PTRACE_EVENT_STOP ->
  WSTOPSIG status ∉ [SIGTRAP; SIGSTOP; SIGTSTP; SIGCONT] ->
  signal_config_ (dbg w) !! WSTOPSIG status = None ->
  let signal := WSTOPSIG status in
  let deliver := if (signal =? 30) || (signal =? 24) then signal else 0 in
  let request := if in_single_step (dbg w) pid then ptrace_SINGLESTEP pid deliver
                 else ptrace_CONT pid deliver in
  get_signal_config (dbg w) signal = {| catch_signal := false; pass_signal := false |} /\
  emitted (handle_exception pid status) w = [(request, fst (sys request (kern w)))] /\
  fst (handle_exception pid status w) = (if failed (fst (sys request (kern w))) then -1 else 0).
Proof.
  intros Hstop Hclone Hev Hsig Hcfg. cbv zeta.
  assert (Hg : get_signal_config (dbg w) (WSTOPSIG status)
               = {| catch_signal := false; pass_signal := false |})
    by (unfold get_signal_config; rewrite Hcfg; reflexivity).
  split; [exact Hg|].
  unfold handle_exception. rewrite Hstop.
  apply Z.eqb_neq in Hclone, Hev. rewrite Hclone, Hev. cbv zeta.
  assert (H1 : (WSTOPSIG status =? SIGTRAP) = false) by (apply Z.eqb_neq; set_solver).
  assert (H2 : (WSTOPSIG status =? SIGSTOP) = false) by (apply Z.eqb_neq; set_solver).
  assert (H3 : (WSTOPSIG status =? SIGTSTP) = false) by (apply Z.eqb_neq; set_solver).
  assert (H4 : (WSTOPSIG status =? SIGCONT) = false) by (apply Z.eqb_neq; set_solver).
  rewrite H1, H2, H3, H4. cbn [orb].
  unfold handle_signal, in_single_step.
  set (deliver := if (WSTOPSIG status =? 30) || (WSTOPSIG status =? 24)
                  then WSTOPSIG status else 0).
  set (request := if match thread_states_ (dbg w) !! pid with
                     | Some st => negb (SingleStepMode.is_None (single_step_mode st))
                     | None => false
                     end
                  then ptrace_SINGLESTEP pid deliver else ptrace_CONT pid deliver).
  split.
  - apply emitted_app.
    mrun. rewrite Hg. cbn [catch_signal pass_signal orb]. mrun.
    fold deliver. fold request.
    destruct (failed (fst (sys request (kern w)))); mrun; reflexivity.
  - mrun. rewrite Hg. cbn [catch_signal pass_signal orb]. mrun.
    fold deliver. fold request.
    destruct (failed (fst (sys request (kern w)))); mrun; reflexivity.
Qed.

End Signals.

(** C10, as stated, fails for SIGSTOP: with no entry for it in the map, a
    stop on SIGSTOP (wait status 0x137f) issues no request at all and the
    thread is left stopped. *)
Lemma C10_counterexample :
  signal_config_ (dbg c10_world) !! WSTOPSIG 0x137f = None /\
  WSTOPSIG 0x137f = SIGSTOP /\
  emitted (handle_exception (E := ScriptEnv) 100 0x137f) c10_world = [] /\
  is_stopped (thread_state_of (dbg (snd (handle_exception (E := ScriptEnv) 100 0x137f c10_world)))
                100) = true.
Proof. vm_compute. done. Qed.

Lemma C10_unconfigured_signal_resumes_witness :
  emitted (handle_exception (E := ScriptEnv) 100 0x0a7f) c10_world
  = [(ptrace_CONT 100 0, reply_ok)].
Proof.
  refine (proj1 (proj2 (C10_unconfigured_signal_resumes (E := ScriptEnv) c10_world 100 0x0a7f
                          _ _ _ _ _))).
  - reflexivity.
  - vm_compute. discriminate.
  - vm_compute. discriminate.
  - apply (bool_decide_unpack _). vm_compute. exact I.
  - vm_compute. reflexivity.
Defined.

(** ** A watchpoint hit while the slot is being removed (claim C2) *)


Section Watchpoint_removal.
Context {arch : Arch} {K : Type} {E : Env K}.

Lemma removing_bit_upd (d : Debugger) (f : Debugger -> Debugger) (i : Z) :
  removing_mask_ (f d) = removing_mask_ d -> removing_bit (f d) i = removing_bit d i.
Proof. intros H. unfold removing_bit. rewrite H. reflexivity. Qed.


End Watchpoint_removal.


(** ** The client's answer to a breakpoint hit (claim C4) *)

Section Breakpoint_upcall_tools.
Context {arch : Arch} {K : Type} {E : Env K}.

Lemma upcall_answer_app (pre post : list Event) (e : Event) :
  Forall (fun e => is_upcall_b (fst e) = false) pre -> is_upcall_b (fst e) = true ->
  upcall_answer (pre ++ e :: post) = Some (negb (r_ret (snd e) =? 0)) /\
  requests_after_upcall (pre ++ e :: post) = map fst post.
Proof.
  intros Hpre He. induction Hpre as [|x pre Hx Hpre IH]; simpl.
  - rewrite He. done.
  - rewrite Hx. exact IH.
Qed.

Lemma thread_state_of_upd_thread (d : Debugger) (tid : Z) (f : ThreadState -> ThreadState) :
  thread_state_of (upd_thread tid f d) tid = f (thread_state_of d tid).
Proof.
  unfold thread_state_of at 1, upd_thread. cbn [thread_states_ set_thread_states_].
  rewrite lookup_insert_eq. reflexivity.
Qed.

End Breakpoint_upcall_tools.

Section Breakpoint_upcall.
Context {arch : Arch} {K : Type} {E : Env K}.

(** Recording the hit sends nothing to the client, sets BreakpointHit and
    counts the hit of a hardware breakpoint. *)
Lemma record_breakpoint_hit_run (w : World K) (pid bp_index : Z) (regs0 : regs_t arch) :
  let r := record_breakpoint_hit pid regs0 bp_index w in
  (exists pre, trace (snd r) = trace w ++ pre /\
               Forall (fun e => is_upcall_b (fst e) = false) pre) /\
  debug_state_ (dbg (snd r)) = DebugState.BreakpointHit /\
  current_thread (dbg (snd r)) = pid /\
  pid_ (dbg (snd r)) = pid_ (dbg w) /\
  breakpoint_target_counts (dbg (snd r)) = breakpoint_target_counts (dbg w) /\
  breakpoint_hit_counts (dbg (snd r)) =
    (if negb (1000 <=? bp_index) && (0 <=? bp_index) && (bp_index <? MAX_BREAKPOINTS)
     then <[Z.to_nat bp_index := at_ (breakpoint_hit_counts (dbg w)) bp_index + 1]>
            (breakpoint_hit_counts (dbg w))
     else breakpoint_hit_counts (dbg w)) /\
  software_breakpoint_used (dbg (snd r)) = software_breakpoint_used (dbg w) /\
  software_breakpoint_addresses (dbg (snd r)) = software_breakpoint_addresses (dbg w) /\
  software_breakpoint_original_bytes (dbg (snd r)) = software_breakpoint_original_bytes (dbg w).
Proof.
  cbv zeta. unfold record_breakpoint_hit. rewrite bind_run, get_dbg_run. cbn [fst snd].
  cbv zeta. rewrite bind_run.
  set (sw := 1000 <=? bp_index).
  set (actual := if sw then bp_index - 1000 else bp_index).
  match goal with
  | |- context [bind _ _ (snd (?adj w))] => set (a := adj w)
  end.
  assert (Ha : dbg (snd a) = dbg w /\
               exists pre, trace (snd a) = trace w ++ pre /\
                           Forall (fun e => is_upcall_b (fst e) = false) pre).
  { subst a. destruct arch.
    - rewrite ret_run. split; [done|]. exists []. rewrite app_nil_r. done.
    - match goal with |- context [if ?c then _ else _] => destruct c end.
      + mrun. split; [done|]. eexists. split; [reflexivity|]. repeat constructor.
      + rewrite ret_run. split; [done|]. exists []. rewrite app_nil_r. done. }
  destruct Ha as [Hd (pre & Ht & Hpre)].
  assert (Hin : negb sw && (0 <=? actual) && (actual <? MAX_BREAKPOINTS)
                = negb sw && (0 <=? bp_index) && (bp_index <? MAX_BREAKPOINTS)).
  { subst actual. destruct sw; reflexivity. }
  rewrite Hin.
  destruct (negb sw && (0 <=? bp_index) && (bp_index <? MAX_BREAKPOINTS)) eqn:Htab.
  - assert (actual = bp_index) as -> by (subst actual; destruct sw; [discriminate|done]).
    mrun. rewrite Hd.
    split; [exists pre; done|]. repeat split; reflexivity.
  - mrun. rewrite Hd.
    split; [exists pre; done|]. repeat split; reflexivity.
Qed.


Lemma answer_continue_hardware (w : World K) (pid bp_index : Z) :
  bp_index < 1000 ->
  let r := answer_breakpoint_hit pid bp_index false w in
  trace (snd r) = trace w ++ [(ptrace_CONT pid 0, fst (sys (ptrace_CONT pid 0) (kern w)))] /\
  debug_state_ (dbg (snd r)) = debug_state_ (dbg w).
Proof.
  intros Hbp. cbv zeta. unfold answer_breakpoint_hit. cbn [negb].
  replace (1000 <=? bp_index) with false by (symmetry; apply Z.leb_gt; lia).
  mrun. destruct (failed _); mrun; split; reflexivity.
Qed.

Lemma answer_continue_software (w : World K) (pid bp_index : Z) :
  1000 <= bp_index ->
  let r := answer_breakpoint_hit pid bp_index false w in
  let addr := vget 0 (software_breakpoint_addresses (dbg w)) (bp_index - 1000) in
  let orig := read4 (software_breakpoint_original_bytes (dbg w)) (bp_index - 1000) in
  fst r = 0 ->
  (exists word,
     map fst (drop (length (trace w)) (trace (snd r)))
     = [ptrace_PEEKDATA pid addr; ptrace_POKEDATA pid addr (restore_word arch word orig);
        ptrace_SINGLESTEP pid 0]) /\
  single_step_mode (thread_state_of (dbg (snd r)) pid)
    = SingleStepMode.SoftwareBreakpointContinue /\
  is_stopped (thread_state_of (dbg (snd r)) pid) = false /\
  debug_state_ (dbg (snd r)) = debug_state_ (dbg w).
Proof.
  intros Hbp. cbv zeta. unfold answer_breakpoint_hit, handle_software_breakpoint_continue.
  cbn [negb].
  replace (1000 <=? bp_index) with true by (symmetry; apply Z.leb_le; lia).
  mrun. cbv zeta.
  destruct ((bp_index - 1000 <? 0) || (MAX_SOFTWARE_BREAKPOINTS <=? bp_index - 1000));
    [rewrite ret_run; simpl; discriminate|].
  mrun.
  destruct (negb (vget false _ _)); [rewrite ret_run; simpl; discriminate|].
  mrun.
  destruct (negb (r_errno _ =? 0)); [rewrite ret_run; simpl; discriminate|].
  mrun.
  destruct (failed _); [rewrite ret_run; simpl; discriminate|].
  mrun.
  destruct (failed _); [rewrite ret_run; simpl; discriminate|].
  mrun. intros _.
  split.
  - eexists. rewrite <- !app_assoc, drop_app_length. reflexivity.
  - rewrite thread_state_of_upd_thread. done.
Qed.

(** The trace-mode test of [handle_breakpoint_hit], on the state it runs in. *)
Lemma answer_break (w : World K) (pid bp_index : Z) :
  let r := answer_breakpoint_hit pid bp_index true w in
  let tracing :=
    negb (1000 <=? bp_index) && (0 <=? bp_index) && (bp_index <? MAX_BREAKPOINTS)
    && (0 <? at_ (breakpoint_target_counts (dbg w)) bp_index)
    && (at_ (breakpoint_hit_counts (dbg w)) bp_index
        <? at_ (breakpoint_target_counts (dbg w)) bp_index) in
  fst r = 0 ->
  if tracing then
    last (map fst (drop (length (trace w)) (trace (snd r)))) = Some (ptrace_SINGLESTEP pid 0) /\
    debug_state_ (dbg (snd r)) = DebugState.SingleStepping /\
    is_stopped (thread_state_of (dbg (snd r)) pid) = false
  else
    map fst (drop (length (trace w)) (trace (snd r))) = [ptrace_GETREGS pid] /\
    debug_state_ (dbg (snd r)) = debug_state_ (dbg w) /\
    current_thread (dbg (snd r)) = current_thread (dbg w) /\
    is_stopped (thread_state_of (dbg (snd r)) pid) = true.
Proof.
  cbv zeta. unfold answer_breakpoint_hit, handle_breakpoint_hit. cbn [negb]. cbv zeta.
  mrun.
  destruct (failed _); [rewrite ret_run; simpl; discriminate|].
  mrun.
  destruct (1000 <=? bp_index) eqn:Hsw.
  - cbn [negb andb]. mrun. intros _.
    split; [rewrite drop_app_length; reflexivity|].
    split; [reflexivity|]. split; [reflexivity|].
    unfold thread_state_of. cbn [thread_states_ set_thread_states_].
    rewrite lookup_insert_eq. reflexivity.
  - cbn [negb andb].
    destruct ((0 <=? bp_index) && (bp_index <? MAX_BREAKPOINTS)) eqn:Hin;
      cbn [andb]; cbv iota.
    + destruct ((0 <? at_ (breakpoint_target_counts (dbg w)) bp_index)
                && (at_ (breakpoint_hit_counts (dbg w)) bp_index
                    <? at_ (breakpoint_target_counts (dbg w)) bp_index)) eqn:Htr.
      * unfold disable_breakpoint_on_thread.
        destruct arch; mrun.
        -- destruct (r_ret _ =? 0); mrun;
             (destruct (failed _); [rewrite ret_run; simpl; discriminate|]);
             mrun; intros _;
             (split; [rewrite <- !app_assoc, drop_app_length; reflexivity|]);
             (split; [reflexivity|]); rewrite thread_state_of_upd_thread; reflexivity.
        -- destruct (failed _); [rewrite ret_run; simpl; discriminate|].
           mrun. intros _.
           split; [rewrite <- !app_assoc, drop_app_length; reflexivity|].
           split; [reflexivity|]. rewrite thread_state_of_upd_thread. reflexivity.
      * mrun. intros _.
        split; [rewrite drop_app_length; reflexivity|].
        split; [reflexivity|]. split; [reflexivity|].
        rewrite thread_state_of_upd_thread. reflexivity.
    + mrun. replace ((0 <? 0) && (0 <? 0)) with false by reflexivity. mrun. intros _.
      split; [rewrite drop_app_length; reflexivity|].
      split; [reflexivity|]. split; [reflexivity|].
      rewrite thread_state_of_upd_thread. reflexivity.
Qed.


Lemma answer_breakpoint_hit_grows (pid bp_index : Z) (b : bool) :
  moves (trace_grows (fun _ => True)) (answer_breakpoint_hit pid bp_index b).
Proof.
  unfold answer_breakpoint_hit, handle_software_breakpoint_continue, handle_breakpoint_hit,
    disable_breakpoint_on_thread.
  moves_auto.
Qed.

(** C4, amended: the breakpoint branch of [handle_exception] notifies the
    client once.  If the answer is [false], a hardware breakpoint is answered
    with a plain PTRACE_CONT (no step over the breakpoint, nothing re-armed)
    and a software breakpoint, when every request succeeds, with the
    restoration of the original bytes and a PTRACE_SINGLESTEP in mode
    SoftwareBreakpointContinue; the state stays BreakpointHit in both cases.
    If the answer is [true] and every request succeeds, the thread stays
    stopped in state BreakpointHit, unless the breakpoint is a hardware
    breakpoint in trace mode, which is single-stepped in state
    SingleStepping. *)
Theorem C4_breakpoint_upcall_answer (w : World K) (pid bp_index : Z) (regs0 : regs_t arch) :
  length (breakpoint_hit_counts (dbg w)) = Z.to_nat MAX_BREAKPOINTS ->
  let m := breakpoint_hit_branch pid regs0 bp_index in
  let evs := emitted m w in
  let d' := dbg (snd (m w)) in
  let addr := vget 0 (software_breakpoint_addresses (dbg w)) (bp_index - 1000) in
  let orig := read4 (software_breakpoint_original_bytes (dbg w)) (bp_index - 1000) in
  (exists b, upcall_answer evs = Some b) /\
  (upcall_answer evs = Some false -> bp_index < 1000 ->
     requests_after_upcall evs = [ptrace_CONT pid 0] /\
     debug_state_ d' = DebugState.BreakpointHit) /\
  (upcall_answer evs = Some false -> 1000 <= bp_index -> fst (m w) = 0 ->
     (exists word, requests_after_upcall evs =
        [ptrace_PEEKDATA pid addr; ptrace_POKEDATA pid addr (restore_word arch word orig);
         ptrace_SINGLESTEP pid 0]) /\
     single_step_mode (thread_state_of d' pid) = SingleStepMode.SoftwareBreakpointContinue /\
     is_stopped (thread_state_of d' pid) = false /\
     debug_state_ d' = DebugState.BreakpointHit) /\
  (upcall_answer evs = Some true -> trace_mode (dbg w) bp_index = false -> fst (m w) = 0 ->
     requests_after_upcall evs = [ptrace_GETREGS pid] /\
     debug_state_ d' = DebugState.BreakpointHit /\
     current_thread d' = pid /\
     is_stopped (thread_state_of d' pid) = true) /\
  (upcall_answer evs = Some true -> trace_mode (dbg w) bp_index = true -> fst (m w) = 0 ->
     last (requests_after_upcall evs) = Some (ptrace_SINGLESTEP pid 0) /\
     debug_state_ d' = DebugState.SingleStepping /\
     is_stopped (thread_state_of d' pid) = false).
Proof.
  intros Hlen. cbv zeta. unfold MAX_BREAKPOINTS in Hlen.
  destruct (record_breakpoint_hit_run w pid bp_index regs0)
    as ((pre & Ht0 & Hpre) & Hst & Hcur & Hpid & Htc & Hhc & Hsu & Hsa & Hso).
  unfold emitted, breakpoint_hit_branch, SEND_EXCEPTION_INFO.
  mrun.
  set (r0 := record_breakpoint_hit pid regs0 bp_index w) in *.
  match goal with
  | |- context [answer_breakpoint_hit pid bp_index ?b ?ww] => set (b0 := b); set (w1 := ww)
  end.
  destruct (answer_breakpoint_hit_grows pid bp_index b0 w1) as (post & Ht1 & _).
  assert (Hevs : drop (length (trace w)) (trace (snd (answer_breakpoint_hit pid bp_index b0 w1)))
                 = pre ++ (List.last (trace w1) (ptrace_CONT 0 0, fst (sys (ptrace_CONT 0 0) (kern w)))) :: post).
  { rewrite Ht1. subst w1. cbn [trace]. rewrite Ht0, <- !app_assoc, drop_app_length.
    rewrite (app_assoc (trace w)), last_last. reflexivity. }
  assert (Hpost : drop (length (trace w1)) (trace (snd (answer_breakpoint_hit pid bp_index b0 w1)))
                  = post) by (rewrite Ht1; apply drop_app_length).
  rewrite Hevs.
  match type of Hevs with
  | _ = pre ++ ?e :: post =>
      destruct (upcall_answer_app pre post e Hpre) as [Hans Hreq];
        [subst w1; cbn [trace]; rewrite last_last; reflexivity|]
  end.
  rewrite Hans, Hreq.
  assert (Hb : negb (r_ret (snd (List.last (trace w1)
                 (ptrace_CONT 0 0, fst (sys (ptrace_CONT 0 0) (kern w))))) =? 0) = b0).
  { subst w1. cbn [trace]. rewrite last_last. reflexivity. }
  rewrite Hb.
  assert (Hd1 : dbg w1 = dbg (snd r0)) by reflexivity.
  split; [eexists; reflexivity|].
  split; [|split; [|split]].
  - intros Hf Hbp. injection Hf as Hf. rewrite Hf in Hpost |- *.
    destruct (answer_continue_hardware w1 pid bp_index Hbp) as [Ht Hs].
    rewrite <- Hpost, Ht, drop_app_length. split; [reflexivity|].
    rewrite Hs, Hd1. exact Hst.
  - intros Hf Hbp. injection Hf as Hf. rewrite Hf in Hpost |- *. intros Hres.
    destruct (answer_continue_software w1 pid bp_index Hbp Hres) as ((word & Hw) & Hm & Hs & Hds).
    rewrite <- Hpost, Hw, Hd1, Hsa, Hso.
    split; [exists word; reflexivity|]. split; [exact Hm|]. split; [exact Hs|].
    rewrite Hds, Hd1. exact Hst.
  - intros Hf Htm. injection Hf as Hf. rewrite Hf in Hpost |- *. intros Hres.
    pose proof (answer_break w1 pid bp_index Hres) as Hab. cbv zeta in Hab.
    rewrite Hd1, Htc, Hhc in Hab.
    match type of Hab with
    | if ?c then _ else _ => assert (Hc : c = false)
    end.
    { unfold trace_mode in Htm.
      destruct (1000 <=? bp_index) eqn:Hsw; [reflexivity|].
      apply Z.leb_gt in Hsw.
      replace (bp_index <? 1000) with true in Htm by (symmetry; apply Z.ltb_lt; lia).
      cbn [negb andb] in Htm |- *.
      destruct ((0 <=? bp_index) && (bp_index <? MAX_BREAKPOINTS)) eqn:Hin; [|reflexivity].
      cbn [andb] in Htm |- *.
      apply andb_true_iff in Hin. destruct Hin as [H0 H4].
      apply Z.leb_le in H0. apply Z.ltb_lt in H4. unfold MAX_BREAKPOINTS in H4.
      unfold at_ at 2. rewrite list_lookup_total_insert_eq by lia.
      first [exact Htm | rewrite <- andb_assoc; exact Htm | rewrite andb_assoc; exact Htm]. }
    rewrite Hc in Hab. destruct Hab as (H1 & H2 & H3 & H4).
    rewrite <- Hpost, H1, H2, H3, ?Hd1.
    split; [reflexivity|]. split; [exact Hst|]. split; [exact Hcur|exact H4].
  - intros Hf Htm. injection Hf as Hf. rewrite Hf in Hpost |- *. intros Hres.
    pose proof (answer_break w1 pid bp_index Hres) as Hab. cbv zeta in Hab.
    rewrite Hd1, Htc, Hhc in Hab.
    match type of Hab with
    | if ?c then _ else _ => assert (Hc : c = true)
    end.
    { unfold trace_mode in Htm.
      apply andb_true_iff in Htm. destruct Htm as [Htm Hh].
      apply andb_true_iff in Htm. destruct Htm as [Htm Ht].
      apply andb_true_iff in Htm. destruct Htm as [Htm H4].
      apply andb_true_iff in Htm. destruct Htm as [Hlt H0].
      apply Z.ltb_lt in Hlt.
      replace (1000 <=? bp_index) with false by (symmetry; apply Z.leb_gt; lia).
      rewrite H0, H4, Ht. cbn [negb andb].
      apply Z.leb_le in H0. apply Z.ltb_lt in H4. unfold MAX_BREAKPOINTS in H4.
      unfold at_ at 1. rewrite list_lookup_total_insert_eq by lia. exact Hh. }
    rewrite Hc in Hab. destruct Hab as (H1 & H2 & H3).
    rewrite <- Hpost, H1. done.
Qed.

End Breakpoint_upcall.

(** C4, as stated, fails for a hardware breakpoint: the client answers
    [false], and the thread is resumed by a single PTRACE_CONT, without a
    step over the breakpoint, while the debugger's state is BreakpointHit. *)
Lemma C4_counterexample :
  let r := handle_exception (E := ScriptEnv) 100 0x057f c4_world in
  let evs := emitted (handle_exception (E := ScriptEnv) 100 0x057f) c4_world in
  upcall_answer evs = Some false /\
  requests_after_upcall evs = [ptrace_CONT 100 0] /\
  is_in_break_state (dbg (snd r)) = true.
Proof. vm_compute. done. Qed.

Lemma C4_breakpoint_upcall_answer_witness :
  exists b, upcall_answer (emitted (breakpoint_hit_branch (E := ScriptEnv) 100 c4_regs 0)
                             c4_world) = Some b.
Proof.
  refine (proj1 (C4_breakpoint_upcall_answer (E := ScriptEnv) c4_world 100 0 c4_regs _)).
  reflexivity.
Defined.

(** ** Software breakpoints at one address (claim C3) *)

Section Thread_views.
Context {arch : Arch} {K : Type} {E : Env K} {V : Type}.
Variable view : Debugger -> V.
Hypothesis view_threads : forall d, view (threads_erased d) = view d.

Lemma view_modify_threads (f : Debugger -> Debugger) :
  (forall d, threads_erased (f d) = threads_erased d) ->
  moves (same_view (K := K) view) (modify_dbg f).
Proof.
  intros H. apply moves_modify_view. intros d.
  rewrite <- (view_threads (f d)), H. apply view_threads.
Qed.

(** Stopping and resuming threads changes nothing but the per-thread
    bookkeeping. *)
Lemma stop_all_threads_view (ex : Z) (w : World K) :
  view (dbg (snd (stop_all_threads ex w))) = view (dbg w).
Proof.
  apply (moves_stop_all_threads (same_view view)).
  - intros c _. apply moves_call_view.
  - apply view_modify_threads.
Qed.

Lemma resume_threads_view (l : list Z) (w : World K) :
  view (dbg (snd (resume_threads l w))) = view (dbg w).
Proof.
  apply (moves_resume_threads (same_view view)).
  - intros c _. apply moves_call_view.
  - apply view_modify_threads.
Qed.

End Thread_views.

Section Software_breakpoints.
Context {arch : Arch} {K : Type} {E : Env K}.

Lemma sw_tables_threads (d : Debugger) : sw_tables (threads_erased d) = sw_tables d.
Proof. reflexivity. Qed.

Lemma find_free_software_breakpoint_spec (d : Debugger) :
  let i := find_free_software_breakpoint d in
  (i = -1 /\ forall j, 0 <= j < MAX_SOFTWARE_BREAKPOINTS ->
                       vget false (software_breakpoint_used d) j = true)
  \/ (0 <= i < MAX_SOFTWARE_BREAKPOINTS /\ vget false (software_breakpoint_used d) i = false /\
      forall j, 0 <= j < i -> vget false (software_breakpoint_used d) j = true).
Proof.
  cbv zeta. unfold find_free_software_breakpoint.
  match goal with |- context [scan ?P ?b] => destruct (scan_spec P b) as [[H1 H2]|(H1 & H2 & H3)] end.
  - left. split; [exact H1|]. intros j Hj. specialize (H2 j Hj).
    apply negb_false_iff in H2. exact H2.
  - right. split; [exact H1|]. split; [apply negb_true_iff in H2; exact H2|].
    intros j Hj. specialize (H3 j Hj). apply negb_false_iff in H3. exact H3.
Qed.

(** What a successful [set_software_breakpoint_internal] leaves in the
    table: the lowest free slot now holds [address], the other slots are as
    they were. *)
Lemma set_software_breakpoint_tables (w : World K) (address hit_count : Z) :
  fst (set_software_breakpoint_internal address hit_count w) = 0 ->
  let d' := dbg (snd (set_software_breakpoint_internal address hit_count w)) in
  let i := find_free_software_breakpoint (dbg w) in
  0 <= i < MAX_SOFTWARE_BREAKPOINTS /\
  vget false (software_breakpoint_used (dbg w)) i = false /\
  software_breakpoint_used d' = <[i := true]> (software_breakpoint_used (dbg w)) /\
  software_breakpoint_addresses d' = <[i := address]> (software_breakpoint_addresses (dbg w)).
Proof.
  cbv zeta. unfold set_software_breakpoint_internal. mrun. cbv zeta.
  destruct (find_free_software_breakpoint_spec (dbg w)) as [[Hi _]|(Hr & Hfree & _)].
  { rewrite Hi. change (-1 =? -1) with true. cbv iota. rewrite ret_run. cbn [fst].
    discriminate. }
  set (i := find_free_software_breakpoint (dbg w)) in *.
  destruct (i =? -1); [rewrite ret_run; cbn [fst]; discriminate|].
  rewrite bind_run.
  pose proof (stop_all_threads_view sw_tables sw_tables_threads 0 w) as H1.
  set (r1 := stop_all_threads 0 w) in *.
  destruct (bool_decide (fst (fst r1) = [])); [rewrite ret_run; cbn [fst]; discriminate|].
  mrun.
  destruct (negb (r_errno _ =? 0)); [mrun; discriminate|].
  mrun.
  destruct (failed _); [mrun; discriminate|].
  rewrite bind_run.
  match goal with
  | |- context [resume_threads ?l ?ww] =>
      pose proof (resume_threads_view sw_tables sw_tables_threads l ww) as H2;
      set (r2 := resume_threads l ww) in *
  end.
  mrun. intros _. cbn [dbg] in H2. rewrite H1 in H2.
  unfold sw_tables in H2. injection H2 as Hu Ha Ho.
  split; [exact Hr|]. split; [exact Hfree|].
  cbn [software_breakpoint_used software_breakpoint_addresses
       set_software_breakpoint_original_bytes set_software_breakpoint_addresses
       set_software_breakpoint_used].
  rewrite Hu, Ha. done.
Qed.

(** C3: [set_software_breakpoint_internal] does not look for an entry that
    already holds the address.  When slot [j] is active at [address] and a
    further set at [address] succeeds, a second slot is active at the same
    address and the invariant is broken. *)
Theorem C3_set_does_not_check_duplicates (w : World K) (address hit_count j : Z) :
  sw_active (dbg w) j address ->
  fst (set_software_breakpoint_internal address hit_count w) = 0 ->
  let d' := dbg (snd (set_software_breakpoint_internal address hit_count w)) in
  let i := find_free_software_breakpoint (dbg w) in
  i <> j /\ sw_active d' i address /\ sw_active d' j address /\ ~ sw_unique d'.
Proof.
  intros [Hju Hja] Hres. cbv zeta.
  destruct (set_software_breakpoint_tables w address hit_count Hres)
    as (Hr & Hfree & Hu & Ha).
  set (i := find_free_software_breakpoint (dbg w)) in *.
  assert (Hij : i <> j) by (intros ->; congruence).
  assert (Hi : sw_active (dbg (snd (set_software_breakpoint_internal address hit_count w)))
                 i address).
  { unfold sw_active, vget. rewrite Hu, Ha, !lookup_insert_eq. done. }
  assert (Hj : sw_active (dbg (snd (set_software_breakpoint_internal address hit_count w)))
                 j address).
  { unfold sw_active, vget. rewrite Hu, Ha, !lookup_insert_ne by done. done. }
  split; [exact Hij|]. split; [exact Hi|]. split; [exact Hj|].
  intros Huniq. apply Hij. exact (Huniq i j address Hi Hj).
Qed.

End Software_breakpoints.

(** The failing run: a software breakpoint is set twice at 0x2000 and
    removed twice.  Both removals succeed and the table is empty again, but
    the second entry had saved the trap instruction as its original byte,
    so the target is left with 0xCC at 0x2000 instead of 0x55. *)
Lemma C3_failing_input :
  sim_mem (kern c3_world) !! 0x2000 = Some 0x55 /\
  sw_active (dbg c3_set_twice) 0 0x2000 /\ sw_active (dbg c3_set_twice) 1 0x2000 /\
  find_software_breakpoint (dbg c3_removed_twice) 0x2000 = -1 /\
  sim_mem (kern c3_removed_twice) !! 0x2000 = Some 0xCC.
Proof. vm_compute. done. Qed.

Lemma C3_set_does_not_check_duplicates_witness :
  ~ sw_unique (dbg c3_set_twice).
Proof.
  refine (proj2 (proj2 (proj2
    (C3_set_does_not_check_duplicates (E := SimEnv)
       (snd (run (set_software_breakpoint_internal (E := SimEnv) 0x2000 0) c3_world))
       0x2000 0 0 _ _)))).
  - vm_compute. done.
  - vm_compute. reflexivity.
Defined.

(** * Further properties of the code *)

(** ** Debug-register and trap encodings *)

(** Bit-level reasoning: expand [Z.testbit] through the operators, decide
    the comparisons on the bit index, and bring the indices back to [n]. *)
Ltac testbits :=
  repeat match goal with
    | |- context [Z.testbit ?a ?i] => rewrite (Z.testbit_neg_r a i) by lia
    | |- context [Z.testbit (Z.lor ?a ?b) ?i] => rewrite (Z.lor_spec a b i)
    | |- context [Z.testbit (Z.land ?a ?b) ?i] => rewrite (Z.land_spec a b i)
    | |- context [Z.testbit (Z.ldiff ?a ?b) ?i] => rewrite (Z.ldiff_spec a b i)
    | |- context [Z.testbit (Z.lxor ?a ?b) ?i] => rewrite (Z.lxor_spec a b i)
    | |- context [Z.testbit (Z.shiftl ?a ?k) ?i] => rewrite (Z.shiftl_spec a k i) by lia
    | |- context [Z.testbit (Z.shiftr ?a ?k) ?i] => rewrite (Z.shiftr_spec a k i) by lia
    | |- context [Z.testbit (Z.ones ?k) ?i] => rewrite (Z.testbit_ones_nonneg k i) by lia
    | |- context [Z.testbit 0 ?i] => rewrite (Z.bits_0 i)
    end.

Ltac decide_ltb :=
  repeat match goal with
    | |- context [?a <? ?b] =>
        first [ replace (a <? b) with true by (symmetry; apply Z.ltb_lt; lia)
              | replace (a <? b) with false by (symmetry; apply Z.ltb_ge; lia) ]
    end.

Ltac finish_bits :=
  repeat match goal with
    | |- context [Z.testbit ?a ?i] => destruct (Z.testbit a i)
    | |- context [?a <? ?b] => destruct (a <? b)
    end;
  reflexivity.

Lemma to_u64_land (x : Z) : to_u64 x = Z.land x (Z.ones 64).
Proof. unfold to_u64. rewrite Z.land_ones by lia. reflexivity. Qed.

Lemma testbit_u64_high (x n : Z) : 0 <= x < 2 ^ 64 -> 64 <= n -> Z.testbit x n = false.
Proof.
  intros Hx Hn. destruct (Z.eq_dec x 0) as [->|]; [apply Z.bits_0|].
  apply Z.bits_above_log2; [lia|].
  assert (Z.log2 x < 64) by (apply Z.log2_lt_pow2; lia). lia.
Qed.

Lemma four_bytes (a b c d : Z) :
  ([a; b; c; d] : list Z) !!! 0%nat = a /\ ([a; b; c; d] : list Z) !!! 1%nat = b /\
  ([a; b; c; d] : list Z) !!! 2%nat = c /\ ([a; b; c; d] : list Z) !!! 3%nat = d.
Proof. done. Qed.

Lemma x86_restore_after_patch (word : Z) :
  0 <= word < 2 ^ 64 ->
  restore_word X86_64 (patch_word X86_64 word) (word_prefix_bytes (bp_size X86_64) word) = word.
Proof.
  intros Hw. unfold restore_word, patch_word, word_prefix_bytes, bp_keep_mask, brk_instruction,
    byte_of_word, bp_size.
  cbn [map]. change (0 <? 1) with true. cbv iota.
  rewrite (proj1 (four_bytes _ _ _ _)).
  change (8 * 0) with 0. change 255 with (Z.ones 8).
  rewrite !to_u64_land.
  change (not64 (Z.ones 8)) with (Z.ldiff (Z.ones 64) (Z.ones 8)).
  change 204 with (Z.land 204 (Z.ones 8)).
  apply Z.bits_inj'. intros n Hn.
  destruct (Z.lt_ge_cases n 8); [|destruct (Z.lt_ge_cases n 64)].
  - testbits. decide_ltb. rewrite ?Z.add_0_r.
    destruct (Z.testbit word n), (Z.testbit 204 n); reflexivity.
  - testbits. decide_ltb. rewrite ?Z.add_0_r.
    destruct (Z.testbit word n), (Z.testbit 204 n); reflexivity.
  - testbits. decide_ltb. rewrite ?Z.add_0_r, (testbit_u64_high word n) by lia.
    destruct (Z.testbit 204 n); reflexivity.
Qed.

Lemma arm64_restore_after_patch (word : Z) :
  0 <= word < 2 ^ 64 ->
  restore_word ARM64 (patch_word ARM64 word) (word_prefix_bytes (bp_size ARM64) word) = word.
Proof.
  intros Hw. unfold restore_word, patch_word, word_prefix_bytes, bp_keep_mask, brk_instruction,
    byte_of_word, bp_size, bytes_to_u32.
  cbn [map].
  change (0 <? 4) with true. change (1 <? 4) with true. change (2 <? 4) with true.
  change (3 <? 4) with true. cbv iota.
  destruct (four_bytes (Z.land (Z.shiftr word (8 * 0)) 255) (Z.land (Z.shiftr word (8 * 1)) 255)
              (Z.land (Z.shiftr word (8 * 2)) 255) (Z.land (Z.shiftr word (8 * 3)) 255))
    as (-> & -> & -> & ->).
  change (8 * 0) with 0. change (8 * 1) with 8. change (8 * 2) with 16. change (8 * 3) with 24.
  rewrite !to_u64_land.
  change (not64 4294967295) with (Z.ldiff (Z.ones 64) (Z.ones 32)).
  change 3558866944 with (Z.land 3558866944 (Z.ones 32)).
  change 255 with (Z.ones 8).
  apply Z.bits_inj'. intros n Hn.
  destruct (Z.lt_ge_cases n 8); [|destruct (Z.lt_ge_cases n 16);
    [|destruct (Z.lt_ge_cases n 24); [|destruct (Z.lt_ge_cases n 32);
      [|destruct (Z.lt_ge_cases n 64)]]]];
    testbits; decide_ltb;
    repeat match goal with
      | |- context [Z.testbit word ?i] => progress (replace i with n by lia)
      end;
    try rewrite (testbit_u64_high word n) by lia;
    destruct (Z.testbit word n), (Z.testbit 3558866944 n); reflexivity.
Qed.

(** X1: removing a software breakpoint undoes setting it, at the level of
    the patched word: restoring the saved bytes into the word that
    [patch_word] produced gives the original word back, on both
    architectures. *)
Theorem restore_after_patch (a : Arch) (word : Z) :
  0 <= word < 2 ^ 64 ->
  restore_word a (patch_word a word) (word_prefix_bytes (bp_size a) word) = word.
Proof.
  destruct a; [apply arm64_restore_after_patch | apply x86_restore_after_patch].
Qed.

Lemma restore_after_patch_witness :
  restore_word X86_64 (patch_word X86_64 0xc3909090e5894855)
    (word_prefix_bytes (bp_size X86_64) 0xc3909090e5894855) = 0xc3909090e5894855.
Proof. apply (restore_after_patch X86_64 0xc3909090e5894855). lia. Defined.

(** X2: the patched word holds the trap instruction in its first [bp_size]
    bytes and the bytes of the original word everywhere else. *)
Theorem patch_word_trap (a : Arch) (word : Z) :
  Z.land (patch_word a word) (Z.ones (8 * bp_size a)) = brk_instruction a /\
  Z.shiftr (patch_word a word) (8 * bp_size a) = Z.shiftr (to_u64 word) (8 * bp_size a).
Proof.
  unfold patch_word, bp_keep_mask, brk_instruction, bp_size. rewrite to_u64_land.
  destruct a.
  - change (not64 4294967295) with (Z.ldiff (Z.ones 64) (Z.ones 32)).
    change (8 * 4) with 32.
    change 3558866944 with (Z.land 3558866944 (Z.ones 32)).
    split; apply Z.bits_inj'; intros n Hn.
    + destruct (Z.lt_ge_cases n 32); testbits; decide_ltb; finish_bits.
    + testbits. decide_ltb. finish_bits.
  - change (not64 255) with (Z.ldiff (Z.ones 64) (Z.ones 8)).
    change (8 * 1) with 8.
    change 204 with (Z.land 204 (Z.ones 8)).
    split; apply Z.bits_inj'; intros n Hn.
    + destruct (Z.lt_ge_cases n 8); testbits; decide_ltb; finish_bits.
    + testbits. decide_ltb. finish_bits.
Qed.

Lemma testbit_not64_bit (k n : Z) :
  0 <= k < 64 -> 0 <= n ->
  Z.testbit (not64 (Z.shiftl 1 k)) n = (n <? 64) && negb (n =? k).
Proof.
  intros Hk Hn. unfold not64. rewrite to_u64_land.
  change (2 ^ 64 - 1) with (Z.ones 64).
  rewrite Z.shiftl_1_l. testbits.
  rewrite Z.pow2_bits_eqb by lia.
  destruct (Z.ltb_spec n 64), (Z.eqb_spec k n), (Z.eqb_spec n k); try lia; reflexivity.
Qed.

Lemma testbit_not64_nibble (s n : Z) :
  0 <= s -> s + 4 <= 64 -> 0 <= n ->
  Z.testbit (not64 (Z.shiftl 15 s)) n = (n <? 64) && negb ((s <=? n) && (n <? s + 4)).
Proof.
  intros Hs Hs4 Hn. unfold not64. rewrite to_u64_land.
  change (2 ^ 64 - 1) with (Z.ones 64). change 15 with (Z.ones 4).
  testbits.
  destruct (Z.ltb_spec n 64), (Z.leb_spec s n), (Z.ltb_spec n (s + 4)); try lia;
    testbits; decide_ltb; reflexivity.
Qed.

(** X3: on x86_64, disabling slot [index] in DR7 clears its local-enable
    bit and nothing else; clearing the slot (when a watchpoint or breakpoint
    is removed) clears that bit and the four condition and length bits of
    the slot, and nothing else.  The other slots stay armed. *)
Theorem x86_dr7_disable_clear_bits (dr7 index n : Z) :
  0 <= dr7 < 2 ^ 64 -> 0 <= index < 4 -> 0 <= n ->
  Z.testbit (x86_dr7_disable dr7 index) n
    = (if n =? 2 * index then false else Z.testbit dr7 n) /\
  Z.testbit (x86_dr7_clear dr7 index) n
    = (if (n =? 2 * index) || ((16 + 4 * index <=? n) && (n <? 20 + 4 * index))
       then false else Z.testbit dr7 n).
Proof.
  intros Hd Hi Hn. unfold x86_dr7_clear, x86_dr7_disable.
  rewrite !Z.land_spec, testbit_not64_bit, testbit_not64_nibble by lia.
  replace (index * 2) with (2 * index) by lia.
  replace (16 + index * 4 + 4) with (20 + 4 * index) by lia.
  replace (16 + index * 4) with (16 + 4 * index) by lia.
  destruct (Z.ltb_spec n 64).
  - destruct (Z.eqb_spec n (2 * index)), (Z.leb_spec (16 + 4 * index) n),
      (Z.ltb_spec n (20 + 4 * index)), (Z.testbit dr7 n); try lia; done.
  - rewrite (testbit_u64_high dr7 n) by lia.
    destruct (Z.eqb_spec n (2 * index)), (Z.leb_spec (16 + 4 * index) n),
      (Z.ltb_spec n (20 + 4 * index)); try lia; done.
Qed.

Lemma x86_dr7_disable_clear_bits_witness :
  Z.testbit (x86_dr7_disable 0x55 1) 2 = false /\ Z.testbit (x86_dr7_clear 0x55 1) 0 = true.
Proof.
  split.
  - refine (proj1 (x86_dr7_disable_clear_bits 0x55 1 2 _ _ _)); lia.
  - refine (proj2 (x86_dr7_disable_clear_bits 0x55 1 0 _ _ _)); lia.
Defined.

(** X4: on x86_64, arming execute breakpoint [index] sets the local-enable
    bit of the slot, sets its condition and length bits to "execute, one
    byte" (all zero), and leaves every other bit of DR7, the other three
    slots included, as it was. *)
Theorem x86_break_dr7_bits (dr7 index n : Z) :
  0 <= dr7 < 2 ^ 64 -> 0 <= index < 4 -> 0 <= n ->
  Z.testbit (x86_break_dr7 dr7 index) n
    = (if n =? 2 * index then true
       else if (16 + 4 * index <=? n) && (n <? 20 + 4 * index) then false
       else Z.testbit dr7 n).
Proof.
  intros Hd Hi Hn. unfold x86_break_dr7. cbv zeta.
  change (Z.lor X86_DR7_BREAK_ON_EXEC (Z.shiftl X86_DR7_LEN_1 2)) with 0.
  rewrite Z.shiftl_0_l. change (int_to_ulong 0) with 0. rewrite Z.lor_0_r.
  rewrite Z.land_spec, Z.lor_spec, testbit_not64_nibble by lia.
  rewrite to_u64_land, Z.land_spec, Z.shiftl_1_l, Z.pow2_bits_eqb by lia.
  rewrite Z.testbit_ones_nonneg by lia.
  replace (16 + index * 4 + 4) with (20 + 4 * index) by lia.
  replace (16 + index * 4) with (16 + 4 * index) by lia.
  replace (index * 2 =? n) with (n =? 2 * index)
    by (destruct (Z.eqb_spec n (2 * index)), (Z.eqb_spec (index * 2) n); lia).
  destruct (Z.ltb_spec n 64).
  - destruct (Z.eqb_spec n (2 * index)), (Z.leb_spec (16 + 4 * index) n),
      (Z.ltb_spec n (20 + 4 * index)), (Z.testbit dr7 n); try lia; reflexivity.
  - rewrite (testbit_u64_high dr7 n) by lia.
    destruct (Z.eqb_spec n (2 * index)), (Z.leb_spec (16 + 4 * index) n),
      (Z.ltb_spec n (20 + 4 * index)); try lia; reflexivity.
Qed.

Lemma x86_break_dr7_bits_witness : Z.testbit (x86_break_dr7 0x1 2) 4 = true.
Proof. refine (x86_break_dr7_bits 0x1 2 4 _ _ _); lia. Defined.

(** X5: the ARM64 watchpoint control word is enabled (bit 0), asks for
    privilege level 2 (bits 1-2) and carries the access type in bits 3-4:
    load for READ, store for WRITE, both for READWRITE; whatever the size. *)
Theorem arm_watch_ctrl_fields (size : Z) (type : WatchpointType.t) :
  Z.testbit (arm_watch_ctrl size type) 0 = true /\
  Z.land (Z.shiftr (arm_watch_ctrl size type) 1) 3 = 2 /\
  Z.land (Z.shiftr (arm_watch_ctrl size type) 3) 3
    = match type with
      | WatchpointType.READ => ARM_BREAKPOINT_LOAD
      | WatchpointType.WRITE => ARM_BREAKPOINT_STORE
      | WatchpointType.READWRITE => ARM_BREAKPOINT_RW
      end.
Proof.
  unfold arm_watch_ctrl, arm_length.
  destruct (size <=? 1); [|destruct (size <=? 2); [|destruct (size <=? 4)]];
    destruct type; done.
Qed.

(** ** Table lookups and the signal-disposition API *)

Section Lookups.
Context {arch : Arch}.

(** X6: [find_breakpoint_index] answers -1, or the lowest hardware slot in
    use at the address, or, only when no hardware slot matches, 1000 plus a
    software slot in use at the address (on x86_64 also at the address
    minus one, where the program counter stands after INT3).  Hardware and
    software answers cannot be confused: the former are below 4, the latter
    at least 1000. *)
Theorem find_breakpoint_index_spec (d : Debugger) (address : Z) :
  let r := find_breakpoint_index d address in
  let hw i := at_ (breakpoint_used d) i && (at_ (breakpoint_addresses d) i =? address) in
  let sw_addr i := vget 0 (software_breakpoint_addresses d) i in
  (r = -1 /\ forall i, 0 <= i < MAX_BREAKPOINTS -> hw i = false)
  \/ (0 <= r < MAX_BREAKPOINTS /\ hw r = true /\ forall i, 0 <= i < r -> hw i = false)
  \/ (1000 <= r < 1000 + MAX_SOFTWARE_BREAKPOINTS /\
      (forall i, 0 <= i < MAX_BREAKPOINTS -> hw i = false) /\
      vget false (software_breakpoint_used d) (r - 1000) = true /\
      (sw_addr (r - 1000) = address \/
       (arch = X86_64 /\ 0 < address /\ sw_addr (r - 1000) = address - 1))).
Proof.
  cbv zeta. unfold find_breakpoint_index. cbv zeta.
  match goal with
  | |- context [scan ?P MAX_BREAKPOINTS] =>
      destruct (scan_spec P MAX_BREAKPOINTS) as [[Hh Hnone]|(Hr & Hhit & Hlow)]
  end.
  - rewrite Hh. change (negb (-1 =? -1)) with false. cbv iota.
    match goal with
    | |- context [scan ?P MAX_SOFTWARE_BREAKPOINTS] =>
        destruct (scan_spec P MAX_SOFTWARE_BREAKPOINTS) as [[Hs _]|(Hsr & Hsh & _)]
    end.
    + rewrite Hs. change (-1 =? -1) with true. cbv iota. left. split; [done|exact Hnone].
    + match goal with
      | |- context [scan ?P MAX_SOFTWARE_BREAKPOINTS] => set (s := scan P MAX_SOFTWARE_BREAKPOINTS) in *
      end.
      replace (s =? -1) with false by (symmetry; apply Z.eqb_neq; lia).
      right. right. split; [lia|]. split; [exact Hnone|].
      replace (s + 1000 - 1000) with s by lia.
      apply andb_true_iff in Hsh. destruct Hsh as [Hu Ha]. split; [exact Hu|].
      apply orb_true_iff in Ha. destruct Ha as [Ha|Ha].
      * left. apply Z.eqb_eq in Ha. exact Ha.
      * right. destruct arch; [discriminate|].
        apply andb_true_iff in Ha. destruct Ha as [H0 H1].
        apply Z.ltb_lt in H0. apply Z.eqb_eq in H1. done.
  - match goal with
    | |- context [scan ?P MAX_BREAKPOINTS] => set (h := scan P MAX_BREAKPOINTS) in *
    end.
    replace (negb (h =? -1)) with true
      by (symmetry; apply negb_true_iff, Z.eqb_neq; lia).
    right. left. done.
Qed.

(** X7: a stop is attributed to a watchpoint slot only if the slot is in
    use: the x86_64 attribution answers -1 or a slot in use whose DR6 bit is
    set, and the ARM64 attribution answers -1 or a slot in use. *)
Theorem watch_hit_is_used (d : Debugger) (dr6 fault_address : Z) :
  (x86_watch_hit d dr6 = -1 \/
   (0 <= x86_watch_hit d dr6 < MAX_WATCHPOINTS /\
    at_ (watchpoint_used d) (x86_watch_hit d dr6) = true /\
    Z.land dr6 (Z.shiftl 1 (x86_watch_hit d dr6)) <> 0)) /\
  (arm_watch_hit d fault_address = -1 \/
   (0 <= arm_watch_hit d fault_address < MAX_WATCHPOINTS /\
    at_ (watchpoint_used d) (arm_watch_hit d fault_address) = true)).
Proof.
  split.
  - unfold x86_watch_hit.
    match goal with
    | |- context [scan ?P ?b] => destruct (scan_spec P b) as [[H _]|(Hr & Hhit & _)]
    end; [left; exact H|right].
    apply andb_true_iff in Hhit. destruct Hhit as [Hb Hu].
    apply negb_true_iff, Z.eqb_neq in Hb. done.
  - unfold arm_watch_hit. cbv zeta.
    match goal with
    | |- context [negb (scan ?P ?b =? -1)] =>
        destruct (scan_spec P b) as [[H _]|(Hr & Hhit & _)]
    end.
    + rewrite H. change (negb (-1 =? -1)) with false. cbv iota.
      match goal with
      | |- context [scan ?P ?b] => destruct (scan_spec P b) as [[H' _]|(Hr & Hhit & _)]
      end; [left; exact H'|right].
      apply andb_true_iff in Hhit. destruct Hhit as [Hu _]. done.
    + match goal with
      | |- context [negb (scan ?P ?b =? -1)] => set (e := scan P b) in *
      end.
      replace (negb (e =? -1)) with true by (symmetry; apply negb_true_iff, Z.eqb_neq; lia).
      right. apply andb_true_iff in Hhit. destruct Hhit as [Hhit _].
      apply andb_true_iff in Hhit. destruct Hhit as [Hu _]. done.
Qed.

(** X8: the signal-disposition API.  A configuration that was set is the
    one returned, setting or removing one signal leaves the others alone,
    and a removed signal reads as the default {catch = false, pass = false}. *)
Theorem signal_config_round_trip (d : Debugger) (signal other : Z) (config : SignalConfig) :
  get_signal_config (set_signal_config signal config d) signal = config /\
  get_signal_config (remove_signal_config signal d) signal
    = {| catch_signal := false; pass_signal := false |} /\
  (other <> signal ->
   get_signal_config (set_signal_config signal config d) other = get_signal_config d other /\
   get_signal_config (remove_signal_config signal d) other = get_signal_config d other) /\
  get_all_signal_configs (set_all_signal_configs (get_all_signal_configs d) d)
    = get_all_signal_configs d.
Proof.
  unfold get_signal_config, set_signal_config, remove_signal_config, get_all_signal_configs,
    set_all_signal_configs.
  cbn [signal_config_ set_signal_config_].
  rewrite lookup_insert_eq, lookup_delete_eq.
  split; [reflexivity|]. split; [reflexivity|]. split; [|reflexivity].
  intros Hne. rewrite lookup_insert_ne, lookup_delete_ne by done. done.
Qed.


End Lookups.

(** ** Stopping and resuming the threads *)

Section Stop_the_world.
Context {arch : Arch} {K : Type} {E : Env K}.

Lemma elem_of_sorted_elements (s : gset Z) (t : Z) : t ∈ sorted_elements s <-> t ∈ s.
Proof.
  unfold sorted_elements. rewrite merge_sort_Permutation. apply elem_of_elements.
Qed.

Lemma attached_foldr_erase (l : list Z) (d : Debugger) :
  attached_threads_ (foldr erase_thread d l) ⊆ attached_threads_ d.
Proof.
  induction l as [|x l IH]; simpl; [done|].
  unfold erase_thread at 1. cbn [attached_threads_ set_attached_threads_ set_thread_states_].
  intros t Ht. apply IH. apply elem_of_difference in Ht. destruct Ht as [Ht _]. exact Ht.
Qed.

Lemma interrupt_threads_result (l : list Z) (ex : Z) (st al : list Z) :
  returns (fun p : list Z * list Z =>
             (forall t, t ∈ fst p -> t ∈ st \/ (t ∈ l /\ t <> ex)) /\
             (forall t, t ∈ snd p -> t ∈ al \/ (t ∈ l /\ t ∈ fst p)))
          (interrupt_threads (K := K) l ex st al).
Proof.
  revert st al. induction l as [|x l IH]; intros st al w; simpl.
  - split; intros t Ht; left; exact Ht.
  - destruct (Z.eqb_spec x ex) as [->|Hne].
    + destruct (IH st al w) as [H1 H2]. split.
      * intros t Ht. destruct (H1 t Ht) as [?|[? ?]]; [left; done|right].
        split; [apply elem_of_cons; right; done|done].
      * intros t Ht. destruct (H2 t Ht) as [?|[? ?]]; [left; done|right].
        split; [apply elem_of_cons; right; done|done].
    + mrun.
      assert (Hstep : forall st' al' w',
                (forall t, t ∈ st' -> t ∈ st \/ t = x) ->
                (forall t, t ∈ al' -> t ∈ al \/ (t = x /\ t ∈ st')) ->
                (forall t, t ∈ st' -> t ∈ fst (fst (interrupt_threads l ex st' al' w'))) ->
                (forall t, t ∈ fst (fst (interrupt_threads l ex st' al' w')) ->
                           t ∈ st \/ (t ∈ x :: l /\ t <> ex)) /\
                (forall t, t ∈ snd (fst (interrupt_threads l ex st' al' w')) ->
                           t ∈ al \/ (t ∈ x :: l /\
                                      t ∈ fst (fst (interrupt_threads l ex st' al' w'))))).
      { intros st' al' w' Hst Hal Hkeep. destruct (IH st' al' w') as [H1 H2]. split.
        - intros t Ht. destruct (H1 t Ht) as [Hin|[Hin Hx]].
          + destruct (Hst t Hin) as [?| ->]; [left; done|right].
            split; [apply elem_of_cons; left; done|done].
          + right. split; [apply elem_of_cons; right; done|done].
        - intros t Ht. destruct (H2 t Ht) as [Hin|[Hin Hx]].
          + destruct (Hal t Hin) as [?|[-> Hs]]; [left; done|right].
            split; [apply elem_of_cons; left; done|apply Hkeep; done].
          + right. split; [apply elem_of_cons; right; done|done]. }
      assert (Hmono : forall st' al' w' t,
                t ∈ st' -> t ∈ fst (fst (interrupt_threads l ex st' al' w'))).
      { clear. revert ex. induction l as [|y l IHl]; intros ex st' al' w' t Ht; simpl.
        - exact Ht.
        - destruct (y =? ex); [apply IHl; exact Ht|].
          mrun.
          destruct (thread_states_ (dbg w') !! y) as [s|].
          + destruct (is_stopped s).
            * apply IHl. apply elem_of_app. left. exact Ht.
            * mrun. destruct (r_ret _ =? 0).
              -- apply IHl. apply elem_of_app. left. exact Ht.
              -- rewrite bind_run. apply IHl. exact Ht.
          + mrun. destruct (r_ret _ =? 0).
            * apply IHl. apply elem_of_app. left. exact Ht.
            * rewrite bind_run. apply IHl. exact Ht. }
      destruct (thread_states_ (dbg w) !! x) as [s|].
      * destruct (is_stopped s).
        -- apply Hstep; [| |intros; apply Hmono; done].
           ++ intros t Ht. apply elem_of_app in Ht. destruct Ht as [?|Ht]; [left; done|].
              right. apply list_elem_of_singleton in Ht. exact Ht.
           ++ intros t Ht. apply elem_of_app in Ht. destruct Ht as [?|Ht]; [left; done|].
              right. apply list_elem_of_singleton in Ht. subst t.
              split; [done|]. apply elem_of_app. right. apply list_elem_of_singleton. done.
        -- mrun. destruct (r_ret _ =? 0).
           ++ apply Hstep; [| |intros; apply Hmono; done].
              ** intros t Ht. apply elem_of_app in Ht. destruct Ht as [?|Ht]; [left; done|].
                 right. apply list_elem_of_singleton in Ht. exact Ht.
              ** intros t Ht. left. exact Ht.
           ++ rewrite bind_run. apply Hstep; [| |intros; apply Hmono; done].
              ** intros t Ht. left. exact Ht.
              ** intros t Ht. left. exact Ht.
      * mrun. destruct (r_ret _ =? 0).
        -- apply Hstep; [| |intros; apply Hmono; done].
           ++ intros t Ht. apply elem_of_app in Ht. destruct Ht as [?|Ht]; [left; done|].
              right. apply list_elem_of_singleton in Ht. exact Ht.
           ++ intros t Ht. left. exact Ht.
        -- rewrite bind_run. apply Hstep; [| |intros; apply Hmono; done].
           ++ intros t Ht. left. exact Ht.
           ++ intros t Ht. left. exact Ht.
Qed.

Lemma wait_for_stops_result (l : list Z) (confirmed : gset Z) (elapsed : Z) :
  returns (fun res : list Z =>
             (forall t, t ∈ res -> t ∈ l) /\
             (forall t, t ∈ l -> t ∈ confirmed -> t ∈ res))
          (wait_for_stops (K := K) l confirmed elapsed).
Proof.
  revert elapsed. induction l as [|x l IH]; intros elapsed w; simpl.
  - split; [done|]. intros t Ht. apply elem_of_nil in Ht. done.
  - destruct (bool_decide (x ∈ confirmed)) eqn:Hx.
    + mrun. destruct (IH elapsed w) as [H1 H2]. split.
      * intros t Ht. apply elem_of_cons in Ht. destruct Ht as [->|Ht];
          [apply elem_of_cons; left; done|apply elem_of_cons; right; apply H1; done].
      * intros t Ht Hc. apply elem_of_cons in Ht. destruct Ht as [->|Ht];
          [apply elem_of_cons; left; done|apply elem_of_cons; right; apply H2; done].
    + apply bool_decide_eq_false in Hx. rewrite bind_run.
      set (p := wait_for_stop _ x elapsed w).
      rewrite bind_run, ret_run. cbn [fst snd].
      destruct (IH (snd (fst p)) (snd p)) as [H1 H2]. split.
      * intros t Ht. destruct (fst (fst p)).
        -- apply elem_of_cons in Ht. destruct Ht as [->|Ht];
             [apply elem_of_cons; left; done|apply elem_of_cons; right; apply H1; done].
        -- apply elem_of_cons; right; apply H1; done.
      * intros t Ht Hc. apply elem_of_cons in Ht. destruct Ht as [->|Ht]; [done|].
        destruct (fst (fst p)); [apply elem_of_cons; right|]; apply H2; done.
Qed.




Local Abbreviation stop_requests :=
  (trace_grows (K := K) (fun e => is_stop_request (fst e) = true)).

Lemma interrupt_threads_requests (l : list Z) (ex : Z) (st al : list Z) :
  moves stop_requests (interrupt_threads l ex st al).
Proof. revert st al. induction l as [|x l IH]; intros; simpl; moves_auto. Qed.

Lemma wait_for_stop_requests (ticks : nat) (tid el : Z) :
  moves stop_requests (wait_for_stop ticks tid el).
Proof. revert el. induction ticks as [|n IH]; intros; simpl; moves_auto. Qed.

Lemma wait_for_stops_requests (l : list Z) (conf : gset Z) (el : Z) :
  moves stop_requests (wait_for_stops l conf el).
Proof.
  revert el. induction l as [|x l IH]; intros; simpl; moves_auto;
    apply wait_for_stop_requests.
Qed.


Lemma emitted_bind {A B : Type} (m : M K A) (f : A -> M K B) (w : World K)
    (e1 e2 : list Event) :
  trace (snd (m w)) = trace w ++ e1 ->
  trace (snd (f (fst (m w)) (snd (m w)))) = trace (snd (m w)) ++ e2 ->
  emitted (bind m f) w = e1 ++ e2.
Proof.
  intros H1 H2. apply emitted_app. rewrite bind_run, H2, H1, app_assoc. reflexivity.
Qed.

Lemma resume_threads_spec (l : list Z) (w : World K) :
  NoDup l ->
  trace (snd (resume_threads l w))
    = trace w ++ emitted (resume_threads l) w /\
  map fst (emitted (resume_threads l) w)
    = map (fun tid => ptrace_CONT tid (pending_of (dbg w) tid)) l /\
  (forall tid, tid ∈ l -> pending_of (dbg (snd (resume_threads l w))) tid = 0) /\
  (forall tid, tid ∉ l ->
     thread_states_ (dbg (snd (resume_threads l w))) !! tid = thread_states_ (dbg w) !! tid).
Proof.
  revert w. induction l as [|x l IH]; intros w Hnd.
  - unfold emitted, resume_threads. cbn [for_each]. rewrite ret_run. cbn [snd].
    rewrite drop_all, app_nil_r.
    split; [reflexivity|]. split; [reflexivity|]. split; [|reflexivity].
    intros tid Ht. apply elem_of_nil in Ht. destruct Ht.
  - apply NoDup_cons in Hnd. destruct Hnd as [Hx Hnd].
    unfold resume_threads. cbn [for_each]. fold (resume_threads l).
    set (body := bind get_dbg _).
    assert (Hbody : trace (snd (body w))
                    = trace w ++ [(ptrace_CONT x (pending_of (dbg w) x),
                                   fst (sys (ptrace_CONT x (pending_of (dbg w) x)) (kern w)))] /\
                    pending_of (dbg (snd (body w))) x = 0 /\
                    forall tid, tid <> x ->
                      thread_states_ (dbg (snd (body w))) !! tid = thread_states_ (dbg w) !! tid).
    { subst body. mrun. fold (pending_of (dbg w) x).
      destruct (failed _).
      - destruct (r_errno _ =? ESRCH); mrun.
        + split; [reflexivity|]. split.
          * unfold pending_of, erase_thread.
            cbn [thread_states_ set_thread_states_ set_attached_threads_].
            rewrite lookup_delete_eq. reflexivity.
          * intros tid Hne. unfold erase_thread, upd_thread_it.
            cbn [thread_states_ set_thread_states_ set_attached_threads_].
            rewrite lookup_delete_ne, lookup_alter_ne by done. reflexivity.
        + split; [reflexivity|]. split.
          * unfold pending_of, upd_thread_it. cbn [thread_states_ set_thread_states_].
            rewrite lookup_alter_eq. destruct (thread_states_ (dbg w) !! x); reflexivity.
          * intros tid Hne. unfold upd_thread_it. cbn [thread_states_ set_thread_states_].
            rewrite lookup_alter_ne by done. reflexivity.
      - mrun. split; [reflexivity|]. split.
        + unfold pending_of, upd_thread_it. cbn [thread_states_ set_thread_states_].
          rewrite !lookup_alter_eq. destruct (thread_states_ (dbg w) !! x); reflexivity.
        + intros tid Hne. unfold upd_thread_it. cbn [thread_states_ set_thread_states_].
          rewrite !lookup_alter_ne by done. reflexivity. }
    destruct Hbody as (Ht & Hp & Hs).
    destruct (IH (snd (body w)) Hnd) as (It & Im & Ip & Is).
    assert (Hem : emitted (bind body (fun _ => resume_threads l)) w
                  = [(ptrace_CONT x (pending_of (dbg w) x),
                      fst (sys (ptrace_CONT x (pending_of (dbg w) x)) (kern w)))]
                    ++ emitted (resume_threads l) (snd (body w)))
      by (apply emitted_bind; [exact Ht|exact It]).
    rewrite Hem. rewrite bind_run.
    split; [rewrite It, Ht, <- app_assoc; reflexivity|].
    split.
    + cbn [map app fst]. f_equal. rewrite Im. apply map_ext_in. intros tid Hin.
      f_equal. unfold pending_of. rewrite Hs; [reflexivity|].
      intros ->. apply Hx. apply list_elem_of_In. exact Hin.
    + split.
      * intros tid Hin. apply elem_of_cons in Hin. destruct Hin as [->|Hin].
        -- unfold pending_of. rewrite Is by exact Hx. exact Hp.
        -- apply Ip. exact Hin.
      * intros tid Hin. apply not_elem_of_cons in Hin. destruct Hin as [Hne Hin].
        rewrite Is by exact Hin. apply Hs. exact Hne.
Qed.

(** X13: [resume_threads] resumes each listed thread once, in the order of
    the list, with a PTRACE_CONT that delivers the signal pending for that
    thread (0 when none is recorded); afterwards no signal is pending for
    the listed threads, and the states of all other threads are untouched. *)
Theorem resume_threads_delivers_pending (l : list Z) (w : World K) :
  NoDup l ->
  map fst (emitted (resume_threads l) w)
    = map (fun tid => ptrace_CONT tid (pending_of (dbg w) tid)) l /\
  (forall tid, tid ∈ l -> pending_of (dbg (snd (resume_threads l w))) tid = 0) /\
  (forall tid, tid ∉ l ->
     thread_states_ (dbg (snd (resume_threads l w))) !! tid = thread_states_ (dbg w) !! tid).
Proof. intros Hnd. destruct (resume_threads_spec l w Hnd) as (_ & H). exact H. Qed.

End Stop_the_world.

Lemma resume_threads_delivers_pending_witness :
  map fst (emitted (resume_threads (E := ScriptEnv) [100; 101]) c10_world)
  = [ptrace_CONT 100 0; ptrace_CONT 101 0].
Proof.
  refine (proj1 (resume_threads_delivers_pending (E := ScriptEnv) [100; 101] c10_world _)).
  apply (bool_decide_unpack _). vm_compute. exact I.
Defined.

(** ** Setting, removing and stepping over watchpoints *)

Section Watchpoint_tools.
Context {arch : Arch} {K : Type} {E : Env K}.

Lemma apply_watchpoint_to_threads_dbg (l : list Z) (i a s : Z) (t : WatchpointType.t)
    (w : World K) :
  dbg (snd (apply_watchpoint_to_threads l i a s t w)) = dbg w.
Proof.
  assert (H : moves (same_view (K := K) (fun d => d)) (apply_watchpoint_to_threads l i a s t)).
  { induction l as [|x l IH]; simpl; [moves_auto|]. destruct arch; moves_auto. }
  exact (H w).
Qed.

Lemma clear_watchpoint_from_threads_dbg (l : list Z) (i : Z) (w : World K) :
  dbg (snd (clear_watchpoint_from_threads l i w)) = dbg w.
Proof.
  assert (H : moves (same_view (K := K) (fun d => d)) (clear_watchpoint_from_threads l i)).
  { induction l as [|x l IH]; simpl; [moves_auto|]. destruct arch; moves_auto. }
  exact (H w).
Qed.

Lemma removing_bit_cleared (d : Debugger) (i : Z) :
  0 <= i < 32 -> removing_bit (set_removing i false d) i = false.
Proof.
  intros Hi. unfold removing_bit, set_removing. cbn [removing_mask_ set_removing_mask_].
  apply negb_false_iff, Z.eqb_eq.
  rewrite <- Z.land_assoc.
  assert (H : Z.land (to_u32 (Z.lnot (to_u32 (Z.shiftl 1 i)))) (to_u32 (Z.shiftl 1 i)) = 0).
  { unfold to_u32. rewrite <- !Z.land_ones by lia. rewrite Z.shiftl_1_l.
    apply Z.bits_inj'. intros n Hn. testbits.
    rewrite Z.lnot_spec by lia. testbits.
    rewrite Z.pow2_bits_eqb by lia.
    destruct (Z.eqb_spec i n), (Z.ltb_spec n 32); try lia; reflexivity. }
  rewrite H. apply Z.land_0_r.
Qed.

Lemma thread_states_upd_thread (d : Debugger) (tid : Z) (f : ThreadState -> ThreadState) :
  thread_states_ (upd_thread tid f d) !! tid = Some (f (thread_state_of d tid)).
Proof. unfold upd_thread. cbn [thread_states_ set_thread_states_]. apply lookup_insert_eq. Qed.

Lemma active_handlers_balanced (l : list WatchpointSync) (i : nat) :
  alter (fun s => {| removing := removing s; active_handlers := active_handlers s + -1 |}) i
    (alter (fun s => {| removing := removing s; active_handlers := active_handlers s + 1 |}) i l)
  = l.
Proof.
  apply list_eq. intros j. destruct (decide (j = i)) as [->|Hne].
  - first [rewrite !list_lookup_alter_eq | rewrite !list_lookup_alter].
    destruct (l !! i) as [[r a]|]; cbn; [|reflexivity]. do 2 f_equal. lia.
  - rewrite !list_lookup_alter_ne by done. reflexivity.
Qed.

End Watchpoint_tools.

Section Watchpoints.
Context {arch : Arch} {K : Type} {E : Env K}.

(** X14: [set_watchpoint_internal] registers the watchpoint only when it
    succeeds: after a result of 0 the slot it chose (the lowest free one)
    is in use and holds the address, size and type, and the other slots are
    as before; after any other result the watchpoint table is unchanged. *)
Theorem set_watchpoint_internal_table (w : World K) (address size : Z)
    (type : WatchpointType.t) :
  let r := set_watchpoint_internal address size type w in
  let i := Z.to_nat (find_free_watchpoint (dbg w)) in
  (fst r = 0 ->
     find_free_watchpoint (dbg w) <> -1 /\
     wp_view (dbg (snd r))
     = (<[i := true]> (watchpoint_used (dbg w)),
        <[i := address]> (watchpoint_addresses (dbg w)),
        <[i := size]> (watchpoint_sizes (dbg w)),
        <[i := type]> (watchpoint_types (dbg w)))) /\
  (fst r <> 0 -> wp_view (dbg (snd r)) = wp_view (dbg w)).
Proof.
  cbv zeta. unfold set_watchpoint_internal. mrun. cbv zeta.
  destruct (Z.eqb_spec (find_free_watchpoint (dbg w)) (-1)) as [Hi|Hi].
  { rewrite ret_run. cbn [fst snd]. split; [discriminate|done]. }
  rewrite bind_run.
  pose proof (stop_all_threads_view wp_view (fun _ => eq_refl) 0 w) as H1.
  set (r1 := stop_all_threads 0 w) in *.
  destruct (bool_decide (fst (fst r1) = [])).
  { rewrite ret_run. cbn [fst snd]. split; [discriminate|intros _; exact H1]. }
  rewrite bind_run.
  match goal with
  | |- context [apply_watchpoint_to_threads ?l ?i ?a ?s ?t ?ww] =>
      pose proof (apply_watchpoint_to_threads_dbg l i a s t ww) as H2;
      set (r2 := apply_watchpoint_to_threads l i a s t ww) in *
  end.
  rewrite bind_run.
  match goal with
  | |- context [resume_threads ?l ?ww] =>
      pose proof (resume_threads_view wp_view (fun _ => eq_refl) l ww) as H3;
      set (r3 := resume_threads l ww) in *
  end.
  rewrite H2, H1 in H3.
  destruct (fst r2).
  - mrun. split; [|intros Hne; exfalso; apply Hne; reflexivity].
    intros _. split; [exact Hi|].
    unfold wp_view in *.
    cbn [watchpoint_used watchpoint_addresses watchpoint_sizes watchpoint_types
         set_watchpoint_types set_watchpoint_sizes set_watchpoint_addresses
         set_watchpoint_used].
    injection H3 as -> -> -> ->. reflexivity.
  - rewrite ret_run. cbn [fst snd]. split; [discriminate|intros _; exact H3].
Qed.


(** X15: [remove_watchpoint_internal].  An address that is not watched is
    refused with -1 and nothing happens.  Otherwise the slot's bit of
    [removing_mask_] is clear again when the call returns, whatever the
    outcome; after a result of 0 the slot is free and its address and size
    are zero, and after any other result the watchpoint table is unchanged. *)
Theorem remove_watchpoint_internal_outcome (w : World K) (address : Z) :
  let r := remove_watchpoint_internal address w in
  let i := find_watchpoint_index (dbg w) address in
  (i = -1 -> fst r = -1 /\ snd r = w) /\
  (i <> -1 ->
     removing_bit (dbg (snd r)) i = false /\
     (fst r = 0 ->
        wp_view (dbg (snd r))
        = (<[Z.to_nat i := false]> (watchpoint_used (dbg w)),
           <[Z.to_nat i := 0]> (watchpoint_addresses (dbg w)),
           <[Z.to_nat i := 0]> (watchpoint_sizes (dbg w)),
           watchpoint_types (dbg w))) /\
     (fst r <> 0 -> wp_view (dbg (snd r)) = wp_view (dbg w))).
Proof.
  cbv zeta. unfold remove_watchpoint_internal. mrun. cbv zeta.
  assert (Hrange : find_watchpoint_index (dbg w) address = -1 \/
                   0 <= find_watchpoint_index (dbg w) address < 32).
  { unfold find_watchpoint_index.
    match goal with
    | |- context [scan ?P ?b] => destruct (scan_spec P b) as [[H _]|(H & _)]
    end; [left; exact H|right]. unfold MAX_WATCHPOINTS in *. lia. }
  set (i := find_watchpoint_index (dbg w) address) in *.
  destruct (Z.eqb_spec i (-1)) as [Hi|Hi].
  { rewrite ret_run. cbn [fst snd]. destruct w. split; [done|]. intros Hne. done. }
  destruct Hrange as [?|Hrange]; [done|].
  split; [intros ?; done|]. intros _.
  mrun.
  match goal with
  | |- context [stop_all_threads 0 ?ww] =>
      pose proof (stop_all_threads_view wp_view (fun _ => eq_refl) 0 ww) as H1;
      set (r1 := stop_all_threads 0 ww) in *
  end.
  cbn [dbg] in H1.
  change (wp_view (set_removing i true (dbg w))) with (wp_view (dbg w)) in H1.
  destruct (bool_decide (fst (fst r1) = [])).
  { mrun. split; [apply removing_bit_cleared; exact Hrange|].
    split; [discriminate|]. intros _. exact H1. }
  mrun.
  match goal with
  | |- context [clear_watchpoint_from_threads ?l ?j ?ww] =>
      pose proof (clear_watchpoint_from_threads_dbg l j ww) as H2;
      set (r2 := clear_watchpoint_from_threads l j ww) in *
  end.
  mrun.
  match goal with
  | |- context [resume_threads ?l ?ww] =>
      pose proof (resume_threads_view wp_view (fun _ => eq_refl) l ww) as H3;
      set (r3 := resume_threads l ww) in *
  end.
  rewrite H2, H1 in H3.
  destruct (fst r2); mrun.
  - split; [transitivity (removing_bit (set_removing i false (dbg (snd r3))) i);
            [reflexivity|apply removing_bit_cleared; exact Hrange]|].
    split; [|intros Hne; exfalso; apply Hne; reflexivity].
    intros _. unfold wp_view in *.
    cbn [watchpoint_used watchpoint_addresses watchpoint_sizes watchpoint_types
         set_watchpoint_types set_watchpoint_sizes set_watchpoint_addresses
         set_watchpoint_used set_removing set_removing_mask_ set_watchpoint_sync_].
    injection H3 as -> -> -> ->. reflexivity.
  - split; [apply removing_bit_cleared; exact Hrange|].
    split; [discriminate|]. intros _. exact H3.
Qed.


Lemma handle_watchpoint_hit_state (w : World K) (thread i : Z) :
  removing_bit (dbg w) i = false ->
  fst (handle_watchpoint_hit thread i w) = 0 ->
  let w1 := snd (handle_watchpoint_hit thread i w) in
  (exists st, thread_states_ (dbg w1) !! thread = Some st /\
              single_step_mode st = SingleStepMode.Watchpoint /\
              disabled_watchpoint_index st = i) /\
  watchpoint_sync_ (dbg w1)
    = alter (fun s => {| removing := removing s; active_handlers := active_handlers s + 1 |})
            (Z.to_nat i) (watchpoint_sync_ (dbg w)) /\
  debug_command_queue_ (dbg w1) = debug_command_queue_ (dbg w) /\
  last (map fst (emitted (handle_watchpoint_hit thread i) w))
    = Some (ptrace_SINGLESTEP thread 0).
Proof.
  intros Hrem. cbv zeta. unfold emitted, handle_watchpoint_hit. mrun. rewrite Hrem. mrun.
  destruct arch; mrun; cbn [negb]; mrun;
    repeat match goal with
      | |- context [if failed ?x then _ else _] => destruct (failed x); mrun; cbn [negb]; mrun
      end;
    try (intros H; discriminate H);
    (intros _; split;
     [ eexists; rewrite thread_states_upd_thread; split; [reflexivity|];
       rewrite thread_state_of_upd_thread; done
     | split; [reflexivity|]; split; [reflexivity|];
       rewrite <- !app_assoc, drop_app_length; reflexivity ]).
Qed.

Lemma complete_watchpoint_single_step_state (w1 : World K) (thread i : Z) (st : ThreadState) :
  thread_states_ (dbg w1) !! thread = Some st ->
  disabled_watchpoint_index st = i -> 0 <= i < MAX_WATCHPOINTS ->
  let r := complete_watchpoint_single_step thread w1 in
  fst r = 0 /\ trace (snd r) = trace w1 /\
  watchpoint_sync_ (dbg (snd r))
    = alter (fun s => {| removing := removing s; active_handlers := active_handlers s + -1 |})
            (Z.to_nat i) (watchpoint_sync_ (dbg w1)) /\
  single_step_mode (thread_state_of (dbg (snd r)) thread) = SingleStepMode.None /\
  disabled_watchpoint_index (thread_state_of (dbg (snd r)) thread) = -1 /\
  exists request,
    debug_command_queue_ (dbg (snd r)) = debug_command_queue_ (dbg w1) ++ [request] /\
    command request = DebugCommand.ReapplyWatchpoints /\ thread_id request = thread.
Proof.
  intros Hst Hidx Hi. cbv zeta. unfold complete_watchpoint_single_step, enqueue_command.
  mrun. rewrite Hst. cbv zeta. rewrite Hidx.
  replace ((0 <=? i) && (i <? MAX_WATCHPOINTS)) with true
    by (symmetry; apply andb_true_iff; split; [apply Z.leb_le|apply Z.ltb_lt]; lia).
  mrun.
  split; [reflexivity|]. split; [reflexivity|]. split; [reflexivity|].
  unfold thread_state_of, upd_thread_it, add_active_handlers.
  cbn [thread_states_ set_thread_states_ set_watchpoint_sync_ set_debug_command_queue_
       debug_command_queue_].
  rewrite lookup_alter_eq, Hst. cbn.
  split; [reflexivity|]. split; [reflexivity|].
  eexists. split; [reflexivity|]. split; reflexivity.
Qed.

(** X16: the single step over a watchpoint is balanced.  When
    [handle_watchpoint_hit] succeeds on a slot that is not being removed, the
    thread is single-stepped in mode Watchpoint with the slot recorded as
    disabled; when the step completes, [complete_watchpoint_single_step]
    issues no request, returns 0, leaves [watchpoint_sync_] (the handler
    counts) as it was before the hit, puts the thread back in mode None with
    no disabled slot, and queues one ReapplyWatchpoints request for the
    thread. *)
Theorem watchpoint_step_is_balanced (w : World K) (thread i : Z) :
  removing_bit (dbg w) i = false -> 0 <= i < MAX_WATCHPOINTS ->
  fst (handle_watchpoint_hit thread i w) = 0 ->
  let w1 := snd (handle_watchpoint_hit thread i w) in
  let w2 := snd (complete_watchpoint_single_step thread w1) in
  single_step_mode (thread_state_of (dbg w1) thread) = SingleStepMode.Watchpoint /\
  disabled_watchpoint_index (thread_state_of (dbg w1) thread) = i /\
  last (map fst (emitted (handle_watchpoint_hit thread i) w))
    = Some (ptrace_SINGLESTEP thread 0) /\
  fst (complete_watchpoint_single_step thread w1) = 0 /\
  emitted (complete_watchpoint_single_step thread) w1 = [] /\
  watchpoint_sync_ (dbg w2) = watchpoint_sync_ (dbg w) /\
  single_step_mode (thread_state_of (dbg w2) thread) = SingleStepMode.None /\
  disabled_watchpoint_index (thread_state_of (dbg w2) thread) = -1 /\
  exists request,
    debug_command_queue_ (dbg w2) = debug_command_queue_ (dbg w) ++ [request] /\
    command request = DebugCommand.ReapplyWatchpoints /\ thread_id request = thread.
Proof.
  intros Hrem Hi Hres. cbv zeta.
  destruct (handle_watchpoint_hit_state w thread i Hrem Hres)
    as ((st & Hst & Hmode & Hidx) & Hsync & Hq & Hlast).
  destruct (complete_watchpoint_single_step_state _ thread i st Hst Hidx Hi)
    as (H0 & Ht & Hs2 & Hm2 & Hd2 & (request & Hq2 & Hc & Hth)).
  split; [unfold thread_state_of; rewrite Hst; exact Hmode|].
  split; [unfold thread_state_of; rewrite Hst; exact Hidx|].
  split; [exact Hlast|]. split; [exact H0|].
  split; [unfold emitted; rewrite Ht; apply drop_all|].
  split; [rewrite Hs2, Hsync; apply active_handlers_balanced|].
  split; [exact Hm2|]. split; [exact Hd2|].
  exists request. rewrite Hq2, Hq. done.
Qed.

End Watchpoints.

Lemma watchpoint_step_is_balanced_witness :
  watchpoint_sync_
    (dbg (snd (complete_watchpoint_single_step 100
                 (snd (handle_watchpoint_hit (E := ScriptEnv) 100 0 c1_after_first)))))
  = watchpoint_sync_ (dbg c1_after_first).
Proof.
  refine (proj1 (proj2 (proj2 (proj2 (proj2 (proj2
    (watchpoint_step_is_balanced (E := ScriptEnv) c1_after_first 100 0 _ _ _))))))).
  - vm_compute. reflexivity.
  - unfold MAX_WATCHPOINTS. lia.
  - vm_compute. reflexivity.
Defined.

(** ** The software-breakpoint table *)

Lemma scan_unique (P : Z -> bool) (bound i : Z) :
  0 <= i < bound -> P i = true -> (forall j, 0 <= j < i -> P j = false) -> scan P bound = i.
Proof.
  intros Hi HP Hlow. destruct (scan_spec P bound) as [[_ Hn]|(Hr & HPr & Hl)].
  - rewrite Hn in HP by exact Hi. discriminate.
  - destruct (Z.lt_trichotomy (scan P bound) i) as [Hlt|[Heq|Hgt]]; [|exact Heq|].
    + rewrite Hlow in HPr by lia. discriminate.
    + rewrite Hl in HP by lia. discriminate.
Qed.

Lemma read4_write4 (v : gmap Z Z) (i b0 b1 b2 b3 : Z) :
  read4 (write4 i [b0; b1; b2; b3] v) i = [b0; b1; b2; b3].
Proof.
  unfold read4, write4, vget, at_. cbn [map foldl].
  repeat first [rewrite lookup_insert_eq | rewrite lookup_insert_ne by lia]. reflexivity.
Qed.

Section Software_breakpoint_tables.
Context {arch : Arch} {K : Type} {E : Env K}.

Local Abbreviation any_requests := (trace_grows (K := K) (fun _ => True)).

Lemma stop_all_threads_trace (ex : Z) (w : World K) :
  exists evs, trace (snd (stop_all_threads ex w)) = trace w ++ evs.
Proof.
  destruct (moves_stop_all_threads any_requests
              (fun c _ => moves_call_grows _ c (fun _ => I))
              (fun f _ => moves_modify_grows _ f) ex w) as (evs & H & _).
  exists evs. exact H.
Qed.

Lemma resume_threads_trace (l : list Z) (w : World K) :
  exists evs, trace (snd (resume_threads l w)) = trace w ++ evs.
Proof.
  destruct (moves_resume_threads any_requests
              (fun c _ => moves_call_grows _ c (fun _ => I))
              (fun f _ => moves_modify_grows _ f) l w) as (evs & H & _).
  exists evs. exact H.
Qed.

(** What [set_software_breakpoint_internal] leaves behind: on success the
    lowest free slot holds the address and the first bytes of the word that
    was read, and the word written to the target is that word with the trap
    merged in; on failure the table is unchanged. *)
Lemma set_software_breakpoint_outcome (w : World K) (address hit_count : Z) :
  let r := set_software_breakpoint_internal address hit_count w in
  let i := find_free_software_breakpoint (dbg w) in
  (fst r = 0 ->
     exists word,
       sw_tables (dbg (snd r))
       = (<[i := true]> (software_breakpoint_used (dbg w)),
          <[i := address]> (software_breakpoint_addresses (dbg w)),
          write4 i (word_prefix_bytes (bp_size arch) word)
                 (software_breakpoint_original_bytes (dbg w))) /\
       ptrace_POKEDATA (pid_ (dbg w)) address (patch_word arch word)
         ∈ map fst (emitted (set_software_breakpoint_internal address hit_count) w)) /\
  (fst r <> 0 -> sw_tables (dbg (snd r)) = sw_tables (dbg w)).
Proof.
  cbv zeta. unfold emitted, set_software_breakpoint_internal. mrun. cbv zeta.
  set (i := find_free_software_breakpoint (dbg w)).
  destruct (i =? -1); [rewrite ret_run; cbn [fst snd]; split; [discriminate|done]|].
  mrun.
  pose proof (stop_all_threads_view sw_tables (fun _ => eq_refl) 0 w) as H1.
  pose proof (stop_all_threads_view pid_ (fun _ => eq_refl) 0 w) as Hp1.
  destruct (stop_all_threads_trace 0 w) as (e1 & T1).
  set (r1 := stop_all_threads 0 w) in *.
  destruct (bool_decide (fst (fst r1) = []));
    [rewrite ret_run; cbn [fst snd]; split; [discriminate|intros _; exact H1]|].
  mrun.
  destruct (negb (r_errno _ =? 0)).
  { mrun.
    match goal with
    | |- context [resume_threads ?l ?ww] =>
        pose proof (resume_threads_view sw_tables (fun _ => eq_refl) l ww) as H3
    end.
    cbn [dbg] in H3. split; [discriminate|]. intros _. rewrite H3. exact H1. }
  mrun.
  destruct (failed _).
  { mrun.
    match goal with
    | |- context [resume_threads ?l ?ww] =>
        pose proof (resume_threads_view sw_tables (fun _ => eq_refl) l ww) as H3
    end.
    cbn [dbg] in H3. split; [discriminate|]. intros _. rewrite H3. exact H1. }
  mrun.
  match goal with
  | |- context [resume_threads ?l ?ww] =>
      pose proof (resume_threads_view sw_tables (fun _ => eq_refl) l ww) as H3;
      destruct (resume_threads_trace l ww) as (e3 & T3);
      set (r3 := resume_threads l ww) in *
  end.
  cbn [dbg trace] in H3, T3. rewrite H1 in H3.
  split; [|intros Hne; exfalso; apply Hne; reflexivity].
  intros _. eexists. split.
  - unfold sw_tables in *.
    cbn [software_breakpoint_used software_breakpoint_addresses
         software_breakpoint_original_bytes set_software_breakpoint_original_bytes
         set_software_breakpoint_addresses set_software_breakpoint_used].
    injection H3 as -> -> ->. reflexivity.
  - rewrite T3, T1, <- !app_assoc, drop_app_length, !map_app.
    apply elem_of_app. right. apply elem_of_app. right. apply elem_of_app. left.
    cbn [map fst]. rewrite Hp1. apply list_elem_of_singleton. reflexivity.
Qed.


(** What [remove_software_breakpoint_internal] leaves behind: on success
    the slot found for the address is free, and the word written to the
    target is the current word with the saved bytes merged back in; on
    failure the table is unchanged. *)
Lemma remove_software_breakpoint_outcome (w : World K) (address : Z) :
  let r := remove_software_breakpoint_internal address w in
  let i := find_software_breakpoint (dbg w) address in
  (fst r = 0 ->
     i <> -1 /\
     software_breakpoint_used (dbg (snd r)) = <[i := false]> (software_breakpoint_used (dbg w)) /\
     software_breakpoint_addresses (dbg (snd r))
       = <[i := 0]> (software_breakpoint_addresses (dbg w)) /\
     exists word,
       ptrace_POKEDATA (pid_ (dbg w)) address
         (restore_word arch word (read4 (software_breakpoint_original_bytes (dbg w)) i))
       ∈ map fst (emitted (remove_software_breakpoint_internal address) w)) /\
  (fst r <> 0 -> sw_tables (dbg (snd r)) = sw_tables (dbg w)).
Proof.
  cbv zeta. unfold emitted, remove_software_breakpoint_internal. mrun. cbv zeta.
  set (i := find_software_breakpoint (dbg w) address).
  destruct (Z.eqb_spec i (-1)) as [Hi|Hi];
    [rewrite ret_run; cbn [fst snd]; split; [discriminate|done]|].
  mrun.
  pose proof (stop_all_threads_view sw_tables (fun _ => eq_refl) 0 w) as H1.
  pose proof (stop_all_threads_view pid_ (fun _ => eq_refl) 0 w) as Hp1.
  destruct (stop_all_threads_trace 0 w) as (e1 & T1).
  set (r1 := stop_all_threads 0 w) in *.
  destruct (bool_decide (fst (fst r1) = []));
    [rewrite ret_run; cbn [fst snd]; split; [discriminate|intros _; exact H1]|].
  mrun.
  destruct (negb (r_errno _ =? 0)).
  { mrun.
    match goal with
    | |- context [resume_threads ?l ?ww] =>
        pose proof (resume_threads_view sw_tables (fun _ => eq_refl) l ww) as H3
    end.
    cbn [dbg] in H3. split; [discriminate|]. intros _. rewrite H3. exact H1. }
  mrun.
  destruct (failed _).
  { mrun.
    match goal with
    | |- context [resume_threads ?l ?ww] =>
        pose proof (resume_threads_view sw_tables (fun _ => eq_refl) l ww) as H3
    end.
    cbn [dbg] in H3. split; [discriminate|]. intros _. rewrite H3. exact H1. }
  mrun.
  match goal with
  | |- context [resume_threads ?l ?ww] =>
      pose proof (resume_threads_view sw_tables (fun _ => eq_refl) l ww) as H3;
      destruct (resume_threads_trace l ww) as (e3 & T3);
      set (r3 := resume_threads l ww) in *
  end.
  cbn [dbg trace] in H3, T3. rewrite H1 in H3.
  split; [|intros Hne; exfalso; apply Hne; reflexivity].
  intros _. split; [exact Hi|].
  unfold sw_tables in H3.
  cbn [software_breakpoint_used software_breakpoint_addresses
       software_breakpoint_original_bytes set_software_breakpoint_original_bytes
       set_software_breakpoint_addresses set_software_breakpoint_used set_thread_states_].
  injection H3 as -> -> _.
  split; [reflexivity|]. split; [reflexivity|].
  eexists.
  rewrite T3, T1, <- !app_assoc, drop_app_length, !map_app.
  apply elem_of_app. right. apply elem_of_app. right. apply elem_of_app. left.
  cbn [map fst]. rewrite Hp1. apply list_elem_of_singleton. reflexivity.
Qed.

Lemma sw_unique_insert_fresh (d d' : Debugger) (i address : Z) :
  sw_unique d -> (forall j, ~ sw_active d j address) ->
  software_breakpoint_used d' = <[i := true]> (software_breakpoint_used d) ->
  software_breakpoint_addresses d' = <[i := address]> (software_breakpoint_addresses d) ->
  sw_unique d'.
Proof.
  intros Hu Hfresh Hused Haddr a b x [Ha1 Ha2] [Hb1 Hb2].
  unfold vget in *. rewrite Hused in Ha1, Hb1. rewrite Haddr in Ha2, Hb2.
  destruct (decide (a = i)) as [->|Hai], (decide (b = i)) as [->|Hbi]; [done| | |].
  - rewrite lookup_insert_eq in Ha2. rewrite lookup_insert_ne in Hb1 by done.
    rewrite lookup_insert_ne in Hb2 by done.
    cbn in Ha2. rewrite <- Ha2 in Hb2. exfalso. apply (Hfresh b).
    split; [exact Hb1|exact Hb2].
  - rewrite lookup_insert_eq in Hb2. rewrite lookup_insert_ne in Ha1 by done.
    rewrite lookup_insert_ne in Ha2 by done.
    cbn in Hb2. rewrite <- Hb2 in Ha2. exfalso. apply (Hfresh a).
    split; [exact Ha1|exact Ha2].
  - rewrite lookup_insert_ne in Ha1 by done. rewrite lookup_insert_ne in Ha2 by done.
    rewrite lookup_insert_ne in Hb1 by done. rewrite lookup_insert_ne in Hb2 by done.
    apply (Hu a b x); [split; [exact Ha1|exact Ha2]|split; [exact Hb1|exact Hb2]].
Qed.

Lemma sw_unique_remove (d d' : Debugger) (i : Z) :
  sw_unique d ->
  software_breakpoint_used d' = <[i := false]> (software_breakpoint_used d) ->
  software_breakpoint_addresses d' = <[i := 0]> (software_breakpoint_addresses d) ->
  sw_unique d'.
Proof.
  intros Hu Hused Haddr a b x [Ha1 Ha2] [Hb1 Hb2].
  unfold vget in *. rewrite Hused in Ha1, Hb1. rewrite Haddr in Ha2, Hb2.
  destruct (decide (a = i)) as [->|Hai]; [rewrite lookup_insert_eq in Ha1; discriminate|].
  destruct (decide (b = i)) as [->|Hbi]; [rewrite lookup_insert_eq in Hb1; discriminate|].
  rewrite lookup_insert_ne in Ha1 by done. rewrite lookup_insert_ne in Ha2 by done.
    rewrite lookup_insert_ne in Hb1 by done. rewrite lookup_insert_ne in Hb2 by done.
  apply (Hu a b x); [split; [exact Ha1|exact Ha2]|split; [exact Hb1|exact Hb2]].
Qed.

Lemma sw_unique_tables (d d' : Debugger) :
  sw_tables d' = sw_tables d -> sw_unique d -> sw_unique d'.
Proof.
  unfold sw_tables. intros H Hu a b x [Ha1 Ha2] [Hb1 Hb2].
  injection H as Hused Haddr _. rewrite Hused in Ha1, Hb1. rewrite Haddr in Ha2, Hb2.
  apply (Hu a b x); [split; [exact Ha1|exact Ha2]|split; [exact Hb1|exact Hb2]].
Qed.





Lemma upd_thread_it_lookup (d : Debugger) (tid : Z) (f : ThreadState -> ThreadState)
    (st : ThreadState) :
  thread_states_ d !! tid = Some st ->
  thread_states_ (upd_thread_it tid f d) !! tid = Some (f st).
Proof.
  intros H. unfold upd_thread_it. cbn [thread_states_ set_thread_states_].
  rewrite lookup_alter_eq, H. reflexivity.
Qed.

(** X20: the second half of a silent continue over a software breakpoint.
    When the single step of a thread in mode SoftwareBreakpointContinue
    completes and the breakpoint's word can be read,
    [continue_breakpoint_single_step] writes the trap back into that word,
    resumes the thread with PTRACE_CONT, and leaves the thread running in
    mode None with no disabled slot, the debugger in state Running. *)
Theorem software_breakpoint_rearmed (w : World K) (thread i : Z) (st : ThreadState) :
  thread_states_ (dbg w) !! thread = Some st ->
  single_step_mode st = SingleStepMode.SoftwareBreakpointContinue ->
  current_breakpoint_index st = -1 ->
  disabled_watchpoint_index st = 1000 + i ->
  0 <= i < MAX_SOFTWARE_BREAKPOINTS ->
  vget false (software_breakpoint_used (dbg w)) i = true ->
  let addr := vget 0 (software_breakpoint_addresses (dbg w)) i in
  let peek := ptrace_PEEKDATA (pid_ (dbg w)) addr in
  r_errno (fst (sys peek (kern w))) = 0 ->
  let r := continue_breakpoint_single_step thread w in
  map fst (emitted (continue_breakpoint_single_step thread) w)
    = [peek;
       ptrace_POKEDATA (pid_ (dbg w)) addr (patch_word arch (r_ret (fst (sys peek (kern w)))));
       ptrace_CONT thread 0] /\
  debug_state_ (dbg (snd r)) = DebugState.Running /\
  (exists st', thread_states_ (dbg (snd r)) !! thread = Some st' /\
               single_step_mode st' = SingleStepMode.None /\
               disabled_watchpoint_index st' = -1 /\
               is_stopped st' = false) /\
  sw_tables (dbg (snd r)) = sw_tables (dbg w).
Proof.
  intros Hst Hmode Hcur Hdis Hi Hused. cbv zeta. intros Hpeek.
  unfold emitted, continue_breakpoint_single_step, reinsert_software_breakpoint.
  mrun. rewrite Hst. cbv zeta. rewrite Hcur, Hmode, Hdis.
  change ((-1 <? 0) || (MAX_BREAKPOINTS <=? -1)) with true. cbv iota.
  replace (1000 <=? 1000 + i) with true by (symmetry; apply Z.leb_le; lia).
  replace (1000 + i - 1000) with i by lia.
  mrun.
  replace ((0 <=? i) && (i <? MAX_SOFTWARE_BREAKPOINTS)) with true
    by (symmetry; apply andb_true_iff; split; [apply Z.leb_le|apply Z.ltb_lt]; lia).
  rewrite Hused. cbn [andb]. mrun. rewrite Hpeek. change (0 =? 0) with true. mrun.
  destruct (failed _); mrun.
  - split; [rewrite <- !app_assoc, drop_app_length; reflexivity|].
    split; [reflexivity|]. split; [|reflexivity].
    eexists. split.
    + cbn [thread_states_ set_debug_state_].
      erewrite upd_thread_it_lookup; [reflexivity|].
      erewrite upd_thread_it_lookup; [reflexivity|].
      erewrite upd_thread_it_lookup; [reflexivity|exact Hst].
    + done.
  - split; [rewrite <- !app_assoc, drop_app_length; reflexivity|].
    split; [reflexivity|]. split; [|reflexivity].
    eexists. split.
    + cbn [thread_states_ set_debug_state_].
      erewrite upd_thread_it_lookup; [reflexivity|].
      erewrite upd_thread_it_lookup; [reflexivity|].
      erewrite upd_thread_it_lookup; [reflexivity|exact Hst].
    + done.
Qed.

End Software_breakpoint_tables.

Lemma sw_unique_empty {arch : Arch} (d : Debugger) :
  software_breakpoint_used d = ∅ -> sw_unique d.
Proof.
  intros H i j a [Hi _]. unfold vget in Hi. rewrite H, lookup_empty in Hi. discriminate.
Qed.

Lemma sw_unique_singleton {arch : Arch} (d : Debugger) (k : Z) :
  software_breakpoint_used d = {[k := true]} -> sw_unique d.
Proof.
  intros H i j a [Hi _] [Hj _]. unfold vget in Hi, Hj. rewrite H in Hi, Hj.
  destruct (decide (i = k)) as [->|Hik]; [|rewrite lookup_singleton_ne in Hi by done; done].
  destruct (decide (j = k)) as [->|Hjk]; [|rewrite lookup_singleton_ne in Hj by done; done].
  reflexivity.
Qed.




Lemma software_breakpoint_rearmed_witness :
  debug_state_ (dbg (snd (continue_breakpoint_single_step (E := SimEnv) 7 stepping_world)))
  = DebugState.Running.
Proof.
  refine (proj1 (proj2
    (software_breakpoint_rearmed (E := SimEnv) stepping_world 7 0
       (thread_state_of (dbg stepping_world) 7) _ _ _ _ _ _ _))).
  - vm_compute. reflexivity.
  - vm_compute. reflexivity.
  - vm_compute. reflexivity.
  - vm_compute. reflexivity.
  - unfold MAX_SOFTWARE_BREAKPOINTS. lia.
  - vm_compute. reflexivity.
  - vm_compute. reflexivity.
Defined.
(** ** Events, caught signals and refused resumptions *)

Section Events.
Context {arch : Arch} {K : Type} {E : Env K}.

(** X21: the events of [handle_exception] that are not signals.  A
    PTRACE_EVENT_STOP is answered with one PTRACE_CONT and changes nothing.
    A PTRACE_EVENT_CLONE whose message names a new thread adds that thread
    to the attached threads and resumes the parent.  An exit status erases
    the thread from the attached threads and from the thread states without
    any request.  All three return 0. *)
Theorem handle_exception_events (w : World K) (pid status : Z) :
  let r := handle_exception pid status w in
  let evs := emitted (handle_exception pid status) w in
  (WIFSTOPPED status = true -> Z.shiftr status 16 = PTRACE_EVENT_STOP ->
     fst r = 0 /\ map fst evs = [ptrace_CONT pid 0] /\ dbg (snd r) = dbg w) /\
  (WIFSTOPPED status = true -> Z.shiftr status 16 = PTRACE_EVENT_CLONE ->
     let m := fst (sys (ptrace_GETEVENTMSG pid) (kern w)) in
     fst r = 0 /\ map fst evs = [ptrace_GETEVENTMSG pid; ptrace_CONT pid 0] /\
     (r_ret m = 0 -> 0 < to_u64 (r_out m) ->
        (to_i32 (to_u64 (r_out m)) ∈ attached_threads_ (dbg (snd r))) /\
        is_attached (thread_state_of (dbg (snd r)) (to_i32 (to_u64 (r_out m)))) = true)) /\
  (WIFSTOPPED status = false -> WIFEXITED status = true ->
     fst r = 0 /\ evs = [] /\ (pid ∉ attached_threads_ (dbg (snd r))) /\
     thread_states_ (dbg (snd r)) !! pid = None).
Proof.
  cbv zeta. unfold emitted, handle_exception. split; [|split].
  - intros -> Hev. rewrite Hev. change (PTRACE_EVENT_STOP =? PTRACE_EVENT_CLONE) with false.
    change (PTRACE_EVENT_STOP =? PTRACE_EVENT_STOP) with true. cbv iota. mrun.
    rewrite drop_app_length. done.
  - intros -> Hev. rewrite Hev. change (PTRACE_EVENT_CLONE =? PTRACE_EVENT_CLONE) with true.
    cbv iota. mrun.
    set (m := fst (sys (ptrace_GETEVENTMSG pid) (kern w))).
    destruct ((r_ret m =? 0) && (0 <? to_u64 (r_out m))) eqn:Hm; mrun.
    + split; [reflexivity|]. split; [rewrite <- !app_assoc, drop_app_length; reflexivity|].
      intros _ _. split.
      * cbn [attached_threads_ upd_thread set_thread_states_ set_attached_threads_].
        apply elem_of_union. left. apply elem_of_singleton. reflexivity.
      * rewrite thread_state_of_upd_thread. reflexivity.
    + split; [reflexivity|]. split; [rewrite <- !app_assoc, drop_app_length; reflexivity|].
      intros H1 H2. exfalso. apply andb_false_iff in Hm.
      destruct Hm as [Hm|Hm]; [apply Z.eqb_neq in Hm|apply Z.ltb_ge in Hm]; lia.
  - intros -> ->. mrun. rewrite drop_all.
    split; [reflexivity|]. split; [reflexivity|].
    unfold erase_thread. cbn [attached_threads_ thread_states_ set_attached_threads_
                                set_thread_states_].
    split; [|apply lookup_delete_eq].
    intros H. apply elem_of_difference in H. destruct H as [_ H]. apply H.
    apply elem_of_singleton. reflexivity.
Qed.


(** X22: a caught signal.  When a signal other than SIGTRAP, SIGSTOP,
    SIGTSTP and SIGCONT is configured to be caught and the registers can be
    read, [handle_exception] notifies the client once, leaves the thread
    stopped in state Paused and remembers the signal as pending if and only
    if it is configured to be passed; a later [continue_execution_internal]
    of that thread (attached, not at a software breakpoint) then resumes it
    with a PTRACE_CONT that delivers exactly the pending signal. *)
Theorem caught_signal_is_delivered_on_continue (w : World K) (pid status : Z)
    (config : SignalConfig) :
  WIFSTOPPED status = true ->
  Z.shiftr status 16 <> PTRACE_EVENT_CLONE -> Z.shiftr status 16 <> PTRACE_EVENT_STOP ->
  WSTOPSIG status ∉ [SIGTRAP; SIGSTOP; SIGTSTP; SIGCONT] ->
  signal_config_ (dbg w) !! WSTOPSIG status = Some config ->
  catch_signal config = true ->
  r_ret (fst (sys (ptrace_GETREGS pid) (kern w))) = 0 ->
  pid ∈ attached_threads_ (dbg w) ->
  disabled_watchpoint_index (thread_state_of (dbg w) pid) < 1000 ->
  let signal := WSTOPSIG status in
  let deliver := if pass_signal config then signal else 0 in
  let w1 := snd (handle_exception pid status w) in
  let evs := emitted (handle_exception pid status) w in
  fst (handle_exception pid status w) = 0 /\
  map (fun e => upcall_type (fst e)) evs
    = [None; None; Some (exception_type_of_signal signal)] /\
  debug_state_ (dbg w1) = DebugState.Paused /\
  current_thread (dbg w1) = pid /\
  is_stopped (thread_state_of (dbg w1) pid) = true /\
  pending_of (dbg w1) pid = deliver /\
  map fst (emitted (continue_execution_internal pid) w1) = [ptrace_CONT pid deliver] /\
  pending_of (dbg (snd (continue_execution_internal pid w1))) pid = 0.
Proof.
  intros Hstop Hclone Hev Hsig Hcfg Hcatch Hregs Hatt Hdis. cbv zeta.
  assert (Hg : get_signal_config (dbg w) (WSTOPSIG status) = config)
    by (unfold get_signal_config; rewrite Hcfg; reflexivity).
  assert (H1 : (WSTOPSIG status =? SIGTRAP) = false) by (apply Z.eqb_neq; set_solver).
  assert (H2 : (WSTOPSIG status =? SIGSTOP) = false) by (apply Z.eqb_neq; set_solver).
  assert (H3 : (WSTOPSIG status =? SIGTSTP) = false) by (apply Z.eqb_neq; set_solver).
  assert (H4 : (WSTOPSIG status =? SIGCONT) = false) by (apply Z.eqb_neq; set_solver).
  apply Z.eqb_neq in Hclone, Hev.
  assert (Hrun : handle_exception pid status w = handle_signal pid (WSTOPSIG status) w).
  { unfold handle_exception. rewrite Hstop, Hclone, Hev. cbv zeta.
    rewrite H1, H2, H3, H4. reflexivity. }
  assert (Hem : emitted (handle_exception pid status) w
                = emitted (handle_signal pid (WSTOPSIG status)) w)
    by (unfold emitted; rewrite Hrun; reflexivity).
  rewrite Hem, Hrun. clear Hrun Hem.
  set (signal := WSTOPSIG status) in *.
  assert (Hw1 : exists k evs,
            handle_signal pid signal w
            = (0, {| dbg := upd_thread pid (fun t =>
                              set_pending_signal (if pass_signal config then signal else 0)
                                (set_is_stopped true
                                   (set_current_breakpoint_index (-1)
                                      (set_regs (r_regs (fst (sys (ptrace_GETREGS pid) (kern w))))
                                         t))))
                              (set_current_thread pid
                                 (set_debug_state_ DebugState.Paused (dbg w)));
                     kern := k; trace := trace w ++ evs |}) /\
            map (fun e => upcall_type (fst e)) evs
            = [None; None; Some (exception_type_of_signal signal)]).
  { unfold handle_signal, SEND_EXCEPTION_INFO. mrun. cbv zeta. rewrite Hg, Hcatch. mrun.
    rewrite Hregs. change (0 =? 0) with true. mrun.
    eexists. eexists. split.
    - rewrite <- !app_assoc. reflexivity.
    - reflexivity. }
  destruct Hw1 as (k & evs & Hw1 & Hup). rewrite Hw1. cbn [fst snd].
  split; [reflexivity|].
  split; [unfold emitted; rewrite Hw1; cbn [snd trace]; rewrite drop_app_length; exact Hup|].
  split; [reflexivity|]. split; [reflexivity|].
  split; [cbn [dbg]; rewrite thread_state_of_upd_thread; reflexivity|].
  split; [unfold pending_of; cbn [dbg]; rewrite thread_states_upd_thread; reflexivity|].
  unfold emitted, continue_execution_internal. mrun.
  rewrite thread_states_upd_thread.
  cbn [is_stopped set_pending_signal set_is_stopped negb disabled_watchpoint_index
       set_current_breakpoint_index set_regs pending_signal].
  replace (bool_decide (pid ∈ attached_threads_ _)) with true
    by (symmetry; apply bool_decide_eq_true; exact Hatt).
  cbn [negb].
  replace (1000 <=? disabled_watchpoint_index (thread_state_of _ pid)) with false
    by (symmetry; apply Z.leb_gt; exact Hdis).
  mrun.
  destruct (failed _); mrun.
  - split; [rewrite drop_app_length; reflexivity|].
    unfold pending_of.
    erewrite upd_thread_it_lookup; [|apply thread_states_upd_thread]. reflexivity.
  - split; [rewrite drop_app_length; reflexivity|].
    unfold pending_of.
    match goal with
    | |- context [if ?c then _ else _] => destruct c
    end;
    [match goal with |- context [if ?c then _ else _] => destruct c end|];
    cbn [thread_states_ set_current_thread set_debug_state_];
    (erewrite upd_thread_it_lookup;
     [|erewrite upd_thread_it_lookup; [reflexivity|apply thread_states_upd_thread]]);
    reflexivity.
Qed.


(** X23: requests that cannot be served leave no trace.
    [continue_execution_internal] refuses with -1 a thread that is known but
    not stopped, or stopped but not attached; [single_step_internal] refuses
    with -1 a thread that is unknown, not attached or not stopped.  In each
    case no request is issued and the debugger's state is unchanged. *)
Theorem refused_resumptions_leave_no_trace (w : World K) (thread_id : Z) :
  (forall st, thread_states_ (dbg w) !! thread_id = Some st ->
     is_stopped st = false \/ thread_id ∉ attached_threads_ (dbg w) ->
     continue_execution_internal thread_id w = (-1, w)) /\
  (match thread_states_ (dbg w) !! thread_id with
   | None => True
   | Some st => is_stopped st = false \/ thread_id ∉ attached_threads_ (dbg w)
   end ->
   single_step_internal thread_id w = (-1, w)).
Proof.
  split.
  - intros st Hst Href. unfold continue_execution_internal. mrun. rewrite Hst.
    destruct (is_stopped st); cbn [negb]; [|reflexivity].
    destruct Href as [Href|Href]; [discriminate|].
    replace (bool_decide (thread_id ∈ attached_threads_ (dbg w))) with false
      by (symmetry; apply bool_decide_eq_false; exact Href).
    reflexivity.
  - intros Href. unfold single_step_internal. mrun.
    destruct (thread_states_ (dbg w) !! thread_id) as [st|]; [|reflexivity].
    destruct (bool_decide (thread_id ∈ attached_threads_ (dbg w))) eqn:Hatt;
      cbn [negb]; [|reflexivity].
    apply bool_decide_eq_true in Hatt.
    destruct Href as [Href|Href]; [|done].
    rewrite Href. reflexivity.
Qed.

End Events.

Lemma caught_signal_is_delivered_on_continue_witness :
  map fst (emitted (continue_execution_internal (E := ScriptEnv) 100)
             (snd (handle_exception (E := ScriptEnv) 100 0x0a7f caught_world)))
  = [ptrace_CONT 100 10].
Proof.
  refine (proj1 (proj2 (proj2 (proj2 (proj2 (proj2 (proj2
            (caught_signal_is_delivered_on_continue (E := ScriptEnv) caught_world 100 0x0a7f
               {| catch_signal := true; pass_signal := true |} _ _ _ _ _ _ _ _ _)))))))).
  - reflexivity.
  - vm_compute. discriminate.
  - vm_compute. discriminate.
  - apply (bool_decide_unpack _). vm_compute. exact I.
  - reflexivity.
  - reflexivity.
  - reflexivity.
  - apply (bool_decide_unpack _). vm_compute. exact I.
  - vm_compute. reflexivity.
Defined.

Lemma handle_exception_events_witness :
  map fst (emitted (handle_exception (E := ScriptEnv) 100 0x80057f) c10_world)
  = [ptrace_CONT 100 0].
Proof.
  refine (proj1 (proj2 (proj1 (handle_exception_events (E := ScriptEnv) c10_world 100 0x80057f)
                          _ _))).
  - reflexivity.
  - reflexivity.
Defined.

Lemma refused_resumptions_leave_no_trace_witness :
  single_step_internal (E := ScriptEnv) 7 c10_world = (-1, c10_world).
Proof.
  refine (proj2 (refused_resumptions_leave_no_trace (E := ScriptEnv) c10_world 7) _).
  vm_compute. exact I.
Defined.
(** ** Register access and memory reads *)

Ltac name_cases name :=
  repeat match goal with
    | |- context [String.eqb name ?s] =>
        destruct (String.eqb_spec name s) as [->|?]; cbn [orb];
        [split; [intros H; discriminate H
                |intros H; exfalso; apply H; apply (bool_decide_unpack _); vm_compute; exact I]
        |]
    end.

Lemma arm64_read_reg_none (name : string) (r : Arm64.user_pt_regs) :
  arm64_read_reg name r = None <-> name ∉ accepted_regs ARM64.
Proof.
  unfold arm64_read_reg. name_cases name.
  split; [|reflexivity]. intros _ Hin. unfold accepted_regs, canonical_regs in Hin.
  rewrite app_nil_r in Hin. split_elem Hin; congruence.
Qed.

Lemma x86_read_reg_none (name : string) (r : X86.user_regs_struct) :
  x86_read_reg name r = None <-> name ∉ accepted_regs X86_64.
Proof.
  unfold x86_read_reg. name_cases name.
  split; [|reflexivity]. intros _ Hin. unfold accepted_regs, canonical_regs in Hin.
  cbn [app] in Hin. split_elem Hin; congruence.
Qed.

Lemma arm64_write_reg_none (name : string) (v : Z) (r : Arm64.user_pt_regs) :
  arm64_write_reg name v r = None <-> name ∉ accepted_regs ARM64.
Proof.
  unfold arm64_write_reg. name_cases name.
  split; [|reflexivity]. intros _ Hin. unfold accepted_regs, canonical_regs in Hin.
  rewrite app_nil_r in Hin. split_elem Hin; congruence.
Qed.

Lemma x86_write_reg_none (name : string) (v : Z) (r : X86.user_regs_struct) :
  x86_write_reg name v r = None <-> name ∉ accepted_regs X86_64.
Proof.
  unfold x86_write_reg. name_cases name.
  split; [|reflexivity]. intros _ Hin. unfold accepted_regs, canonical_regs in Hin.
  cbn [app] in Hin. split_elem Hin; congruence.
Qed.

Section Register_refusals.
Context {arch : Arch} {K : Type} {E : Env K}.

Lemma read_reg_none (name : string) (r : regs_t arch) :
  read_reg arch name r = None <-> name ∉ accepted_regs arch.
Proof. destruct arch; [apply arm64_read_reg_none | apply x86_read_reg_none]. Qed.

Lemma write_reg_none (name : string) (v : Z) (r : regs_t arch) :
  write_reg arch name v r = None <-> name ∉ accepted_regs arch.
Proof. destruct arch; [apply arm64_write_reg_none | apply x86_write_reg_none]. Qed.

End Register_refusals.

Section Register_access.
Context {arch : Arch} {K : Type} {E : Env K}.


(** X25: register access needs an attached thread and reading is passive.
    For a thread that is not attached both operations answer -1 without any
    request and without touching the debugger's state; a read through a null
    pointer does the same; and a read never issues anything but one
    PTRACE_GETREGS and never changes the debugger's state. *)
Theorem register_access_needs_attached (w : World K) (thread_id v : Z) (name : string)
    (value : option Z) :
  (thread_id ∉ attached_threads_ (dbg w) ->
     read_register_internal thread_id name value w = ((-1, value), w) /\
     write_register_internal thread_id name v w = (-1, w)) /\
  read_register_internal thread_id name None w = ((-1, None), w) /\
  Forall (fun e => fst e = ptrace_GETREGS thread_id)
         (emitted (read_register_internal thread_id name value) w) /\
  dbg (snd (read_register_internal thread_id name value w)) = dbg w.
Proof.
  split; [|split; [|split]].
  - intros Hatt. unfold read_register_internal, write_register_internal. mrun.
    replace (bool_decide (thread_id ∈ attached_threads_ (dbg w))) with false
      by (symmetry; apply bool_decide_eq_false; exact Hatt).
    cbn [negb]. rewrite orb_true_r. destruct w. done.
  - unfold read_register_internal. mrun.
    replace (bool_decide (is_Some (None : option Z))) with false
      by (symmetry; apply bool_decide_eq_false; intros [x Hx]; discriminate Hx).
    cbn [negb orb]. destruct w. reflexivity.
  - unfold emitted, read_register_internal. mrun.
    destruct (negb _ || negb _); [rewrite ret_run; cbn [snd]; rewrite drop_all; constructor|].
    mrun.
    destruct (failed _);
      [rewrite ret_run; cbn [snd trace]; rewrite drop_app_length; repeat constructor|].
    destruct (read_reg arch name _);
      rewrite ret_run; cbn [snd trace]; rewrite drop_app_length; repeat constructor.
  - unfold read_register_internal. mrun.
    destruct (negb _ || negb _); [reflexivity|]. mrun.
    destruct (failed _); [reflexivity|].
    destruct (read_reg arch name _); reflexivity.
Qed.

End Register_access.

Section Memory_reads.
Context {arch : Arch} {K : Type} {E : Env K}.

Local Abbreviation passive := (trace_grows (K := K) (fun e => writes_target (fst e) = false)).

Lemma read_loop_passive (fuel : nat) (t address size : Z) (s : ReadLoop) :
  moves passive (read_loop fuel t address size s).
Proof.
  revert s. induction fuel as [|fuel IH]; intros s; cbn [read_loop]; cbv zeta; moves_auto.
Qed.

(** X26: reading memory is passive.  [read_memory_internal] never issues a
    request that writes to the target's memory or registers, whatever the
    kernel answers, and it changes nothing in the debugger's state but the
    per-thread bookkeeping of the threads it had to stop and resume. *)
Theorem read_memory_is_passive (w : World K) (address size : Z) (buf : list Z) :
  Forall (fun e => writes_target (fst e) = false)
         (emitted (read_memory_internal address size buf) w) /\
  threads_erased (dbg (snd (read_memory_internal address size buf w))) = threads_erased (dbg w).
Proof.
  assert (Hc : forall c, writes_target c = false -> moves passive (call c))
    by (intros c Hc; apply moves_call_grows; intros r; exact Hc).
  assert (Hm : forall f : Debugger -> Debugger,
                 (forall d, threads_erased (f d) = threads_erased d) ->
                 moves passive (modify_dbg f))
    by (intros f _; apply moves_modify_grows).
  assert (Hc' : forall c, writes_target c = false ->
                  moves (same_view (K := K) threads_erased) (call c))
    by (intros c _; apply moves_call_view).
  assert (Hm' : forall f : Debugger -> Debugger,
                 (forall d, threads_erased (f d) = threads_erased d) ->
                 moves (same_view (K := K) threads_erased) (modify_dbg f))
    by (intros f Hf; apply moves_modify_view; exact Hf).
  split.
  - apply (emitted_grows (fun e => writes_target (fst e) = false)).
    unfold read_memory_internal. moves_auto.
    + apply (moves_find_stopped_thread _ Hc).
    + apply (moves_stop_all_threads _ Hc Hm).
    + apply read_loop_passive.
    + apply (moves_resume_threads _ Hc Hm).
  - assert (Hl : forall fuel t s, moves (same_view (K := K) threads_erased)
                                    (read_loop fuel t address size s)).
    { induction fuel as [|fuel IH]; intros t s; cbn [read_loop]; cbv zeta; moves_auto. }
    assert (H : moves (same_view (K := K) threads_erased)
                  (read_memory_internal address size buf)).
    { unfold read_memory_internal. moves_auto.
      + apply (moves_find_stopped_thread _ Hc').
      + apply (moves_stop_all_threads _ Hc' Hm').
      + apply (moves_resume_threads _ Hc' Hm'). }
    exact (H w).
Qed.

End Memory_reads.


Section Readable_memory.
Context {arch : Arch} {K : Type} {E : Env K}.
Variable mem : Z -> option Z.
Variable I : K -> Prop.
Hypothesis Hstable : stable_memory mem I.
Variables (read_thread address size : Z) (buf0 : list Z).
Hypothesis Hsize : 0 <= size <= Z.of_nat (length buf0).
Hypothesis Hreadable : forall p, 0 <= p < size -> mem (aligned_addr_of (address + p)) <> None.

Lemma read_loop_readable (fuel : nat) (s : ReadLoop) (w : World K) :
  I (kern w) -> size - bytes_read s <= Z.of_nat fuel ->
  0 <= bytes_read s <= size -> consecutive_failures s < 3 ->
  length (buffer s) = length buf0 ->
  let r := fst (read_loop fuel read_thread address size s w) in
  bytes_read r = size /\ length (buffer r) = length buf0 /\
  (forall p, 0 <= p < bytes_read s -> buffer r !! Z.to_nat p = buffer s !! Z.to_nat p) /\
  (forall p, bytes_read s <= p < size ->
     exists word, mem (aligned_addr_of (address + p)) = Some word /\
                  buffer r !! Z.to_nat p = Some (byte_of_word word (offset_of (address + p)))).
Proof.
  revert s w. induction fuel as [|fuel IH]; intros s w HI Hfuel Hbr Hcf Hlen.
  - assert (bytes_read s = size) by lia.
    simpl. replace (bytes_read s <? size) with false by (symmetry; apply Z.ltb_ge; lia).
    simpl. split; [done|]. split; [done|]. split; [done|]. intros p Hp. lia.
  - cbn [read_loop].
    destruct (Z.ltb_spec (bytes_read s) size) as [Hlt|Hge]; cbn [andb].
    2:{ rewrite ret_run. cbn [fst]. split; [lia|]. split; [done|]. split; [done|].
        intros p Hp. lia. }
    replace (consecutive_failures s <? max_consecutive_failures) with true
      by (symmetry; apply Z.ltb_lt; unfold max_consecutive_failures; lia).
    cbv zeta. rewrite bind_run, call_run. cbn [fst snd].
    destruct (Hstable (ptrace_PEEKDATA read_thread (aligned_addr_of (address + bytes_read s)))
                (kern w) HI) as [HI' Hpeek].
    specialize (HI' eq_refl).
    pose proof (offset_of_range (address + bytes_read s)) as Hoff.
    destruct (mem (aligned_addr_of (address + bytes_read s))) as [word|] eqn:Hmem;
      [|exfalso; apply (Hreadable (bytes_read s)); [lia|exact Hmem]].
    destruct Hpeek as [He Hw]. rewrite He, Hw. cbn [Z.eqb negb].
    set (off := offset_of (address + bytes_read s)) in *.
    set (n := Z.min (size - bytes_read s) (word_size - off)).
    assert (Hn : 0 < n <= 8 - off /\ n <= size - bytes_read s)
      by (unfold n, word_size; lia).
    match goal with
    | |- context [read_loop fuel _ _ _ ?s' ?w'] =>
        destruct (IH s' w') as (H1 & H2 & H3 & H4)
    end; cbn [kern bytes_read consecutive_failures buffer] in *.
    + exact HI'.
    + lia.
    + lia.
    + lia.
    + rewrite length_inserts. exact Hlen.
    + split; [exact H1|]. split; [exact H2|]. split.
      * intros p Hp. rewrite H3 by lia. apply list_lookup_inserts_lt. lia.
      * intros p Hp. destruct (Z.lt_ge_cases p (bytes_read s + n)) as [Hin|Hout].
        -- exists word.
           destruct (same_word (address + bytes_read s) (p - bytes_read s)) as [Ha Ho];
             [fold off; lia|].
           replace (address + bytes_read s + (p - bytes_read s)) with (address + p)
             in Ha, Ho by lia.
           rewrite Ha, Ho. split; [exact Hmem|].
           rewrite H3 by lia.
           rewrite list_lookup_inserts.
           2:{ rewrite Nat2Z.inj_le, Nat2Z.inj_lt, Nat2Z.inj_add.
               rewrite word_bytes_length by lia. lia. }
           2:{ lia. }
           replace (Z.to_nat p - Z.to_nat (bytes_read s))%nat
             with (Z.to_nat (p - bytes_read s)) by lia.
           apply word_bytes_lookup. lia.
        -- apply H4. lia.
Qed.

End Readable_memory.

Section Readable_memory_call.
Context {arch : Arch} {K : Type} {E : Env K}.

(** X27: over a region whose words are all readable, with a stopped thread
    at hand, [read_memory_internal] returns [size] and fills the buffer with
    the target's bytes, taken little-endian from the words, whatever the
    alignment of the address. *)
Theorem read_memory_of_readable_region (mem : Z -> option Z) (I : K -> Prop)
    (w : World K) (address size : Z) (buf0 : list Z) :
  stable_memory mem I -> I (kern w) -> 0 < size <= Z.of_nat (length buf0) ->
  (forall p, 0 <= p < size -> mem (aligned_addr_of (address + p)) <> None) ->
  fst (find_stopped_thread w) <> 0 ->
  let r := fst (read_memory_internal address size buf0 w) in
  fst r = size /\ length (snd r) = length buf0 /\
  forall p, 0 <= p < size ->
    exists word, mem (aligned_addr_of (address + p)) = Some word /\
                 snd r !! Z.to_nat p = Some (byte_of_word word (offset_of (address + p))).
Proof.
  intros Hs HI Hsize Hread Hthread. cbv zeta.
  pose proof (keeps_kernel_call mem I Hs) as Hcall.
  unfold read_memory_internal. rewrite bind_run.
  pose proof (moves_find_stopped_thread _ Hcall w HI) as HI1.
  set (t := fst (find_stopped_thread w)) in *.
  set (w1 := snd (find_stopped_thread w)) in *.
  replace (t =? 0) with false by (symmetry; apply Z.eqb_neq; exact Hthread).
  mrun. replace (t =? 0) with false by (symmetry; apply Z.eqb_neq; exact Hthread).
  mrun.
  destruct (read_loop_readable mem I Hs t address size buf0 ltac:(lia) Hread
              (Z.to_nat size) {| bytes_read := 0; consecutive_failures := 0; buffer := buf0 |}
              w1 HI1) as (H1 & H2 & _ & H4); cbn [bytes_read consecutive_failures buffer];
    try lia; try reflexivity.
  rewrite H1. replace (0 <? size) with true by (symmetry; apply Z.ltb_lt; lia).
  split; [reflexivity|]. split; [exact H2|]. intros p Hp. apply H4. cbn. lia.
Qed.

End Readable_memory_call.

Lemma read_memory_of_readable_region_witness :
  fst (fst (read_memory_internal (E := SimEnv) 0x1003 4 (replicate 4 0) c6_world)) = 4.
Proof.
  refine (proj1 (read_memory_of_readable_region (E := SimEnv)
                   (fun a => to_u64 <$> sim_peek c6_mem a) (fun k => sim_mem k = c6_mem)
                   c6_world 0x1003 4 (replicate 4 0) _ _ _ _ _)).
  - apply sim_memory_stable.
  - reflexivity.
  - simpl. lia.
  - intros p Hp.
    assert (Hcase : p = 0 \/ p = 1 \/ p = 2 \/ p = 3) by lia.
    destruct Hcase as [->|[->|[->| ->]]]; vm_compute; discriminate.
  - vm_compute. discriminate.
Defined.

Lemma register_access_needs_attached_witness :
  write_register_internal (arch := X86_64) (E := ScriptEnv) 7 "rax" 1 c10_world
  = (-1, c10_world).
Proof.
  refine (proj2 (proj1 (register_access_needs_attached (arch := X86_64) (E := ScriptEnv)
                          c10_world 7 1 "rax" None) _)).
  apply (bool_decide_unpack _). vm_compute. exact I.
Defined.
(** ** The command queue *)

Section Queue_frame.
Context {arch : Arch} {K : Type} {E : Env K}.

Local Abbreviation qframe := (same_view (K := K) debug_command_queue_).

Lemma queue_threads (d : Debugger) :
  debug_command_queue_ (threads_erased d) = debug_command_queue_ d.
Proof. reflexivity. Qed.

Ltac qstep :=
  first
    [ moves_step
    | apply moves_call_view
    | apply moves_modify_view; intros;
        repeat match goal with |- context [if ?c then _ else _] => destruct c end;
        reflexivity
    | apply (moves_stop_all_threads (same_view debug_command_queue_));
        [intros; apply moves_call_view | intros; apply (view_modify_threads _ queue_threads); assumption]
    | apply (moves_resume_threads (same_view debug_command_queue_));
        [intros; apply moves_call_view | intros; apply (view_modify_threads _ queue_threads); assumption]
    | apply (moves_find_stopped_thread (same_view debug_command_queue_));
        intros; apply moves_call_view
    | match goal with
      | IH : context [moves ?T _] |- moves ?T _ => apply IH
      end ].

Ltac by_list l := induction l; simpl; repeat qstep.

Lemma q_apply_watchpoint_to_threads l i a s t :
  moves qframe (apply_watchpoint_to_threads l i a s t).
Proof. induction l; simpl; [repeat qstep|]. destruct arch; repeat qstep. Qed.

Lemma q_clear_watchpoint_from_threads l i :
  moves qframe (clear_watchpoint_from_threads l i).
Proof. induction l; simpl; [repeat qstep|]. destruct arch; repeat qstep. Qed.

Lemma q_apply_breakpoint_to_threads l i a :
  moves qframe (apply_breakpoint_to_threads l i a).
Proof. induction l; simpl; [repeat qstep|]. destruct arch; repeat qstep. Qed.

Lemma q_clear_breakpoint_from_threads l i :
  moves qframe (clear_breakpoint_from_threads l i).
Proof. induction l; simpl; [repeat qstep|]. destruct arch; repeat qstep. Qed.

Lemma q_set_watchpoint_internal a s t : moves qframe (set_watchpoint_internal a s t).
Proof.
  unfold set_watchpoint_internal. repeat first [apply q_apply_watchpoint_to_threads | qstep].
Qed.

Lemma q_remove_watchpoint_internal a : moves qframe (remove_watchpoint_internal a).
Proof.
  unfold remove_watchpoint_internal. repeat first [apply q_clear_watchpoint_from_threads | qstep].
Qed.

Lemma q_set_breakpoint_internal a h t : moves qframe (set_breakpoint_internal a h t).
Proof.
  unfold set_breakpoint_internal, set_hardware_breakpoint_internal,
    set_software_breakpoint_internal, read4, write4.
  repeat first [apply q_apply_breakpoint_to_threads | qstep].
Qed.

Lemma q_remove_breakpoint_internal a : moves qframe (remove_breakpoint_internal a).
Proof.
  unfold remove_breakpoint_internal, remove_software_breakpoint_internal, read4, write4.
  repeat first [apply q_clear_breakpoint_from_threads | qstep].
Qed.

Lemma q_handle_software_breakpoint_continue t i : moves qframe (handle_software_breakpoint_continue t i).
Proof.
  unfold handle_software_breakpoint_continue, read4, write4. repeat qstep.
Qed.

Lemma q_disable_breakpoint_on_thread t i : moves qframe (disable_breakpoint_on_thread t i).
Proof. unfold disable_breakpoint_on_thread. destruct arch; repeat qstep. Qed.

Lemma q_continue_execution_internal t : moves qframe (continue_execution_internal t).
Proof.
  unfold continue_execution_internal, restore_original_at, read4, write4.
  repeat first [apply q_handle_software_breakpoint_continue | qstep].
Qed.

Lemma q_single_step_internal t : moves qframe (single_step_internal t).
Proof.
  unfold single_step_internal, restore_original_at, read4, write4.
  repeat first [apply q_handle_software_breakpoint_continue
               | apply q_disable_breakpoint_on_thread | qstep].
Qed.

Lemma q_reapply_slots slots l b : moves qframe (reapply_slots slots l b).
Proof.
  revert b. induction slots; intros b; simpl;
    repeat first [apply q_apply_watchpoint_to_threads | qstep].
Qed.

Lemma q_reapply_all_watchpoints_internal t : moves qframe (reapply_all_watchpoints_internal t).
Proof.
  unfold reapply_all_watchpoints_internal. repeat first [apply q_reapply_slots | qstep].
Qed.

Lemma q_read_register_internal t n v : moves qframe (read_register_internal t n v).
Proof. unfold read_register_internal. repeat qstep. Qed.

Lemma q_write_register_internal t n v : moves qframe (write_register_internal t n v).
Proof. unfold write_register_internal. repeat qstep. Qed.

Lemma q_read_loop fuel t a sz s : moves qframe (read_loop fuel t a sz s).
Proof. revert s. induction fuel; intros s; cbn [read_loop]; cbv zeta; repeat qstep. Qed.

Lemma q_read_memory_internal a sz b : moves qframe (read_memory_internal a sz b).
Proof.
  unfold read_memory_internal.
  repeat first [apply q_read_loop | qstep].
Qed.

Lemma q_resume_user_stopped l n : moves qframe (resume_user_stopped l n).
Proof. revert n. induction l; intros n; simpl; repeat qstep. Qed.

Lemma q_resume_all_user_stopped_threads_internal :
  moves qframe resume_all_user_stopped_threads_internal.
Proof.
  unfold resume_all_user_stopped_threads_internal. repeat first [apply q_resume_user_stopped | qstep].
Qed.

Lemma q_spawn_process_internal r : moves qframe (spawn_process_internal r).
Proof.
  unfold spawn_process_internal, spawn_parent, spawn_child, close_master. repeat qstep.
Qed.

Lemma q_spawn_process_with_pty_internal r : moves qframe (spawn_process_with_pty_internal r).
Proof.
  unfold spawn_process_with_pty_internal, spawn_parent, spawn_child, close_master. repeat qstep.
Qed.

Lemma q_process_request r : moves qframe (process_request r).
Proof.
  unfold process_request.
  destruct (command r);
    repeat first
      [ apply q_set_watchpoint_internal | apply q_remove_watchpoint_internal
      | apply q_set_breakpoint_internal | apply q_remove_breakpoint_internal
      | apply q_continue_execution_internal | apply q_single_step_internal
      | apply q_reapply_all_watchpoints_internal | apply q_read_register_internal
      | apply q_write_register_internal | apply q_read_memory_internal
      | apply q_spawn_process_internal | apply q_spawn_process_with_pty_internal
      | apply q_resume_all_user_stopped_threads_internal | qstep ].
Qed.

Lemma answers_complete (r c : DebugRequest) (res : Z) :
  command c = command r -> address c = address r -> thread_id c = thread_id r ->
  answers r (complete c res).
Proof. intros H1 H2 H3. repeat split; assumption. Qed.

Local Abbreviation spawned r :=
  (fun x : Z * DebugRequest + ChildOutcome =>
     match x with
     | inl p => command (snd p) = command r /\ address (snd p) = address r /\
                thread_id (snd p) = thread_id r
     | inr _ => True
     end).

Lemma returns_spawn_process_internal r : returns (spawned r) (spawn_process_internal r).
Proof.
  unfold spawn_process_internal. repeat returns_step; simpl; try exact I;
    repeat match goal with |- context [if ?c then _ else _] => destruct c end; auto.
Qed.

Lemma returns_spawn_process_with_pty_internal r :
  returns (spawned r) (spawn_process_with_pty_internal r).
Proof.
  unfold spawn_process_with_pty_internal. repeat returns_step; simpl; try exact I;
    repeat match goal with |- context [if ?c then _ else _] => destruct c end; auto.
Qed.

Lemma returns_process_request r :
  returns (fun x => match x with
                    | inl c => answers r c
                    | inr _ => is_spawn (command r)
                    end)
          (process_request r).
Proof.
  unfold process_request. destruct (command r) eqn:Hc.
  all: try (repeat returns_step; apply answers_complete; reflexivity).
  - eapply returns_bind_with; [apply returns_spawn_process_internal|].
    intros [[res r']|c] H; apply returns_ret; [|left; reflexivity].
    destruct H as (H1 & H2 & H3). apply answers_complete; assumption.
  - eapply returns_bind_with; [apply returns_spawn_process_with_pty_internal|].
    intros [[res r']|c] H; apply returns_ret; [|right; reflexivity].
    destruct H as (H1 & H2 & H3). apply answers_complete; assumption.
Qed.

Lemma process_queue_spec (fuel : nat) (done : list DebugRequest) (w : World K) :
  (length (debug_command_queue_ (dbg w)) <= fuel)%nat ->
  let r := process_queue fuel done w in
  let q := debug_command_queue_ (dbg w) in
  exists served,
    fst (fst r) = done ++ served /\
    Forall2 answers (take (length served) q) served /\
    match snd (fst r) with
    | None => length served = length q /\ debug_command_queue_ (dbg (snd r)) = []
    | Some _ =>
        (exists request, q !! length served = Some request /\ is_spawn (command request)) /\
        debug_command_queue_ (dbg (snd r)) = drop (S (length served)) q
    end.
Proof.
  revert done w. induction fuel as [|fuel IH]; intros done w Hlen; cbv zeta.
  - destruct (debug_command_queue_ (dbg w)) as [|request rest] eqn:Hq;
      [|simpl in Hlen; lia].
    exists []. cbn [process_queue]. rewrite bind_run, get_dbg_run. cbn [fst snd].
    rewrite Hq, ret_run. cbn [fst snd length take].
    rewrite app_nil_r. split; [reflexivity|]. split; [apply Forall2_nil; exact I|]. split; [reflexivity | exact Hq].
  - destruct (debug_command_queue_ (dbg w)) as [|request rest] eqn:Hq.
    + exists []. cbn [process_queue]. rewrite bind_run, get_dbg_run. cbn [fst snd].
      rewrite Hq, ret_run. cbn [fst snd length take].
      rewrite app_nil_r. split; [reflexivity|]. split; [apply Forall2_nil; exact I|]. split; [reflexivity | exact Hq].
    + cbn [process_queue]. rewrite bind_run, get_dbg_run. cbn [fst snd]. rewrite Hq.
      rewrite bind_run, modify_dbg_run. cbn [fst snd]. rewrite bind_run.
      set (w1 := {| dbg := set_debug_command_queue_ rest (dbg w); kern := kern w;
                    trace := trace w |}).
      pose proof (returns_process_request request w1) as Hret.
      pose proof (q_process_request request w1) as Hq1.
      unfold same_view in Hq1.
      change (debug_command_queue_ (dbg w1)) with rest in Hq1.
      destruct (fst (process_request request w1)) as [c|child].
      * destruct (IH (done ++ [c]) (snd (process_request request w1))) as (served & H1 & H2 & H3).
        { rewrite Hq1. simpl in Hlen. lia. }
        exists (c :: served). rewrite H1, <- app_assoc. split; [reflexivity|].
        rewrite Hq1 in H2, H3. cbn [length take].
        split; [apply Forall2_cons; split; assumption|].
        destruct (snd (fst (process_queue fuel (done ++ [c]) (snd (process_request request w1))))).
        -- exact H3.
        -- destruct H3 as [H3 H4]. split; [simpl; lia | exact H4].
      * exists []. rewrite ret_run. cbn [fst snd length take]. rewrite app_nil_r.
        split; [reflexivity|]. split; [apply Forall2_nil; exact I|]. split.
        -- exists request. split; [reflexivity | exact Hret].
        -- rewrite Hq1. reflexivity.
Qed.

End Queue_frame.
(** ** Attaching to the threads of the target *)

Section Attach.
Context {arch : Arch} {K : Type} {E : Env K}.

Local Abbreviation seize_one :=
  (fun tid : Z =>
     r <- call (ptrace_SEIZE tid PTRACE_O_TRACECLONE) ;;
     if failed r then ret tt
     else modify_dbg (fun d =>
            upd_thread tid (set_is_attached true)
              (set_attached_threads_ ({[tid]} ∪ attached_threads_ d) d))).

Lemma seized_cons (c : Syscall) (r : Reply) (evs : list Event) :
  seized ((c, r) :: evs)
  = match c with
    | ptrace_SEIZE tid _ => if failed r then seized evs else tid :: seized evs
    | _ => seized evs
    end.
Proof.
  unfold seized. simpl. destruct c; try reflexivity. destruct (failed r); reflexivity.
Qed.

Lemma seize_loop_spec (l : list Z) (w : World K) :
  let w' := snd (for_each l seize_one w) in
  exists evs,
    trace w' = trace w ++ evs /\
    map fst evs = map (fun tid => ptrace_SEIZE tid PTRACE_O_TRACECLONE) l /\
    attached_threads_ (dbg w') = attached_threads_ (dbg w) ∪ list_to_set (seized evs) /\
    pid_ (dbg w') = pid_ (dbg w).
Proof.
  revert w. induction l as [|tid l IH]; intros w; cbv zeta.
  - exists []. simpl. rewrite app_nil_r. repeat split.
    rewrite (right_id_L ∅ (∪)). reflexivity.
  - set (w1 := snd (seize_one tid w)).
    change (for_each (tid :: l) seize_one w) with (for_each l seize_one w1).
    destruct (IH w1) as (evs & Ht & Hm & Ha & Hp). cbv zeta in Ht, Hm, Ha, Hp.
    set (r := fst (sys (ptrace_SEIZE tid PTRACE_O_TRACECLONE) (kern w))).
    assert (H1 : trace w1 = trace w ++ [(ptrace_SEIZE tid PTRACE_O_TRACECLONE, r)] /\
                 attached_threads_ (dbg w1)
                 = (if failed r then attached_threads_ (dbg w)
                    else {[tid]} ∪ attached_threads_ (dbg w)) /\
                 pid_ (dbg w1) = pid_ (dbg w)).
    { unfold w1. mrun. fold r. destruct (failed r); mrun; repeat split. }
    destruct H1 as (H1 & H2 & H3).
    exists ((ptrace_SEIZE tid PTRACE_O_TRACECLONE, r) :: evs).
    rewrite Ht, H1, <- app_assoc. split; [reflexivity|].
    split; [simpl; rewrite Hm; reflexivity|].
    split; [|congruence].
    rewrite Ha, H2, seized_cons.
    destruct (failed r); cbv iota; [reflexivity|]. rewrite list_to_set_cons.
    rewrite (comm_L (∪) {[tid]} (attached_threads_ (dbg w))), <- (assoc_L (∪)). reflexivity.
Qed.

(** X29: [attach_to_threads] reads the thread list once and sends one
    PTRACE_SEIZE (with PTRACE_O_TRACECLONE) to each listed thread, in the
    order of the list.  The threads whose seize did not fail are added to
    the attached set, no thread is removed from it, and the answer is 0
    exactly when the attached set is not empty afterwards. *)
Theorem attach_to_threads_spec (w : World K) :
  let w' := snd (attach_to_threads w) in
  let evs := emitted attach_to_threads w in
  let listed := r_tids (fst (sys (proc_task_list (pid_ (dbg w))) (kern w))) in
  map fst evs = proc_task_list (pid_ (dbg w))
                  :: map (fun tid => ptrace_SEIZE tid PTRACE_O_TRACECLONE) listed /\
  attached_threads_ (dbg w') = attached_threads_ (dbg w) ∪ list_to_set (seized evs) /\
  list_to_set (seized evs) ⊆ (list_to_set listed : gset Z) /\
  (fst (attach_to_threads w) = 0 <-> attached_threads_ (dbg w') <> ∅) /\
  (fst (attach_to_threads w) = 0 \/ fst (attach_to_threads w) = -1).
Proof.
  cbv zeta. unfold attach_to_threads, get_thread_list, emitted. mrun.
  set (r := fst (sys (proc_task_list (pid_ (dbg w))) (kern w))).
  match goal with
  | |- context [for_each _ _ ?ww] => set (w1 := ww); destruct (seize_loop_spec (r_tids r) w1)
        as (evs & Ht & Hm & Ha & Hp)
  end.
  cbv zeta in Ht, Hm, Ha, Hp. rewrite Ht, Ha.
  assert (Hev : drop (length (trace w)) (trace w1 ++ evs)
                = (proc_task_list (pid_ (dbg w)), r) :: evs).
  { unfold w1. cbn [trace]. rewrite <- app_assoc, drop_app_length. reflexivity. }
  rewrite Hev, seized_cons. cbn [dbg w1].
  split; [simpl; rewrite Hm; reflexivity|]. split; [reflexivity|].
  split.
  - intros tid Hin. apply elem_of_list_to_set in Hin. apply elem_of_list_to_set.
    unfold seized in Hin. apply list_elem_of_omap in Hin. destruct Hin as ([c rr] & Hin & Hsome).
    assert (Hc : c ∈ map fst evs)
      by (apply (list_elem_of_fmap_2 fst) in Hin; exact Hin).
    rewrite Hm in Hc. apply list_elem_of_fmap in Hc. destruct Hc as (t & -> & Ht').
    cbn in Hsome. destruct (failed rr); [discriminate|]. injection Hsome as <-. exact Ht'.
  - split.
    + case_bool_decide as Hd; split; intros H; try done; try lia.
    + case_bool_decide; [right | left]; reflexivity.
Qed.

End Attach.
